(** * PyCod xbin codec: a shallow embedding of [PyCod/xbin.py]

    The development follows the source file top to bottom: the helpers
    ([padded], [__clamp_float_to_short__]), the [struct] layouts used by
    the block writers, the block readers of [XBlock] over a [BytesIO]
    cursor, the container envelope of [XBinIO], the stateful decode loop
    [__xbin_loadfile_internal__] and the model encoder
    [__xbin_writefile_model_internal__].

    Python integers are unbounded and are modelled by [Z]; Python floats
    are IEEE binary64 values and are modelled by [spec_float] with the
    operations of [SpecFloat] at precision 53; byte strings are
    [list byte]; a [str] is represented by the bytes of its UTF-8
    encoding. *)

From Stdlib Require Import ZArith Lia List Bool Strings.Byte Strings.String.
From Stdlib Require Import QArith Qabs Qround Qpower Lqa.
From Stdlib Require Import SpecFloat.
From stdpp Require Import base list.

Local Open Scope string_scope.
Local Open Scope list_scope.
Local Open Scope Z_scope.

(** ** Outcomes of a Python computation *)

(** The exceptions the codec can raise.  [struct_error] is [struct.error];
    the two [ValueError]s of the source carry the data of their message. *)
Inductive exn : Type :=
  | struct_error
  | IndexError
  | AttributeError
  | OverflowError
  | ValueError
  | UnicodeDecodeError
  | TypeError_asset (found expected : string)
  | ValueError_bad_magic (found : list byte)
  | ValueError_unknown_block (block_hash offset : Z)
  | NotImplementedError_block (name : string) (offset : Z).

(** A computation returns, raises, or does not terminate ([Diverge]: the
    read loop of [LoadString] never ends when the terminator is missing). *)
Inductive outcome (A : Type) : Type :=
  | Ok (a : A)
  | Raise (e : exn)
  | Diverge.
Arguments Ok {A} a.
Arguments Raise {A} e.
Arguments Diverge {A}.

Definition bind {A B} (m : outcome A) (k : A -> outcome B) : outcome B :=
  match m with
  | Ok a => k a
  | Raise e => Raise e
  | Diverge => Diverge
  end.

Notation "'let*' x ':=' m 'in' k" := (bind m (fun x => k))
  (at level 10, x pattern, m at level 100, k at level 200).

Fixpoint mapM {A B} (f : A -> outcome B) (l : list A) : outcome (list B) :=
  match l with
  | [] => Ok []
  | x :: l' => let* y := f x in let* ys := mapM f l' in Ok (y :: ys)
  end.

(** ** Module-level helpers *)

(** [padded(size)]: [(size + 0x3) & 0xFFFFFFFFFFFFFC]. *)
Definition padded (size : Z) : Z := Z.land (size + 0x3) 0xFFFFFFFFFFFFFC.

(** The rule of the format: round up to the next multiple of four,
    [(n + 3) & ~3]. *)
Definition spec_padded (n : Z) : Z := Z.land (n + 3) (Z.lnot 3).

(** ** Python floats *)

(** A Python [float] is an IEEE binary64 value. *)
Definition float : Type := spec_float.

Definition float_mul (x y : float) : float := SFmul 53 1024 x y.
Definition float_div (x y : float) : float := SFdiv 53 1024 x y.

(** Conversion of a (small) Python [int] to [float], as done implicitly by
    [float * int] and written [32767.0] or [255.0] in the source. *)
Definition float_of_int (z : Z) : float := binary_normalize 53 1024 z 0 false.

(** [int(x)]: truncation toward zero; [int(nan)] raises [ValueError] and
    [int(inf)] raises [OverflowError]. *)
Definition int_of_float (x : float) : outcome Z :=
  match x with
  | S754_zero _ => Ok 0
  | S754_infinity _ => Raise OverflowError
  | S754_nan => Raise ValueError
  | S754_finite s m e =>
      let a := Z.shiftl (Z.pos m) e in
      Ok (if s then - a else a)
  end.

(** The exact rational value of a float (0 for the non-finite ones). *)
Definition Q_of_float (x : float) : Q :=
  match x with
  | S754_finite s m e =>
      let a := (inject_Z (Z.pos m) * Qpower 2 e)%Q in
      if s then (- a)%Q else a
  | _ => 0%Q
  end.

Definition is_finite (x : float) : bool :=
  match x with
  | S754_zero _ | S754_finite _ _ _ => true
  | _ => false
  end.

(** The float 0.25. *)
Definition float_quarter : float := S754_finite false (2 ^ 52) (-54).

(** [__clamp_float_to_short__(value, clamp=(-32768, 32767))]:
    [max(min(int(value * clamp[1]), clamp[1]), clamp[0])]. *)
Definition __clamp_float_to_short__ (value : float) : outcome Z :=
  let clamp := (-32768, 32767) in
  let* i := int_of_float (float_mul value (float_of_int (snd clamp))) in
  Ok (Z.max (Z.min i (snd clamp)) (fst clamp)).

(** The encoding as the format description words it:
    [clamp(round(v * 32767), -32768, 32767)], [round] being the nearest
    integer of the product (ties to even, as Python's [round]). *)
Definition round_half_even (q : Q) : Z :=
  let f := Qfloor q in
  let r := (q - inject_Z f)%Q in
  match (r ?= 1 # 2)%Q with
  | Lt => f
  | Gt => f + 1
  | Eq => if Z.even f then f else f + 1
  end.

Definition spec_clamp_round (v : float) : Z :=
  let p := float_mul v (float_of_int 32767) in
  Z.max (Z.min (round_half_even (Q_of_float p)) 32767) (-32768).

(** Truncation of a rational toward zero. *)
Definition Qtruncate (q : Q) : Z :=
  if Qle_bool 0 q then Qfloor q else Qceiling q.

(** ** Bytes and the [struct] module *)

Definition Z_of_byte (b : byte) : Z := Z.of_N (Byte.to_N b).
Definition byte_of_Z (z : Z) : byte :=
  default x00 (Byte.of_N (Z.to_N (z mod 256))).

(** [a == b] on byte strings. *)
Fixpoint bytes_eqb (a b : list byte) : bool :=
  match a, b with
  | [], [] => true
  | x :: a', y :: b' => Byte.eqb x y && bytes_eqb a' b'
  | _, _ => false
  end.

(** Little-endian layout of the low [n] bytes of [z] (two's complement for
    a negative [z]) and the unsigned value of a little-endian byte string. *)
Fixpoint le_bytes (n : nat) (z : Z) : list byte :=
  match n with
  | O => []
  | S n' => byte_of_Z z :: le_bytes n' (z / 256)
  end.

Fixpoint le_value (bs : list byte) : Z :=
  match bs with
  | [] => 0
  | b :: bs' => Z_of_byte b + 256 * le_value bs'
  end.

(** The tag of a block: its first two bytes, little-endian. *)
Definition chunk_tag (c : list byte) : Z := le_value (take 2 c).

(** The IEEE binary32 image of a double, as the C cast [(float)x] computes
    it, its 32-bit pattern, and the way back to a double. *)
Definition float32_round (x : float) : spec_float :=
  match x with
  | S754_finite s m e => binary_round 24 128 s m e
  | _ => x
  end.

Definition float32_bits (y : spec_float) : Z :=
  let sign (s : bool) := if s then 0x80000000 else 0 in
  match y with
  | S754_zero s => sign s
  | S754_infinity s => sign s + 0x7F800000
  | S754_nan => 0x7FC00000
  | S754_finite s m e =>
      if Z.pos (digits2_pos m) =? 24
      then sign s + (e + 150) * 0x800000 + (Z.pos m - 0x800000)
      else sign s + Z.pos m
  end.

Definition float32_of_bits (bits : Z) : float :=
  let s := 0x80000000 <=? bits in
  let ex := (bits / 0x800000) mod 256 in
  let man := bits mod 0x800000 in
  if ex =? 255 then (if man =? 0 then S754_infinity s else S754_nan)
  else if ex =? 0 then
    (if man =? 0 then S754_zero s
     else binary_round 53 1024 s (Z.to_pos man) (-149))
  else binary_round 53 1024 s (Z.to_pos (man + 0x800000)) (ex - 150).

(** Format characters of [struct]; [fs n] is ['%ds' % n]. *)
Inductive fmt_char : Type :=
  | fx | fB | fH | fh | fI | fi | ff | fs (n : Z).

(** Values packed and unpacked; [VTuple] is a tuple, such as the one
    [struct.unpack] returns. *)
#[warnings="-register-all"]
Inductive val : Type :=
  | VInt (z : Z)
  | VFloat (x : float)
  | VBytes (b : list byte)
  | VTuple (t : list val).

Definition fmt_size (c : fmt_char) : Z :=
  match c with
  | fx | fB => 1
  | fH | fh => 2
  | fI | fi | ff => 4
  | fs n => n
  end.

(** Native alignment: a number is aligned to its size; pad bytes and
    strings are not aligned. *)
Definition fmt_pad (native : bool) (off : Z) (c : fmt_char) : Z :=
  match c with
  | fx | fB | fs _ => 0
  | _ => if native then (- off) mod fmt_size c else 0
  end.

Definition pack_int (signed : bool) (n : nat) (z : Z) : outcome (list byte) :=
  let bits := 8 * Z.of_nat n in
  let lo := if signed then - 2 ^ (bits - 1) else 0 in
  let hi := if signed then 2 ^ (bits - 1) else 2 ^ bits in
  if (lo <=? z) && (z <? hi) then Ok (le_bytes n z) else Raise struct_error.

Definition unpack_int (signed : bool) (bs : list byte) : Z :=
  let bits := 8 * Z.of_nat (length bs) in
  let u := le_value bs in
  if signed && (2 ^ (bits - 1) <=? u) then u - 2 ^ bits else u.

(** ['f']: a finite double too large for binary32 raises [OverflowError]. *)
Definition pack_float (x : float) : outcome (list byte) :=
  let y := float32_round x in
  match x, y with
  | S754_finite _ _ _, S754_infinity _ => Raise OverflowError
  | _, _ => Ok (le_bytes 4 (float32_bits y))
  end.

Definition unpack_float (bs : list byte) : float :=
  float32_of_bits (le_value bs).

Definition pack_item (c : fmt_char) (v : val) : outcome (list byte) :=
  match c, v with
  | fB, VInt z => pack_int false 1 z
  | fH, VInt z => pack_int false 2 z
  | fh, VInt z => pack_int true 2 z
  | fI, VInt z => pack_int false 4 z
  | fi, VInt z => pack_int true 4 z
  | ff, VFloat x => pack_float x
  | ff, VInt z => pack_float (float_of_int z)
  | fs n, VBytes b =>
      if n <? 0 then Raise struct_error
      else Ok (take (Z.to_nat n) b
               ++ replicate (Z.to_nat n - length b) x00)
  | _, _ => Raise struct_error
  end.

Definition unpack_item (c : fmt_char) (bs : list byte) : val :=
  match c with
  | fB | fH | fI => VInt (unpack_int false bs)
  | fh | fi => VInt (unpack_int true bs)
  | ff => VFloat (unpack_float bs)
  | _ => VBytes bs
  end.

(** [struct.pack(fmt, *args)], the format given as its list of
    characters; [off] is the offset reached in the output. *)
Fixpoint struct_pack_at (native : bool) (off : Z) (fmt : list fmt_char)
    (args : list val) : outcome (list byte) :=
  match fmt with
  | [] => match args with [] => Ok [] | _ => Raise struct_error end
  | fx :: fmt' =>
      let* r := struct_pack_at native (off + 1) fmt' args in
      Ok (x00 :: r)
  | c :: fmt' =>
      match args with
      | [] => Raise struct_error
      | a :: args' =>
          let pad := fmt_pad native off c in
          let* d := pack_item c a in
          let* r := struct_pack_at native (off + pad + fmt_size c) fmt' args' in
          Ok (replicate (Z.to_nat pad) x00 ++ d ++ r)
      end
  end.

Definition struct_pack (fmt : list fmt_char) (args : list val)
  : outcome (list byte) :=
  struct_pack_at true 0 fmt args.

Fixpoint calcsize_at (native : bool) (off : Z) (fmt : list fmt_char) : Z :=
  match fmt with
  | [] => off
  | c :: fmt' =>
      calcsize_at native (off + fmt_pad native off c + fmt_size c) fmt'
  end.

Fixpoint struct_unpack_at (native : bool) (off : Z) (fmt : list fmt_char)
    (data : list byte) : list val :=
  match fmt with
  | [] => []
  | fx :: fmt' => struct_unpack_at native (off + 1) fmt' (drop 1 data)
  | c :: fmt' =>
      let pad := fmt_pad native off c in
      let data' := drop (Z.to_nat pad) data in
      unpack_item c (take (Z.to_nat (fmt_size c)) data')
      :: struct_unpack_at native (off + pad + fmt_size c) fmt'
           (drop (Z.to_nat (fmt_size c)) data')
  end.

(** [struct.unpack(fmt, data)]: the buffer must have exactly the size of
    the format.  [native] is false for a format with the ['='] prefix. *)
Definition struct_unpack (native : bool) (fmt : list fmt_char)
    (data : list byte) : outcome (list val) :=
  if Z.of_nat (length data) =? calcsize_at native 0 fmt
  then Ok (struct_unpack_at native 0 fmt data)
  else Raise struct_error.

Definition as_int (v : val) : outcome Z :=
  match v with VInt z => Ok z | _ => Raise struct_error end.
Definition as_float (v : val) : outcome float :=
  match v with VFloat x => Ok x | _ => Raise struct_error end.

(** ** Strings *)

(** A [str] is kept as the bytes of its UTF-8 encoding, so that
    [s.encode('utf-8')] is the list of its bytes; [bytes.decode('utf-8')]
    checks that the bytes are well-formed UTF-8. *)
Definition encode_utf8 (s : string) : list byte := list_byte_of_string s.

Fixpoint utf8_valid_fuel (n : nat) (bs : list Z) : bool :=
  match n with
  | O => match bs with [] => true | _ => false end
  | S n' =>
      let cont (c : Z) := (0x80 <=? c) && (c <=? 0xBF) in
      match bs with
      | [] => true
      | b0 :: r0 =>
          if b0 <=? 0x7F then utf8_valid_fuel n' r0
          else if (0xC2 <=? b0) && (b0 <=? 0xDF) then
            match r0 with
            | b1 :: r1 => cont b1 && utf8_valid_fuel n' r1
            | _ => false
            end
          else if (0xE0 <=? b0) && (b0 <=? 0xEF) then
            match r0 with
            | b1 :: b2 :: r2 =>
                let lo := if b0 =? 0xE0 then 0xA0 else 0x80 in
                let hi := if b0 =? 0xED then 0x9F else 0xBF in
                (lo <=? b1) && (b1 <=? hi) && cont b2
                && utf8_valid_fuel n' r2
            | _ => false
            end
          else if (0xF0 <=? b0) && (b0 <=? 0xF4) then
            match r0 with
            | b1 :: b2 :: b3 :: r3 =>
                let lo := if b0 =? 0xF0 then 0x90 else 0x80 in
                let hi := if b0 =? 0xF4 then 0x8F else 0xBF in
                (lo <=? b1) && (b1 <=? hi) && cont b2 && cont b3
                && utf8_valid_fuel n' r3
            | _ => false
            end
          else false
      end
  end.

Definition utf8_valid (bs : list byte) : bool :=
  utf8_valid_fuel (length bs) (map Z_of_byte bs).

Definition decode_utf8 (bs : list byte) : outcome string :=
  if utf8_valid bs then Ok (string_of_list_byte bs)
  else Raise UnicodeDecodeError.

(** [__str2bytes__(string)]: [bytearray(str(string).encode('utf-8'))]. *)
Definition __str2bytes__ (s : string) : list byte := encode_utf8 s.

(** ** Python lists *)

Definition len {A} (l : list A) : Z := Z.of_nat (length l).

(** Position addressed by [l[i]]: a negative index counts from the end. *)
Definition py_index {A} (l : list A) (i : Z) : outcome nat :=
  if (0 <=? i) && (i <? len l) then Ok (Z.to_nat i)
  else if (- len l <=? i) && (i <? 0) then Ok (Z.to_nat (len l + i))
  else Raise IndexError.

(** [l[i]] *)
Definition py_getitem {A} (l : list A) (i : Z) : outcome A :=
  let* k := py_index l i in
  match l !! k with
  | Some x => Ok x
  | None => Raise IndexError
  end.

(** [l[i] = x] *)
Definition py_setitem {A} (l : list A) (i : Z) (x : A) : outcome (list A) :=
  let* k := py_index l i in
  Ok (<[k := x]> l).

(** [[x] * n] *)
Definition py_repeat {A} (x : A) (n : Z) : list A := replicate (Z.to_nat n) x.

Fixpoint enumerate_from {A} (k : Z) (l : list A) : list (Z * A) :=
  match l with
  | [] => []
  | x :: l' => (k, x) :: enumerate_from (k + 1) l'
  end.

(** [enumerate(l)] *)
Definition enumerate {A} (l : list A) : list (Z * A) := enumerate_from 0 l.

(** [for x in l: s = body(s, x)], stopping at the first exception. *)
Fixpoint for_each {A S} (l : list A) (body : S -> A -> outcome S) (s : S)
  : outcome S :=
  match l with
  | [] => Ok s
  | x :: l' => let* s' := body s x in for_each l' body s'
  end.

(** ** The asset graph read by the encoder

    The classes of [xmodel] are outside this file; the records below hold
    the fields the encoder reads.  A tuple of floats is a [list float]. *)

Module Bone.
Record t : Type := mk {
  name : string;
  parent : Z;
  cosmetic : bool;
  offset : list float;
  scale : list float;
  matrix : list (list float)
}.
End Bone.

Module Vertex.
Record t : Type := mk {
  offset : list float;
  weights : list (Z * float)
}.
End Vertex.

Module FaceVertex.
Record t : Type := mk {
  vertex : Z;
  normal : list float;
  color : list float;
  uv : list float
}.
End FaceVertex.

Module Face.
Record t : Type := mk {
  mesh_id : Z;
  material_id : Z;
  indices : list FaceVertex.t
}.
End Face.

Module Mesh.
Record t : Type := mk {
  name : string;
  verts : list Vertex.t;
  faces : list Face.t
}.
End Mesh.

Module Material.
Record t {Images : Type} : Type := mk {
  name : string;
  type : string;
  images : Images;
  color : list float;
  transparency : list float;
  color_ambient : list float;
  incandescence : list float;
  coeffs : list float;
  glow : list float;
  refractive : list float;
  color_specular : list float;
  color_reflective : list float;
  reflective : list float;
  blinn : list float;
  phong : val
}.
Arguments t : clear implicits.
Arguments mk {Images}.
End Material.

Module Model.
Record t {Images : Type} : Type := mk {
  bones : list Bone.t;
  meshes : list Mesh.t;
  materials : list (Material.t Images)
}.
Arguments t : clear implicits.
Arguments mk {Images}.
End Model.

(** ** Output files

    A [BytesIO] opened for writing is the sequence of the chunks given to
    [file.write], in order; its content is their concatenation. *)
Definition wfile : Type := list (list byte).
Definition write (file : wfile) (data : list byte) : wfile := file ++ [data].
Definition getvalue (file : wfile) : list byte := concat file.


(** ** Input files

    A [BytesIO] opened for reading: the buffer and the cursor. *)
Record BytesIO : Type := mkBytesIO { data : list byte; pos : Z }.

(** [file.read(n)]: the bytes available from the cursor, at most [n]. *)
Definition read (file : BytesIO) (n : Z) : list byte * BytesIO :=
  let bs := take (Z.to_nat n) (drop (Z.to_nat (pos file)) (data file)) in
  (bs, mkBytesIO (data file) (pos file + len bs)).

(** [file.read()]: all the bytes from the cursor on. *)
Definition read_all (file : BytesIO) : list byte * BytesIO :=
  let bs := drop (Z.to_nat (pos file)) (data file) in
  (bs, mkBytesIO (data file) (pos file + len bs)).

Definition tell (file : BytesIO) : Z := pos file.

(** [file.seek(p)]: a negative position raises [ValueError]. *)
Definition seek (file : BytesIO) (p : Z) : outcome BytesIO :=
  if p <? 0 then Raise ValueError else Ok (mkBytesIO (data file) p).

(** [struct.unpack(fmt, data)] for a format of integers only, and of
    floats only. *)
Definition unpack_ints (native : bool) (fmt : list fmt_char)
    (data : list byte) : outcome (list Z) :=
  let* vs := struct_unpack native fmt data in mapM as_int vs.

Definition unpack_floats (fmt : list fmt_char) (data : list byte)
  : outcome (list float) :=
  let* vs := struct_unpack true fmt data in mapM as_float vs.

(** ** [XBlock]: the block read and write functions *)
Module XBlock.

(** *** Read functions *)

(** The loop of [LoadString] over the bytes left in the file: [rest] is
    what [file.read(1)] will deliver, [n] the number of bytes consumed.
    At the end of the file [read(1)] returns [b''], which is not the
    terminator, and the loop does not end. *)
Fixpoint LoadString_loop (rest bytes : list byte) (n : Z)
  : outcome (list byte * Z) :=
  match rest with
  | [] => Diverge
  | b :: rest' =>
      if Byte.eqb b x00 then Ok (bytes, n + 1)
      else LoadString_loop rest' (bytes ++ [b]) (n + 1)
  end.

Definition LoadString (file : BytesIO) : outcome (string * BytesIO) :=
  let* (bytes, n) :=
    LoadString_loop (drop (Z.to_nat (pos file)) (data file)) [] 0 in
  let* s := decode_utf8 bytes in
  Ok (s, mkBytesIO (data file) (pos file + n)).

Definition LoadString_Aligned (file : BytesIO)
  : outcome (string * BytesIO) :=
  let start := tell file in
  let* (string, file) := LoadString file in
  let* file := seek file (start + padded (tell file - start)) in
  Ok (string, file).

Definition LoadInt16Block (file : BytesIO) : outcome (Z * BytesIO) :=
  let '(data, file) := read file 2 in
  let* r := unpack_ints true [fh] data in
  let* v := py_getitem r 0 in
  Ok (v, file).

Definition LoadUInt16Block (file : BytesIO) : outcome (Z * BytesIO) :=
  let '(data, file) := read file 2 in
  let* r := unpack_ints true [fH] data in
  let* v := py_getitem r 0 in
  Ok (v, file).

Definition LoadInt32Block (file : BytesIO) : outcome (Z * BytesIO) :=
  let* file := seek file (tell file + 2) in
  let '(data, file) := read file 4 in
  let* r := unpack_ints true [fi] data in
  let* v := py_getitem r 0 in
  Ok (v, file).

Definition LoadCommentBlock (file : BytesIO)
  : outcome (string * BytesIO) :=
  let start := tell file - 2 in
  let* file := seek file (start + 4) in
  let* (string, file) := LoadString file in
  let* file := seek file (start + padded (tell file - start)) in
  Ok (string, file).

Definition LoadBoneBlock (file : BytesIO)
  : outcome (Z * Z * string * BytesIO) :=
  let start := tell file - 2 in
  let* file := seek file (start + 4) in
  let '(data, file) := read file 8 in
  let* result := unpack_ints true [fi; fi] data in
  let* r0 := py_getitem result 0 in
  let* r1 := py_getitem result 1 in
  let* (s, file) := LoadString file in
  let* file := seek file (start + padded (tell file - start)) in
  Ok (r0, r1, s, file).

(** The four [Load...Block] functions for floats return the tuple of
    [struct.unpack] itself. *)
Definition LoadFloatBlock (file : BytesIO)
  : outcome (list float * BytesIO) :=
  let start := tell file - 2 in
  let* file := seek file (start + 4) in
  let '(data, file) := read file 4 in
  let* result := unpack_floats [ff] data in
  let* file := seek file (start + padded (tell file - start)) in
  Ok (result, file).

Definition LoadVec2Block (file : BytesIO)
  : outcome (list float * BytesIO) :=
  let start := tell file - 2 in
  let* file := seek file (start + 4) in
  let '(data, file) := read file 8 in
  let* result := unpack_floats [ff; ff] data in
  let* file := seek file (start + padded (tell file - start)) in
  Ok (result, file).

Definition LoadVec3Block (file : BytesIO)
  : outcome (list float * BytesIO) :=
  let start := tell file - 2 in
  let* file := seek file (start + 4) in
  let '(data, file) := read file 12 in
  let* result := unpack_floats [ff; ff; ff] data in
  let* file := seek file (start + padded (tell file - start)) in
  Ok (result, file).

Definition LoadShortVec3Block (file : BytesIO)
  : outcome (list float * BytesIO) :=
  let '(data, file) := read file 6 in
  let* xyz := unpack_ints true [fh; fh; fh] data in
  Ok (map (fun x => float_div (float_of_int x) (float_of_int 32767)) xyz,
      file).

Definition LoadVec4Block (file : BytesIO)
  : outcome (list float * BytesIO) :=
  let start := tell file - 2 in
  let* file := seek file (start + 4) in
  let '(data, file) := read file 16 in
  let* result := unpack_floats [ff; ff; ff; ff] data in
  let* file := seek file (start + padded (tell file - start)) in
  Ok (result, file).

Definition LoadVertexWeightBlock (file : BytesIO)
  : outcome (Z * float * BytesIO) :=
  let '(data, file) := read file 6 in
  let* result := struct_unpack false [fh; ff] data in
  match result with
  | [VInt bone; VFloat weight] => Ok (bone, weight, file)
  | _ => Raise struct_error
  end.

Definition LoadTriangleBlock (file : BytesIO)
  : outcome (Z * Z * BytesIO) :=
  let '(data, file) := read file 2 in
  let* result := unpack_ints true [fB; fB] data in
  let* r0 := py_getitem result 0 in
  let* r1 := py_getitem result 1 in
  Ok (r0, r1, file).

Definition LoadTriangle16Block (file : BytesIO)
  : outcome (Z * Z * BytesIO) :=
  let* file := seek file (tell file + 2) in
  let '(data, file) := read file 4 in
  let* result := unpack_ints true [fH; fH] data in
  let* r0 := py_getitem result 0 in
  let* r1 := py_getitem result 1 in
  Ok (r0, r1, file).

Definition LoadColorBlock (file : BytesIO)
  : outcome (list float * BytesIO) :=
  let* file := seek file (tell file + 2) in
  let '(data, file) := read file 4 in
  let* rgba := unpack_ints true [fB; fB; fB; fB] data in
  Ok (map (fun c => float_div (float_of_int c) (float_of_int 255)) rgba,
      file).

Definition LoadUVBlock (file : BytesIO)
  : outcome (list float * BytesIO) :=
  let '(data, file) := read file 10 in
  let* result := struct_unpack false [fh; ff; ff] data in
  (* Ignore UV layer for now *)
  match result with
  | [_; VFloat u; VFloat v] => Ok ([u; v], file)
  | _ => Raise struct_error
  end.

Definition LoadObjectBlock (file : BytesIO)
  : outcome (Z * string * BytesIO) :=
  let start := tell file - 2 in
  let '(data, file) := read file 2 in
  let* r := unpack_ints true [fh] data in
  let* index := py_getitem r 0 in
  let* (s, file) := LoadString file in
  let* file := seek file (start + padded (tell file - start)) in
  Ok (index, s, file).

Section ReadImages.
Context {Images : Type}.
(** [xmodel.deserialize_image_string], defined outside this file. *)
Variable deserialize_image_string : string -> Images.

Definition LoadMaterialBlock (file : BytesIO)
  : outcome (Z * string * string * Images * BytesIO) :=
  let start := tell file - 2 in
  let '(data, file) := read file 2 in
  let* (name, file) := LoadString_Aligned file in
  let* (_type, file) := LoadString_Aligned file in
  let* (s, file) := LoadString_Aligned file in
  let imgs := deserialize_image_string s in
  let* r := unpack_ints true [fh] data in
  let* index := py_getitem r 0 in
  let* file := seek file (start + padded (tell file - start)) in
  Ok (index, name, _type, imgs, file).
End ReadImages.

Definition LoadNoteFrameBlock (file : BytesIO)
  : outcome (Z * string * BytesIO) :=
  let start := tell file - 2 in
  let* file := seek file (start + 4) in
  let '(data, file) := read file 4 in
  let* r := unpack_ints true [fi] data in
  let* frame := py_getitem r 0 in
  let* (s, file) := LoadString file in
  let* file := seek file (start + padded (tell file - start)) in
  Ok (frame, s, file).

(** *** Write functions *)

Definition WriteMetaObjectInfo (file : wfile) (_hash index : Z)
    (name : string) : outcome wfile :=
  let name := __str2bytes__ name in
  let* data := struct_pack [fH; fh; fs (padded (len name + 1))]
                 [VInt _hash; VInt index; VBytes name] in
  Ok (write file data).

Definition WriteMetaInt16Block (file : wfile) (_hash value : Z)
  : outcome wfile :=
  let* data := struct_pack [fH; fh] [VInt _hash; VInt value] in
  Ok (write file data).

Definition WriteMetaUInt16Block (file : wfile) (_hash value : Z)
  : outcome wfile :=
  let* data := struct_pack [fH; fH] [VInt _hash; VInt value] in
  Ok (write file data).

Definition WriteMetaInt32Block (file : wfile) (_hash value : Z)
  : outcome wfile :=
  let* data := struct_pack [fH; fx; fx; fI] [VInt _hash; VInt value] in
  Ok (write file data).

Definition WriteMetaFloatBlock (file : wfile) (_hash : Z) (flt : val)
  : outcome wfile :=
  let* data := struct_pack [fH; fx; fx; ff] [VInt _hash; flt] in
  Ok (write file data).

Definition WriteMetaVec2Block (file : wfile) (_hash : Z) (vec : list float)
  : outcome wfile :=
  let* data := struct_pack [fH; fx; fx; ff; ff]
                 (VInt _hash :: map VFloat vec) in
  Ok (write file data).

Definition WriteMetaVec3Block (file : wfile) (_hash : Z) (vec : list float)
  : outcome wfile :=
  let* data := struct_pack [fH; fx; fx; ff; ff; ff]
                 (VInt _hash :: map VFloat vec) in
  Ok (write file data).

Definition WriteMetaVec4Block (file : wfile) (_hash : Z) (vec : list float)
  : outcome wfile :=
  let* data := struct_pack [fH; fx; fx; ff; ff; ff; ff]
                 (VInt _hash :: map VFloat vec) in
  Ok (write file data).

Definition WriteCommentBlock (file : wfile) (comment : string)
  : outcome wfile :=
  let comment := encode_utf8 comment in
  let* data := struct_pack [fH; fx; fx; fs (len comment + 1)]
                 [VInt 0xC355; VBytes comment] in
  Ok (write file data).

Definition WriteModelBlock (file : wfile) : outcome wfile :=
  let* data := struct_pack [fH; fx; fx] [VInt 0x46C8] in
  Ok (write file data).

Definition WriteVersionBlock (file : wfile) (version : Z) : outcome wfile :=
  let* data := struct_pack [fH; fh] [VInt 0x24D1; VInt version] in
  Ok (write file data).

Definition WriteOffsetBlock (file : wfile) (offset : list float)
  : outcome wfile :=
  let* data := struct_pack [fH; fx; fx; ff; ff; ff]
                 (VInt 0x9383 :: map VFloat offset) in
  Ok (write file data).

Definition WriteMatrixBlock (file : wfile) (matrix : list (list float))
  : outcome wfile :=
  let* r0 := py_getitem matrix 0 in
  let* m0 := mapM __clamp_float_to_short__ r0 in
  let* r1 := py_getitem matrix 1 in
  let* m1 := mapM __clamp_float_to_short__ r1 in
  let* r2 := py_getitem matrix 2 in
  let* m2 := mapM __clamp_float_to_short__ r2 in
  let* data0 := struct_pack [fH; fh; fh; fh] (VInt 0xDCFD :: map VInt m0) in
  let* data1 := struct_pack [fH; fh; fh; fh] (VInt 0xCCDC :: map VInt m1) in
  let* data2 := struct_pack [fH; fh; fh; fh] (VInt 0xFCBF :: map VInt m2) in
  Ok (write file (data0 ++ data1 ++ data2)).

Definition WriteBoneCountBlock (file : wfile) (bone_count : Z)
  : outcome wfile :=
  WriteMetaInt16Block file 0x76BA bone_count.

Definition WriteBoneInfoBlock (file : wfile) (bone_index : Z) (bone : Bone.t)
  : outcome wfile :=
  let name := __str2bytes__ (Bone.name bone) in
  let* data := struct_pack [fH; fx; fx; fi; fi; fs (padded (len name + 1))]
                 [VInt 0xF099; VInt bone_index; VInt (Bone.parent bone);
                  VBytes name] in
  Ok (write file data).

Definition WriteCosmeticInfoBlock (file : wfile) (cosmetic_count : Z)
  : outcome wfile :=
  WriteMetaInt32Block file 0x7836 cosmetic_count.

Definition WriteBoneIndexBlock (file : wfile) (index : Z) : outcome wfile :=
  WriteMetaInt16Block file 0xDD9A index.

Definition WriteVertex16Count (file : wfile) (vert_count : Z)
  : outcome wfile :=
  WriteMetaUInt16Block file 0x950D vert_count.

Definition WriteVertex32Count (file : wfile) (vert_count : Z)
  : outcome wfile :=
  WriteMetaInt32Block file 0x2AEC vert_count.

Definition WriteVertex16Index (file : wfile) (vert_index : Z)
  : outcome wfile :=
  WriteMetaUInt16Block file 0x8F03 vert_index.

Definition WriteVertex32Index (file : wfile) (vert_index : Z)
  : outcome wfile :=
  WriteMetaInt32Block file 0xB097 vert_index.

Definition WriteVertexWeightBlock (file : wfile) (weight : Z * float)
  : outcome wfile :=
  let* data := struct_pack [fH; fh; ff]
                 [VInt 0xF1AB; VInt (fst weight); VFloat (snd weight)] in
  Ok (write file data).

Definition WriteFaceInfoBlock (file : wfile) (face : Face.t)
  : outcome wfile :=
  if (255 <? Face.mesh_id face) || (255 <? Face.material_id face) then
    let* data := struct_pack [fH; fH; fH; fH]
                   [VInt 0x6711; VInt 0x0; VInt (Face.mesh_id face);
                    VInt (Face.material_id face)] in
    Ok (write file data)
  else
    let* data := struct_pack [fH; fB; fB]
                   [VInt 0x562F; VInt (Face.mesh_id face);
                    VInt (Face.material_id face)] in
    Ok (write file data).

Definition WriteFaceVertexNormalBlock (file : wfile) (normal : list float)
  : outcome wfile :=
  let* packed := mapM __clamp_float_to_short__ normal in
  let* data := struct_pack [fH; fh; fh; fh] (VInt 0x89EC :: map VInt packed) in
  Ok (write file data).

Definition WriteColorBlock (file : wfile) (color : list float)
  : outcome wfile :=
  let* rgb := mapM (fun c => int_of_float (float_mul c (float_of_int 255)))
                color in
  let* data := struct_pack [fH; fx; fx; fB; fB; fB; fB]
                 (VInt 0x6DD8 :: map VInt rgb) in
  Ok (write file data).

Definition WriteFaceVertexUVBlock (file : wfile) (layer : Z)
    (uv : list float) : outcome wfile :=
  let* data := struct_pack [fH; fh; ff; ff]
                 (VInt 0x1AD4 :: VInt layer :: map VFloat uv) in
  Ok (write file data).

Section Images.
Context {Images : Type}.
(** [xmodel.serialize_image_string(images, extended_features)], defined
    outside this file. *)
Variable serialize_image_string : Images -> bool -> string.

Definition WriteMaterialInfoBlock (file : wfile) (material_index : Z)
    (material : Material.t Images) (extended_features : bool)
  : outcome wfile :=
  let strings :=
    [ __str2bytes__ (Material.name material);
      __str2bytes__ (Material.type material);
      __str2bytes__
        (serialize_image_string (Material.images material) true) ] in
  let sizes := map (fun s => padded (len s + 1)) strings in
  let* data := struct_pack ([fH; fh] ++ map fs sizes)
                 ([VInt 0xA700; VInt material_index]
                  ++ map VBytes strings) in
  Ok (write file data).
End Images.

End XBlock.

(** ** The objects built by the decoder

    Modelled from the spec: the classes of [xmodel] and [xanim] are outside
    this file.  An object has the fields the format description lists for
    its class (external collaborator interface); a field the decoder has
    not assigned yet is [None], a new bone is not cosmetic, a new mesh has
    empty vertex and face lists, and assigning an attribute the class does
    not have raises [AttributeError].  Objects that are shared and mutated
    through [state.active_thing], [state.active_tri] and
    [state.active_frame] live in a store and are named by their address. *)
Definition addr : Type := nat.

(** A bone under construction: [XModel.Bone(name, parent)]. *)
Module BoneO.
Record t : Type := mk {
  name : string;
  parent : Z;
  cosmetic : bool;
  offset : option (list float);
  scale : option (list float);
  matrix : option (list (list float))
}.
Definition set_name (x : string) (r : t) : t :=
  mk x (parent r) (cosmetic r) (offset r) (scale r) (matrix r).
Definition set_parent (x : Z) (r : t) : t :=
  mk (name r) x (cosmetic r) (offset r) (scale r) (matrix r).
Definition set_cosmetic (x : bool) (r : t) : t :=
  mk (name r) (parent r) x (offset r) (scale r) (matrix r).
Definition set_offset (x : option (list float)) (r : t) : t :=
  mk (name r) (parent r) (cosmetic r) x (scale r) (matrix r).
Definition set_scale (x : option (list float)) (r : t) : t :=
  mk (name r) (parent r) (cosmetic r) (offset r) x (matrix r).
Definition set_matrix (x : option (list (list float))) (r : t) : t :=
  mk (name r) (parent r) (cosmetic r) (offset r) (scale r) x.
End BoneO.

(** [XModel.Vertex()]. *)
Module VertexO.
Record t : Type := mk {
  offset : option (list float);
  weights : option (list (Z * float))
}.
Definition set_offset (x : option (list float)) (r : t) : t :=
  mk x (weights r).
Definition set_weights (x : option (list (Z * float))) (r : t) : t :=
  mk (offset r) x.
End VertexO.

(** [XModel.FaceVertex(index)]. *)
Module FaceVertexO.
Record t : Type := mk {
  vertex : Z;
  normal : option (list float);
  color : option (list float);
  uv : option (list float)
}.
Definition set_vertex (x : Z) (r : t) : t :=
  mk x (normal r) (color r) (uv r).
Definition set_normal (x : option (list float)) (r : t) : t :=
  mk (vertex r) x (color r) (uv r).
Definition set_color (x : option (list float)) (r : t) : t :=
  mk (vertex r) (normal r) x (uv r).
Definition set_uv (x : option (list float)) (r : t) : t :=
  mk (vertex r) (normal r) (color r) x.
End FaceVertexO.

(** [XModel.Face(object_index, material_index)]; [indices] holds references
    to face-vertices. *)
Module FaceO.
Record t : Type := mk {
  mesh_id : Z;
  material_id : Z;
  indices : list addr
}.
Definition set_mesh_id (x : Z) (r : t) : t :=
  mk x (material_id r) (indices r).
Definition set_material_id (x : Z) (r : t) : t :=
  mk (mesh_id r) x (indices r).
Definition set_indices (x : list addr) (r : t) : t :=
  mk (mesh_id r) (material_id r) x.
End FaceO.

(** [XModel.Material(name, type, images)]. *)
Module MaterialO.
Record t {Images : Type} : Type := mk {
  name : string;
  type : string;
  images : Images;
  color : option (list float);
  transparency : option (list float);
  color_ambient : option (list float);
  incandescence : option (list float);
  coeffs : option (list float);
  glow : option (list float);
  refractive : option (list float);
  color_specular : option (list float);
  color_reflective : option (list float);
  reflective : option (list float);
  blinn : option (list float);
  phong : option (list float)
}.
Arguments t : clear implicits.
Arguments mk {Images}.
Definition set_name {Images} (x : string) (r : t Images) : t Images :=
  mk x (type r) (images r) (color r) (transparency r) (color_ambient r)
    (incandescence r) (coeffs r) (glow r) (refractive r) (color_specular r)
    (color_reflective r) (reflective r) (blinn r) (phong r).
Definition set_type {Images} (x : string) (r : t Images) : t Images :=
  mk (name r) x (images r) (color r) (transparency r) (color_ambient r)
    (incandescence r) (coeffs r) (glow r) (refractive r) (color_specular r)
    (color_reflective r) (reflective r) (blinn r) (phong r).
Definition set_images {Images} (x : Images) (r : t Images) : t Images :=
  mk (name r) (type r) x (color r) (transparency r) (color_ambient r)
    (incandescence r) (coeffs r) (glow r) (refractive r) (color_specular r)
    (color_reflective r) (reflective r) (blinn r) (phong r).
Definition set_color {Images} (x : option (list float)) (r : t Images)
  : t Images :=
  mk (name r) (type r) (images r) x (transparency r) (color_ambient r)
    (incandescence r) (coeffs r) (glow r) (refractive r) (color_specular r)
    (color_reflective r) (reflective r) (blinn r) (phong r).
Definition set_transparency {Images} (x : option (list float)) (r : t Images)
  : t Images :=
  mk (name r) (type r) (images r) (color r) x (color_ambient r)
    (incandescence r) (coeffs r) (glow r) (refractive r) (color_specular r)
    (color_reflective r) (reflective r) (blinn r) (phong r).
Definition set_color_ambient {Images} (x : option (list float)) (r : t Images)
  : t Images :=
  mk (name r) (type r) (images r) (color r) (transparency r) x
    (incandescence r) (coeffs r) (glow r) (refractive r) (color_specular r)
    (color_reflective r) (reflective r) (blinn r) (phong r).
Definition set_incandescence {Images} (x : option (list float)) (r : t Images)
  : t Images :=
  mk (name r) (type r) (images r) (color r) (transparency r) (color_ambient r)
    x (coeffs r) (glow r) (refractive r) (color_specular r)
    (color_reflective r) (reflective r) (blinn r) (phong r).
Definition set_coeffs {Images} (x : option (list float)) (r : t Images)
  : t Images :=
  mk (name r) (type r) (images r) (color r) (transparency r) (color_ambient r)
    (incandescence r) x (glow r) (refractive r) (color_specular r)
    (color_reflective r) (reflective r) (blinn r) (phong r).
Definition set_glow {Images} (x : option (list float)) (r : t Images)
  : t Images :=
  mk (name r) (type r) (images r) (color r) (transparency r) (color_ambient r)
    (incandescence r) (coeffs r) x (refractive r) (color_specular r)
    (color_reflective r) (reflective r) (blinn r) (phong r).
Definition set_refractive {Images} (x : option (list float)) (r : t Images)
  : t Images :=
  mk (name r) (type r) (images r) (color r) (transparency r) (color_ambient r)
    (incandescence r) (coeffs r) (glow r) x (color_specular r)
    (color_reflective r) (reflective r) (blinn r) (phong r).
Definition set_color_specular {Images} (x : option (list float))
  (r : t Images) : t Images :=
  mk (name r) (type r) (images r) (color r) (transparency r) (color_ambient r)
    (incandescence r) (coeffs r) (glow r) (refractive r) x
    (color_reflective r) (reflective r) (blinn r) (phong r).
Definition set_color_reflective {Images} (x : option (list float))
  (r : t Images) : t Images :=
  mk (name r) (type r) (images r) (color r) (transparency r) (color_ambient r)
    (incandescence r) (coeffs r) (glow r) (refractive r) (color_specular r) x
    (reflective r) (blinn r) (phong r).
Definition set_reflective {Images} (x : option (list float)) (r : t Images)
  : t Images :=
  mk (name r) (type r) (images r) (color r) (transparency r) (color_ambient r)
    (incandescence r) (coeffs r) (glow r) (refractive r) (color_specular r)
    (color_reflective r) x (blinn r) (phong r).
Definition set_blinn {Images} (x : option (list float)) (r : t Images)
  : t Images :=
  mk (name r) (type r) (images r) (color r) (transparency r) (color_ambient r)
    (incandescence r) (coeffs r) (glow r) (refractive r) (color_specular r)
    (color_reflective r) (reflective r) x (phong r).
Definition set_phong {Images} (x : option (list float)) (r : t Images)
  : t Images :=
  mk (name r) (type r) (images r) (color r) (transparency r) (color_ambient r)
    (incandescence r) (coeffs r) (glow r) (refractive r) (color_specular r)
    (color_reflective r) (reflective r) (blinn r) x.
End MaterialO.

(** [XAnim.FramePart(matrix=[])]. *)
Module FramePartO.
Record t : Type := mk {
  offset : option (list float);
  matrix : list (list float)
}.
Definition set_offset (x : option (list float)) (r : t) : t :=
  mk x (matrix r).
Definition set_matrix (x : list (list float)) (r : t) : t :=
  mk (offset r) x.
End FramePartO.

(** [XAnim.Frame(frame)]; [parts] holds references to frame parts. *)
Module FrameO.
Record t : Type := mk {
  frame : Z;
  parts : list (option addr)
}.
Definition set_frame (x : Z) (r : t) : t :=
  mk x (parts r).
Definition set_parts (x : list (option addr)) (r : t) : t :=
  mk (frame r) x.
End FrameO.

(** [XModel.Mesh(name)]; [verts] and [faces] hold references. *)
Module MeshO.
Record t : Type := mk {
  name : string;
  verts : list (option addr);
  faces : list addr
}.
Definition set_name (x : string) (r : t) : t :=
  mk x (verts r) (faces r).
Definition set_verts (x : list (option addr)) (r : t) : t :=
  mk (name r) x (faces r).
Definition set_faces (x : list addr) (r : t) : t :=
  mk (name r) (verts r) x.
End MeshO.

(** [XAnim.PartInfo(name)] and [XAnim.Note(frame, string)] are never
    changed after their creation. *)
Record PartInfo : Type := mkPartInfo { part_name : string }.
Record Note : Type := mkNote { note_frame : Z; note_string : string }.

#[warnings="-register-all"]
Inductive Obj {Images : Type} : Type :=
  | OBone (b : BoneO.t)
  | OVertex (v : VertexO.t)
  | OFaceVertex (fv : FaceVertexO.t)
  | OFace (f : FaceO.t)
  | OMaterial (m : MaterialO.t Images)
  | OFramePart (p : FramePartO.t)
  | OFrame (fr : FrameO.t).
Arguments Obj : clear implicits.

(** The [LoadState] of the decode loop. *)
Record LoadState : Type := mkLoadState {
  active_thing : option addr;
  active_tri : option addr;
  active_frame : option addr;
  asset_type : option string
}.

(** The attributes of [self] used by the decoder. *)
Record Self : Type := mkSelf {
  bones : list (option addr);
  cosmetics : Z;
  meshes : list (option MeshO.t);
  materials : list (option addr);
  parts : list (option PartInfo);
  framerate : option Z;
  frames : list addr;
  notes : list Note
}.

(** Everything the handlers of the decode loop read and change: the
    file cursor, the object store, [state], [self] and [dummy_mesh]. *)
Record DState {Images : Type} : Type := mkDState {
  st_file : BytesIO;
  st_heap : list (Obj Images);
  st_state : LoadState;
  st_self : Self;
  st_dummy_mesh : MeshO.t
}.
Arguments DState : clear implicits.
Arguments mkDState {Images}.

Section StateUpdates.
Context {Images : Type}.

Definition with_file (f : BytesIO) (st : DState Images) : DState Images :=
  mkDState f (st_heap st) (st_state st) (st_self st) (st_dummy_mesh st).
Definition with_heap (h : list (Obj Images)) (st : DState Images)
  : DState Images :=
  mkDState (st_file st) h (st_state st) (st_self st) (st_dummy_mesh st).
Definition with_state (s : LoadState) (st : DState Images) : DState Images :=
  mkDState (st_file st) (st_heap st) s (st_self st) (st_dummy_mesh st).
Definition with_self (s : Self) (st : DState Images) : DState Images :=
  mkDState (st_file st) (st_heap st) (st_state st) s (st_dummy_mesh st).
Definition with_dummy_mesh (m : MeshO.t) (st : DState Images)
  : DState Images :=
  mkDState (st_file st) (st_heap st) (st_state st) (st_self st) m.

Definition set_active_thing (a : option addr) (st : DState Images)
  : DState Images :=
  let s := st_state st in
  with_state (mkLoadState a (active_tri s) (active_frame s) (asset_type s))
    st.
Definition set_active_tri (a : option addr) (st : DState Images)
  : DState Images :=
  let s := st_state st in
  with_state
    (mkLoadState (active_thing s) a (active_frame s) (asset_type s)) st.
Definition set_active_frame (a : option addr) (st : DState Images)
  : DState Images :=
  let s := st_state st in
  with_state (mkLoadState (active_thing s) (active_tri s) a (asset_type s))
    st.
Definition set_asset_type (t : option string) (st : DState Images)
  : DState Images :=
  let s := st_state st in
  with_state
    (mkLoadState (active_thing s) (active_tri s) (active_frame s) t) st.

Definition set_bones (x : list (option addr)) (st : DState Images)
  : DState Images :=
  let s := st_self st in
  with_self (mkSelf x (cosmetics s) (meshes s) (materials s) (parts s)
               (framerate s) (frames s) (notes s)) st.
Definition set_cosmetics (x : Z) (st : DState Images) : DState Images :=
  let s := st_self st in
  with_self (mkSelf (bones s) x (meshes s) (materials s) (parts s)
               (framerate s) (frames s) (notes s)) st.
Definition set_meshes (x : list (option MeshO.t)) (st : DState Images)
  : DState Images :=
  let s := st_self st in
  with_self (mkSelf (bones s) (cosmetics s) x (materials s) (parts s)
               (framerate s) (frames s) (notes s)) st.
Definition set_materials (x : list (option addr)) (st : DState Images)
  : DState Images :=
  let s := st_self st in
  with_self (mkSelf (bones s) (cosmetics s) (meshes s) x (parts s)
               (framerate s) (frames s) (notes s)) st.
Definition set_parts (x : list (option PartInfo)) (st : DState Images)
  : DState Images :=
  let s := st_self st in
  with_self (mkSelf (bones s) (cosmetics s) (meshes s) (materials s) x
               (framerate s) (frames s) (notes s)) st.
Definition set_framerate (x : option Z) (st : DState Images)
  : DState Images :=
  let s := st_self st in
  with_self (mkSelf (bones s) (cosmetics s) (meshes s) (materials s)
               (parts s) x (frames s) (notes s)) st.
Definition set_frames (x : list addr) (st : DState Images) : DState Images :=
  let s := st_self st in
  with_self (mkSelf (bones s) (cosmetics s) (meshes s) (materials s)
               (parts s) (framerate s) x (notes s)) st.
Definition set_notes (x : list Note) (st : DState Images) : DState Images :=
  let s := st_self st in
  with_self (mkSelf (bones s) (cosmetics s) (meshes s) (materials s)
               (parts s) (framerate s) (frames s) x) st.

Definition set_verts (x : list (option addr)) (st : DState Images)
  : DState Images :=
  with_dummy_mesh (MeshO.set_verts x (st_dummy_mesh st)) st.
Definition set_faces (x : list addr) (st : DState Images) : DState Images :=
  with_dummy_mesh (MeshO.set_faces x (st_dummy_mesh st)) st.

(** A new object: its address is the next free one. *)
Definition alloc (o : Obj Images) (st : DState Images)
  : addr * DState Images :=
  (length (st_heap st), with_heap (st_heap st ++ [o]) st).

(** The object a reference points to; [None] has no attributes. *)
Definition deref (st : DState Images) (r : option addr)
  : outcome (addr * Obj Images) :=
  match r with
  | None => Raise AttributeError
  | Some a =>
      match st_heap st !! a with
      | Some o => Ok (a, o)
      | None => Raise AttributeError
      end
  end.

Definition store (a : addr) (o : Obj Images) (st : DState Images)
  : DState Images :=
  with_heap (<[a := o]> (st_heap st)) st.

(** [state.active_thing.<attr> = ...], [upd] being the assignment on the
    object. *)
Definition assign_active (upd : Obj Images -> outcome (Obj Images))
  (st : DState Images)
  : outcome (DState Images) :=
  let* (a, o) := deref st (active_thing (st_state st)) in
  let* o' := upd o in
  Ok (store a o' st).

(** The attribute assignments of the handlers, per class. *)
Definition assign_offset (data : list float) (o : Obj Images)
  : outcome (Obj Images) :=
  match o with
  | OBone b => Ok (OBone (BoneO.set_offset (Some data) b))
  | OVertex v => Ok (OVertex (VertexO.set_offset (Some data) v))
  | OFramePart p => Ok (OFramePart (FramePartO.set_offset (Some data) p))
  | _ => Raise AttributeError
  end.

Definition assign_scale (data : list float) (o : Obj Images)
  : outcome (Obj Images) :=
  match o with
  | OBone b => Ok (OBone (BoneO.set_scale (Some data) b))
  | _ => Raise AttributeError
  end.

Definition assign_matrix_empty (o : Obj Images) : outcome (Obj Images) :=
  match o with
  | OBone b => Ok (OBone (BoneO.set_matrix (Some []) b))
  | OFramePart p => Ok (OFramePart (FramePartO.set_matrix [] p))
  | _ => Raise AttributeError
  end.

(** The list [o.matrix], and [o.matrix.append(data)]. *)
Definition get_matrix (o : Obj Images) : outcome (list (list float)) :=
  match o with
  | OBone b =>
      match BoneO.matrix b with
      | Some m => Ok m
      | None => Raise AttributeError
      end
  | OFramePart p => Ok (FramePartO.matrix p)
  | _ => Raise AttributeError
  end.

Definition matrix_append (data : list float) (o : Obj Images)
  : outcome (Obj Images) :=
  let* m := get_matrix o in
  match o with
  | OBone b => Ok (OBone (BoneO.set_matrix (Some (m ++ [data])) b))
  | OFramePart p => Ok (OFramePart (FramePartO.set_matrix (m ++ [data]) p))
  | _ => Raise AttributeError
  end.

Definition assign_weights_empty (o : Obj Images) : outcome (Obj Images) :=
  match o with
  | OVertex v => Ok (OVertex (VertexO.set_weights (Some []) v))
  | _ => Raise AttributeError
  end.

Definition get_weights (o : Obj Images) : outcome (list (Z * float)) :=
  match o with
  | OVertex v =>
      match VertexO.weights v with
      | Some w => Ok w
      | None => Raise AttributeError
      end
  | _ => Raise AttributeError
  end.

Definition weights_append (w : Z * float) (o : Obj Images)
  : outcome (Obj Images) :=
  let* ws := get_weights o in
  match o with
  | OVertex v => Ok (OVertex (VertexO.set_weights (Some (ws ++ [w])) v))
  | _ => Raise AttributeError
  end.

Definition indices_append (a : addr) (o : Obj Images)
  : outcome (Obj Images) :=
  match o with
  | OFace f => Ok (OFace (FaceO.set_indices (FaceO.indices f ++ [a]) f))
  | _ => Raise AttributeError
  end.

Definition assign_normal (data : list float) (o : Obj Images)
  : outcome (Obj Images) :=
  match o with
  | OFaceVertex fv => Ok (OFaceVertex (FaceVertexO.set_normal (Some data) fv))
  | _ => Raise AttributeError
  end.

Definition assign_color (data : list float) (o : Obj Images)
  : outcome (Obj Images) :=
  match o with
  | OFaceVertex fv => Ok (OFaceVertex (FaceVertexO.set_color (Some data) fv))
  | OMaterial m => Ok (OMaterial (MaterialO.set_color (Some data) m))
  | _ => Raise AttributeError
  end.

Definition assign_uv (data : list float) (o : Obj Images)
  : outcome (Obj Images) :=
  match o with
  | OFaceVertex fv => Ok (OFaceVertex (FaceVertexO.set_uv (Some data) fv))
  | _ => Raise AttributeError
  end.

(** An attribute of a material, [set] being its setter. *)
Definition assign_material
    (set : option (list float) -> MaterialO.t Images -> MaterialO.t Images)
    (data : list float) (o : Obj Images) : outcome (Obj Images) :=
  match o with
  | OMaterial m => Ok (OMaterial (set (Some data) m))
  | _ => Raise AttributeError
  end.

Definition parts_setitem (index : Z) (a : addr) (o : Obj Images)
  : outcome (Obj Images) :=
  match o with
  | OFrame fr =>
      let* ps := py_setitem (FrameO.parts fr) index (Some a) in
      Ok (OFrame (FrameO.set_parts ps fr))
  | _ => Raise AttributeError
  end.
End StateUpdates.

(** ** [XBinIO] *)
Module XBinIO.

(** The magic marker [b'*LZ4*']. *)
Definition magic : list byte := [x2a; x4c; x5a; x34; x2a].

Section Envelope.
(** [_lz4.compress] and [_lz4.uncompress], defined outside this file;
    [uncompress] may raise on a malformed input. *)
Variable lz4_compress : list byte -> list byte.
Variable lz4_uncompress : list byte -> outcome (list byte).

(** [__decompress_internal__(file)]: the decompressed buffer, opened as a
    new [BytesIO]. *)
Definition __decompress_internal__ (file : BytesIO) : outcome BytesIO :=
  let '(bin_magic, file) := read file 5 in
  if negb (bytes_eqb bin_magic magic) then
    Raise (ValueError_bad_magic bin_magic)
  else
    let '(rest, file) := read_all file in
    let* data := lz4_uncompress rest in
    Ok (mkBytesIO data 0).

(** [__compress_internal__(in_file, out_file)]: the bytes written to
    [out_file]. *)
Definition __compress_internal__ (in_file : wfile) : outcome (list byte) :=
  let uncompressed_size := len (getvalue in_file) in
  let compressed_data := lz4_compress (getvalue in_file) in
  let* size := struct_pack [fI] [VInt uncompressed_size] in
  Ok (magic ++ size ++ compressed_data).
End Envelope.

(** *** The decoder: [__xbin_loadfile_internal__] *)
Section Load.
Context {Images : Type}.
Variable deserialize_image_string : string -> Images.
Variable expected_type : string.

(** Constructors of the asset classes. *)
Definition new_Bone (name : string) (parent : Z) : BoneO.t :=
  BoneO.mk name parent false None None None.
Definition new_Vertex : VertexO.t := VertexO.mk None None.
Definition new_FaceVertex (index : Z) : FaceVertexO.t :=
  FaceVertexO.mk index None None None.
Definition new_Face (object_index material_index : Z) : FaceO.t :=
  FaceO.mk object_index material_index [].
Definition new_Mesh (name : string) : MeshO.t := MeshO.mk name [] [].
Definition new_Material (name _type : string) (images : Images)
  : MaterialO.t Images :=
  MaterialO.mk name _type images None None None None None None None None
    None None None None.

Definition InitModel (st : DState Images) : outcome (DState Images) :=
  let* (_, file) := XBlock.LoadInt16Block (st_file st) in
  let st := set_asset_type (Some "MODEL") (with_file file st) in
  if negb (String.eqb expected_type "MODEL") then
    Raise (TypeError_asset "MODEL" expected_type)
  else Ok st.

Definition InitAnim (st : DState Images) : outcome (DState Images) :=
  let* (_, file) := XBlock.LoadInt16Block (st_file st) in
  let st := set_asset_type (Some "ANIM") (with_file file st) in
  if negb (String.eqb expected_type "ANIM") then
    Raise (TypeError_asset "ANIM" expected_type)
  else Ok st.

Definition LoadBoneCount (st : DState Images) : outcome (DState Images) :=
  let* (n, file) := XBlock.LoadInt16Block (st_file st) in
  Ok (set_bones (py_repeat None n) (with_file file st)).

Definition LoadCosmeticCount (st : DState Images) : outcome (DState Images) :=
  let* (n, file) := XBlock.LoadInt32Block (st_file st) in
  Ok (set_cosmetics n (with_file file st)).

Definition LoadBoneInfo (st : DState Images) : outcome (DState Images) :=
  let* (index, parent, name, file) := XBlock.LoadBoneBlock (st_file st) in
  let st := with_file file st in
  let bone := new_Bone name parent in
  let bone :=
    if len (bones (st_self st)) - cosmetics (st_self st) <=? index
    then BoneO.set_cosmetic true bone else bone in
  let '(a, st) := alloc (OBone bone) st in
  let* bs := py_setitem (bones (st_self st)) index (Some a) in
  Ok (set_bones bs st).

Definition LoadBoneIndex (st : DState Images) : outcome (DState Images) :=
  let* (index, file) := XBlock.LoadInt16Block (st_file st) in
  let st := with_file file st in
  let* bone := py_getitem (bones (st_self st)) index in
  let* (a, o) := deref st bone in
  let* o := assign_matrix_empty o in
  Ok (set_active_thing (Some a) (store a o st)).

Definition LoadOffset (st : DState Images) : outcome (DState Images) :=
  let* (data, file) := XBlock.LoadVec3Block (st_file st) in
  assign_active (assign_offset data) (with_file file st).

Definition LoadBoneScale (st : DState Images) : outcome (DState Images) :=
  let* (data, file) := XBlock.LoadVec3Block (st_file st) in
  assign_active (assign_scale data) (with_file file st).

Definition LoadBoneMatrix (st : DState Images) : outcome (DState Images) :=
  let* (data, file) := XBlock.LoadShortVec3Block (st_file st) in
  assign_active (matrix_append data) (with_file file st).

Definition LoadVertexCount (st : DState Images) : outcome (DState Images) :=
  let* (n, file) := XBlock.LoadUInt16Block (st_file st) in
  Ok (set_verts (py_repeat None n) (with_file file st)).

Definition LoadVertex32Count (st : DState Images) : outcome (DState Images) :=
  let* (n, file) := XBlock.LoadInt32Block (st_file st) in
  Ok (set_verts (py_repeat None n) (with_file file st)).

(** The body shared by [LoadVertexIndex] and [LoadVertex32Index], after
    the index has been read. *)
Definition route_vertex_index (index : Z) (st : DState Images)
  : outcome (DState Images) :=
  match active_tri (st_state st) with
  | None =>
      let '(vertex, st) := alloc (OVertex new_Vertex) st in
      let* vs := py_setitem (MeshO.verts (st_dummy_mesh st)) index
                   (Some vertex) in
      Ok (set_active_thing (Some vertex) (set_verts vs st))
  | Some tri =>
      let '(face_vert, st) := alloc (OFaceVertex (new_FaceVertex index)) st in
      let* (a, o) := deref st (Some tri) in
      let* o := indices_append face_vert o in
      Ok (set_active_thing (Some face_vert) (store a o st))
  end.

Definition LoadVertexIndex (st : DState Images) : outcome (DState Images) :=
  let* (index, file) := XBlock.LoadUInt16Block (st_file st) in
  route_vertex_index index (with_file file st).

Definition LoadVertex32Index (st : DState Images) : outcome (DState Images) :=
  let* (index, file) := XBlock.LoadInt32Block (st_file st) in
  route_vertex_index index (with_file file st).

Definition LoadVertexWeightCount (st : DState Images)
  : outcome (DState Images) :=
  let* (_, file) := XBlock.LoadInt16Block (st_file st) in
  assign_active assign_weights_empty (with_file file st).

(** [state.active_thing.weights.append] is looked up before the block is
    read. *)
Definition LoadVertexWeight (st : DState Images) : outcome (DState Images) :=
  let* (_, o) := deref st (active_thing (st_state st)) in
  let* _ := get_weights o in
  let* (bone, weight, file) := XBlock.LoadVertexWeightBlock (st_file st) in
  assign_active (weights_append (bone, weight)) (with_file file st).

Definition LoadTriCount (st : DState Images) : outcome (DState Images) :=
  let* (_, file) := XBlock.LoadInt32Block (st_file st) in
  Ok (set_faces [] (with_file file st)).

(** The body shared by [LoadTriInfo] and [LoadTri16Info]. *)
Definition new_tri (object_index material_index : Z) (st : DState Images)
  : DState Images :=
  let '(tri, st) := alloc (OFace (new_Face object_index material_index)) st in
  let st := set_faces (MeshO.faces (st_dummy_mesh st) ++ [tri]) st in
  set_active_tri (Some tri) st.

Definition LoadTriInfo (st : DState Images) : outcome (DState Images) :=
  let* (object_index, material_index, file) :=
    XBlock.LoadTriangleBlock (st_file st) in
  Ok (new_tri object_index material_index (with_file file st)).

Definition LoadTri16Info (st : DState Images) : outcome (DState Images) :=
  let* (object_index, material_index, file) :=
    XBlock.LoadTriangle16Block (st_file st) in
  Ok (new_tri object_index material_index (with_file file st)).

Definition LoadTriVertNormal (st : DState Images) : outcome (DState Images) :=
  let* (data, file) := XBlock.LoadShortVec3Block (st_file st) in
  assign_active (assign_normal data) (with_file file st).

Definition LoadTriVertColor (st : DState Images) : outcome (DState Images) :=
  let* (data, file) := XBlock.LoadColorBlock (st_file st) in
  assign_active (assign_color data) (with_file file st).

Definition LoadTriVertUV (st : DState Images) : outcome (DState Images) :=
  let* (data, file) := XBlock.LoadUVBlock (st_file st) in
  assign_active (assign_uv data) (with_file file st).

Definition LoadObjectCount (st : DState Images) : outcome (DState Images) :=
  let* (n, file) := XBlock.LoadInt16Block (st_file st) in
  Ok (set_meshes (py_repeat None n) (with_file file st)).

Definition LoadObjectInfo (st : DState Images) : outcome (DState Images) :=
  let* (index, name, file) := XBlock.LoadObjectBlock (st_file st) in
  let st := with_file file st in
  let* ms := py_setitem (meshes (st_self st)) index (Some (new_Mesh name)) in
  Ok (set_meshes ms st).

Definition LoadMaterialCount (st : DState Images) : outcome (DState Images) :=
  let* (n, file) := XBlock.LoadInt16Block (st_file st) in
  Ok (set_materials (py_repeat None n) (with_file file st)).

Definition LoadMaterialInfo (st : DState Images) : outcome (DState Images) :=
  let* (index, name, _type, images, file) :=
    XBlock.LoadMaterialBlock deserialize_image_string (st_file st) in
  let st := with_file file st in
  let '(material, st) :=
    alloc (OMaterial (new_Material name _type images)) st in
  let* ms := py_setitem (materials (st_self st)) index (Some material) in
  Ok (set_active_thing (Some material) (set_materials ms st)).

Definition LoadMaterialTransparency (st : DState Images)
  : outcome (DState Images) :=
  let* (data, file) := XBlock.LoadVec4Block (st_file st) in
  assign_active (assign_material MaterialO.set_transparency data)
    (with_file file st).

Definition LoadMaterialAmbientColor (st : DState Images)
  : outcome (DState Images) :=
  let* (data, file) := XBlock.LoadVec4Block (st_file st) in
  assign_active (assign_material MaterialO.set_color_ambient data)
    (with_file file st).

Definition LoadMaterialIncandescence (st : DState Images)
  : outcome (DState Images) :=
  let* (data, file) := XBlock.LoadVec4Block (st_file st) in
  assign_active (assign_material MaterialO.set_incandescence data)
    (with_file file st).

Definition LoadMaterialCoeffs (st : DState Images) : outcome (DState Images) :=
  let* (data, file) := XBlock.LoadVec2Block (st_file st) in
  assign_active (assign_material MaterialO.set_coeffs data)
    (with_file file st).

Definition LoadMaterialGlow (st : DState Images) : outcome (DState Images) :=
  let* (data, file) := XBlock.LoadVec2Block (st_file st) in
  assign_active (assign_material MaterialO.set_glow data) (with_file file st).

Definition LoadMaterialRefractive (st : DState Images)
  : outcome (DState Images) :=
  let* (data, file) := XBlock.LoadVec2Block (st_file st) in
  assign_active (assign_material MaterialO.set_refractive data)
    (with_file file st).

Definition LoadMaterialSpecularColor (st : DState Images)
  : outcome (DState Images) :=
  let* (data, file) := XBlock.LoadVec4Block (st_file st) in
  assign_active (assign_material MaterialO.set_color_specular data)
    (with_file file st).

Definition LoadMaterialReflectiveColor (st : DState Images)
  : outcome (DState Images) :=
  let* (data, file) := XBlock.LoadVec4Block (st_file st) in
  assign_active (assign_material MaterialO.set_color_reflective data)
    (with_file file st).

Definition LoadMaterialReflective (st : DState Images)
  : outcome (DState Images) :=
  let* (data, file) := XBlock.LoadVec2Block (st_file st) in
  assign_active (assign_material MaterialO.set_reflective data)
    (with_file file st).

Definition LoadMaterialBlinn (st : DState Images) : outcome (DState Images) :=
  let* (data, file) := XBlock.LoadVec2Block (st_file st) in
  assign_active (assign_material MaterialO.set_blinn data) (with_file file st).

Definition LoadMaterialPhong (st : DState Images) : outcome (DState Images) :=
  let* (data, file) := XBlock.LoadFloatBlock (st_file st) in
  assign_active (assign_material MaterialO.set_phong data) (with_file file st).

(* Animation *)
Definition LoadPartCount (st : DState Images) : outcome (DState Images) :=
  let* (n, file) := XBlock.LoadInt16Block (st_file st) in
  Ok (set_parts (py_repeat None n) (with_file file st)).

Definition LoadPartInfo (st : DState Images) : outcome (DState Images) :=
  let* (index, name, file) := XBlock.LoadObjectBlock (st_file st) in
  let st := with_file file st in
  let* ps := py_setitem (parts (st_self st)) index
               (Some (mkPartInfo name)) in
  Ok (set_parts ps st).

Definition LoadPartIndex (st : DState Images) : outcome (DState Images) :=
  let* (index, file) := XBlock.LoadInt16Block (st_file st) in
  let st := with_file file st in
  let '(frame_part, st) := alloc (OFramePart (FramePartO.mk None [])) st in
  let* (a, o) := deref st (active_frame (st_state st)) in
  let* o := parts_setitem index frame_part o in
  Ok (set_active_thing (Some frame_part) (store a o st)).

Definition LoadFramerate (st : DState Images) : outcome (DState Images) :=
  let* (n, file) := XBlock.LoadInt16Block (st_file st) in
  Ok (set_framerate (Some n) (with_file file st)).

Definition LoadFrameCount (st : DState Images) : outcome (DState Images) :=
  let* (_, file) := XBlock.LoadInt32Block (st_file st) in
  Ok (with_file file st).

Definition LoadFrameIndex (st : DState Images) : outcome (DState Images) :=
  let* (n, file) := XBlock.LoadInt32Block (st_file st) in
  let st := with_file file st in
  let frame := FrameO.mk n (py_repeat None (len (parts (st_self st)))) in
  let '(a, st) := alloc (OFrame frame) st in
  let st := set_active_frame (Some a) st in
  Ok (set_frames (frames (st_self st) ++ [a]) st).

Definition LoadNotetracksBegin (st : DState Images)
  : outcome (DState Images) :=
  let dummy_frame :=
    FrameO.mk (-1) (py_repeat None (len (parts (st_self st)))) in
  let '(a, st) := alloc (OFrame dummy_frame) st in
  let st := set_active_frame (Some a) st in
  let* (_, file) := XBlock.LoadInt16Block (st_file st) in
  Ok (with_file file st).

Definition LoadNoteFrame (st : DState Images) : outcome (DState Images) :=
  let* (frame, string, file) := XBlock.LoadNoteFrameBlock (st_file st) in
  let st := with_file file st in
  Ok (set_notes (notes (st_self st) ++ [mkNote frame string]) st).

Definition XBlock_LoadCommentBlock (st : DState Images)
  : outcome (DState Images) :=
  let* (_, file) := XBlock.LoadCommentBlock (st_file st) in
  Ok (with_file file st).

Definition XBlock_LoadInt16Block (st : DState Images)
  : outcome (DState Images) :=
  let* (_, file) := XBlock.LoadInt16Block (st_file st) in
  Ok (with_file file st).

(** The functions stored in [hashmap], by name. *)
Inductive handler : Type :=
  | H_XBlock_LoadCommentBlock | H_InitModel | H_InitAnim
  | H_XBlock_LoadInt16Block
  | H_LoadBoneCount | H_LoadCosmeticCount | H_LoadBoneInfo | H_LoadBoneIndex
  | H_LoadOffset | H_LoadBoneScale | H_LoadBoneMatrix
  | H_LoadVertexCount | H_LoadVertex32Count | H_LoadVertexIndex
  | H_LoadVertex32Index | H_LoadVertexWeightCount | H_LoadVertexWeight
  | H_LoadTriCount | H_LoadTriInfo | H_LoadTri16Info | H_LoadTriVertNormal
  | H_LoadTriVertColor | H_LoadTriVertUV
  | H_LoadObjectCount | H_LoadObjectInfo
  | H_LoadMaterialCount | H_LoadMaterialInfo | H_LoadMaterialTransparency
  | H_LoadMaterialAmbientColor | H_LoadMaterialIncandescence
  | H_LoadMaterialCoeffs | H_LoadMaterialGlow | H_LoadMaterialRefractive
  | H_LoadMaterialSpecularColor | H_LoadMaterialReflectiveColor
  | H_LoadMaterialReflective | H_LoadMaterialBlinn | H_LoadMaterialPhong
  | H_LoadPartCount | H_LoadPartInfo | H_LoadPartIndex | H_LoadFramerate
  | H_LoadFrameCount | H_LoadFrameIndex
  | H_LoadNotetracksBegin | H_LoadNoteFrame.

(** Calling a stored function on the file: [data[1](file)]. *)
Definition call (h : handler) (st : DState Images) : outcome (DState Images) :=
  match h with
  | H_XBlock_LoadCommentBlock => XBlock_LoadCommentBlock st
  | H_InitModel => InitModel st
  | H_InitAnim => InitAnim st
  | H_XBlock_LoadInt16Block => XBlock_LoadInt16Block st
  | H_LoadBoneCount => LoadBoneCount st
  | H_LoadCosmeticCount => LoadCosmeticCount st
  | H_LoadBoneInfo => LoadBoneInfo st
  | H_LoadBoneIndex => LoadBoneIndex st
  | H_LoadOffset => LoadOffset st
  | H_LoadBoneScale => LoadBoneScale st
  | H_LoadBoneMatrix => LoadBoneMatrix st
  | H_LoadVertexCount => LoadVertexCount st
  | H_LoadVertex32Count => LoadVertex32Count st
  | H_LoadVertexIndex => LoadVertexIndex st
  | H_LoadVertex32Index => LoadVertex32Index st
  | H_LoadVertexWeightCount => LoadVertexWeightCount st
  | H_LoadVertexWeight => LoadVertexWeight st
  | H_LoadTriCount => LoadTriCount st
  | H_LoadTriInfo => LoadTriInfo st
  | H_LoadTri16Info => LoadTri16Info st
  | H_LoadTriVertNormal => LoadTriVertNormal st
  | H_LoadTriVertColor => LoadTriVertColor st
  | H_LoadTriVertUV => LoadTriVertUV st
  | H_LoadObjectCount => LoadObjectCount st
  | H_LoadObjectInfo => LoadObjectInfo st
  | H_LoadMaterialCount => LoadMaterialCount st
  | H_LoadMaterialInfo => LoadMaterialInfo st
  | H_LoadMaterialTransparency => LoadMaterialTransparency st
  | H_LoadMaterialAmbientColor => LoadMaterialAmbientColor st
  | H_LoadMaterialIncandescence => LoadMaterialIncandescence st
  | H_LoadMaterialCoeffs => LoadMaterialCoeffs st
  | H_LoadMaterialGlow => LoadMaterialGlow st
  | H_LoadMaterialRefractive => LoadMaterialRefractive st
  | H_LoadMaterialSpecularColor => LoadMaterialSpecularColor st
  | H_LoadMaterialReflectiveColor => LoadMaterialReflectiveColor st
  | H_LoadMaterialReflective => LoadMaterialReflective st
  | H_LoadMaterialBlinn => LoadMaterialBlinn st
  | H_LoadMaterialPhong => LoadMaterialPhong st
  | H_LoadPartCount => LoadPartCount st
  | H_LoadPartInfo => LoadPartInfo st
  | H_LoadPartIndex => LoadPartIndex st
  | H_LoadFramerate => LoadFramerate st
  | H_LoadFrameCount => LoadFrameCount st
  | H_LoadFrameIndex => LoadFrameIndex st
  | H_LoadNotetracksBegin => LoadNotetracksBegin st
  | H_LoadNoteFrame => LoadNoteFrame st
  end.

(** The dispatch table, in the order of the source. *)
Definition hashmap : list (Z * (string * option handler)) :=
  [ (0xC355, ("Comment block", Some H_XBlock_LoadCommentBlock));
    (0x46C8, ("Model identification block", Some H_InitModel));
    (0x7AAC, ("Animation block", Some H_InitAnim));
    (0x24D1, ("Version block", Some H_XBlock_LoadInt16Block));
    (* Model Specific *)
    (0x76BA, ("Bone count block", Some H_LoadBoneCount));
    (0x7836, ("Cosmetic bone count block", Some H_LoadCosmeticCount));
    (0xF099, ("Bone block", Some H_LoadBoneInfo));
    (0xDD9A, ("Bone index block", Some H_LoadBoneIndex));
    (0x9383, ("Vert / Bone offset block", Some H_LoadOffset));
    (0x1C56, ("Bone scale block", Some H_LoadBoneScale));
    (0xDCFD, ("Bone x matrix", Some H_LoadBoneMatrix));
    (0xCCDC, ("Bone y matrix", Some H_LoadBoneMatrix));
    (0xFCBF, ("Bone z matrix", Some H_LoadBoneMatrix));
    (0x950D, ("Number of verts", Some H_LoadVertexCount));
    (0x2AEC, ("Number of verts32", Some H_LoadVertex32Count));
    (0x8F03, ("Vert info block marker", Some H_LoadVertexIndex));
    (0xB097, ("Vert32 info block marker", Some H_LoadVertex32Index));
    (0xEA46, ("Vert weighted bones count", Some H_LoadVertexWeightCount));
    (0xF1AB, ("Vert bone weight info", Some H_LoadVertexWeight));
    (0xBE92, ("Number of faces block", Some H_LoadTriCount));
    (0x562F, ("Triangle info block", Some H_LoadTriInfo));
    (0x6711, ("Triangle info (16) block", Some H_LoadTri16Info));
    (0x89EC, ("Normal info", Some H_LoadTriVertNormal));
    (0x6DD8, ("Color info", Some H_LoadTriVertColor));
    (0x1AD4, ("UV info", Some H_LoadTriVertUV));
    (0x62AF, ("Number of objects block", Some H_LoadObjectCount));
    (0x87D4, ("Object info block", Some H_LoadObjectInfo));
    (0xA1B2, ("Number of materials", Some H_LoadMaterialCount));
    (0xA700, ("Material info block", Some H_LoadMaterialInfo));
    (0x6DAB, ("Material transparency", Some H_LoadMaterialTransparency));
    (0x37FF, ("Material ambient color", Some H_LoadMaterialAmbientColor));
    (0x4265, ("Material incandescence", Some H_LoadMaterialIncandescence));
    (0xC835, ("Material coeffs", Some H_LoadMaterialCoeffs));
    (0xFE0C, ("Material glow", Some H_LoadMaterialGlow));
    (0x7E24, ("Material refractive", Some H_LoadMaterialRefractive));
    (0x317C, ("Material specular color", Some H_LoadMaterialSpecularColor));
    (0xE593, ("Material reflective color",
              Some H_LoadMaterialReflectiveColor));
    (0x7D76, ("Material reflective", Some H_LoadMaterialReflective));
    (0x83C7, ("Material blinn", Some H_LoadMaterialBlinn));
    (0x5CD2, ("Material phong", Some H_LoadMaterialPhong));
    (* Animation Specific *)
    (0x9279, ("NumParts block", Some H_LoadPartCount));
    (0x360B, ("Part info block", Some H_LoadPartInfo));
    (0x745A, ("Part index block", Some H_LoadPartIndex));
    (0x92D3, ("Framerate block", Some H_LoadFramerate));
    (0xB917, ("NumFrames block", Some H_LoadFrameCount));
    (0xC723, ("Frame block", Some H_LoadFrameIndex));
    (0xC7F3, ("Notetrack section block", Some H_LoadNotetracksBegin));
    (0x9016, ("NumTracks block", Some H_XBlock_LoadInt16Block));
    (0x7A6C, ("NumKeys block", Some H_XBlock_LoadInt16Block));
    (0x4643, ("Notetrack block", Some H_XBlock_LoadInt16Block));
    (0x1675, ("Note frame block", Some H_LoadNoteFrame));
    (* Misc (Unimplemented) *)
    (0xBCD4, ("FIRSTFRAME", None));
    (0x1FC2, ("NUMSBONES", None));
    (0xB35E, ("NUMSWEIGHTS", None));
    (0xEF69, ("QUATERNION", None));
    (0xA65B, ("NUMIKPITCHLAYERS", None));
    (0x1D7D, ("IKPITCHLAYER", None));
    (0xA58B, ("ROTATION", None));
    (0x6EEE, ("EXTRA", None)) ].

(** [hashmap[block_hash]], [None] when [block_hash not in hashmap]. *)
Fixpoint hashmap_get {V} (m : list (Z * V)) (block_hash : Z) : option V :=
  match m with
  | [] => None
  | (k, v) :: m' =>
      if k =? block_hash then Some v else hashmap_get m' block_hash
  end.

(** One turn of the loop [while data], from the [file.read(2)] that
    delivers [data]: the loop ends ([Finished]), goes on with a new state,
    or an exception leaves it. *)
Inductive turn : Type :=
  | Finished
  | Next (st : DState Images)
  | Stop (e : exn)
  | Hang.

Definition loop_turn (st : DState Images) : turn :=
  let '(data, file) := read (st_file st) 2 in
  match data with
  | [] => Finished
  | _ =>
      match unpack_ints true [fH] data with
      | Ok r =>
          match py_getitem r 0 with
          | Ok block_hash =>
              match hashmap_get hashmap block_hash with
              | Some (name, h) =>
                  let offset := tell file in
                  match h with
                  | None => Stop (NotImplementedError_block name offset)
                  | Some h =>
                      match call h (with_file file st) with
                      | Ok st' => Next st'
                      | Raise e => Stop e
                      | Diverge => Hang
                      end
                  end
              | None =>
                  let offset := tell file - 2 in
                  Stop (ValueError_unknown_block block_hash offset)
              end
          | Raise e => Stop e
          | Diverge => Hang
          end
      | Raise e => Stop e
      | Diverge => Hang
      end
  end.

(** The loop, bounded by [fuel] turns; [None] when the fuel runs out. *)
Fixpoint read_all_blocks (fuel : nat) (st : DState Images)
  : option (outcome (DState Images)) :=
  match fuel with
  | O => None
  | S fuel' =>
      match loop_turn st with
      | Finished => Some (Ok st)
      | Next st' => read_all_blocks fuel' st'
      | Stop e => Some (Raise e)
      | Hang => Some Diverge
      end
  end.

(** Every turn consumes at least the two bytes of its tag, so the size
    of the buffer bounds the number of turns. *)
Definition enough_fuel (file : BytesIO) : nat := S (length (data file)).

(** [self.__xbin_loadfile_internal__(file, expected_type)], [self] given
    by its attributes and the objects they refer to.  The result is the
    value returned ([dummy_mesh] for a model, else [None]) together with
    the final state of [self]. *)
Definition __xbin_loadfile_internal__ (self : Self) (heap : list (Obj Images))
    (file : BytesIO) : outcome (option MeshO.t * DState Images) :=
  let state := mkLoadState None None None None in
  let dummy_mesh := new_Mesh "$default" in
  match read_all_blocks (enough_fuel file)
          (mkDState file heap state self dummy_mesh) with
  | Some (Ok st) =>
      match asset_type (st_state st) with
      | Some t =>
          if String.eqb t "MODEL" then Ok (Some (st_dummy_mesh st), st)
          else Ok (None, st)
      | None => Ok (None, st)
      end
  | Some (Raise e) => Raise e
  | Some Diverge | None => Diverge
  end.
End Load.

(** *** The encoder: [__xbin_writefile_model_internal__] *)
Section Write.
Context {Images : Type}.
Variable serialize_image_string : Images -> bool -> string.
Variable lz4_compress : list byte -> list byte.

(** The table of the first vertex index of each mesh, built by
    [vert_offsets = [0]] and the loop appending to it. *)
Definition vert_offsets_of (meshes : list Mesh.t) : list Z :=
  fold_left
    (fun vert_offsets mesh =>
       let prev_index := len vert_offsets - 1 in
       vert_offsets
       ++ [nth (Z.to_nat prev_index) vert_offsets 0 + len (Mesh.verts mesh)])
    meshes [0].

(** The two families of vertex count and vertex index writers. *)
Definition pick_vertex_writers (version vert_count : Z)
  : (wfile -> Z -> outcome wfile) * (wfile -> Z -> outcome wfile) :=
  if (version =? 7) && (0xFFFF <? vert_count)
  then (XBlock.WriteVertex32Count, XBlock.WriteVertex32Index)
  else (XBlock.WriteVertex16Count, XBlock.WriteVertex16Index).

(** The statements of [__xbin_writefile_model_internal__] that fill the
    in-memory [file] are grouped below by the sections of the source; the
    bodies of its loops come first. *)

(** Comment, model marker and version. *)
Definition write_header (version : Z) (header_message : string)
    (file : wfile) : outcome wfile :=
  let* file :=
    if negb (String.eqb header_message "")
    then XBlock.WriteCommentBlock file header_message else Ok file in
  let* file := XBlock.WriteModelBlock file in
  XBlock.WriteVersionBlock file version.

Definition write_bone_info (file : wfile) (ib : Z * Bone.t) : outcome wfile :=
  let '(bone_index, bone) := ib in
  XBlock.WriteBoneInfoBlock file bone_index bone.

Definition write_bone_data (file : wfile) (ib : Z * Bone.t) : outcome wfile :=
  let '(bone_index, bone) := ib in
  let* file := XBlock.WriteBoneIndexBlock file bone_index in
  let* file := XBlock.WriteOffsetBlock file (Bone.offset bone) in
  let* file := XBlock.WriteMetaVec3Block file 0x1C56 (Bone.scale bone) in
  XBlock.WriteMatrixBlock file (Bone.matrix bone).

Definition write_bones (model : Model.t Images) (file : wfile)
  : outcome wfile :=
  let cosmetic_count :=
    len (List.filter (fun bone => Bone.cosmetic bone) (Model.bones model)) in
  let* file := XBlock.WriteBoneCountBlock file (len (Model.bones model)) in
  let* file :=
    if 0 <? cosmetic_count
    then XBlock.WriteCosmeticInfoBlock file cosmetic_count else Ok file in
  let* file := for_each (enumerate (Model.bones model)) write_bone_info file in
  for_each (enumerate (Model.bones model)) write_bone_data file.

Definition write_vert (WriteVertexIndexBlock : wfile -> Z -> outcome wfile)
    (vert_offset : Z) (file : wfile) (iv : Z * Vertex.t) : outcome wfile :=
  let '(vert_index, vert) := iv in
  let* file := WriteVertexIndexBlock file (vert_index + vert_offset) in
  let* file := XBlock.WriteOffsetBlock file (Vertex.offset vert) in
  let* file := XBlock.WriteMetaInt16Block file 0xEA46
                 (len (Vertex.weights vert)) in
  for_each (Vertex.weights vert)
    (fun file weight => XBlock.WriteVertexWeightBlock file weight) file.

Definition write_mesh_verts
    (WriteVertexIndexBlock : wfile -> Z -> outcome wfile)
    (vert_offsets : list Z) (file : wfile) (im : Z * Mesh.t)
  : outcome wfile :=
  let '(mesh_index, mesh) := im in
  let* vert_offset := py_getitem vert_offsets mesh_index in
  for_each (enumerate (Mesh.verts mesh))
    (write_vert WriteVertexIndexBlock vert_offset) file.

Definition write_verts
    (WriteVertexCountBlock WriteVertexIndexBlock : wfile -> Z -> outcome wfile)
    (model : Model.t Images) (vert_offsets : list Z) (vert_count : Z)
    (file : wfile) : outcome wfile :=
  let* file := WriteVertexCountBlock file vert_count in
  for_each (enumerate (Model.meshes model))
    (write_mesh_verts WriteVertexIndexBlock vert_offsets) file.

(** The body of [for i in range(3)] for one corner of a face. *)
Definition write_corner (WriteVertexIndexBlock : wfile -> Z -> outcome wfile)
    (face : Face.t) (vert_offset : Z) (file : wfile) (i : Z)
  : outcome wfile :=
  let* ind := py_getitem (Face.indices face) i in
  let* file :=
    WriteVertexIndexBlock file (FaceVertex.vertex ind + vert_offset) in
  let* file := XBlock.WriteFaceVertexNormalBlock file (FaceVertex.normal ind) in
  let* file := XBlock.WriteColorBlock file (FaceVertex.color ind) in
  XBlock.WriteFaceVertexUVBlock file 1 (FaceVertex.uv ind).

Definition write_face (WriteVertexIndexBlock : wfile -> Z -> outcome wfile)
    (vert_offset : Z) (file : wfile) (face : Face.t) : outcome wfile :=
  let* file := XBlock.WriteFaceInfoBlock file face in
  for_each [0; 1; 2] (write_corner WriteVertexIndexBlock face vert_offset)
    file.

Definition write_mesh_faces
    (WriteVertexIndexBlock : wfile -> Z -> outcome wfile)
    (vert_offsets : list Z) (file : wfile) (im : Z * Mesh.t)
  : outcome wfile :=
  let '(mesh_index, mesh) := im in
  let* vert_offset := py_getitem vert_offsets mesh_index in
  for_each (Mesh.faces mesh) (write_face WriteVertexIndexBlock vert_offset)
    file.

(* Faces *)
Definition write_faces (WriteVertexIndexBlock : wfile -> Z -> outcome wfile)
    (model : Model.t Images) (vert_offsets : list Z) (file : wfile)
  : outcome wfile :=
  let face_count :=
    fold_right Z.add 0 (map (fun mesh => len (Mesh.faces mesh))
                          (Model.meshes model)) in
  let* file := XBlock.WriteMetaInt32Block file 0xBE92 face_count in
  for_each (enumerate (Model.meshes model))
    (write_mesh_faces WriteVertexIndexBlock vert_offsets) file.

Definition write_object (file : wfile) (im : Z * Mesh.t) : outcome wfile :=
  let '(mesh_index, mesh) := im in
  XBlock.WriteMetaObjectInfo file 0x87D4 mesh_index (Mesh.name mesh).

(* Objects *)
Definition write_objects (model : Model.t Images) (file : wfile)
  : outcome wfile :=
  let* file := XBlock.WriteMetaInt16Block file 0x62AF
                 (len (Model.meshes model)) in
  for_each (enumerate (Model.meshes model)) write_object file.

(** The body of the loop over the materials. *)
Definition write_material (extended_features : bool) (file : wfile)
    (im : Z * Material.t Images) : outcome wfile :=
  let '(material_index, material) := im in
  let* file := XBlock.WriteMaterialInfoBlock serialize_image_string file
                 material_index material extended_features in
  let* file := XBlock.WriteColorBlock file (Material.color material) in
  let* file := XBlock.WriteMetaVec4Block file 0x6DAB
                 (Material.transparency material) in
  let* file := XBlock.WriteMetaVec4Block file 0x37FF
                 (Material.color_ambient material) in
  let* file := XBlock.WriteMetaVec4Block file 0x4265
                 (Material.incandescence material) in
  let* file := XBlock.WriteMetaVec2Block file 0xC835
                 (Material.coeffs material) in
  let* file := XBlock.WriteMetaVec2Block file 0xFE0C
                 (Material.glow material) in
  let* file := XBlock.WriteMetaVec2Block file 0x7E24
                 (Material.refractive material) in
  let* file := XBlock.WriteMetaVec4Block file 0x317C
                 (Material.color_specular material) in
  let* file := XBlock.WriteMetaVec4Block file 0xE593
                 (Material.color_reflective material) in
  let* file := XBlock.WriteMetaVec2Block file 0x7D76
                 (Material.reflective material) in
  let* file := XBlock.WriteMetaVec2Block file 0x83C7
                 (Material.blinn material) in
  XBlock.WriteMetaFloatBlock file 0x5CD2 (Material.phong material).

(* Materials *)
Definition write_materials (extended_features : bool)
    (model : Model.t Images) (file : wfile) : outcome wfile :=
  let* file := XBlock.WriteMetaInt16Block file 0xA1B2
                 (len (Model.materials model)) in
  for_each (enumerate (Model.materials model))
    (write_material extended_features) file.

(** The in-memory [file] at the call of [__compress_internal__]. *)
Definition write_model_blocks (self : Model.t Images) (version : Z)
    (extended_features : bool) (header_message : string) : outcome wfile :=
  let model := self in
  let file : wfile := [] in
  let version := 7 in
  let* file := write_header version header_message file in
  let* file := write_bones model file in
  (* Used to offset the vertex indices for each mesh *)
  let vert_offsets := vert_offsets_of (Model.meshes model) in
  let* vert_count := py_getitem vert_offsets (len vert_offsets - 1) in
  let '(WriteVertexCountBlock, WriteVertexIndexBlock) :=
    pick_vertex_writers version vert_count in
  let* file := write_verts WriteVertexCountBlock WriteVertexIndexBlock model
                 vert_offsets vert_count file in
  let* file := write_faces WriteVertexIndexBlock model vert_offsets file in
  let* file := write_objects model file in
  write_materials extended_features model file.

(** [self.__xbin_writefile_model_internal__(filepath, version,
    extended_features, header_message)]: the content of the file written
    at [filepath]. *)
Definition __xbin_writefile_model_internal__ (self : Model.t Images)
    (version : Z) (extended_features : bool) (header_message : string)
  : outcome (list byte) :=
  let* file := write_model_blocks self version extended_features
                 header_message in
  __compress_internal__ lz4_compress file.
End Write.

End XBinIO.

(** ** Vocabulary of the statements *)

(** A writer turned [f] into [f'] by appending chunks whose tags are
    [tags]. *)
Definition emits (f f' : wfile) (tags : list Z) : Prop :=
  exists out, f' = f ++ out /\ map chunk_tag out = tags.

(** The number of occurrences of [tag] in [tags]. *)
Definition count_tag (tag : Z) (tags : list Z) : nat :=
  length (List.filter (fun t => t =? tag) tags).

(** The tags of the blocks that follow a material-info block in the
    format description, and the ones the encoder writes. *)
Definition spec_material_tags : list Z :=
  [0x6DAB; 0x37FF; 0x4265; 0xC835; 0xFE0C; 0x7E24; 0x317C; 0xE593; 0x7D76;
   0x83C7; 0x5CD2].

Definition material_tags : list Z := 0xA700 :: 0x6DD8 :: spec_material_tags.

(** [tags] has every material-info tag immediately followed by [after]. *)
Fixpoint follows_material_info (after : list Z) (tags : list Z) : bool :=
  match tags with
  | [] => true
  | t :: tags' =>
      (if t =? 0xA700
       then bool_decide (take (length after) tags' = after) else true)
      && follows_material_info after tags'
  end.

(** The running sums of the vertex counts of the meshes, from [base]. *)
Fixpoint offsets_from (base : Z) (meshes : list Mesh.t) : list Z :=
  match meshes with
  | [] => []
  | mesh :: meshes' =>
      (base + len (Mesh.verts mesh))
      :: offsets_from (base + len (Mesh.verts mesh)) meshes'
  end.

(** The tags that occur in the part of a model file written before its
    materials. *)
Definition geometry_tag_values : list Z :=
  [0x76BA; 0x7836; 0xF099; 0xDD9A; 0x9383; 0x1C56; 0xDCFD; 0x950D; 0x2AEC;
   0x8F03; 0xB097; 0xEA46; 0xF1AB; 0xBE92; 0x562F; 0x6711; 0x89EC; 0x6DD8;
   0x1AD4; 0x62AF; 0x87D4; 0xA1B2].

Definition mem_tag (t : Z) (values : list Z) : bool :=
  existsb (fun v => v =? t) values.

(** A model of one material and nothing else, over image tables that are
    their own serialization. *)
Definition unit4 : list float :=
  [float_of_int 0; float_of_int 0; float_of_int 0; float_of_int 1].
Definition unit2 : list float := [float_of_int 1; float_of_int 1].

Definition one_material : Material.t string :=
  Material.mk "mtl" "lambert" "color:a.tga" unit4 unit4 unit4 unit4 unit2
    unit2 unit2 unit4 unit4 unit2 unit2 (VFloat (float_of_int 20)).

Definition one_material_model : Model.t string :=
  Model.mk [] [] [one_material].

Definition plain_images (images : string) (extended_features : bool)
  : string := images.

(** A model of two bones, the second cosmetic, and two meshes; the face of
    the second mesh refers to its own first vertex. *)
Definition axis (x y z : Z) : list float :=
  [float_of_int x; float_of_int y; float_of_int z].

Definition sample_bone (name : string) (parent : Z) (cosmetic : bool)
  : Bone.t :=
  Bone.mk name parent cosmetic (axis 1 2 3) (axis 1 1 1)
    [axis 1 0 0; axis 0 1 0; [float_of_int 0; float_quarter; float_of_int 1]].

Definition sample_vertex (y : Z) (weights : list (Z * float)) : Vertex.t :=
  Vertex.mk (axis 0 y 1) weights.

Definition sample_corner (vertex : Z) : FaceVertex.t :=
  FaceVertex.mk vertex (axis 0 0 1)
    [float_of_int 1; float_of_int 0; float_quarter; float_of_int 1]
    [float_quarter; float_of_int 1].

Definition two_mesh_model : Model.t string :=
  Model.mk
    [sample_bone "root" (-1) false; sample_bone "tag" 0 true]
    [Mesh.mk "body"
       [sample_vertex 0 [(0, float_of_int 1)];
        sample_vertex 5 [(0, float_quarter); (1, float_quarter)]]
       [Face.mk 0 0 [sample_corner 0; sample_corner 1; sample_corner 0]];
     Mesh.mk "head"
       [sample_vertex 7 []]
       [Face.mk 1 0 [sample_corner 0; sample_corner 0; sample_corner 0]]]
    [one_material].

(** The sequence of the tags of the chunks the model encoder writes. *)
Section ModelTags.
Context {Images : Type}.

Definition total_verts (model : Model.t Images) : Z :=
  fold_right Z.add 0 (map (fun mesh => len (Mesh.verts mesh))
                        (Model.meshes model)).

Definition total_faces (model : Model.t Images) : Z :=
  fold_right Z.add 0 (map (fun mesh => len (Mesh.faces mesh))
                        (Model.meshes model)).

Definition cosmetic_count (model : Model.t Images) : Z :=
  len (List.filter (fun bone => Bone.cosmetic bone) (Model.bones model)).

(** The tag family selected by the vertex count. *)
Definition wide (model : Model.t Images) : bool := 0xFFFF <? total_verts model.
Definition vertex_count_tag (w : bool) : Z := if w then 0x2AEC else 0x950D.
Definition vertex_index_tag (w : bool) : Z := if w then 0xB097 else 0x8F03.

Definition face_info_tag (face : Face.t) : Z :=
  if (255 <? Face.mesh_id face) || (255 <? Face.material_id face)
  then 0x6711 else 0x562F.

Definition vert_tags (w : bool) (vert : Vertex.t) : list Z :=
  [vertex_index_tag w; 0x9383; 0xEA46]
  ++ replicate (length (Vertex.weights vert)) 0xF1AB.

Definition corner_tags (w : bool) : list Z :=
  [vertex_index_tag w; 0x89EC; 0x6DD8; 0x1AD4].

Definition face_tags (w : bool) (face : Face.t) : list Z :=
  face_info_tag face :: corner_tags w ++ corner_tags w ++ corner_tags w.

Definition header_tags (header_message : string) : list Z :=
  (if negb (String.eqb header_message "") then [0xC355] else [])
  ++ [0x46C8; 0x24D1].

Definition bones_tags (model : Model.t Images) : list Z :=
  [0x76BA]
  ++ (if 0 <? cosmetic_count model then [0x7836] else [])
  ++ concat (map (fun _ : Bone.t => [0xF099]) (Model.bones model))
  ++ concat (map (fun _ : Bone.t => [0xDD9A; 0x9383; 0x1C56; 0xDCFD])
               (Model.bones model)).

Definition verts_tags (model : Model.t Images) : list Z :=
  [vertex_count_tag (wide model)]
  ++ concat (map (fun mesh => concat (map (vert_tags (wide model))
                                        (Mesh.verts mesh)))
               (Model.meshes model)).

Definition faces_tags (model : Model.t Images) : list Z :=
  [0xBE92]
  ++ concat (map (fun mesh => concat (map (face_tags (wide model))
                                        (Mesh.faces mesh)))
               (Model.meshes model)).

Definition objects_tags (model : Model.t Images) : list Z :=
  [0x62AF] ++ concat (map (fun _ : Mesh.t => [0x87D4]) (Model.meshes model)).

Definition materials_tags (model : Model.t Images) : list Z :=
  [0xA1B2]
  ++ concat (map (fun _ : Material.t Images => material_tags)
               (Model.materials model)).

Definition body_tags (model : Model.t Images) : list Z :=
  bones_tags model ++ verts_tags model ++ faces_tags model
  ++ objects_tags model ++ materials_tags model.

Definition model_tags (model : Model.t Images) (header_message : string)
  : list Z :=
  header_tags header_message ++ body_tags model.
End ModelTags.

(** ** Vocabulary for the decode loop *)

(** The cursor moved forward over the same buffer. *)
Definition advances (f f' : BytesIO) : Prop :=
  data f' = data f /\ pos f <= pos f' /\ 0 <= pos f'.

(** Sizes for which [padded] is exact on every offset of the buffer. *)
Definition padded_exact (file : BytesIO) : Prop :=
  len (data file) < 2 ^ 56 - 8.

Section Reaches.
Context {Images : Type}.
Variable deserialize_image_string : string -> Images.
Variable expected_type : string.

(** [reaches st st']: the loop, started in [st], arrives in [st'] after
    some turns. *)
Inductive reaches (st : DState Images) : DState Images -> Prop :=
  | reaches_here : reaches st st
  | reaches_turn (st' st'' : DState Images) :
      reaches st st' ->
      XBinIO.loop_turn deserialize_image_string expected_type st'
      = XBinIO.Next st'' ->
      reaches st st''.

(** The state in which [__xbin_loadfile_internal__] enters its loop. *)
Definition initial_state (self : Self) (heap : list (Obj Images))
    (file : BytesIO) : DState Images :=
  mkDState file heap (mkLoadState None None None None) self
    (XBinIO.new_Mesh "$default").
End Reaches.

(** The tags of the table that have no reader. *)
Definition unsupported_tags : list (Z * string) :=
  [(0xBCD4, "FIRSTFRAME"); (0x1FC2, "NUMSBONES"); (0xB35E, "NUMSWEIGHTS");
   (0xEF69, "QUATERNION"); (0xA65B, "NUMIKPITCHLAYERS");
   (0x1D7D, "IKPITCHLAYER"); (0xA58B, "ROTATION"); (0x6EEE, "EXTRA")].

(** A new [self], before anything is loaded into it. *)
Definition new_self : Self := mkSelf [] 0 [] [] [] None [] [].

(** Buffers used to exercise the handlers: a model marker followed by the
    QUATERNION tag; a bone-info block (index 8, parent 0, name "b"); a
    16-bit vertex-index block (index 1). *)
Definition quaternion_stream : list byte :=
  [xc8; x46; x00; x00; x69; xef].

Definition bone_info_block : list byte :=
  [x99; xf0; x00; x00; x08; x00; x00; x00; x00; x00; x00; x00;
   x62; x00; x00; x00].

Definition vertex_index_block : list byte := [x03; x8f; x01; x00].

(** A state with ten bone slots and three cosmetic bones announced, and a
    state with two vertex slots, both with the cursor after the tag of
    the block above. *)
Definition ten_bones_state : DState string :=
  mkDState (mkBytesIO bone_info_block 2) []
    (mkLoadState None None None (Some "MODEL"))
    (mkSelf (py_repeat None 10) 3 [] [] [] None [] [])
    (XBinIO.new_Mesh "$default").

Definition two_slots_state : DState string :=
  mkDState (mkBytesIO vertex_index_block 2) []
    (mkLoadState None None None (Some "MODEL")) new_self
    (MeshO.mk "$default" [None; None] []).

(** The same with a face active. *)
Definition face_active_state : DState string :=
  mkDState (mkBytesIO vertex_index_block 2) [OFace (XBinIO.new_Face 0 0)]
    (mkLoadState None (Some 0%nat) None (Some "MODEL")) new_self
    (MeshO.mk "$default" [None; None] [0%nat]).

(** ** Values as they come back from the wire *)

(** The four bytes ['f'] packs a float into, and the float read back from
    them: the binary32 image of [x]. *)
Definition f32_bytes (x : float) : list byte :=
  le_bytes 4 (float32_bits (float32_round x)).
Definition f32 (x : float) : float := unpack_float (f32_bytes x).

(** The 16-bit fixed-point image of a component: the short written by
    [__clamp_float_to_short__], divided by 32767.0 on reading. *)
Definition short_of (v : float) : Z :=
  match __clamp_float_to_short__ v with Ok q => q | _ => 0 end.
Definition q16 (v : float) : float :=
  float_div (float_of_int (short_of v)) (float_of_int 32767).

(** The 8-bit image of a colour component: [int(c * 255)], divided by
    255.0 on reading. *)
Definition byte_of_color (c : float) : Z :=
  match int_of_float (float_mul c (float_of_int 255)) with
  | Ok q => q
  | _ => 0
  end.
Definition q8 (c : float) : float :=
  float_div (float_of_int (byte_of_color c)) (float_of_int 255).

(** A value written with ['I'] and read with ['i']. *)
Definition sint32 (v : Z) : Z := unpack_int true (le_bytes 4 v).

(** A string that survives the wire: no NUL byte inside, well-formed
    UTF-8, and a size that fits a 32-bit length. *)
Definition wire_string (s : string) : Prop :=
  ~ In x00 (list_byte_of_string s)
  /\ utf8_valid (list_byte_of_string s) = true
  /\ len (list_byte_of_string s) < 2 ^ 32.

(** ** The layout of the blocks

    What each [Write...] function of [XBlock] hands to [file.write], read
    off its [struct] format: the tag, the alignment bytes and the fields. *)
Definition strfield (n : Z) (s : list byte) : list byte :=
  take (Z.to_nat n) s ++ replicate (Z.to_nat n - length s) x00.

Definition blk_model : list byte := le_bytes 2 0x46C8 ++ [x00; x00].

Definition blk_int16 (tag v : Z) : list byte := le_bytes 2 tag ++ le_bytes 2 v.

Definition blk_int32 (tag v : Z) : list byte :=
  le_bytes 2 tag ++ [x00; x00] ++ le_bytes 4 v.

Definition blk_floats (tag : Z) (vec : list float) : list byte :=
  le_bytes 2 tag ++ [x00; x00] ++ concat (map f32_bytes vec).

Definition blk_shorts (tag : Z) (qs : list Z) : list byte :=
  le_bytes 2 tag ++ concat (map (le_bytes 2) qs).

Definition blk_color (cs : list Z) : list byte :=
  le_bytes 2 0x6DD8 ++ [x00; x00] ++ concat (map (le_bytes 1) cs).

Definition blk_weight (w : Z * float) : list byte :=
  le_bytes 2 0xF1AB ++ le_bytes 2 (fst w) ++ f32_bytes (snd w).

Definition blk_uv (layer : Z) (uv : list float) : list byte :=
  le_bytes 2 0x1AD4 ++ le_bytes 2 layer ++ concat (map f32_bytes uv).

Definition blk_face (face : Face.t) : list byte :=
  if (255 <? Face.mesh_id face) || (255 <? Face.material_id face)
  then le_bytes 2 0x6711 ++ le_bytes 2 0
       ++ le_bytes 2 (Face.mesh_id face) ++ le_bytes 2 (Face.material_id face)
  else le_bytes 2 0x562F
       ++ le_bytes 1 (Face.mesh_id face) ++ le_bytes 1 (Face.material_id face).

Definition blk_comment (comment : string) : list byte :=
  let s := encode_utf8 comment in
  le_bytes 2 0xC355 ++ [x00; x00] ++ strfield (len s + 1) s.

Definition blk_bone (bone_index : Z) (bone : Bone.t) : list byte :=
  let s := __str2bytes__ (Bone.name bone) in
  le_bytes 2 0xF099 ++ [x00; x00] ++ le_bytes 4 bone_index
  ++ le_bytes 4 (Bone.parent bone) ++ strfield (padded (len s + 1)) s.

Definition blk_object (index : Z) (name : string) : list byte :=
  let s := __str2bytes__ name in
  le_bytes 2 0x87D4 ++ le_bytes 2 index ++ strfield (padded (len s + 1)) s.

Definition blk_material (index : Z) (name type images : string) : list byte :=
  let field (s : string) :=
    strfield (padded (len (__str2bytes__ s) + 1)) (__str2bytes__ s) in
  le_bytes 2 0xA700 ++ le_bytes 2 index
  ++ field name ++ field type ++ field images.

(** The float a [phong] attribute is packed from. *)
Definition float_of_val (v : val) : float :=
  match v with
  | VFloat x => x
  | VInt z => float_of_int z
  | _ => S754_zero false
  end.

Definition is_short (q : Z) : Prop := - 32768 <= q < 32768.
Definition is_byte (q : Z) : Prop := 0 <= q < 256.

(** ** The decoder at a block *)

(** The cursor of [f] is inside the buffer, at the bytes [bs]. *)
Definition sees (f : BytesIO) (bs : list byte) : Prop :=
  0 <= pos f <= len (data f) /\ drop (Z.to_nat (pos f)) (data f) = bs.

(** A list of references of which the first [g] are set, to the objects
    from the address [a0] on, and [r] are still [None]. *)
Definition slots (a0 g r : nat) : list (option addr) :=
  map Some (seq a0 g) ++ replicate r None.

Section Runs.
Context {Images : Type}.
Variable deserialize_image_string : string -> Images.

(** One turn of the loop of a model decoder consumes the bytes in front
    of [rest] and changes the store, [state], [self] and [dummy_mesh] as
    given. *)
Definition turn_over (fl : BytesIO) (rest : list byte)
    (H : list (Obj Images)) (S : LoadState) (F : Self) (M : MeshO.t)
    (H' : list (Obj Images)) (S' : LoadState) (F' : Self) (M' : MeshO.t)
  : Prop :=
  exists fl',
    sees fl' rest
    /\ XBinIO.loop_turn deserialize_image_string "MODEL"
         (mkDState fl H S F M)
       = XBinIO.Next (mkDState fl' H' S' F' M').

(** The same for a sequence of turns. *)
Definition run_over (fl : BytesIO) (rest : list byte)
    (H : list (Obj Images)) (S : LoadState) (F : Self) (M : MeshO.t)
    (H' : list (Obj Images)) (S' : LoadState) (F' : Self) (M' : MeshO.t)
  : Prop :=
  exists fl',
    sees fl' rest
    /\ reaches deserialize_image_string "MODEL"
         (mkDState fl H S F M) (mkDState fl' H' S' F' M').
End Runs.

(** The two families of vertex blocks, [w] for the 32-bit one, and the
    value the decoder reads from them. *)
Definition blk_vertex_count (w : bool) (n : Z) : list byte :=
  if w then blk_int32 0x2AEC n else blk_int16 0x950D n.
Definition blk_vertex_index (w : bool) (v : Z) : list byte :=
  if w then blk_int32 0xB097 v else blk_int16 0x8F03 v.
Definition wire_index (w : bool) (v : Z) : Z := if w then sint32 v else v.

(** The blocks of float attributes of a material that follow its colour:
    tag, reader and attribute. *)
Definition material_attrs {Images : Type}
  : list (Z * XBinIO.handler
          * (option (list float) -> MaterialO.t Images -> MaterialO.t Images)
          * nat) :=
  [ (0x6DAB, XBinIO.H_LoadMaterialTransparency,
     MaterialO.set_transparency, 4%nat);
    (0x37FF, XBinIO.H_LoadMaterialAmbientColor,
     MaterialO.set_color_ambient, 4%nat);
    (0x4265, XBinIO.H_LoadMaterialIncandescence,
     MaterialO.set_incandescence, 4%nat);
    (0xC835, XBinIO.H_LoadMaterialCoeffs, MaterialO.set_coeffs, 2%nat);
    (0xFE0C, XBinIO.H_LoadMaterialGlow, MaterialO.set_glow, 2%nat);
    (0x7E24, XBinIO.H_LoadMaterialRefractive,
     MaterialO.set_refractive, 2%nat);
    (0x317C, XBinIO.H_LoadMaterialSpecularColor,
     MaterialO.set_color_specular, 4%nat);
    (0xE593, XBinIO.H_LoadMaterialReflectiveColor,
     MaterialO.set_color_reflective, 4%nat);
    (0x7D76, XBinIO.H_LoadMaterialReflective,
     MaterialO.set_reflective, 2%nat);
    (0x83C7, XBinIO.H_LoadMaterialBlinn, MaterialO.set_blinn, 2%nat);
    (0x5CD2, XBinIO.H_LoadMaterialPhong, MaterialO.set_phong, 1%nat) ].

(** ** The objects a model file is decoded into *)

Section Decoded.
Context {Images : Type}.
Variable serialize_image_string : Images -> bool -> string.
Variable deserialize_image_string : string -> Images.

(** A bone after its info block; [n] is the number of bones and [c] the
    number of cosmetic bones announced. *)
Definition dec_bone_info (n c : Z) (ib : Z * Bone.t) : BoneO.t :=
  BoneO.mk (Bone.name (snd ib)) (Bone.parent (snd ib)) (n - c <=? fst ib)
    None None None.

(** The same after its data blocks. *)
Definition dec_bone (n c : Z) (ib : Z * Bone.t) : BoneO.t :=
  BoneO.mk (Bone.name (snd ib)) (Bone.parent (snd ib)) (n - c <=? fst ib)
    (Some (map f32 (Bone.offset (snd ib))))
    (Some (map f32 (Bone.scale (snd ib))))
    (Some (map (map q16) (take 3 (Bone.matrix (snd ib))))).

Definition dec_weight (w : Z * float) : Z * float := (fst w, f32 (snd w)).

Definition dec_vertex (v : Vertex.t) : VertexO.t :=
  VertexO.mk (Some (map f32 (Vertex.offset v)))
    (Some (map dec_weight (Vertex.weights v))).

(** A corner of a face of a mesh whose first vertex has the index [off]:
    the index is the one into the vertices of the whole file. *)
Definition dec_corner (w : bool) (off : Z) (c : FaceVertex.t)
  : FaceVertexO.t :=
  FaceVertexO.mk (wire_index w (FaceVertex.vertex c + off))
    (Some (map q16 (FaceVertex.normal c)))
    (Some (map q8 (FaceVertex.color c)))
    (Some (map f32 (FaceVertex.uv c))).

(** A face stored at the address [a], followed by its three corners. *)
Definition dec_face (a : addr) (w : bool) (off : Z) (face : Face.t)
  : list (Obj Images) :=
  OFace (FaceO.mk (Face.mesh_id face) (Face.material_id face)
           [S a; S (S a); S (S (S a))])
  :: map (fun c => OFaceVertex (dec_corner w off c))
       (take 3 (Face.indices face)).

Fixpoint dec_faces (a : addr) (w : bool) (off : Z) (faces : list Face.t)
  : list (Obj Images) :=
  match faces with
  | [] => []
  | face :: faces' =>
      dec_face a w off face ++ dec_faces (4 + a)%nat w off faces'
  end.

Fixpoint face_addrs (a : addr) (n : nat) : list addr :=
  match n with
  | O => []
  | S n' => a :: face_addrs (4 + a)%nat n'
  end.

(** The faces of the meshes, the first vertex of the first mesh having
    the index [off]. *)
Fixpoint dec_mesh_faces (a : addr) (w : bool) (off : Z)
    (meshes : list Mesh.t) : list (Obj Images) :=
  match meshes with
  | [] => []
  | mesh :: meshes' =>
      dec_faces a w off (Mesh.faces mesh)
      ++ dec_mesh_faces (4 * length (Mesh.faces mesh) + a)%nat w
           (off + len (Mesh.verts mesh)) meshes'
  end.

Definition dec_material (m : Material.t Images) : MaterialO.t Images :=
  MaterialO.mk (Material.name m) (Material.type m)
    (deserialize_image_string
       (serialize_image_string (Material.images m) true))
    (Some (map q8 (Material.color m)))
    (Some (map f32 (Material.transparency m)))
    (Some (map f32 (Material.color_ambient m)))
    (Some (map f32 (Material.incandescence m)))
    (Some (map f32 (Material.coeffs m)))
    (Some (map f32 (Material.glow m)))
    (Some (map f32 (Material.refractive m)))
    (Some (map f32 (Material.color_specular m)))
    (Some (map f32 (Material.color_reflective m)))
    (Some (map f32 (Material.reflective m)))
    (Some (map f32 (Material.blinn m)))
    (Some [f32 (float_of_val (Material.phong m))]).

Definition all_verts (model : Model.t Images) : list Vertex.t :=
  concat (map Mesh.verts (Model.meshes model)).

Definition all_faces (model : Model.t Images) : list Face.t :=
  concat (map Mesh.faces (Model.meshes model)).

(** The store after the decoding of the file of [model], started with an
    empty store: bones, vertices, faces with their corners, materials. *)
Definition dec_heap (model : Model.t Images) : list (Obj Images) :=
  let n := length (Model.bones model) in
  let v := length (all_verts model) in
  map (fun ib => OBone (dec_bone (len (Model.bones model))
                          (cosmetic_count model) ib))
    (enumerate (Model.bones model))
  ++ map (fun x => OVertex (dec_vertex x)) (all_verts model)
  ++ dec_mesh_faces (n + v)%nat (wide model) 0 (Model.meshes model)
  ++ map (fun m => OMaterial (dec_material m)) (Model.materials model).

Definition dec_self (model : Model.t Images) : Self :=
  let n := length (Model.bones model) in
  let v := length (all_verts model) in
  let f := length (all_faces model) in
  mkSelf (map Some (seq 0 n)) (cosmetic_count model)
    (map (fun mesh => Some (MeshO.mk (Mesh.name mesh) [] []))
       (Model.meshes model))
    (map Some (seq (n + v + 4 * f)%nat (length (Model.materials model))))
    [] None [] [].

(** The mesh returned by the decoder: the vertices and the faces of all
    the meshes of [model]. *)
Definition dec_mesh (model : Model.t Images) : MeshO.t :=
  let n := length (Model.bones model) in
  let v := length (all_verts model) in
  MeshO.mk "$default" (map Some (seq n v))
    (face_addrs (n + v)%nat (length (all_faces model))).
End Decoded.

(** [W] is the vertex index writer of the family [w], and the same for
    the vertex count writer. *)
Definition index_writer (w : bool) (W : wfile -> Z -> outcome wfile) : Prop :=
  forall f x f',
    W f x = Ok f' ->
    f' = f ++ [blk_vertex_index w x] /\ (w = false -> 0 <= x < 65536).

Definition count_writer (w : bool) (W : wfile -> Z -> outcome wfile) : Prop :=
  forall f x f',
    W f x = Ok f' ->
    f' = f ++ [blk_vertex_count w x] /\ (w = false -> 0 <= x < 65536).

(** The part of [state] that no block of a model changes after the model
    marker. *)
Definition follows (S S' : LoadState) : Prop :=
  active_frame S' = active_frame S /\ asset_type S' = asset_type S.

(** The strings of a model all survive the wire. *)
Definition wire_model {Images : Type}
    (serialize_image_string : Images -> bool -> string)
    (model : Model.t Images) : Prop :=
  Forall (fun b => wire_string (Bone.name b)) (Model.bones model)
  /\ Forall (fun m => wire_string (Mesh.name m)) (Model.meshes model)
  /\ Forall (fun m => wire_string (Material.name m)
                      /\ wire_string (Material.type m)
                      /\ wire_string
                           (serialize_image_string (Material.images m) true))
       (Model.materials model).

(** A header message the decoder steps over: none, or one whose block
    ends on a multiple of four bytes. *)
Definition wire_header (header_message : string) : Prop :=
  header_message = ""
  \/ (wire_string header_message
      /\ (len (encode_utf8 header_message) + 1) mod 4 = 0).

(** ** A sample run

    A pair standing for [_lz4.compress] and [_lz4.uncompress]: the data is
    stored as it is, and [uncompress] drops the four bytes of the size. *)
Definition stored_compress (d : list byte) : list byte := d.
Definition stored_uncompress (b : list byte) : outcome (list byte) :=
  Ok (drop 4 b).

(** The file of [two_mesh_model] and what the decoder makes of it. *)
Definition two_mesh_file : outcome (list byte) :=
  XBinIO.__xbin_writefile_model_internal__ plain_images stored_compress
    two_mesh_model 7 false "".

Definition two_mesh_decoded
  : outcome (option MeshO.t * DState string) :=
  let* stream := two_mesh_file in
  let* raw := XBinIO.__decompress_internal__ stored_uncompress
                (mkBytesIO stream 0) in
  XBinIO.__xbin_loadfile_internal__ (fun s => s) "MODEL" new_self [] raw.

(** The vertex indices of the corners of the face stored at [a]. *)
Definition corner_indices {Images : Type} (heap : list (Obj Images))
    (a : addr) : list Z :=
  match heap !! a with
  | Some (OFace face) =>
      flat_map (fun c => match heap !! c with
                         | Some (OFaceVertex fv) => [FaceVertexO.vertex fv]
                         | _ => []
                         end)
        (FaceO.indices face)
  | _ => []
  end.

(** The corner indices of the faces of the decoded mesh, face by face,
    and those of the faces of [two_mesh_model]. *)
Definition two_mesh_decoded_corners : list (list Z) :=
  match two_mesh_decoded with
  | Ok (Some mesh, st) =>
      map (corner_indices (st_heap st)) (MeshO.faces mesh)
  | _ => []
  end.

Definition two_mesh_corners : list (list Z) :=
  map (fun face => map FaceVertex.vertex (Face.indices face))
    (all_faces two_mesh_model).

(** ** Sample values *)

(** The floats 0.5, 1.0 and 2.0. *)
Definition float_half : float := S754_finite false (2 ^ 52) (-53).
Definition float_one : float := S754_finite false (2 ^ 52) (-52).
Definition float_two : float := S754_finite false (2 ^ 52) (-51).

(** ** More block layouts *)

(** What [WriteMetaObjectInfo] hands to [file.write] for any tag: an
    object-info block (tag 0x87D4) or a part-info block (tag 0x360B). *)
Definition blk_info (tag index : Z) (name : string) : list byte :=
  let s := __str2bytes__ name in
  le_bytes 2 tag ++ le_bytes 2 index ++ strfield (padded (len s + 1)) s.

(** ** Sample states *)

(** An animation of one part with one frame decoded, at a notetrack
    section block followed by a part-index block. *)
Definition notetrack_state : DState string :=
  mkDState (mkBytesIO [xf3; xc7; x01; x00; x5a; x74; x00; x00] 0)
    [OFrame (FrameO.mk 5 [None])]
    (mkLoadState None None (Some 0%nat) (Some "ANIM"))
    (mkSelf [] 0 [] [] [Some (mkPartInfo "tag_origin")] (Some 30) [0%nat] [])
    (XBinIO.new_Mesh "$default").

(** ** Tags and readers *)

(** The decoder's table has a reader for the tag. *)
Definition has_reader (tag : Z) : bool :=
  match XBinIO.hashmap_get XBinIO.hashmap tag with
  | Some (_, Some _) => true
  | _ => false
  end.

(** ** The animation read by the encoder

    Modelled from the spec: the classes of [xanim] are outside this file.
    An animation has an ordered list of parts with their names, a
    framerate, an ordered list of frames (a frame number and, per part, an
    offset and a matrix) and an ordered list of notes (a frame number and
    a string); the parts are the [PartInfo] the decoder builds.  The
    framerate and the frame of a note go through [int(...)], and are any
    number. *)
Inductive number : Type :=
  | NInt (z : Z)
  | NFloat (x : float).

(** [int(n)] *)
Definition py_int (n : number) : outcome Z :=
  match n with
  | NInt z => Ok z
  | NFloat x => int_of_float x
  end.

Module FramePart.
Record t : Type := mk {
  offset : list float;
  matrix : list (list float)
}.
End FramePart.

Module Frame.
Record t : Type := mk {
  frame : Z;
  parts : list FramePart.t
}.
End Frame.

Module AnimNote.
Record t : Type := mk {
  frame : number;
  string : String.string
}.
End AnimNote.

Module Anim.
Record t : Type := mk {
  parts : list PartInfo;
  framerate : number;
  frames : list Frame.t;
  notes : list AnimNote.t
}.
End Anim.

(** [file.tell()] on a [BytesIO] that has only been written to. *)
Definition tell_written (file : wfile) : Z := len (getvalue file).

(** ["\0" * n] *)
Definition nul_str (n : Z) : string :=
  string_of_list_byte (replicate (Z.to_nat n) x00).

(** ** [XBlock]: the write functions of the animation blocks *)
Module XBlockAnim.

Definition WriteAnimBlock (file : wfile) : outcome wfile :=
  let* data := struct_pack [fH; fx; fx] [VInt 0x7AAC] in
  Ok (write file data).

Definition WritePartCount (file : wfile) (part_count : Z) : outcome wfile :=
  let* data := struct_pack [fH; fh] [VInt 0x9279; VInt part_count] in
  Ok (write file data).

Definition WritePartInfo (file : wfile) (index : Z) (name : string)
  : outcome wfile :=
  XBlock.WriteMetaObjectInfo file 0x360B index name.

Definition WritePartIndex (file : wfile) (index : Z) : outcome wfile :=
  let* data := struct_pack [fH; fh] [VInt 0x745A; VInt index] in
  Ok (write file data).

Definition WriteFramerate (file : wfile) (framerate : number)
  : outcome wfile :=
  let* rate := py_int framerate in
  let* data := struct_pack [fH; fh] [VInt 0x92D3; VInt rate] in
  Ok (write file data).

Definition WriteFrameCount (file : wfile) (frame_count : Z)
  : outcome wfile :=
  let* data := struct_pack [fH; fx; fx; fi] [VInt 0xB917; VInt frame_count] in
  Ok (write file data).

Definition WriteFrameIndex (file : wfile) (frame : Z) : outcome wfile :=
  let* data := struct_pack [fH; fx; fx; fi] [VInt 0xC723; VInt frame] in
  Ok (write file data).

Section StrWrite.
(** [file.write(s)] for a [str]: the padding of a note frame is written
    as a [str], which a [BytesIO] takes for bytes in Python 2 and rejects
    with [TypeError] in Python 3. *)
Variable write_str : wfile -> string -> outcome wfile.

Definition WriteNoteFrame (file : wfile) (note : AnimNote.t)
  : outcome wfile :=
  let string := __str2bytes__ (AnimNote.string note) in
  let* frame := py_int (AnimNote.frame note) in
  let* data := struct_pack [fH; fx; fx; fi; fs (len string + 1)]
                 [VInt 0x1675; VInt frame; VBytes string] in
  let end_ := tell_written file + len data in
  let file := write file data in
  write_str file (nul_str (padded end_ - end_)).
End StrWrite.

End XBlockAnim.

(** ** [XBinIO]: the animation encoder *)
Module XBinIOAnim.

Section Write.
Variable write_str : wfile -> string -> outcome wfile.
Variable lz4_compress : list byte -> list byte.

Definition write_part_info (file : wfile) (ip : Z * PartInfo)
  : outcome wfile :=
  let '(part_index, part) := ip in
  XBlockAnim.WritePartInfo file part_index (part_name part).

Definition write_frame_part (file : wfile) (ip : Z * FramePart.t)
  : outcome wfile :=
  let '(part_index, part) := ip in
  let* file := XBlockAnim.WritePartIndex file part_index in
  let* file := XBlock.WriteOffsetBlock file (FramePart.offset part) in
  XBlock.WriteMatrixBlock file (FramePart.matrix part).

Definition write_frame (file : wfile) (frame : Frame.t) : outcome wfile :=
  let* file := XBlockAnim.WriteFrameIndex file (Frame.frame frame) in
  for_each (enumerate (Frame.parts frame)) write_frame_part file.

(** The in-memory [file] at the call of [__compress_internal__]. *)
Definition write_anim_blocks (self : Anim.t) (version : Z)
    (header_message : string) : outcome wfile :=
  let anim := self in
  let file : wfile := [] in
  let* file :=
    if negb (String.eqb header_message "")
    then XBlock.WriteCommentBlock file header_message else Ok file in
  let* file := XBlockAnim.WriteAnimBlock file in
  let* file := XBlock.WriteVersionBlock file 3 in
  let* file := XBlockAnim.WritePartCount file (len (Anim.parts anim)) in
  let* file := for_each (enumerate (Anim.parts anim)) write_part_info file in
  let* file := XBlockAnim.WriteFramerate file (Anim.framerate anim) in
  let* file := XBlockAnim.WriteFrameCount file (len (Anim.frames anim)) in
  let* file := for_each (Anim.frames anim) write_frame file in
  let* file := XBlock.WriteMetaInt16Block file 0x7A6C
                 (len (Anim.notes anim)) in
  if negb (len (Anim.notes anim) =? 0)
  then for_each (Anim.notes anim)
         (fun file note => XBlockAnim.WriteNoteFrame write_str file note)
         file
  else Ok file.

(** [self.__xbin_writefile_anim_internal__(filepath, version,
    header_message)]: the content of the file written at [filepath]. *)
Definition __xbin_writefile_anim_internal__ (self : Anim.t) (version : Z)
    (header_message : string) : outcome (list byte) :=
  let* file := write_anim_blocks self version header_message in
  XBinIO.__compress_internal__ lz4_compress file.
End Write.

End XBinIOAnim.

(** ** The objects an animation file is decoded into *)

Definition blk_anim : list byte := le_bytes 2 0x7AAC ++ [x00; x00].

(** A frame part after its index, offset and matrix blocks. *)
Definition dec_part (p : FramePart.t) : FramePartO.t :=
  FramePartO.mk (Some (map f32 (FramePart.offset p)))
    (map (map q16) (take 3 (FramePart.matrix p))).

Section DecodedAnim.
Context {Images : Type}.

(** A frame stored at the address [a], followed by its parts; [n] is
    the number of parts of the animation. *)
Definition dec_frame (a : addr) (n : nat) (fr : Frame.t)
  : list (Obj Images) :=
  OFrame (FrameO.mk (Frame.frame fr)
            (slots (S a) (length (Frame.parts fr))
               (n - length (Frame.parts fr))))
  :: map (fun p => OFramePart (dec_part p)) (Frame.parts fr).

Fixpoint dec_frames (a : addr) (n : nat) (frs : list Frame.t)
  : list (Obj Images) :=
  match frs with
  | [] => []
  | fr :: frs' =>
      dec_frame a n fr
      ++ dec_frames (S (length (Frame.parts fr)) + a)%nat n frs'
  end.
End DecodedAnim.

Fixpoint frame_addrs (a : addr) (frs : list Frame.t) : list addr :=
  match frs with
  | [] => []
  | fr :: frs' =>
      a :: frame_addrs (S (length (Frame.parts fr)) + a)%nat frs'
  end.

(** The store and [self] after the decoding of the file of [anim],
    started with an empty store: frames, each with its parts. *)
Definition dec_anim_heap {Images : Type} (anim : Anim.t)
  : list (Obj Images) :=
  dec_frames 0%nat (length (Anim.parts anim)) (Anim.frames anim).

Definition dec_anim_self (anim : Anim.t) (rate : Z) : Self :=
  mkSelf [] 0 [] [] (map Some (Anim.parts anim)) (Some rate)
    (frame_addrs 0%nat (Anim.frames anim)) [].

(** An animation that survives the wire: the names of its parts do, and
    no frame has more parts than the animation. *)
Definition wire_anim (anim : Anim.t) : Prop :=
  Forall (fun p => wire_string (part_name p)) (Anim.parts anim)
  /\ Forall (fun fr => (length (Frame.parts fr)
                        <= length (Anim.parts anim))%nat)
       (Anim.frames anim).

(** ** Runs of the decoder of an animation *)
Section AnimRuns.
Context {Images : Type}.
Variable deserialize_image_string : string -> Images.

(** One turn of the loop of an animation decoder consumes the bytes in
    front of [rest] and changes the store, [state] and [self] as given;
    [dummy_mesh] stays as it was created. *)
Definition anim_turn (fl : BytesIO) (rest : list byte)
    (H : list (Obj Images)) (S : LoadState) (F : Self)
    (H' : list (Obj Images)) (S' : LoadState) (F' : Self) : Prop :=
  exists fl',
    sees fl' rest
    /\ XBinIO.loop_turn deserialize_image_string "ANIM"
         (mkDState fl H S F (XBinIO.new_Mesh "$default"))
       = XBinIO.Next (mkDState fl' H' S' F' (XBinIO.new_Mesh "$default")).

(** The same for a sequence of turns. *)
Definition anim_run (fl : BytesIO) (rest : list byte)
    (H : list (Obj Images)) (S : LoadState) (F : Self)
    (H' : list (Obj Images)) (S' : LoadState) (F' : Self) : Prop :=
  exists fl',
    sees fl' rest
    /\ reaches deserialize_image_string "ANIM"
         (mkDState fl H S F (XBinIO.new_Mesh "$default"))
         (mkDState fl' H' S' F' (XBinIO.new_Mesh "$default")).
End AnimRuns.

(** ** A sample animation *)

Definition sample_part (x : float) : FramePart.t :=
  FramePart.mk [x; float_half; float_one]
    [ [float_one; float_half; float_half];
      [float_half; float_one; float_half];
      [float_half; float_half; float_one] ].

(** Two parts and two frames, the second frame with one part only. *)
Definition two_frame_anim : Anim.t :=
  Anim.mk [mkPartInfo "tag_origin"; mkPartInfo "j_gun"] (NFloat float_two)
    [ Frame.mk 0 [sample_part float_half; sample_part float_one];
      Frame.mk 7 [sample_part float_two] ]
    [].

(** A [file.write] that takes no [str]; its exception stands for the
    [TypeError] of Python 3. *)
Definition rejecting_write_str (file : wfile) (s : string) : outcome wfile :=
  Raise ValueError.

(** ** Property blocks *)

(** The functions of the table that assign an attribute of
    [state.active_thing] or append to one of its lists. *)
Definition property_handlers : list XBinIO.handler :=
  [ XBinIO.H_LoadOffset; XBinIO.H_LoadBoneScale; XBinIO.H_LoadBoneMatrix;
    XBinIO.H_LoadVertexWeightCount; XBinIO.H_LoadVertexWeight;
    XBinIO.H_LoadTriVertNormal; XBinIO.H_LoadTriVertColor;
    XBinIO.H_LoadTriVertUV;
    XBinIO.H_LoadMaterialTransparency; XBinIO.H_LoadMaterialAmbientColor;
    XBinIO.H_LoadMaterialIncandescence; XBinIO.H_LoadMaterialCoeffs;
    XBinIO.H_LoadMaterialGlow; XBinIO.H_LoadMaterialRefractive;
    XBinIO.H_LoadMaterialSpecularColor; XBinIO.H_LoadMaterialReflectiveColor;
    XBinIO.H_LoadMaterialReflective; XBinIO.H_LoadMaterialBlinn;
    XBinIO.H_LoadMaterialPhong ].

(** A stream that begins with an offset block. *)
Definition offset_first_stream : list byte :=
  [x83; x93; x00; x00; x00; x00; x80; x3f; x00; x00; x00; x00;
   x00; x00; x00; x00].

(** * Properties *)

(** ** Outcomes *)

Lemma bind_Ok {A B} (m : outcome A) (k : A -> outcome B) (b : B) :
  bind m k = Ok b -> exists a, m = Ok a /\ k a = Ok b.
Proof. destruct m as [a| |]; simpl; intros H; try discriminate. eauto. Qed.

Ltac inv_bind H :=
  let a := fresh "a" in
  let Ha := fresh "Ha" in
  apply bind_Ok in H; destruct H as [a [Ha H]].

Tactic Notation "bind_inv" hyp(H) "as" ident(a) ident(Ha) :=
  apply bind_Ok in H; destruct H as [a [Ha H]].

(** ** [struct] *)

Lemma pack_int_in_range (signed : bool) (n : nat) (z : Z) :
  (if signed then - 2 ^ (8 * Z.of_nat n - 1) else 0) <= z
  < (if signed then 2 ^ (8 * Z.of_nat n - 1) else 2 ^ (8 * Z.of_nat n)) ->
  pack_int signed n z = Ok (le_bytes n z).
Proof.
  intros [H1 H2]. unfold pack_int.
  apply Z.leb_le in H1. apply Z.ltb_lt in H2. rewrite H1, H2. reflexivity.
Qed.

Lemma pack_int_Ok (signed : bool) (n : nat) (z : Z) (bs : list byte) :
  pack_int signed n z = Ok bs ->
  bs = le_bytes n z
  /\ (if signed then - 2 ^ (8 * Z.of_nat n - 1) else 0) <= z
     < (if signed then 2 ^ (8 * Z.of_nat n - 1) else 2 ^ (8 * Z.of_nat n)).
Proof.
  unfold pack_int.
  destruct (Z.leb_spec (if signed then - 2 ^ (8 * Z.of_nat n - 1) else 0) z);
    destruct (Z.ltb_spec z (if signed then 2 ^ (8 * Z.of_nat n - 1)
                            else 2 ^ (8 * Z.of_nat n)));
    simpl; intros Heq; inversion Heq; subst; split; auto; lia.
Qed.

(** ** [padded] *)

Lemma padded_mask : 0xFFFFFFFFFFFFFC = Z.land (Z.lnot 3) (Z.ones 56).
Proof. reflexivity. Qed.

Lemma padded_small (n : Z) :
  0 <= n + 3 < 2 ^ 56 -> padded n = Z.land (n + 3) (Z.lnot 3).
Proof.
  intros Hn. unfold padded. rewrite padded_mask.
  rewrite (Z.land_comm (Z.lnot 3)), Z.land_assoc.
  rewrite Z.land_ones by lia. rewrite Z.mod_small by lia. reflexivity.
Qed.

Lemma land_lnot3 (y : Z) : Z.land y (Z.lnot 3) = 4 * (y / 4).
Proof.
  change (Z.land y (Z.lnot 3)) with (Z.ldiff y (Z.ones 2)).
  rewrite Z.ldiff_ones_r by lia.
  rewrite Z.shiftr_div_pow2, Z.shiftl_mul_pow2 by lia.
  change (2 ^ 2) with 4. lia.
Qed.

Lemma padded_div (n : Z) : 0 <= n + 3 < 2 ^ 56 -> padded n = 4 * ((n + 3) / 4).
Proof. intros H. rewrite padded_small by assumption. apply land_lnot3. Qed.

(** C7, counterexample: the mask of the source has 56 bits, so the rule
    fails from [2^56 - 3] on. *)
Lemma padded_counterexample :
  0 <= 2 ^ 56 /\ padded (2 ^ 56) = 0 /\ spec_padded (2 ^ 56) = 2 ^ 56
  /\ padded (2 ^ 56) <> spec_padded (2 ^ 56).
Proof. repeat split; try reflexivity; discriminate. Qed.

(** C7, as amended: for every [n] with [0 <= n < 2^56 - 3], [padded n] is
    [(n + 3) & ~3], the least multiple of 4 that is at least [n]; and
    [padded] maps 0, 1, 4, 5 to 0, 4, 4, 8. *)
Theorem padded_rounds_up (n : Z) :
  0 <= n < 2 ^ 56 - 3 ->
  padded n = spec_padded n
  /\ padded n mod 4 = 0
  /\ n <= padded n < n + 4
  /\ padded 0 = 0 /\ padded 1 = 4 /\ padded 4 = 4 /\ padded 5 = 8.
Proof.
  intros Hn.
  assert (Hd : padded n = 4 * ((n + 3) / 4)) by (apply padded_div; lia).
  split; [apply padded_small; lia|].
  split; [rewrite Hd; rewrite Z.mul_comm; apply Z.mod_mul; lia|].
  split; [rewrite Hd; pose proof (Z.div_mod (n + 3) 4 ltac:(lia));
          pose proof (Z.mod_pos_bound (n + 3) 4 ltac:(lia)); lia|].
  repeat split; reflexivity.
Qed.

Lemma padded_rounds_up_witness :
  padded 6 = spec_padded 6 /\ padded 6 mod 4 = 0 /\ 6 <= padded 6 < 6 + 4
  /\ padded 0 = 0 /\ padded 1 = 4 /\ padded 4 = 4 /\ padded 5 = 8.
Proof. apply (padded_rounds_up 6). lia. Defined.

(** ** Floats and the fixed-point helper *)

Lemma shiftl_floor (m : positive) (e : Z) :
  Qfloor (inject_Z (Z.pos m) * Qpower 2 e) = Z.shiftl (Z.pos m) e.
Proof.
  destruct e as [|p|p].
  - simpl Qpower. rewrite Z.shiftl_0_r.
    rewrite (Qfloor_comp _ (inject_Z (Z.pos m))) by ring. apply Qfloor_Z.
  - rewrite Z.shiftl_mul_pow2 by lia.
    rewrite (Qfloor_comp _ (inject_Z (Z.pos m * 2 ^ Z.pos p))).
    + apply Qfloor_Z.
    + rewrite inject_Z_mult. rewrite Zpower_Qpower by lia. reflexivity.
  - change (Z.shiftl (Z.pos m) (Z.neg p)) with (Z.shiftr (Z.pos m) (Z.pos p)).
    rewrite Z.shiftr_div_pow2 by lia. rewrite Zdiv_Qdiv.
    apply Qfloor_comp. unfold Qdiv.
    rewrite Zpower_Qpower by lia. reflexivity.
Qed.

Lemma float_value_pos (m : positive) (e : Z) :
  (0 < inject_Z (Z.pos m) * Qpower 2 e)%Q.
Proof.
  apply Qmult_lt_0_compat; [reflexivity|].
  apply Qpower_0_lt. reflexivity.
Qed.

(** [int(x)] is the truncation toward zero of the value of [x]. *)
Lemma int_of_float_truncates (x : float) :
  is_finite x = true -> int_of_float x = Ok (Qtruncate (Q_of_float x)).
Proof.
  destruct x as [s|s| |s m e]; simpl; try discriminate; intros _.
  - reflexivity.
  - f_equal. pose proof (float_value_pos m e) as Hpos.
    unfold Qtruncate. destruct s.
    + destruct (Qle_bool 0 _) eqn:Hle.
      * apply Qle_bool_iff in Hle. exfalso.
        apply (Qlt_irrefl 0). eapply Qlt_le_trans; [exact Hpos|].
        apply Qopp_le_compat in Hle. 
        rewrite Qopp_involutive in Hle. exact Hle.
      * unfold Qceiling. rewrite (Qfloor_comp _ _ (Qopp_involutive _)).
        rewrite shiftl_floor. reflexivity.
    + destruct (Qle_bool 0 _) eqn:Hle.
      * rewrite shiftl_floor. reflexivity.
      * exfalso. apply Qlt_le_weak in Hpos. apply Qle_bool_iff in Hpos. congruence.
Qed.

Lemma Qtruncate_error (q : Q) : (Qabs (q - inject_Z (Qtruncate q)) < 1)%Q.
Proof.
  unfold Qtruncate. destruct (Qle_bool 0 q).
  - pose proof (Qfloor_le q) as H1. pose proof (Qlt_floor q) as H2.
    rewrite inject_Z_plus in H2. change (inject_Z 1) with 1%Q in H2.
    generalize dependent (inject_Z (Qfloor q)). intros f H1 H2.
    apply Qabs_Qlt_condition. split; lra.
  - pose proof (Qle_ceiling q) as H1. pose proof (Qceiling_lt q) as H2.
    unfold Z.sub in H2. rewrite inject_Z_plus in H2.
    change (inject_Z (Z.opp 1)) with (-1 # 1) in H2.
    generalize dependent (inject_Z (Qceiling q)). intros f H1 H2.
    apply Qabs_Qlt_condition. split; lra.
Qed.

(** C3, counterexample: for 0.25 the product is 8191.75; the source
    yields 8191 where rounding to the nearest integer gives 8192. *)
Lemma clamp_float_to_short_counterexample :
  __clamp_float_to_short__ float_quarter = Ok 8191
  /\ spec_clamp_round float_quarter = 8192
  /\ __clamp_float_to_short__ float_quarter
     <> Ok (spec_clamp_round float_quarter).
Proof. vm_compute. repeat split; discriminate. Qed.

(** C3, as amended: for every float [v] whose product [p] with 32767 is
    finite, the helper returns [clamp(trunc(p), -32768, 32767)], where
    [trunc] truncates toward zero (the conversion [int()]); the result is
    a signed 16-bit value, packing it with ['h'] cannot fail, and when no
    saturation occurs it is less than one unit away from [p]. *)
Theorem clamp_float_to_short_truncates (v : float) :
  let p := float_mul v (float_of_int 32767) in
  let t := Qtruncate (Q_of_float p) in
  is_finite p = true ->
  exists q,
    __clamp_float_to_short__ v = Ok q
    /\ q = Z.max (Z.min t 32767) (-32768)
    /\ -32768 <= q <= 32767
    /\ pack_item fh (VInt q) = Ok (le_bytes 2 q)
    /\ (-32768 <= t <= 32767 -> (Qabs (Q_of_float p - inject_Z q) < 1)%Q).
Proof.
  intros p t Hfin. exists (Z.max (Z.min t 32767) (-32768)).
  assert (Hr : -32768 <= Z.max (Z.min t 32767) (-32768) <= 32767) by lia.
  split; [|split; [reflexivity|split; [exact Hr|split]]].
  - unfold __clamp_float_to_short__. simpl snd. simpl fst.
    fold p. rewrite (int_of_float_truncates p Hfin). reflexivity.
  - simpl pack_item. apply pack_int_in_range.
    change (2 ^ (8 * Z.of_nat 2 - 1)) with 32768. lia.
  - intros Ht. replace (Z.max (Z.min t 32767) (-32768)) with t by lia.
    apply Qtruncate_error.
Qed.

Lemma clamp_float_to_short_truncates_witness :
  exists q,
    __clamp_float_to_short__ float_quarter = Ok q
    /\ q = Z.max (Z.min (Qtruncate (Q_of_float
                   (float_mul float_quarter (float_of_int 32767)))) 32767)
             (-32768)
    /\ -32768 <= q <= 32767
    /\ pack_item fh (VInt q) = Ok (le_bytes 2 q)
    /\ (-32768 <= Qtruncate (Q_of_float
                   (float_mul float_quarter (float_of_int 32767))) <= 32767 ->
        (Qabs (Q_of_float (float_mul float_quarter (float_of_int 32767))
               - inject_Z q) < 1)%Q).
Proof. apply (clamp_float_to_short_truncates float_quarter). reflexivity. Defined.

(** A product that is not a number, or infinite, makes [int()] raise. *)
Lemma clamp_float_to_short_rejects (v : float) :
  is_finite (float_mul v (float_of_int 32767)) = false ->
  __clamp_float_to_short__ v = Raise ValueError
  \/ __clamp_float_to_short__ v = Raise OverflowError.
Proof.
  unfold __clamp_float_to_short__. simpl snd.
  destruct (float_mul v (float_of_int 32767)); simpl; try discriminate; auto.
Qed.

(** ** Bytes *)

Lemma Z_of_byte_range (b : byte) : 0 <= Z_of_byte b < 256.
Proof.
  unfold Z_of_byte. pose proof (Byte.to_N_bounded b) as H. lia.
Qed.

Lemma Z_of_byte_of_Z (z : Z) : Z_of_byte (byte_of_Z z) = z mod 256.
Proof.
  unfold Z_of_byte, byte_of_Z.
  pose proof (Z.mod_pos_bound z 256 ltac:(lia)) as Hm.
  destruct (Byte.of_N (Z.to_N (z mod 256))) as [b|] eqn:Hb.
  - simpl. apply Byte.to_of_N in Hb. rewrite Hb. lia.
  - exfalso. apply Byte.of_N_None_iff in Hb. lia.
Qed.

Lemma byte_of_Z_of_byte (b : byte) : byte_of_Z (Z_of_byte b) = b.
Proof.
  unfold byte_of_Z. rewrite Z.mod_small by apply Z_of_byte_range.
  unfold Z_of_byte. rewrite N2Z.id, Byte.of_to_N. reflexivity.
Qed.

Lemma length_le_bytes (n : nat) (z : Z) : length (le_bytes n z) = n.
Proof. revert z. induction n; simpl; intros; [|rewrite IHn]; reflexivity. Qed.

Lemma le_value_le_bytes (n : nat) (z : Z) :
  le_value (le_bytes n z) = z mod 2 ^ (8 * Z.of_nat n).
Proof.
  revert z. induction n as [|n IH]; intros z.
  - simpl. rewrite Z.mod_1_r. reflexivity.
  - cbn [le_bytes le_value]. rewrite IH, Z_of_byte_of_Z.
    replace (8 * Z.of_nat (S n)) with (8 + 8 * Z.of_nat n) by lia.
    rewrite Z.pow_add_r by lia. change (2 ^ 8) with 256.
    rewrite Z.rem_mul_r by lia. reflexivity.
Qed.

Lemma le_value_range (bs : list byte) :
  0 <= le_value bs < 2 ^ (8 * Z.of_nat (length bs)).
Proof.
  induction bs as [|b bs IH].
  - simpl. lia.
  - cbn [le_value length]. pose proof (Z_of_byte_range b).
    replace (8 * Z.of_nat (S (length bs)))
      with (8 + 8 * Z.of_nat (length bs)) by lia.
    rewrite Z.pow_add_r by lia. change (2 ^ 8) with 256. nia.
Qed.

Lemma unpack_int_unsigned (n : nat) (z : Z) :
  0 <= z < 2 ^ (8 * Z.of_nat n) -> unpack_int false (le_bytes n z) = z.
Proof.
  intros H. unfold unpack_int. simpl. rewrite le_value_le_bytes.
  apply Z.mod_small. exact H.
Qed.

Lemma unpack_int_signed (n : nat) (z : Z) :
  (0 < n)%nat ->
  - 2 ^ (8 * Z.of_nat n - 1) <= z < 2 ^ (8 * Z.of_nat n - 1) ->
  unpack_int true (le_bytes n z) = z.
Proof.
  intros Hn H. unfold unpack_int. rewrite length_le_bytes, le_value_le_bytes.
  assert (Hp : 2 ^ (8 * Z.of_nat n) = 2 * 2 ^ (8 * Z.of_nat n - 1)).
  { rewrite <- Z.pow_succ_r by lia. f_equal. lia. }
  assert (Hpos : 0 < 2 ^ (8 * Z.of_nat n - 1)) by (apply Z.pow_pos_nonneg; lia).
  simpl andb.
  destruct (Z.leb_spec (2 ^ (8 * Z.of_nat n - 1)) (z mod 2 ^ (8 * Z.of_nat n)))
    as [Hge|Hlt].
  - destruct (Z.neg_nonneg_cases z) as [Hneg|Hnn].
    + rewrite <- (Z.mod_add z 1) by lia. rewrite Z.mod_small by lia. lia.
    + rewrite Z.mod_small in Hge by lia. lia.
  - destruct (Z.neg_nonneg_cases z) as [Hneg|Hnn].
    + rewrite <- (Z.mod_add z 1) in Hlt by lia.
      rewrite Z.mod_small in Hlt by lia. lia.
    + apply Z.mod_small. lia.
Qed.

Lemma bytes_eqb_eq (a b : list byte) : bytes_eqb a b = true <-> a = b.
Proof.
  revert b. induction a as [|x a IH]; intros [|y b]; simpl;
    try (split; [discriminate|discriminate]); try tauto.
  rewrite andb_true_iff, IH. split.
  - intros [Hxy ->]. apply Byte.byte_dec_bl in Hxy. congruence.
  - intros [= -> ->]. split; [apply Byte.byte_dec_lb|]; reflexivity.
Qed.

(** ** The container envelope *)

(** C8: a stream whose first five bytes are not [b'*LZ4*'] is rejected
    with the bad-magic error carrying the bytes found, whatever the
    decompression function is: it has no part in the result, and no
    buffer is handed to the decoder. *)
Theorem bad_magic_rejected
    (lz4_uncompress : list byte -> outcome (list byte))
    (stream : list byte) :
  take 5 stream <> XBinIO.magic ->
  XBinIO.__decompress_internal__ lz4_uncompress (mkBytesIO stream 0)
  = Raise (ValueError_bad_magic (take 5 stream)).
Proof.
  intros Hne. unfold XBinIO.__decompress_internal__, read. simpl.
  rewrite drop_0. change (Z.to_nat 5) with 5%nat.
  destruct (bytes_eqb (take 5 stream) XBinIO.magic) eqn:Heq.
  - apply bytes_eqb_eq in Heq. contradiction.
  - reflexivity.
Qed.

Lemma bad_magic_rejected_witness :
  XBinIO.__decompress_internal__ (fun _ => Diverge)
    (mkBytesIO [x2a; x4c; x5a; x34; x21; x00; x00] 0)
  = Raise (ValueError_bad_magic [x2a; x4c; x5a; x34; x21]).
Proof.
  apply (bad_magic_rejected (fun _ => Diverge)
           [x2a; x4c; x5a; x34; x21; x00; x00]).
  discriminate.
Defined.

(** ** The tags written by the encoder *)

Lemma Ok_inj {A} (a b : A) : Ok a = Ok b -> a = b.
Proof. congruence. Qed.

Lemma emits_refl (f : wfile) : emits f f [].
Proof. exists []. rewrite app_nil_r. split; reflexivity. Qed.

Lemma emits_trans (f f' f'' : wfile) (T1 T2 T : list Z) :
  emits f f' T1 -> emits f' f'' T2 -> T = T1 ++ T2 -> emits f f'' T.
Proof.
  intros [o1 [-> H1]] [o2 [-> H2]] ->. exists (o1 ++ o2).
  rewrite app_assoc, map_app, H1, H2. split; reflexivity.
Qed.

Lemma emits_tags (file : wfile) (T : list Z) :
  emits [] file T -> map chunk_tag file = T.
Proof. intros [o [-> H]]. exact H. Qed.

Lemma chunk_tag_le_bytes (tag : Z) (r : list byte) :
  0 <= tag < 65536 -> chunk_tag (le_bytes 2 tag ++ r) = tag.
Proof.
  intros H. unfold chunk_tag.
  change (take 2 (le_bytes 2 tag ++ r)) with (le_bytes 2 tag).
  rewrite le_value_le_bytes. apply Z.mod_small. exact H.
Qed.

Lemma struct_pack_tag (fmt : list fmt_char) (tag : Z) (args : list val)
    (data : list byte) :
  struct_pack (fH :: fmt) (VInt tag :: args) = Ok data ->
  exists r, data = le_bytes 2 tag ++ r /\ 0 <= tag < 65536
            /\ struct_pack_at true 2 fmt args = Ok r.
Proof.
  unfold struct_pack. cbn [struct_pack_at]. intros H.
  inv_bind H. inv_bind H. apply Ok_inj in H. subst data.
  simpl in Ha. apply pack_int_Ok in Ha. destruct Ha as [-> Hr].
  exists a0. split; [reflexivity|]. split; [exact Hr|exact Ha0].
Qed.

Lemma emit_tag (fmt : list fmt_char) (tag : Z) (args : list val)
    (f f' : wfile) :
  (let* data := struct_pack (fH :: fmt) (VInt tag :: args) in
   Ok (write f data)) = Ok f' ->
  emits f f' [tag].
Proof.
  intros H. inv_bind H. apply Ok_inj in H. subst f'.
  apply struct_pack_tag in Ha. destruct Ha as [r [-> [Hr _]]].
  exists [le_bytes 2 tag ++ r]. split; [reflexivity|].
  cbn [map]. rewrite chunk_tag_le_bytes by exact Hr. reflexivity.
Qed.

Ltac tag_by_emit H := eapply emit_tag; exact H.

Lemma tag_WriteMetaInt16Block f h v f' :
  XBlock.WriteMetaInt16Block f h v = Ok f' -> emits f f' [h].
Proof. intros H. tag_by_emit H. Qed.
Lemma tag_WriteMetaUInt16Block f h v f' :
  XBlock.WriteMetaUInt16Block f h v = Ok f' -> emits f f' [h].
Proof. intros H. tag_by_emit H. Qed.
Lemma tag_WriteMetaInt32Block f h v f' :
  XBlock.WriteMetaInt32Block f h v = Ok f' -> emits f f' [h].
Proof. intros H. tag_by_emit H. Qed.
Lemma tag_WriteMetaObjectInfo f h i n f' :
  XBlock.WriteMetaObjectInfo f h i n = Ok f' -> emits f f' [h].
Proof. intros H. tag_by_emit H. Qed.
Lemma tag_WriteMetaFloatBlock f h v f' :
  XBlock.WriteMetaFloatBlock f h v = Ok f' -> emits f f' [h].
Proof. intros H. tag_by_emit H. Qed.
Lemma tag_WriteMetaVec2Block f h v f' :
  XBlock.WriteMetaVec2Block f h v = Ok f' -> emits f f' [h].
Proof. intros H. tag_by_emit H. Qed.
Lemma tag_WriteMetaVec3Block f h v f' :
  XBlock.WriteMetaVec3Block f h v = Ok f' -> emits f f' [h].
Proof. intros H. tag_by_emit H. Qed.
Lemma tag_WriteMetaVec4Block f h v f' :
  XBlock.WriteMetaVec4Block f h v = Ok f' -> emits f f' [h].
Proof. intros H. tag_by_emit H. Qed.
Lemma tag_WriteCommentBlock f c f' :
  XBlock.WriteCommentBlock f c = Ok f' -> emits f f' [0xC355].
Proof. intros H. tag_by_emit H. Qed.
Lemma tag_WriteModelBlock f f' :
  XBlock.WriteModelBlock f = Ok f' -> emits f f' [0x46C8].
Proof. intros H. tag_by_emit H. Qed.
Lemma tag_WriteVersionBlock f v f' :
  XBlock.WriteVersionBlock f v = Ok f' -> emits f f' [0x24D1].
Proof. intros H. tag_by_emit H. Qed.
Lemma tag_WriteOffsetBlock f v f' :
  XBlock.WriteOffsetBlock f v = Ok f' -> emits f f' [0x9383].
Proof. intros H. tag_by_emit H. Qed.
Lemma tag_WriteBoneInfoBlock f i b f' :
  XBlock.WriteBoneInfoBlock f i b = Ok f' -> emits f f' [0xF099].
Proof. intros H. tag_by_emit H. Qed.
Lemma tag_WriteVertexWeightBlock f w f' :
  XBlock.WriteVertexWeightBlock f w = Ok f' -> emits f f' [0xF1AB].
Proof. intros H. tag_by_emit H. Qed.
Lemma tag_WriteFaceVertexUVBlock f l uv f' :
  XBlock.WriteFaceVertexUVBlock f l uv = Ok f' -> emits f f' [0x1AD4].
Proof. intros H. tag_by_emit H. Qed.
Lemma tag_WriteMaterialInfoBlock {Images} (ser : Images -> bool -> string)
    f i m e f' :
  XBlock.WriteMaterialInfoBlock ser f i m e = Ok f' -> emits f f' [0xA700].
Proof. intros H. tag_by_emit H. Qed.

Lemma tag_WriteFaceVertexNormalBlock f n f' :
  XBlock.WriteFaceVertexNormalBlock f n = Ok f' -> emits f f' [0x89EC].
Proof.
  unfold XBlock.WriteFaceVertexNormalBlock. intros H. inv_bind H.
  tag_by_emit H.
Qed.

Lemma tag_WriteColorBlock f c f' :
  XBlock.WriteColorBlock f c = Ok f' -> emits f f' [0x6DD8].
Proof.
  unfold XBlock.WriteColorBlock. intros H. inv_bind H. tag_by_emit H.
Qed.

Lemma tag_WriteFaceInfoBlock f face f' :
  XBlock.WriteFaceInfoBlock f face = Ok f' ->
  emits f f' [face_info_tag face].
Proof.
  unfold XBlock.WriteFaceInfoBlock, face_info_tag. intros H.
  destruct ((255 <? Face.mesh_id face) || (255 <? Face.material_id face));
    tag_by_emit H.
Qed.

Lemma tag_WriteMatrixBlock f m f' :
  XBlock.WriteMatrixBlock f m = Ok f' -> emits f f' [0xDCFD].
Proof.
  unfold XBlock.WriteMatrixBlock. intros H.
  do 9 inv_bind H. apply Ok_inj in H. subst f'.
  apply struct_pack_tag in Ha5. destruct Ha5 as [r [-> [Hr _]]].
  eexists. split; [reflexivity|]. cbn [map].
  rewrite <- app_assoc. rewrite chunk_tag_le_bytes by exact Hr. reflexivity.
Qed.

Lemma for_each_emits {A} (T : A -> list Z) (l : list A)
    (body : wfile -> A -> outcome wfile) :
  (forall x f f', body f x = Ok f' -> emits f f' (T x)) ->
  forall f f', for_each l body f = Ok f' -> emits f f' (concat (map T l)).
Proof.
  intros Hb. induction l as [|x l IH]; simpl; intros f f' H.
  - apply Ok_inj in H. subst. apply emits_refl.
  - inv_bind H. eapply emits_trans; [apply (Hb _ _ _ Ha)|apply (IH _ _ H)|].
    reflexivity.
Qed.

Lemma map_enumerate_from {A B} (g : A -> B) (k : Z) (l : list A) :
  map (fun ix => g (snd ix)) (enumerate_from k l) = map g l.
Proof.
  revert k. induction l as [|x l IH]; intros k; simpl; [|rewrite IH];
    reflexivity.
Qed.

Lemma for_each_enumerate_emits {A} (T : A -> list Z) (l : list A)
    (body : wfile -> Z * A -> outcome wfile) :
  (forall i x f f', body f (i, x) = Ok f' -> emits f f' (T x)) ->
  forall f f', for_each (enumerate l) body f = Ok f' ->
               emits f f' (concat (map T l)).
Proof.
  intros Hb f f' H.
  rewrite <- (map_enumerate_from T 0 l).
  apply (for_each_emits (fun ix => T (snd ix)) (enumerate l) body); [|exact H].
  intros [i x] g g' Hg. apply (Hb i x). exact Hg.
Qed.

(** The table of vertex offsets holds the running sums of the vertex
    counts. *)
Lemma vert_offsets_fold (meshes : list Mesh.t) (acc : list Z) (b : Z) :
  fold_left
    (fun vert_offsets mesh =>
       let prev_index := len vert_offsets - 1 in
       vert_offsets
       ++ [nth (Z.to_nat prev_index) vert_offsets 0 + len (Mesh.verts mesh)])
    meshes (acc ++ [b])
  = acc ++ b :: offsets_from b meshes.
Proof.
  revert acc b. induction meshes as [|m ms IH]; intros acc b; simpl.
  - reflexivity.
  - replace (nth (Z.to_nat (len (acc ++ [b]) - 1)) (acc ++ [b]) 0) with b.
    + rewrite IH. rewrite <- app_assoc. reflexivity.
    + unfold len. rewrite length_app. simpl.
      replace (Z.to_nat (Z.of_nat (length acc + 1) - 1)) with (length acc)
        by lia.
      rewrite app_nth2 by lia. rewrite Nat.sub_diag. reflexivity.
Qed.

Lemma vert_offsets_of_eq (meshes : list Mesh.t) :
  XBinIO.vert_offsets_of meshes = 0 :: offsets_from 0 meshes.
Proof. apply (vert_offsets_fold meshes [] 0). Qed.

Lemma last_offsets_from (meshes : list Mesh.t) (b : Z) :
  (b :: offsets_from b meshes) !! length meshes
  = Some (b + fold_right Z.add 0 (map (fun mesh => len (Mesh.verts mesh))
                                    meshes)).
Proof.
  revert b. induction meshes as [|m ms IH]; intros b; simpl.
  - f_equal. lia.
  - rewrite IH. f_equal. lia.
Qed.

Lemma length_offsets_from (meshes : list Mesh.t) (b : Z) :
  length (offsets_from b meshes) = length meshes.
Proof.
  revert b. induction meshes; intros b; simpl; [|rewrite IHmeshes];
    reflexivity.
Qed.

Lemma py_getitem_nonneg {A} (l : list A) (i : nat) (x : A) :
  l !! i = Some x -> py_getitem l (Z.of_nat i) = Ok x.
Proof.
  intros H. pose proof (lookup_lt_Some _ _ _ H) as Hlt.
  unfold py_getitem, py_index, len.
  destruct (Z.leb_spec 0 (Z.of_nat i)); [|lia].
  destruct (Z.ltb_spec (Z.of_nat i) (Z.of_nat (length l))); [|lia].
  simpl. rewrite Nat2Z.id, H. reflexivity.
Qed.

Lemma vert_count_total {Images} (model : Model.t Images) (vert_count : Z) :
  py_getitem (XBinIO.vert_offsets_of (Model.meshes model))
    (len (XBinIO.vert_offsets_of (Model.meshes model)) - 1) = Ok vert_count ->
  vert_count = total_verts model.
Proof.
  rewrite vert_offsets_of_eq. intros H.
  assert (Hl : len (0 :: offsets_from 0 (Model.meshes model)) - 1
               = Z.of_nat (length (Model.meshes model))).
  { unfold len. simpl length. rewrite length_offsets_from. lia. }
  rewrite Hl in H.
  rewrite (py_getitem_nonneg _ _ _ (last_offsets_from _ 0)) in H.
  apply Ok_inj in H. subst. unfold total_verts. lia.
Qed.

Lemma concat_map_singleton {A B} (t : B) (l : list A) :
  concat (map (fun _ => [t]) l) = replicate (length l) t.
Proof. induction l; simpl; [|rewrite IHl]; reflexivity. Qed.

Section EncoderTags.
Context {Images : Type}.
Variable serialize_image_string : Images -> bool -> string.

Lemma tag_write_header version hdr f f' :
  XBinIO.write_header version hdr f = Ok f' ->
  emits f f' (header_tags hdr).
Proof.
  unfold XBinIO.write_header, header_tags. intros H.
  bind_inv H as f1 H1. bind_inv H as f2 H2.
  eapply emits_trans; [|eapply emits_trans;
    [apply (tag_WriteModelBlock _ _ H2)|apply (tag_WriteVersionBlock _ _ _ H)|
     reflexivity]|reflexivity].
  destruct (negb (hdr =? "")%string).
  - apply (tag_WriteCommentBlock _ _ _ H1).
  - apply Ok_inj in H1. subst. apply emits_refl.
Qed.

Lemma tag_write_bone_data f (ib : Z * Bone.t) f' :
  XBinIO.write_bone_data f ib = Ok f' ->
  emits f f' [0xDD9A; 0x9383; 0x1C56; 0xDCFD].
Proof.
  destruct ib as [i b]. unfold XBinIO.write_bone_data. intros H.
  bind_inv H as f1 H1. bind_inv H as f2 H2. bind_inv H as f3 H3.
  eapply emits_trans; [apply (tag_WriteMetaInt16Block _ _ _ _ H1)| |reflexivity].
  eapply emits_trans; [apply (tag_WriteOffsetBlock _ _ _ H2)| |reflexivity].
  eapply emits_trans; [apply (tag_WriteMetaVec3Block _ _ _ _ H3)| |reflexivity].
  apply (tag_WriteMatrixBlock _ _ _ H).
Qed.

Lemma tag_write_bones (model : Model.t Images) f f' :
  XBinIO.write_bones model f = Ok f' -> emits f f' (bones_tags model).
Proof.
  unfold XBinIO.write_bones, bones_tags. fold (cosmetic_count model).
  intros H. bind_inv H as f1 H1. bind_inv H as f2 H2. bind_inv H as f3 H3.
  eapply emits_trans; [apply (tag_WriteMetaInt16Block _ _ _ _ H1)| |reflexivity].
  eapply emits_trans; [| |reflexivity].
  { destruct (0 <? cosmetic_count model).
    - apply (tag_WriteMetaInt32Block _ _ _ _ H2).
    - apply Ok_inj in H2. subst. apply emits_refl. }
  eapply emits_trans; [| |reflexivity].
  - apply (for_each_enumerate_emits (fun _ => [0xF099]) _ _
             (fun i x g g' Hg => tag_WriteBoneInfoBlock g i x g' Hg) _ _ H3).
  - apply (for_each_enumerate_emits
             (fun _ => [0xDD9A; 0x9383; 0x1C56; 0xDCFD]) _ _
             (fun i x g g' Hg => tag_write_bone_data g (i, x) g' Hg) _ _ H).
Qed.

Lemma tag_vertex_writers (vert_count : Z) WC WI :
  XBinIO.pick_vertex_writers 7 vert_count = (WC, WI) ->
  (forall f v f', WC f v = Ok f' ->
     emits f f' [vertex_count_tag (0xFFFF <? vert_count)])
  /\ (forall f v f', WI f v = Ok f' ->
        emits f f' [vertex_index_tag (0xFFFF <? vert_count)]).
Proof.
  unfold XBinIO.pick_vertex_writers. simpl andb.
  destruct (0xFFFF <? vert_count); intros [= <- <-]; split; intros f v f' H.
  - apply (tag_WriteMetaInt32Block _ _ _ _ H).
  - apply (tag_WriteMetaInt32Block _ _ _ _ H).
  - apply (tag_WriteMetaUInt16Block _ _ _ _ H).
  - apply (tag_WriteMetaUInt16Block _ _ _ _ H).
Qed.

Section Family.
Variable w : bool.
Variable WI : wfile -> Z -> outcome wfile.
Hypothesis tag_WI : forall f v f', WI f v = Ok f' ->
  emits f f' [vertex_index_tag w].

Lemma tag_write_vert vert_offset f iv f' :
  XBinIO.write_vert WI vert_offset f iv = Ok f' ->
  emits f f' (vert_tags w (snd iv)).
Proof.
  destruct iv as [i v]. unfold XBinIO.write_vert, vert_tags.
  intros H. bind_inv H as f1 H1. bind_inv H as f2 H2. bind_inv H as f3 H3.
  eapply emits_trans; [apply (tag_WI _ _ _ H1)| |reflexivity].
  eapply emits_trans; [apply (tag_WriteOffsetBlock _ _ _ H2)| |reflexivity].
  eapply emits_trans; [apply (tag_WriteMetaInt16Block _ _ _ _ H3)| |reflexivity].
  simpl snd. rewrite <- (concat_map_singleton 0xF1AB (Vertex.weights v)).
  apply (for_each_emits (fun _ => [0xF1AB]) _ _
           (fun x g g' Hg => tag_WriteVertexWeightBlock g x g' Hg) _ _ H).
Qed.

Lemma tag_write_mesh_verts vert_offsets f im f' :
  XBinIO.write_mesh_verts WI vert_offsets f im = Ok f' ->
  emits f f' (concat (map (vert_tags w) (Mesh.verts (snd im)))).
Proof.
  destruct im as [i m]. unfold XBinIO.write_mesh_verts. intros H. inv_bind H.
  apply (for_each_enumerate_emits (vert_tags w) _ _
           (fun i x g g' Hg => tag_write_vert a g (i, x) g' Hg) _ _ H).
Qed.

Lemma tag_write_corner face vert_offset f i f' :
  XBinIO.write_corner WI face vert_offset f i = Ok f' ->
  emits f f' (corner_tags w).
Proof.
  unfold XBinIO.write_corner, corner_tags. intros H.
  bind_inv H as ind Hind. bind_inv H as f1 H1. bind_inv H as f2 H2.
  bind_inv H as f3 H3.
  eapply emits_trans; [apply (tag_WI _ _ _ H1)| |reflexivity].
  eapply emits_trans;
    [apply (tag_WriteFaceVertexNormalBlock _ _ _ H2)| |reflexivity].
  eapply emits_trans; [apply (tag_WriteColorBlock _ _ _ H3)| |reflexivity].
  apply (tag_WriteFaceVertexUVBlock _ _ _ _ H).
Qed.

Lemma tag_write_face vert_offset f face f' :
  XBinIO.write_face WI vert_offset f face = Ok f' ->
  emits f f' (face_tags w face).
Proof.
  unfold XBinIO.write_face, face_tags. intros H. bind_inv H as f1 H1.
  eapply emits_trans; [apply (tag_WriteFaceInfoBlock _ _ _ H1)| |].
  - apply (for_each_emits (fun _ => corner_tags w) _ _
             (fun x g g' Hg => tag_write_corner face vert_offset g x g' Hg)
             _ _ H).
  - reflexivity.
Qed.

Lemma tag_write_mesh_faces vert_offsets f im f' :
  XBinIO.write_mesh_faces WI vert_offsets f im = Ok f' ->
  emits f f' (concat (map (face_tags w) (Mesh.faces (snd im)))).
Proof.
  destruct im as [i m]. unfold XBinIO.write_mesh_faces. intros H. inv_bind H.
  apply (for_each_emits (face_tags w) _ _
           (fun x g g' Hg => tag_write_face a g x g' Hg) _ _ H).
Qed.
End Family.

Lemma tag_write_material ext f im f' :
  XBinIO.write_material serialize_image_string ext f im = Ok f' ->
  emits f f' material_tags.
Proof.
  destruct im as [i m]. unfold XBinIO.write_material. intros H.
  bind_inv H as f1 H1. bind_inv H as f2 H2. bind_inv H as f3 H3.
  bind_inv H as f4 H4. bind_inv H as f5 H5. bind_inv H as f6 H6.
  bind_inv H as f7 H7. bind_inv H as f8 H8. bind_inv H as f9 H9.
  bind_inv H as f10 H10. bind_inv H as f11 H11. bind_inv H as f12 H12.
  eapply emits_trans;
    [apply (tag_WriteMaterialInfoBlock _ _ _ _ _ _ H1)| |reflexivity].
  eapply emits_trans; [apply (tag_WriteColorBlock _ _ _ H2)| |reflexivity].
  eapply emits_trans; [apply (tag_WriteMetaVec4Block _ _ _ _ H3)| |reflexivity].
  eapply emits_trans; [apply (tag_WriteMetaVec4Block _ _ _ _ H4)| |reflexivity].
  eapply emits_trans; [apply (tag_WriteMetaVec4Block _ _ _ _ H5)| |reflexivity].
  eapply emits_trans; [apply (tag_WriteMetaVec2Block _ _ _ _ H6)| |reflexivity].
  eapply emits_trans; [apply (tag_WriteMetaVec2Block _ _ _ _ H7)| |reflexivity].
  eapply emits_trans; [apply (tag_WriteMetaVec2Block _ _ _ _ H8)| |reflexivity].
  eapply emits_trans; [apply (tag_WriteMetaVec4Block _ _ _ _ H9)| |reflexivity].
  eapply emits_trans; [apply (tag_WriteMetaVec4Block _ _ _ _ H10)| |reflexivity].
  eapply emits_trans; [apply (tag_WriteMetaVec2Block _ _ _ _ H11)| |reflexivity].
  eapply emits_trans; [apply (tag_WriteMetaVec2Block _ _ _ _ H12)| |reflexivity].
  apply (tag_WriteMetaFloatBlock _ _ _ _ H).
Qed.

Lemma tag_write_verts (w : bool) WC WI model vert_offsets vert_count f f' :
  (forall f v f', WC f v = Ok f' -> emits f f' [vertex_count_tag w]) ->
  (forall f v f', WI f v = Ok f' -> emits f f' [vertex_index_tag w]) ->
  XBinIO.write_verts (Images := Images) WC WI model vert_offsets vert_count f
  = Ok f' ->
  emits f f'
    ([vertex_count_tag w]
     ++ concat (map (fun mesh => concat (map (vert_tags w) (Mesh.verts mesh)))
                  (Model.meshes model))).
Proof.
  intros HWC HWI. unfold XBinIO.write_verts. intros H. bind_inv H as f1 H1.
  eapply emits_trans; [apply (HWC _ _ _ H1)| |reflexivity].
  apply (for_each_enumerate_emits
           (fun m => concat (map (vert_tags w) (Mesh.verts m))) _ _
           (fun i x g g' Hg =>
              tag_write_mesh_verts w WI HWI _ g (i, x) g' Hg) _ _ H).
Qed.

Lemma tag_write_faces (w : bool) WI model vert_offsets f f' :
  (forall f v f', WI f v = Ok f' -> emits f f' [vertex_index_tag w]) ->
  XBinIO.write_faces (Images := Images) WI model vert_offsets f = Ok f' ->
  emits f f'
    ([0xBE92]
     ++ concat (map (fun mesh => concat (map (face_tags w) (Mesh.faces mesh)))
                  (Model.meshes model))).
Proof.
  intros HWI. unfold XBinIO.write_faces. intros H. bind_inv H as f1 H1.
  eapply emits_trans;
    [apply (tag_WriteMetaInt32Block _ _ _ _ H1)| |reflexivity].
  apply (for_each_enumerate_emits
           (fun m => concat (map (face_tags w) (Mesh.faces m))) _ _
           (fun i x g g' Hg =>
              tag_write_mesh_faces w WI HWI _ g (i, x) g' Hg) _ _ H).
Qed.

Lemma tag_write_objects (model : Model.t Images) f f' :
  XBinIO.write_objects model f = Ok f' -> emits f f' (objects_tags model).
Proof.
  unfold XBinIO.write_objects, objects_tags. intros H. bind_inv H as f1 H1.
  eapply emits_trans;
    [apply (tag_WriteMetaInt16Block _ _ _ _ H1)| |reflexivity].
  apply (for_each_enumerate_emits (fun _ => [0x87D4]) _ _
           (fun i x g g' Hg => tag_WriteMetaObjectInfo g _ i _ g' Hg) _ _ H).
Qed.

Lemma tag_write_materials ext (model : Model.t Images) f f' :
  XBinIO.write_materials serialize_image_string ext model f = Ok f' ->
  emits f f' (materials_tags model).
Proof.
  unfold XBinIO.write_materials, materials_tags. intros H.
  bind_inv H as f1 H1.
  eapply emits_trans;
    [apply (tag_WriteMetaInt16Block _ _ _ _ H1)| |reflexivity].
  apply (for_each_enumerate_emits (fun _ => material_tags) _ _
           (fun i x g g' Hg => tag_write_material ext g (i, x) g' Hg) _ _ H).
Qed.

(** A successful encoding is the header followed by chunks that carry
    the tags [body_tags], in this order. *)
Lemma encoder_layout (self : Model.t Images) (version : Z) (ext : bool)
    (hdr : string) (file : wfile) :
  XBinIO.write_model_blocks serialize_image_string self version ext hdr
  = Ok file ->
  exists head, XBinIO.write_header 7 hdr [] = Ok head
               /\ emits head file (body_tags self).
Proof.
  unfold XBinIO.write_model_blocks. intros H.
  bind_inv H as f1 H1. exists f1. split; [exact H1|].
  bind_inv H as f2 H2. bind_inv H as vc Hvc.
  apply vert_count_total in Hvc. subst vc.
  destruct (XBinIO.pick_vertex_writers 7 (total_verts self)) as [WC WI] eqn:HW.
  destruct (tag_vertex_writers _ _ _ HW) as [HWC HWI].
  fold (wide self) in HWC, HWI.
  bind_inv H as f3 H3. bind_inv H as f4 H4. bind_inv H as f5 H5.
  unfold body_tags.
  eapply emits_trans; [apply (tag_write_bones _ _ _ H2)| |reflexivity].
  eapply emits_trans;
    [apply (tag_write_verts _ _ _ _ _ _ _ _ HWC HWI H3)| |reflexivity].
  eapply emits_trans; [apply (tag_write_faces _ _ _ _ _ _ HWI H4)| |reflexivity].
  eapply emits_trans; [apply (tag_write_objects _ _ _ H5)| |reflexivity].
  apply (tag_write_materials _ _ _ _ H).
Qed.

Lemma encoder_tags (self : Model.t Images) (version : Z) (ext : bool)
    (hdr : string) (file : wfile) :
  XBinIO.write_model_blocks serialize_image_string self version ext hdr
  = Ok file ->
  map chunk_tag file = model_tags self hdr.
Proof.
  intros H. destruct (encoder_layout _ _ _ _ _ H) as [head [Hh Hb]].
  apply emits_tags. eapply emits_trans;
    [apply (tag_write_header _ _ _ _ Hh)|exact Hb|reflexivity].
Qed.
End EncoderTags.

(** ** Counting tags *)

Lemma count_tag_app (t : Z) (a b : list Z) :
  count_tag t (a ++ b) = (count_tag t a + count_tag t b)%nat.
Proof. unfold count_tag. rewrite List.filter_app, length_app. reflexivity. Qed.

Lemma count_tag_none (t : Z) (l : list Z) :
  Forall (fun x => x <> t) l -> count_tag t l = 0%nat.
Proof.
  unfold count_tag. induction 1 as [|x l Hx _ IH]; simpl; [reflexivity|].
  destruct (Z.eqb_spec x t); [contradiction|exact IH].
Qed.

Lemma count_tag_concat_map {A} (t : Z) (T : A -> list Z) (n : nat)
    (l : list A) :
  (forall x, count_tag t (T x) = n) ->
  count_tag t (concat (map T l)) = (length l * n)%nat.
Proof.
  intros HT. induction l as [|x l IH]; simpl; [reflexivity|].
  rewrite count_tag_app, HT, IH. reflexivity.
Qed.

Lemma count_tag_nested {A B} (t : Z) (T : B -> list Z) (g : A -> list B)
    (n : nat) (l : list A) :
  (forall x, count_tag t (T x) = n) ->
  count_tag t (concat (map (fun a => concat (map T (g a))) l))
  = (length (concat (map g l)) * n)%nat.
Proof.
  intros HT. induction l as [|a l IH]; simpl; [reflexivity|].
  rewrite count_tag_app, IH, (count_tag_concat_map t T n) by exact HT.
  rewrite length_app. lia.
Qed.

Lemma mem_tag_ne (t : Z) (values : list Z) (x : Z) :
  mem_tag t values = false -> mem_tag x values = true -> x <> t.
Proof. intros Ht Hx ->. congruence. Qed.

Lemma Forall_mem_ne (t : Z) (values l : list Z) :
  mem_tag t values = false ->
  Forall (fun x => mem_tag x values = true) l -> Forall (fun x => x <> t) l.
Proof.
  intros Ht. apply List.Forall_impl. intros x Hx. eapply mem_tag_ne; eassumption.
Qed.

Lemma Forall_concat_map {A} (P : Z -> Prop) (T : A -> list Z) (l : list A) :
  (forall x, Forall P (T x)) -> Forall P (concat (map T l)).
Proof.
  intros HT. induction l as [|x l IH]; simpl; [constructor|].
  apply Forall_app. split; [apply HT|exact IH].
Qed.

Ltac tag_values :=
  repeat first
    [ apply List.Forall_nil
    | apply Forall_cons; split; [reflexivity|]
    | progress (apply Forall_app; split)
    | apply Forall_concat_map; intros ? ].

Section TagValues.
Context {Images : Type}.
Variable model : Model.t Images.

Lemma vert_tags_values w v :
  Forall (fun x => mem_tag x geometry_tag_values = true) (vert_tags w v).
Proof.
  unfold vert_tags. destruct w; tag_values.
  all: apply Forall_replicate; reflexivity.
Qed.

Lemma face_tags_values w f :
  Forall (fun x => mem_tag x geometry_tag_values = true) (face_tags w f).
Proof.
  unfold face_tags, corner_tags, face_info_tag.
  destruct w, ((255 <? Face.mesh_id f) || (255 <? Face.material_id f));
    tag_values.
Qed.

Lemma bones_tags_values :
  Forall (fun x => mem_tag x geometry_tag_values = true) (bones_tags model).
Proof.
  unfold bones_tags. destruct (0 <? cosmetic_count model); tag_values.
Qed.

Lemma verts_tags_values :
  Forall (fun x => mem_tag x geometry_tag_values = true) (verts_tags model).
Proof.
  unfold verts_tags. apply Forall_app; split.
  - destruct (wide model); tag_values.
  - apply Forall_concat_map; intros m. apply Forall_concat_map; intros v.
    apply vert_tags_values.
Qed.

Lemma faces_tags_values :
  Forall (fun x => mem_tag x geometry_tag_values = true) (faces_tags model).
Proof.
  unfold faces_tags. apply Forall_app; split; [tag_values|].
  apply Forall_concat_map; intros m. apply Forall_concat_map; intros f.
  apply face_tags_values.
Qed.

Lemma objects_tags_values :
  Forall (fun x => mem_tag x geometry_tag_values = true) (objects_tags model).
Proof. unfold objects_tags. tag_values. Qed.

Lemma materials_tags_values :
  Forall (fun x => mem_tag x (0xA1B2 :: material_tags) = true)
    (materials_tags model).
Proof. unfold materials_tags. tag_values. Qed.

Lemma body_tags_values :
  Forall (fun x => mem_tag x (geometry_tag_values ++ material_tags) = true)
    (body_tags model).
Proof.
  assert (Hw : forall l,
             Forall (fun x => mem_tag x geometry_tag_values = true) l ->
             Forall (fun x => mem_tag x (geometry_tag_values ++ material_tags)
                              = true) l).
  { intros l. apply List.Forall_impl. intros x Hx. unfold mem_tag in *.
    rewrite existsb_app, Hx. reflexivity. }
  unfold body_tags.
  apply Forall_app; split; [apply Hw, bones_tags_values|].
  apply Forall_app; split; [apply Hw, verts_tags_values|].
  apply Forall_app; split; [apply Hw, faces_tags_values|].
  apply Forall_app; split; [apply Hw, objects_tags_values|].
  - eapply List.Forall_impl; [|apply materials_tags_values].
    intros x Hx. unfold mem_tag in *. rewrite existsb_app.
    cbn [existsb] in Hx. apply orb_true_iff in Hx. destruct Hx as [Hx|Hx].
    + apply Z.eqb_eq in Hx. subst x. reflexivity.
    + fold (existsb (fun v => v =? x) material_tags) in Hx. rewrite Hx.
      apply orb_true_r.
Qed.
End TagValues.

Lemma Forall_chunk_tags (P : Z -> Prop) (file : wfile) :
  Forall P (map chunk_tag file) -> Forall (fun c => P (chunk_tag c)) file.
Proof.
  induction file as [|c file IH]; simpl; intros H; [constructor|].
  inversion H; subst. constructor; auto.
Qed.

(** ** The version block *)

Lemma write_header_chunks (hdr : string) (head : wfile) :
  XBinIO.write_header 7 hdr [] = Ok head ->
  exists pre,
    head = pre ++ [[xc8; x46; x00; x00]; [xd1; x24; x07; x00]]
    /\ Forall (fun c => chunk_tag c = 0xC355) pre
    /\ (hdr = "" -> pre = []).
Proof.
  unfold XBinIO.write_header. intros H.
  bind_inv H as f1 H1. bind_inv H as f2 H2.
  apply Ok_inj in H. apply Ok_inj in H2. subst head f2.
  exists f1. split; [unfold write; rewrite <- app_assoc; reflexivity|].
  destruct (String.eqb_spec hdr "") as [->|Hne]; simpl in H1.
  - apply Ok_inj in H1. subst f1. split; [constructor|intros _; reflexivity].
  - split; [|contradiction].
    destruct (tag_WriteCommentBlock _ _ _ H1) as [o [-> Ho]].
    simpl. destruct o as [|c [|c' o]]; try discriminate.
    inversion Ho as [Hc]. constructor; [reflexivity|constructor].
Qed.

Section EncoderClaims.
Context {Images : Type}.
Variable serialize_image_string : Images -> bool -> string.

(** C10: whatever [version] is passed, the encoder behaves as for 7, and
    a successful encoding holds exactly one version block, the one that
    follows the model marker, with the value 7 (bytes [D1 24 07 00]). *)
Theorem version_block_is_seven (self : Model.t Images) (version : Z)
    (ext : bool) (hdr : string) (file : wfile) :
  XBinIO.write_model_blocks serialize_image_string self version ext hdr
  = Ok file ->
  XBinIO.write_model_blocks serialize_image_string self version ext hdr
  = XBinIO.write_model_blocks serialize_image_string self 7 ext hdr
  /\ exists pre rest,
       file = pre ++ [[xc8; x46; x00; x00]; [xd1; x24; x07; x00]] ++ rest
       /\ unpack_int true [x07; x00] = 7
       /\ Forall (fun c => chunk_tag c <> 0x24D1) pre
       /\ Forall (fun c => chunk_tag c <> 0x24D1) rest.
Proof.
  intros H. split; [reflexivity|].
  destruct (encoder_layout _ _ _ _ _ _ H) as [head [Hh [rest [-> Hr]]]].
  destruct (write_header_chunks _ _ Hh) as [pre [-> [Hpre _]]].
  exists pre, rest. split; [rewrite <- app_assoc; reflexivity|].
  split; [reflexivity|]. split.
  - eapply List.Forall_impl; [|exact Hpre]. intros c ->. discriminate.
  - apply (Forall_chunk_tags (fun t => t <> 0x24D1)). rewrite Hr.
    apply (Forall_mem_ne _ (geometry_tag_values ++ material_tags));
      [reflexivity|apply body_tags_values].
Qed.

(** ** The blocks of a material *)

Lemma follows_skip (after before rest : list Z) :
  Forall (fun x => x <> 0xA700) before ->
  follows_material_info after (before ++ rest)
  = follows_material_info after rest.
Proof.
  induction 1 as [|x l Hx _ IH]; simpl; [reflexivity|].
  destruct (Z.eqb_spec x 0xA700); [contradiction|]. exact IH.
Qed.

Lemma follows_group (after rest : list Z) :
  Forall (fun x => x <> 0xA700) after ->
  follows_material_info after (0xA700 :: after ++ rest)
  = follows_material_info after rest.
Proof.
  intros H. cbn [follows_material_info].
  change (0xA700 =? 0xA700) with true. cbv iota.
  rewrite take_app_length. rewrite bool_decide_eq_true_2 by reflexivity.
  simpl andb. apply follows_skip. exact H.
Qed.

Lemma follows_groups {A} (l : list A) :
  follows_material_info (0x6DD8 :: spec_material_tags)
    (concat (map (fun _ => material_tags) l)) = true.
Proof.
  induction l as [|x l IH]; simpl concat; [reflexivity|].
  change (material_tags ++ concat (map (fun _ => material_tags) l))
    with (0xA700 :: (0x6DD8 :: spec_material_tags)
                    ++ concat (map (fun _ => material_tags) l)).
  etransitivity;
    [apply (follows_group (0x6DD8 :: spec_material_tags)
              (concat (map (fun _ => material_tags) l)))|exact IH].
  apply (Forall_mem_ne _ (0x6DD8 :: spec_material_tags)); [reflexivity|].
  unfold spec_material_tags. tag_values.
Qed.

(** C4, as amended: in a successful encoding the material section is, for
    each material in turn, the material-info block immediately followed
    by the colour block and then the transparency, ambient colour,
    incandescence, coeffs, glow, refractive, specular colour, reflective
    colour, reflective, blinn and phong blocks, in this order and with
    nothing in between; no material-info block occurs before. *)
Theorem material_blocks_order (self : Model.t Images) (version : Z)
    (ext : bool) (hdr : string) (file : wfile) :
  XBinIO.write_model_blocks serialize_image_string self version ext hdr
  = Ok file ->
  exists before,
    map chunk_tag file
    = before ++ concat (map (fun _ => 0xA700 :: 0x6DD8 :: spec_material_tags)
                          (Model.materials self))
    /\ Forall (fun t => t <> 0xA700) before
    /\ follows_material_info (0x6DD8 :: spec_material_tags)
         (map chunk_tag file) = true.
Proof.
  intros H. rewrite (encoder_tags _ _ _ _ _ _ H).
  exists (header_tags hdr ++ bones_tags self ++ verts_tags self
          ++ faces_tags self ++ objects_tags self ++ [0xA1B2]).
  assert (Hb : Forall (fun t => t <> 0xA700)
                 (header_tags hdr ++ bones_tags self ++ verts_tags self
                  ++ faces_tags self ++ objects_tags self ++ [0xA1B2])).
  { apply (Forall_mem_ne _ (0xC355 :: 0x46C8 :: 0x24D1 :: geometry_tag_values));
      [reflexivity|].
    assert (Hw : forall l,
               Forall (fun x => mem_tag x geometry_tag_values = true) l ->
               Forall (fun x => mem_tag x (0xC355 :: 0x46C8 :: 0x24D1
                                           :: geometry_tag_values) = true) l).
    { intros l. apply List.Forall_impl. intros x Hx. unfold mem_tag in *.
      cbn [existsb]. fold (existsb (fun v => v =? x) geometry_tag_values).
      rewrite Hx. rewrite !orb_true_r. reflexivity. }
    apply Forall_app; split.
    { unfold header_tags. destruct (negb (hdr =? "")%string); tag_values. }
    apply Forall_app; split; [apply Hw, bones_tags_values|].
    apply Forall_app; split; [apply Hw, verts_tags_values|].
    apply Forall_app; split; [apply Hw, faces_tags_values|].
    apply Forall_app; split; [apply Hw, objects_tags_values|].
    tag_values. }
  assert (He : model_tags self hdr
               = (header_tags hdr ++ bones_tags self ++ verts_tags self
                  ++ faces_tags self ++ objects_tags self ++ [0xA1B2])
                 ++ concat (map (fun _ => material_tags)
                              (Model.materials self))).
  { unfold model_tags, body_tags, materials_tags.
    rewrite <- !app_assoc. reflexivity. }
  split; [exact He|]. split; [exact Hb|].
  rewrite He, follows_skip by exact Hb. apply follows_groups.
Qed.
End EncoderClaims.

(** C4, counterexample: the encoding of a model of one material has the
    colour block (0x6DD8), not the transparency block (0x6DAB), right
    after the material-info block. *)
Lemma material_blocks_order_counterexample :
  exists file,
    XBinIO.write_model_blocks plain_images one_material_model 7 true ""
    = Ok file
    /\ map chunk_tag file
       = [0x46C8; 0x24D1; 0x76BA; 0x950D; 0xBE92; 0x62AF; 0xA1B2;
          0xA700; 0x6DD8; 0x6DAB; 0x37FF; 0x4265; 0xC835; 0xFE0C; 0x7E24;
          0x317C; 0xE593; 0x7D76; 0x83C7; 0x5CD2]
    /\ follows_material_info spec_material_tags (map chunk_tag file) = false.
Proof.
  eexists. split; [vm_compute; reflexivity|].
  split; vm_compute; reflexivity.
Qed.

Lemma material_blocks_order_witness :
  exists before,
    map chunk_tag
      (match XBinIO.write_model_blocks plain_images one_material_model 7 true
               "" with Ok f => f | _ => [] end)
    = before ++ concat (map (fun _ => 0xA700 :: 0x6DD8 :: spec_material_tags)
                          (Model.materials one_material_model))
    /\ Forall (fun t => t <> 0xA700) before
    /\ follows_material_info (0x6DD8 :: spec_material_tags)
         (map chunk_tag
            (match XBinIO.write_model_blocks plain_images one_material_model
                     7 true "" with Ok f => f | _ => [] end)) = true.
Proof.
  apply (material_blocks_order plain_images one_material_model 7 true "").
  vm_compute. reflexivity.
Defined.

Lemma version_block_is_seven_witness :
  XBinIO.write_model_blocks plain_images one_material_model 3 true ""
  = XBinIO.write_model_blocks plain_images one_material_model 7 true ""
  /\ exists pre rest,
       match XBinIO.write_model_blocks plain_images one_material_model 3 true
               "" with Ok f => f | _ => [] end
       = pre ++ [[xc8; x46; x00; x00]; [xd1; x24; x07; x00]] ++ rest
       /\ unpack_int true [x07; x00] = 7
       /\ Forall (fun c => chunk_tag c <> 0x24D1) pre
       /\ Forall (fun c => chunk_tag c <> 0x24D1) rest.
Proof.
  apply (version_block_is_seven plain_images one_material_model 3 true "").
  vm_compute. reflexivity.
Defined.

(** ** The vertex tag family *)

Lemma total_verts_length {Images} (model : Model.t Images) :
  total_verts model
  = Z.of_nat (length (concat (map Mesh.verts (Model.meshes model)))).
Proof.
  unfold total_verts. induction (Model.meshes model) as [|m ms IH]; simpl.
  - reflexivity.
  - rewrite IH, length_app. unfold len. lia.
Qed.

Lemma count_vert_tags (w : bool) (t : Z) (v : Vertex.t) :
  In t [0x950D; 0x2AEC; 0x8F03; 0xB097] ->
  count_tag t (vert_tags w v)
  = if vertex_index_tag w =? t then 1%nat else 0%nat.
Proof.
  intros Ht. unfold vert_tags. rewrite count_tag_app.
  rewrite (count_tag_none t (replicate _ _)).
  - simpl in Ht. destruct w;
      repeat (destruct Ht as [<-|Ht]; [reflexivity|]); contradiction.
  - apply Forall_replicate.
    simpl in Ht. repeat (destruct Ht as [<-|Ht]; [discriminate|]).
    contradiction.
Qed.

Lemma count_face_tags (w : bool) (t : Z) (f : Face.t) :
  In t [0x950D; 0x2AEC; 0x8F03; 0xB097] ->
  count_tag t (face_tags w f)
  = if vertex_index_tag w =? t then 3%nat else 0%nat.
Proof.
  intros Ht. unfold face_tags, face_info_tag, corner_tags.
  simpl in Ht.
  destruct w, ((255 <? Face.mesh_id f) || (255 <? Face.material_id f));
    repeat (destruct Ht as [<-|Ht]; [reflexivity|]); contradiction.
Qed.

Lemma count_family_elsewhere {Images} (model : Model.t Images)
    (hdr : string) (t : Z) :
  In t [0x950D; 0x2AEC; 0x8F03; 0xB097] ->
  count_tag t (header_tags hdr) = 0%nat
  /\ count_tag t (bones_tags model) = 0%nat
  /\ count_tag t (objects_tags model) = 0%nat
  /\ count_tag t (materials_tags model) = 0%nat.
Proof.
  intros Ht.
  assert (Hn : mem_tag t [0xC355; 0x46C8; 0x24D1; 0x76BA; 0x7836; 0xF099;
                          0xDD9A; 0x9383; 0x1C56; 0xDCFD; 0x62AF; 0x87D4]
               = false
               /\ mem_tag t (0xA1B2 :: material_tags) = false).
  { simpl in Ht. repeat (destruct Ht as [<-|Ht]; [split; reflexivity|]).
    contradiction. }
  destruct Hn as [Hn1 Hn2].
  repeat split; apply count_tag_none.
  - eapply Forall_mem_ne; [exact Hn1|]. unfold header_tags.
    destruct (negb (hdr =? "")%string); tag_values.
  - eapply Forall_mem_ne; [exact Hn1|]. unfold bones_tags.
    destruct (0 <? cosmetic_count model); tag_values.
  - eapply Forall_mem_ne; [exact Hn1|]. unfold objects_tags. tag_values.
  - eapply Forall_mem_ne; [exact Hn2|]. apply materials_tags_values.
Qed.

Lemma count_family {Images} (model : Model.t Images) (hdr : string) (t : Z) :
  In t [0x950D; 0x2AEC; 0x8F03; 0xB097] ->
  count_tag t (model_tags model hdr)
  = ((if (vertex_count_tag (wide model) =? t)%Z then 1 else 0)
     + (length (concat (map Mesh.verts (Model.meshes model)))
        + 3 * length (concat (map Mesh.faces (Model.meshes model))))
       * (if (vertex_index_tag (wide model) =? t)%Z then 1 else 0))%nat.
Proof.
  intros Ht.
  destruct (count_family_elsewhere model hdr t Ht) as [H1 [H2 [H3 H4]]].
  unfold model_tags, body_tags. rewrite !count_tag_app, H1, H2, H3, H4.
  unfold verts_tags, faces_tags. rewrite !count_tag_app.
  rewrite (count_tag_nested t (vert_tags (wide model)) Mesh.verts _ _
             (fun v => count_vert_tags (wide model) t v Ht)).
  rewrite (count_tag_nested t (face_tags (wide model)) Mesh.faces _ _
             (fun f => count_face_tags (wide model) t f Ht)).
  assert (Hc : count_tag t [vertex_count_tag (wide model)]
               = if vertex_count_tag (wide model) =? t then 1%nat else 0%nat).
  { unfold count_tag. simpl.
    destruct (vertex_count_tag (wide model) =? t); reflexivity. }
  assert (Hf : count_tag t [0xBE92] = 0%nat).
  { simpl in Ht. repeat (destruct Ht as [<-|Ht]; [reflexivity|]).
    contradiction. }
  rewrite Hc, Hf.
  destruct (vertex_index_tag (wide model) =? t),
    (vertex_count_tag (wide model) =? t); lia.
Qed.

Ltac eval_eqb :=
  repeat match goal with
         | |- context [(?a =? ?b)%Z] =>
             let v := eval vm_compute in (a =? b)%Z in
             change (a =? b)%Z with v
         end;
  cbv iota.

Section VertexFamily.
Context {Images : Type}.
Variable serialize_image_string : Images -> bool -> string.

End VertexFamily.


(** ** The cursor only moves forward *)

Lemma padded_ge (x : Z) : 0 <= x -> x + 3 < 2 ^ 56 -> x <= padded x.
Proof.
  intros H0 H1. rewrite padded_div by lia.
  pose proof (Z.div_mod (x + 3) 4 ltac:(lia)) as Hd.
  pose proof (Z.mod_pos_bound (x + 3) 4 ltac:(lia)) as Hm. lia.
Qed.

Lemma padded_le (x : Z) : 0 <= x -> x + 3 < 2 ^ 56 -> padded x <= x + 3.
Proof.
  intros H0 H1. rewrite padded_div by lia.
  pose proof (Z.div_mod (x + 3) 4 ltac:(lia)) as Hd.
  pose proof (Z.mod_pos_bound (x + 3) 4 ltac:(lia)) as Hm. lia.
Qed.

Lemma seek_Ok (f f' : BytesIO) (p : Z) :
  seek f p = Ok f' -> f' = mkBytesIO (data f) p /\ 0 <= p.
Proof.
  unfold seek. destruct (Z.ltb_spec p 0) as [Hlt|Hge]; [discriminate|].
  intros H. apply Ok_inj in H. split; [congruence|lia].
Qed.

Lemma read_spec (f f' : BytesIO) (n : Z) (bs : list byte) :
  read f n = (bs, f') ->
  f' = mkBytesIO (data f) (pos f + len bs)
  /\ 0 <= len bs <= Z.max n 0
  /\ (0 <= pos f -> bs <> [] -> pos f + len bs <= len (data f)).
Proof.
  unfold read. intros [= <- <-]. split; [reflexivity|].
  split; [unfold len; rewrite length_take; lia|].
  intros Hp Hne. unfold len. rewrite length_take, length_drop.
  destruct (decide (Z.to_nat (pos f) < length (data f))%nat) as [Hlt|Hge].
  - lia.
  - exfalso. apply Hne. rewrite drop_ge by lia. apply take_nil.
Qed.

Lemma LoadString_loop_bound (rest acc bs : list byte) (n m : Z) :
  XBlock.LoadString_loop rest acc n = Ok (bs, m) ->
  n < m <= n + len rest.
Proof.
  revert acc n. induction rest as [|b rest IH]; intros acc n; simpl.
  - discriminate.
  - destruct (Byte.eqb b x00).
    + intros [= <- <-]. unfold len. simpl length. lia.
    + intros H. apply IH in H. unfold len in *. simpl length. lia.
Qed.

Lemma LoadString_spec (f f' : BytesIO) (s : string) :
  XBlock.LoadString f = Ok (s, f') ->
  data f' = data f /\ pos f < pos f'
  /\ (0 <= pos f -> pos f' <= len (data f)).
Proof.
  unfold XBlock.LoadString. intros H. bind_inv H as r Hr.
  destruct r as [bs n]. bind_inv H as s' Hs. apply Ok_inj in H.
  inversion H; subst. simpl. apply LoadString_loop_bound in Hr.
  split; [reflexivity|]. split; [lia|]. intros Hp.
  unfold len in *. rewrite length_drop in Hr. lia.
Qed.

(** Facts about one reading step, for [lia]. *)
Ltac cursor_step :=
  match goal with
  | H : bind _ _ = Ok _ |- _ =>
      let a := fresh "a" in let Ha := fresh "Ha" in
      apply bind_Ok in H; destruct H as [a [Ha H]]
  | H : (let '(_, _) := ?p in _) = Ok _ |- _ =>
      let Hp := fresh "Hp" in destruct p eqn:Hp
  | H : (match ?p with (_, _) => _ end) = Ok _ |- _ =>
      let Hp := fresh "Hp" in destruct p eqn:Hp
  | H : Ok _ = Ok _ |- _ => apply Ok_inj in H
  | H : (_, _) = (_, _) |- _ => inversion H; clear H; subst
  | H : seek _ _ = Ok _ |- _ =>
      apply seek_Ok in H; destruct H as [? ?]; subst
  | H : read _ _ = (_, _) |- _ =>
      apply read_spec in H; destruct H as [? [? ?]]; subst
  | H : XBlock.LoadString _ = Ok (_, _) |- _ =>
      apply LoadString_spec in H; destruct H as [? [? ?]]
  | H : XBlock.LoadString _ = Ok ?p |- _ => destruct p
  | H : match ?x with _ => _ end = Ok _ |- _ => destruct x; try discriminate
  | H : _ = ?r |- _ => is_var r; subst r
  end.

Ltac cursor_finish :=
  unfold advances, padded_exact, tell in *; simpl in *;
  repeat match goal with
         | H : data ?f = _ |- _ => rewrite H in *
         end;
  repeat match goal with
         | |- context [padded ?x] =>
             lazymatch goal with
             | _ : x <= padded x |- _ => fail
             | _ => assert (x <= padded x) by (apply padded_ge; lia)
             end
         end;
  repeat split; try reflexivity; try lia.

Lemma LoadString_Aligned_adv f s f' :
  0 <= pos f -> padded_exact f ->
  XBlock.LoadString_Aligned f = Ok (s, f') ->
  advances f f' /\ pos f' <= len (data f) + 3.
Proof.
  intros Hp Hb H. unfold XBlock.LoadString_Aligned in H.
  repeat cursor_step. split; [cursor_finish|].
  unfold padded_exact, tell in *. simpl in *.
  pose proof (padded_le (pos b - pos f) ltac:(lia) ltac:(lia)). lia.
Qed.

Ltac reader_adv := repeat cursor_step; cursor_finish.

Lemma LoadInt16Block_adv f r :
  0 <= pos f -> padded_exact f ->
  XBlock.LoadInt16Block f = Ok r -> advances f (snd r).
Proof. intros Hp Hb H. unfold XBlock.LoadInt16Block in H. reader_adv. Qed.

Lemma LoadUInt16Block_adv f r :
  0 <= pos f -> padded_exact f ->
  XBlock.LoadUInt16Block f = Ok r -> advances f (snd r).
Proof. intros Hp Hb H. unfold XBlock.LoadUInt16Block in H. reader_adv. Qed.

Lemma LoadInt32Block_adv f r :
  0 <= pos f -> padded_exact f ->
  XBlock.LoadInt32Block f = Ok r -> advances f (snd r).
Proof. intros Hp Hb H. unfold XBlock.LoadInt32Block in H. reader_adv. Qed.

Lemma LoadCommentBlock_adv f r :
  0 <= pos f -> padded_exact f ->
  XBlock.LoadCommentBlock f = Ok r -> advances f (snd r).
Proof. intros Hp Hb H. unfold XBlock.LoadCommentBlock in H. reader_adv. Qed.

Lemma LoadBoneBlock_adv f r :
  0 <= pos f -> padded_exact f ->
  XBlock.LoadBoneBlock f = Ok r -> advances f (snd r).
Proof. intros Hp Hb H. unfold XBlock.LoadBoneBlock in H. reader_adv. Qed.

Lemma LoadFloatBlock_adv f r :
  0 <= pos f -> padded_exact f ->
  XBlock.LoadFloatBlock f = Ok r -> advances f (snd r).
Proof. intros Hp Hb H. unfold XBlock.LoadFloatBlock in H. reader_adv. Qed.

Lemma LoadVec2Block_adv f r :
  0 <= pos f -> padded_exact f ->
  XBlock.LoadVec2Block f = Ok r -> advances f (snd r).
Proof. intros Hp Hb H. unfold XBlock.LoadVec2Block in H. reader_adv. Qed.

Lemma LoadVec3Block_adv f r :
  0 <= pos f -> padded_exact f ->
  XBlock.LoadVec3Block f = Ok r -> advances f (snd r).
Proof. intros Hp Hb H. unfold XBlock.LoadVec3Block in H. reader_adv. Qed.

Lemma LoadShortVec3Block_adv f r :
  0 <= pos f -> padded_exact f ->
  XBlock.LoadShortVec3Block f = Ok r -> advances f (snd r).
Proof. intros Hp Hb H. unfold XBlock.LoadShortVec3Block in H. reader_adv. Qed.

Lemma LoadVec4Block_adv f r :
  0 <= pos f -> padded_exact f ->
  XBlock.LoadVec4Block f = Ok r -> advances f (snd r).
Proof. intros Hp Hb H. unfold XBlock.LoadVec4Block in H. reader_adv. Qed.

Lemma LoadVertexWeightBlock_adv f r :
  0 <= pos f -> padded_exact f ->
  XBlock.LoadVertexWeightBlock f = Ok r -> advances f (snd r).
Proof.
  intros Hp Hb H. unfold XBlock.LoadVertexWeightBlock in H. reader_adv.
Qed.

Lemma LoadTriangleBlock_adv f r :
  0 <= pos f -> padded_exact f ->
  XBlock.LoadTriangleBlock f = Ok r -> advances f (snd r).
Proof. intros Hp Hb H. unfold XBlock.LoadTriangleBlock in H. reader_adv. Qed.

Lemma LoadTriangle16Block_adv f r :
  0 <= pos f -> padded_exact f ->
  XBlock.LoadTriangle16Block f = Ok r -> advances f (snd r).
Proof. intros Hp Hb H. unfold XBlock.LoadTriangle16Block in H. reader_adv. Qed.

Lemma LoadColorBlock_adv f r :
  0 <= pos f -> padded_exact f ->
  XBlock.LoadColorBlock f = Ok r -> advances f (snd r).
Proof. intros Hp Hb H. unfold XBlock.LoadColorBlock in H. reader_adv. Qed.

Lemma LoadUVBlock_adv f r :
  0 <= pos f -> padded_exact f ->
  XBlock.LoadUVBlock f = Ok r -> advances f (snd r).
Proof. intros Hp Hb H. unfold XBlock.LoadUVBlock in H. reader_adv. Qed.

Lemma LoadObjectBlock_adv f r :
  0 <= pos f -> padded_exact f ->
  XBlock.LoadObjectBlock f = Ok r -> advances f (snd r).
Proof. intros Hp Hb H. unfold XBlock.LoadObjectBlock in H. reader_adv. Qed.

Lemma LoadNoteFrameBlock_adv f r :
  0 <= pos f -> padded_exact f ->
  XBlock.LoadNoteFrameBlock f = Ok r -> advances f (snd r).
Proof. intros Hp Hb H. unfold XBlock.LoadNoteFrameBlock in H. reader_adv. Qed.

Section HandlersAdvance.
Context {Images : Type}.
Variable deserialize_image_string : string -> Images.
Variable expected_type : string.

Lemma LoadMaterialBlock_adv f r :
  0 <= pos f -> padded_exact f ->
  XBlock.LoadMaterialBlock deserialize_image_string f = Ok r ->
  advances f (snd r).
Proof.
  intros Hp Hb H. unfold XBlock.LoadMaterialBlock in H.
  repeat cursor_step.
  apply LoadString_Aligned_adv in Ha; [|cursor_finish|cursor_finish].
  destruct Ha as [[Hd0 [Hp0 Hq0]] Hu0]. simpl in Hd0, Hp0, Hu0.
  apply LoadString_Aligned_adv in Ha0;
    [|exact Hq0|unfold padded_exact in *; rewrite Hd0; exact Hb].
  destruct Ha0 as [[Hd1 [Hp1 Hq1]] Hu1]. rewrite Hd0 in Hd1, Hu1.
  apply LoadString_Aligned_adv in Ha1;
    [|exact Hq1|unfold padded_exact in *; rewrite Hd1; exact Hb].
  destruct Ha1 as [[Hd2 [Hp2 Hq2]] Hu2]. rewrite Hd1 in Hd2, Hu2.
  cursor_finish.
Qed.

Lemma assign_active_file upd (st st' : DState Images) :
  assign_active upd st = Ok st' -> st_file st' = st_file st.
Proof.
  unfold assign_active. intros H. bind_inv H as r Hr. destruct r as [a o].
  bind_inv H as o' Ho. apply Ok_inj in H. subst st'. reflexivity.
Qed.

Lemma route_vertex_index_file index (st st' : DState Images) :
  XBinIO.route_vertex_index index st = Ok st' -> st_file st' = st_file st.
Proof.
  unfold XBinIO.route_vertex_index. intros H.
  destruct (active_tri (st_state st)) as [tri|].
  - simpl in H. bind_inv H as r Hr. destruct r as [a' o].
    bind_inv H as o' Ho. apply Ok_inj in H. subst st'. reflexivity.
  - simpl in H. bind_inv H as vs Hvs. apply Ok_inj in H. subst st'.
    reflexivity.
Qed.

Ltac handler_step :=
  match goal with
  | H : bind _ _ = Ok _ |- _ =>
      let a := fresh "a" in let Ha := fresh "Ha" in
      apply bind_Ok in H; destruct H as [a [Ha H]]
  | H : assign_active _ _ = Ok _ |- _ => apply assign_active_file in H
  | H : XBinIO.route_vertex_index _ _ = Ok _ |- _ =>
      apply route_vertex_index_file in H
  | H : (if ?b then _ else _) = Ok _ |- _ => destruct b; try discriminate
  | H : Ok _ = Ok _ |- _ => apply Ok_inj in H
  | H : (let '(_, _) := ?p in _) = Ok _ |- _ => destruct p
  | H : match ?p with (_, _) => _ end = Ok _ |- _ => destruct p
  | H : _ = ?r |- _ => is_var r; subst r
  end.

Ltac use_reader :=
  match goal with
  | H : XBlock.LoadInt16Block _ = Ok _ |- _ => apply LoadInt16Block_adv in H
  | H : XBlock.LoadUInt16Block _ = Ok _ |- _ => apply LoadUInt16Block_adv in H
  | H : XBlock.LoadInt32Block _ = Ok _ |- _ => apply LoadInt32Block_adv in H
  | H : XBlock.LoadCommentBlock _ = Ok _ |- _ =>
      apply LoadCommentBlock_adv in H
  | H : XBlock.LoadBoneBlock _ = Ok _ |- _ => apply LoadBoneBlock_adv in H
  | H : XBlock.LoadFloatBlock _ = Ok _ |- _ => apply LoadFloatBlock_adv in H
  | H : XBlock.LoadVec2Block _ = Ok _ |- _ => apply LoadVec2Block_adv in H
  | H : XBlock.LoadVec3Block _ = Ok _ |- _ => apply LoadVec3Block_adv in H
  | H : XBlock.LoadShortVec3Block _ = Ok _ |- _ =>
      apply LoadShortVec3Block_adv in H
  | H : XBlock.LoadVec4Block _ = Ok _ |- _ => apply LoadVec4Block_adv in H
  | H : XBlock.LoadVertexWeightBlock _ = Ok _ |- _ =>
      apply LoadVertexWeightBlock_adv in H
  | H : XBlock.LoadTriangleBlock _ = Ok _ |- _ =>
      apply LoadTriangleBlock_adv in H
  | H : XBlock.LoadTriangle16Block _ = Ok _ |- _ =>
      apply LoadTriangle16Block_adv in H
  | H : XBlock.LoadColorBlock _ = Ok _ |- _ => apply LoadColorBlock_adv in H
  | H : XBlock.LoadUVBlock _ = Ok _ |- _ => apply LoadUVBlock_adv in H
  | H : XBlock.LoadObjectBlock _ = Ok _ |- _ => apply LoadObjectBlock_adv in H
  | H : XBlock.LoadNoteFrameBlock _ = Ok _ |- _ =>
      apply LoadNoteFrameBlock_adv in H
  | H : XBlock.LoadMaterialBlock _ _ = Ok _ |- _ =>
      apply LoadMaterialBlock_adv in H
  end.

Lemma call_advances (h : XBinIO.handler) (st st' : DState Images) :
  0 <= pos (st_file st) -> padded_exact (st_file st) ->
  XBinIO.call deserialize_image_string expected_type h st = Ok st' ->
  advances (st_file st) (st_file st').
Proof.
  intros Hp Hb H.
  destruct h; cbv beta iota delta [XBinIO.call] in H;
    cbv beta zeta iota delta
      [alloc XBinIO.new_tri
       XBinIO.XBlock_LoadCommentBlock XBinIO.InitModel XBinIO.InitAnim
       XBinIO.XBlock_LoadInt16Block XBinIO.LoadBoneCount
       XBinIO.LoadCosmeticCount XBinIO.LoadBoneInfo XBinIO.LoadBoneIndex
       XBinIO.LoadOffset XBinIO.LoadBoneScale XBinIO.LoadBoneMatrix
       XBinIO.LoadVertexCount XBinIO.LoadVertex32Count XBinIO.LoadVertexIndex
       XBinIO.LoadVertex32Index XBinIO.LoadVertexWeightCount
       XBinIO.LoadVertexWeight XBinIO.LoadTriCount XBinIO.LoadTriInfo
       XBinIO.LoadTri16Info XBinIO.LoadTriVertNormal XBinIO.LoadTriVertColor
       XBinIO.LoadTriVertUV XBinIO.LoadObjectCount XBinIO.LoadObjectInfo
       XBinIO.LoadMaterialCount XBinIO.LoadMaterialInfo
       XBinIO.LoadMaterialTransparency XBinIO.LoadMaterialAmbientColor
       XBinIO.LoadMaterialIncandescence XBinIO.LoadMaterialCoeffs
       XBinIO.LoadMaterialGlow XBinIO.LoadMaterialRefractive
       XBinIO.LoadMaterialSpecularColor XBinIO.LoadMaterialReflectiveColor
       XBinIO.LoadMaterialReflective XBinIO.LoadMaterialBlinn
       XBinIO.LoadMaterialPhong XBinIO.LoadPartCount XBinIO.LoadPartInfo
       XBinIO.LoadPartIndex XBinIO.LoadFramerate XBinIO.LoadFrameCount
       XBinIO.LoadFrameIndex XBinIO.LoadNotetracksBegin XBinIO.LoadNoteFrame]
      in H;
    repeat handler_step;
    (use_reader; [|assumption|assumption]);
    simpl in *;
    repeat match goal with
           | H : st_file _ = _ |- _ => rewrite H; clear H
           end;
    simpl; assumption.
Qed.


(** A turn that does not end the loop has read the two bytes of a tag. *)
Lemma turn_reads_tag (st : DState Images) :
  0 <= pos (st_file st) ->
  XBinIO.loop_turn deserialize_image_string expected_type st
  <> XBinIO.Finished ->
  fst (read (st_file st) 2) <> []
  /\ pos (st_file st) + 1 <= len (data (st_file st)).
Proof.
  intros Hp Hn. unfold XBinIO.loop_turn in Hn.
  destruct (read (st_file st) 2) as [bs f1] eqn:Hr. simpl.
  destruct bs as [|b bs]; [contradiction|]. split; [discriminate|].
  apply read_spec in Hr. destruct Hr as [_ [_ Hr]].
  specialize (Hr Hp ltac:(discriminate)). unfold len in *. simpl length in Hr.
  lia.
Qed.

Lemma turn_next (st st' : DState Images) :
  0 <= pos (st_file st) -> padded_exact (st_file st) ->
  XBinIO.loop_turn deserialize_image_string expected_type st
  = XBinIO.Next st' ->
  data (st_file st') = data (st_file st)
  /\ pos (st_file st) + 2 <= pos (st_file st').
Proof.
  intros Hp Hb H. unfold XBinIO.loop_turn in H.
  destruct (read (st_file st) 2) as [bs f1] eqn:Hr.
  destruct bs as [|b0 bs]; [discriminate|].
  destruct (unpack_ints true [fH] (b0 :: bs)) as [r| |] eqn:Hu;
    try discriminate.
  assert (Hl : len (b0 :: bs) = 2).
  { unfold unpack_ints, struct_unpack in Hu.
    destruct (Z.eqb_spec (Z.of_nat (length (b0 :: bs)))
                (calcsize_at true 0 [fH])) as [He|He];
      [exact He|discriminate]. }
  apply read_spec in Hr. destruct Hr as [-> _]. rewrite Hl in H.
  destruct (py_getitem r 0) as [block_hash| |]; try discriminate.
  destruct (XBinIO.hashmap_get XBinIO.hashmap block_hash)
    as [[name [h|]]|]; try discriminate.
  destruct (XBinIO.call deserialize_image_string expected_type h _)
    as [st1| |] eqn:Hc; try discriminate.
  inversion H; subst st1.
  apply call_advances in Hc; [|simpl; lia|exact Hb].
  destruct Hc as [Hd [Hq _]]. simpl in Hd, Hq. split; [exact Hd|lia].
Qed.

(** The turns that lead to a state, counted, and their cost in fuel. *)
Lemma reaches_fuel (st0 st : DState Images) :
  0 <= pos (st_file st0) -> padded_exact (st_file st0) ->
  reaches deserialize_image_string expected_type st0 st ->
  exists k : nat,
    (forall n,
       XBinIO.read_all_blocks deserialize_image_string expected_type
         (k + n) st0
       = XBinIO.read_all_blocks deserialize_image_string expected_type n st)
    /\ data (st_file st) = data (st_file st0)
    /\ pos (st_file st0) + 2 * Z.of_nat k <= pos (st_file st).
Proof.
  intros Hp Hb. induction 1 as [|st' st'' Hr IH Ht].
  - exists 0%nat. split; [reflexivity|]. split; [reflexivity|lia].
  - destruct IH as [k [Hk [Hd Hq]]].
    pose proof Ht as Ht'.
    apply turn_next in Ht';
      [|lia|unfold padded_exact in *; rewrite Hd; exact Hb].
    destruct Ht' as [Hd' Hq']. exists (S k). split; [|split].
    + intros n. replace (S k + n)%nat with (k + S n)%nat by lia.
      rewrite Hk. simpl. rewrite Ht. reflexivity.
    + congruence.
    + lia.
Qed.

(** Fuel equal to the size of the buffer is never exhausted, as long as
    [padded] is exact on its offsets. *)
Lemma read_all_blocks_total (n : nat) (st : DState Images) (fuel : nat) :
  0 <= pos (st_file st) -> padded_exact (st_file st) ->
  len (data (st_file st)) - pos (st_file st) <= Z.of_nat n ->
  (n < fuel)%nat ->
  XBinIO.read_all_blocks deserialize_image_string expected_type fuel st
  <> None.
Proof.
  revert st fuel. induction n as [|n IH]; intros st fuel Hp Hb Hn Hf.
  - destruct fuel as [|fuel]; [lia|]. simpl.
    destruct (XBinIO.loop_turn deserialize_image_string expected_type st)
      eqn:Ht; try discriminate.
    exfalso. destruct (turn_reads_tag st Hp) as [_ Hlt]; [congruence|lia].
  - destruct fuel as [|fuel]; [lia|]. simpl.
    destruct (XBinIO.loop_turn deserialize_image_string expected_type st)
      eqn:Ht; try discriminate.
    destruct (turn_next _ _ Hp Hb Ht) as [Hd Hq].
    apply IH; [lia|unfold padded_exact in *; rewrite Hd; exact Hb| |lia].
    rewrite Hd. lia.
Qed.

End HandlersAdvance.

(** ** Unsupported and unknown tags *)

Lemma hashmap_unsupported (t : Z) (name : string) :
  XBinIO.hashmap_get XBinIO.hashmap t = Some (name, None)
  <-> In (t, name) unsupported_tags.
Proof.
  split.
  - cbv [XBinIO.hashmap_get XBinIO.hashmap].
    repeat match goal with
           | |- (if ?k =? t then _ else _) = _ -> _ =>
               destruct (Z.eqb_spec k t) as [<-|_];
               [intros [= <-]; simpl; tauto|]
           | |- (if ?k =? t then _ else _) = _ -> _ =>
               destruct (Z.eqb_spec k t) as [<-|_]; [discriminate|]
           end.
    discriminate.
  - intros H. simpl in H.
    repeat (destruct H as [[= <- <-]|H]; [reflexivity|]). contradiction.
Qed.

Section FatalTags.
Context {Images : Type}.
Variable deserialize_image_string : string -> Images.
Variable expected_type : string.

Lemma turn_tag (st : DState Images) (tag : Z) :
  fst (read (st_file st) 2) = le_bytes 2 tag -> 0 <= tag < 65536 ->
  XBinIO.loop_turn deserialize_image_string expected_type st
  = match XBinIO.hashmap_get XBinIO.hashmap tag with
    | Some (name, None) =>
        XBinIO.Stop (NotImplementedError_block name (pos (st_file st) + 2))
    | Some (name, Some h) =>
        match XBinIO.call deserialize_image_string expected_type h
                (with_file (mkBytesIO (data (st_file st))
                              (pos (st_file st) + 2)) st) with
        | Ok st' => XBinIO.Next st'
        | Raise e => XBinIO.Stop e
        | Diverge => XBinIO.Hang
        end
    | None =>
        XBinIO.Stop (ValueError_unknown_block tag (pos (st_file st)))
    end.
Proof.
  intros Hr Ht. unfold XBinIO.loop_turn.
  destruct (read (st_file st) 2) as [bs f1] eqn:Hread. simpl in Hr. subst bs.
  apply read_spec in Hread. destruct Hread as [-> _].
  cbn [le_bytes]. unfold unpack_ints, struct_unpack.
  cbn [length calcsize_at fmt_pad fmt_size]. simpl Z.eqb. cbv iota.
  cbn [struct_unpack_at fmt_pad fmt_size unpack_item bind mapM as_int].
  change (take (Z.to_nat 2)
            (drop (Z.to_nat ((- 0) mod 2))
               [byte_of_Z tag; byte_of_Z (tag / 256)]))
    with (le_bytes 2 tag).
  rewrite unpack_int_unsigned by (simpl; lia).
  cbn [bind mapM as_int].
  change (py_getitem [tag] 0) with (Ok (A := Z) tag). cbv iota.
  unfold tell, len. cbn [pos data length]. change (Z.of_nat 2) with 2.
  replace (pos (st_file st) + 2 - 2) with (pos (st_file st)) by lia.
  destruct (XBinIO.hashmap_get XBinIO.hashmap tag) as [[name [h|]]|];
    reflexivity.
Qed.

Lemma loadfile_stops (self : Self) (heap : list (Obj Images))
    (stream : list byte) (st : DState Images) (e : exn) :
  len stream < 2 ^ 56 - 8 ->
  reaches deserialize_image_string expected_type
    (initial_state self heap (mkBytesIO stream 0)) st ->
  XBinIO.loop_turn deserialize_image_string expected_type st
  = XBinIO.Stop e ->
  XBinIO.__xbin_loadfile_internal__ deserialize_image_string expected_type
    self heap (mkBytesIO stream 0) = Raise e.
Proof.
  intros Hb Hr Ht.
  destruct (reaches_fuel deserialize_image_string expected_type
              (initial_state self heap (mkBytesIO stream 0)) st
              (Z.le_refl 0) Hb Hr)
    as [k [Hk [Hd Hq]]]. simpl in Hd, Hq.
  destruct (turn_reads_tag deserialize_image_string expected_type st
              ltac:(lia) ltac:(congruence)) as [_ Hlt].
  rewrite Hd in Hlt. unfold len in Hlt.
  unfold XBinIO.__xbin_loadfile_internal__, XBinIO.enough_fuel. simpl data.
  fold (initial_state self heap (mkBytesIO stream 0)).
  replace (S (length stream)) with (k + S (length stream - k))%nat by lia.
  rewrite Hk. simpl. rewrite Ht. reflexivity.
Qed.

(** C9: when the loop, after any number of turns on any stream, reads
    one of the eight tags that the table marks as unsupported, the turn
    raises the unimplemented-block error with the name of the tag and the
    offset that follows the tag, and so does the whole decoding; a tag
    that is not in the table raises the unknown-block error with the tag
    and its offset.  The whole decoding is taken on a buffer below 2^56
    bytes, where [padded] is exact. *)
Theorem unsupported_block_is_fatal (self : Self) (heap : list (Obj Images))
    (stream : list byte) (st : DState Images) (tag : Z) :
  reaches deserialize_image_string expected_type
    (initial_state self heap (mkBytesIO stream 0)) st ->
  fst (read (st_file st) 2) = le_bytes 2 tag -> 0 <= tag < 65536 ->
  let offset := pos (st_file st) in
  let decode :=
    XBinIO.__xbin_loadfile_internal__ deserialize_image_string expected_type
      self heap (mkBytesIO stream 0) in
  (forall name, In (tag, name) unsupported_tags ->
     XBinIO.loop_turn deserialize_image_string expected_type st
     = XBinIO.Stop (NotImplementedError_block name (offset + 2))
     /\ (len stream < 2 ^ 56 - 8 ->
         decode = Raise (NotImplementedError_block name (offset + 2))))
  /\ (XBinIO.hashmap_get XBinIO.hashmap tag = None ->
      XBinIO.loop_turn deserialize_image_string expected_type st
      = XBinIO.Stop (ValueError_unknown_block tag offset)
      /\ (len stream < 2 ^ 56 - 8 ->
          decode = Raise (ValueError_unknown_block tag offset)))
  /\ map fst unsupported_tags
     = [0xBCD4; 0x1FC2; 0xB35E; 0xEF69; 0xA65B; 0x1D7D; 0xA58B; 0x6EEE]
  /\ XBinIO.hashmap_get XBinIO.hashmap 0xFFFF = None.
Proof.
  intros Hr Hread Ht offset decode.
  pose proof (turn_tag st tag Hread Ht) as Hturn.
  split; [|split; [|split; reflexivity]].
  - intros name Hin. apply hashmap_unsupported in Hin.
    rewrite Hin in Hturn. split; [exact Hturn|].
    intros Hb. apply (loadfile_stops self heap stream st _ Hb Hr Hturn).
  - intros Hnone. rewrite Hnone in Hturn. split; [exact Hturn|].
    intros Hb. apply (loadfile_stops self heap stream st _ Hb Hr Hturn).
Qed.
End FatalTags.

Lemma unsupported_block_is_fatal_witness :
  let st :=
    match XBinIO.loop_turn (fun s : string => s) "MODEL"
            (initial_state new_self [] (mkBytesIO quaternion_stream 0)) with
    | XBinIO.Next s => s
    | _ => initial_state new_self [] (mkBytesIO quaternion_stream 0)
    end in
  let offset := pos (st_file st) in
  let decode :=
    XBinIO.__xbin_loadfile_internal__ (fun s : string => s) "MODEL"
      new_self [] (mkBytesIO quaternion_stream 0) in
  (forall name, In (0xEF69, name) unsupported_tags ->
     XBinIO.loop_turn (fun s : string => s) "MODEL" st
     = XBinIO.Stop (NotImplementedError_block name (offset + 2))
     /\ (len quaternion_stream < 2 ^ 56 - 8 ->
         decode = Raise (NotImplementedError_block name (offset + 2))))
  /\ (XBinIO.hashmap_get XBinIO.hashmap 0xEF69 = None ->
      XBinIO.loop_turn (fun s : string => s) "MODEL" st
      = XBinIO.Stop (ValueError_unknown_block 0xEF69 offset)
      /\ (len quaternion_stream < 2 ^ 56 - 8 ->
          decode = Raise (ValueError_unknown_block 0xEF69 offset)))
  /\ map fst unsupported_tags
     = [0xBCD4; 0x1FC2; 0xB35E; 0xEF69; 0xA65B; 0x1D7D; 0xA58B; 0x6EEE]
  /\ XBinIO.hashmap_get XBinIO.hashmap 0xFFFF = None.
Proof.
  apply (unsupported_block_is_fatal (fun s : string => s) "MODEL" new_self []
           quaternion_stream _ 0xEF69).
  - eapply reaches_turn; [apply reaches_here|]. vm_compute. reflexivity.
  - vm_compute. reflexivity.
  - lia.
Defined.

(** ** Index tags *)

Lemma py_setitem_in_range {A} (l : list A) (i : Z) (x : A) :
  0 <= i < len l -> py_setitem l i x = Ok (<[Z.to_nat i := x]> l).
Proof.
  intros [H0 H1]. unfold py_setitem, py_index.
  apply Z.leb_le in H0. apply Z.ltb_lt in H1. rewrite H0, H1. reflexivity.
Qed.

Section IndexTags.
Context {Images : Type}.
Variable deserialize_image_string : string -> Images.
Variable expected_type : string.


(** C6: a bone-info block with index [index] builds a bone that is
    cosmetic exactly when [index >= len(self.bones) - self.cosmetics],
    and stores it in the slot [index] of the bone array (the slot must
    exist); [self.cosmetics] is the count read by [LoadCosmeticCount].
    With ten slots and three cosmetic bones the bones 7, 8 and 9 are
    cosmetic and the bones 0 to 6 are not. *)
Theorem bone_info_cosmetic (st : DState Images) (index parent : Z)
    (name : string) (file' : BytesIO) :
  XBlock.LoadBoneBlock (st_file st) = Ok (index, parent, name, file') ->
  0 <= index < len (bones (st_self st)) ->
  let bone_count := len (bones (st_self st)) in
  let cosmetic_count := cosmetics (st_self st) in
  let cosmetic := bone_count - cosmetic_count <=? index in
  let fresh := length (st_heap st) in
  XBinIO.call deserialize_image_string expected_type XBinIO.H_LoadBoneInfo st
  = Ok (set_bones (<[Z.to_nat index := Some fresh]> (bones (st_self st)))
          (with_heap
             (st_heap st
              ++ [OBone (BoneO.mk name parent cosmetic None None None)])
             (with_file file' st)))
  /\ (cosmetic = true <-> index >= bone_count - cosmetic_count)
  /\ (bone_count = 10 -> cosmetic_count = 3 ->
      (cosmetic = true <-> 7 <= index <= 9)
      /\ (cosmetic = false <-> 0 <= index <= 6))
  /\ (forall (s : DState Images) n f,
        XBlock.LoadInt32Block (st_file s) = Ok (n, f) ->
        exists s',
          XBinIO.call deserialize_image_string expected_type
            XBinIO.H_LoadCosmeticCount s = Ok s'
          /\ cosmetics (st_self s') = n
          /\ bones (st_self s') = bones (st_self s)).
Proof.
  intros Hread Hrange bone_count cosmetic_count cosmetic fresh.
  split; [|split; [|split]].
  - simpl. unfold XBinIO.LoadBoneInfo. rewrite Hread. simpl.
    rewrite (py_setitem_in_range _ _ _ Hrange). simpl.
    fold bone_count cosmetic_count cosmetic.
    destruct cosmetic; reflexivity.
  - subst cosmetic. rewrite Z.leb_le. lia.
  - intros H10 H3. subst cosmetic. rewrite H10, H3 in *.
    split; [rewrite Z.leb_le|rewrite Z.leb_gt]; fold bone_count in Hrange;
      rewrite H10 in Hrange; lia.
  - intros s n f Hs. eexists. split; [|split].
    + simpl. unfold XBinIO.LoadCosmeticCount. rewrite Hs. reflexivity.
    + reflexivity.
    + reflexivity.
Qed.
End IndexTags.


Lemma bone_info_cosmetic_witness :
  XBinIO.call (fun s : string => s) "MODEL" XBinIO.H_LoadBoneInfo
    ten_bones_state
  = Ok (set_bones (<[8%nat := Some 0%nat]> (py_repeat None 10))
          (with_heap [OBone (BoneO.mk "b" 0 true None None None)]
             (with_file (mkBytesIO bone_info_block 16) ten_bones_state))).
Proof.
  destruct (bone_info_cosmetic (fun s : string => s) "MODEL" ten_bones_state
              8 0 "b" (mkBytesIO bone_info_block 16)) as [H _].
  - vm_compute. reflexivity.
  - vm_compute. split; [discriminate|reflexivity].
  - exact H.
Defined.

(** ** Packing, byte by byte *)

Lemma pack_float_Ok (x : float) (d : list byte) :
  pack_float x = Ok d -> d = f32_bytes x.
Proof.
  unfold pack_float, f32_bytes.
  destruct x, (float32_round _); intros H; try discriminate;
    apply Ok_inj in H; congruence.
Qed.

Lemma pack_fs_Ok (n : Z) (b d : list byte) :
  pack_item (fs n) (VBytes b) = Ok d -> 0 <= n /\ d = strfield n b.
Proof.
  simpl. destruct (Z.ltb_spec n 0) as [Hlt|Hge]; [discriminate|].
  intros H. apply Ok_inj in H. split; [lia|]. unfold strfield. congruence.
Qed.

Lemma mapM_Ok {A B} (f : A -> outcome B) (d : B) (l : list A) (r : list B) :
  mapM f l = Ok r ->
  r = map (fun x => match f x with Ok y => y | _ => d end) l.
Proof.
  revert r. induction l as [|x l IH]; intros r H; simpl in H.
  - apply Ok_inj in H. subst r. reflexivity.
  - bind_inv H as y Hy. bind_inv H as ys Hys. apply Ok_inj in H. subst r.
    simpl. rewrite Hy. f_equal. apply IH. exact Hys.
Qed.

Ltac pack_item_inv :=
  match goal with
  | H : bind _ _ = Ok _ |- _ =>
      let a := fresh "d" in let Ha := fresh "Hd" in
      apply bind_Ok in H; destruct H as [a [Ha H]]
  | H : pack_item fB (VInt _) = Ok _ |- _ =>
      apply pack_int_Ok in H; destruct H as [-> ?]
  | H : pack_item fH (VInt _) = Ok _ |- _ =>
      apply pack_int_Ok in H; destruct H as [-> ?]
  | H : pack_item fh (VInt _) = Ok _ |- _ =>
      apply pack_int_Ok in H; destruct H as [-> ?]
  | H : pack_item fI (VInt _) = Ok _ |- _ =>
      apply pack_int_Ok in H; destruct H as [-> ?]
  | H : pack_item fi (VInt _) = Ok _ |- _ =>
      apply pack_int_Ok in H; destruct H as [-> ?]
  | H : pack_item ff (VFloat _) = Ok _ |- _ =>
      apply pack_float_Ok in H; subst
  | H : pack_item ff (VInt _) = Ok _ |- _ =>
      apply pack_float_Ok in H; subst
  | H : pack_item (fs _) (VBytes _) = Ok _ |- _ =>
      apply pack_fs_Ok in H; destruct H as [? ->]
  | H : pack_item _ _ = Ok _ |- _ => discriminate H
  | H : Raise _ = Ok _ |- _ => discriminate H
  | H : Ok _ = Ok _ |- _ => apply Ok_inj in H; subst
  end.

Ltac pack_inv H :=
  unfold struct_pack in H;
  cbn [struct_pack_at fmt_pad fmt_size map app] in H;
  repeat pack_item_inv.

(** A writer that succeeds appends one chunk, of the layout of its block. *)
Ltac writer_inv H d :=
  apply bind_Ok in H; destruct H as [d [Hpack H]];
  apply Ok_inj in H; subst; unfold write.

Lemma WriteModelBlock_chunk (f f' : wfile) :
  XBlock.WriteModelBlock f = Ok f' -> f' = f ++ [blk_model].
Proof.
  unfold XBlock.WriteModelBlock. intros H. writer_inv H d.
  pack_inv Hpack. reflexivity.
Qed.

Lemma WriteMetaInt16Block_chunk (f f' : wfile) (tag v : Z) :
  XBlock.WriteMetaInt16Block f tag v = Ok f' ->
  f' = f ++ [blk_int16 tag v] /\ 0 <= tag < 65536 /\ is_short v.
Proof.
  unfold XBlock.WriteMetaInt16Block. intros H. writer_inv H d.
  pack_inv Hpack. unfold is_short. simpl in *. repeat split; lia.
Qed.

Lemma WriteMetaUInt16Block_chunk (f f' : wfile) (tag v : Z) :
  XBlock.WriteMetaUInt16Block f tag v = Ok f' ->
  f' = f ++ [blk_int16 tag v] /\ 0 <= tag < 65536 /\ 0 <= v < 65536.
Proof.
  unfold XBlock.WriteMetaUInt16Block. intros H. writer_inv H d.
  pack_inv Hpack. simpl in *. repeat split; lia.
Qed.

Lemma WriteMetaInt32Block_chunk (f f' : wfile) (tag v : Z) :
  XBlock.WriteMetaInt32Block f tag v = Ok f' ->
  f' = f ++ [blk_int32 tag v] /\ 0 <= tag < 65536 /\ 0 <= v < 2 ^ 32.
Proof.
  unfold XBlock.WriteMetaInt32Block. intros H. writer_inv H d.
  pack_inv Hpack. simpl in *. repeat split; lia.
Qed.

Lemma WriteVersionBlock_chunk (f f' : wfile) (v : Z) :
  XBlock.WriteVersionBlock f v = Ok f' ->
  f' = f ++ [blk_int16 0x24D1 v] /\ is_short v.
Proof.
  unfold XBlock.WriteVersionBlock. intros H. writer_inv H d.
  pack_inv Hpack. unfold is_short. simpl in *. repeat split; lia.
Qed.

Lemma WriteMetaFloatBlock_chunk (f f' : wfile) (tag : Z) (v : val) :
  XBlock.WriteMetaFloatBlock f tag v = Ok f' ->
  f' = f ++ [blk_floats tag [float_of_val v]] /\ 0 <= tag < 65536.
Proof.
  unfold XBlock.WriteMetaFloatBlock. intros H. writer_inv H d.
  destruct v; pack_inv Hpack; simpl in *; repeat split; lia.
Qed.

Lemma WriteMetaVec2Block_chunk (f f' : wfile) (tag : Z) (vec : list float) :
  XBlock.WriteMetaVec2Block f tag vec = Ok f' ->
  f' = f ++ [blk_floats tag vec] /\ 0 <= tag < 65536 /\ length vec = 2%nat.
Proof.
  unfold XBlock.WriteMetaVec2Block. intros H. writer_inv H d.
  destruct vec as [|x [|y [|z ?]]]; pack_inv Hpack;
    simpl in *; repeat split; lia.
Qed.

Lemma WriteMetaVec3Block_chunk (f f' : wfile) (tag : Z) (vec : list float) :
  XBlock.WriteMetaVec3Block f tag vec = Ok f' ->
  f' = f ++ [blk_floats tag vec] /\ 0 <= tag < 65536 /\ length vec = 3%nat.
Proof.
  unfold XBlock.WriteMetaVec3Block. intros H. writer_inv H d.
  destruct vec as [|x [|y [|z [|w ?]]]]; pack_inv Hpack;
    simpl in *; repeat split; lia.
Qed.

Lemma WriteMetaVec4Block_chunk (f f' : wfile) (tag : Z) (vec : list float) :
  XBlock.WriteMetaVec4Block f tag vec = Ok f' ->
  f' = f ++ [blk_floats tag vec] /\ 0 <= tag < 65536 /\ length vec = 4%nat.
Proof.
  unfold XBlock.WriteMetaVec4Block. intros H. writer_inv H d.
  destruct vec as [|x [|y [|z [|w [|v ?]]]]]; pack_inv Hpack;
    simpl in *; repeat split; lia.
Qed.

Lemma WriteOffsetBlock_chunk (f f' : wfile) (vec : list float) :
  XBlock.WriteOffsetBlock f vec = Ok f' ->
  f' = f ++ [blk_floats 0x9383 vec] /\ length vec = 3%nat.
Proof.
  intros H. apply (WriteMetaVec3Block_chunk f f' 0x9383 vec) in H.
  destruct H as [-> [_ Hl]]. split; [reflexivity|exact Hl].
Qed.

Lemma WriteCommentBlock_chunk (f f' : wfile) (comment : string) :
  XBlock.WriteCommentBlock f comment = Ok f' ->
  f' = f ++ [blk_comment comment].
Proof.
  unfold XBlock.WriteCommentBlock. intros H. writer_inv H d.
  pack_inv Hpack. unfold blk_comment. simpl. rewrite app_nil_r. reflexivity.
Qed.

Lemma WriteBoneInfoBlock_chunk (f f' : wfile) (i : Z) (bone : Bone.t) :
  XBlock.WriteBoneInfoBlock f i bone = Ok f' ->
  f' = f ++ [blk_bone i bone]
  /\ - 2 ^ 31 <= i < 2 ^ 31 /\ - 2 ^ 31 <= Bone.parent bone < 2 ^ 31.
Proof.
  unfold XBlock.WriteBoneInfoBlock. intros H. writer_inv H d.
  pack_inv Hpack. unfold blk_bone. simpl in *. rewrite app_nil_r.
  repeat split; lia.
Qed.

Lemma WriteVertexWeightBlock_chunk (f f' : wfile) (w : Z * float) :
  XBlock.WriteVertexWeightBlock f w = Ok f' ->
  f' = f ++ [blk_weight w] /\ is_short (fst w).
Proof.
  unfold XBlock.WriteVertexWeightBlock. intros H. writer_inv H d.
  pack_inv Hpack. unfold is_short. simpl in *. repeat split; lia.
Qed.

Lemma WriteFaceInfoBlock_chunk (f f' : wfile) (face : Face.t) :
  XBlock.WriteFaceInfoBlock f face = Ok f' ->
  f' = f ++ [blk_face face]
  /\ 0 <= Face.mesh_id face < 65536 /\ 0 <= Face.material_id face < 65536.
Proof.
  unfold XBlock.WriteFaceInfoBlock, blk_face. intros H.
  destruct ((255 <? Face.mesh_id face) || (255 <? Face.material_id face));
    writer_inv H d; pack_inv Hpack; simpl in *; repeat split; lia.
Qed.

Lemma Forall_short_of (l : list float) (qs : list Z) :
  mapM __clamp_float_to_short__ l = Ok qs ->
  qs = map short_of l /\ length qs = length l.
Proof.
  intros H. apply (mapM_Ok _ 0) in H. subst qs.
  split; [reflexivity|apply length_map].
Qed.

Lemma WriteFaceVertexNormalBlock_chunk (f f' : wfile) (normal : list float) :
  XBlock.WriteFaceVertexNormalBlock f normal = Ok f' ->
  f' = f ++ [blk_shorts 0x89EC (map short_of normal)]
  /\ length normal = 3%nat /\ Forall is_short (map short_of normal).
Proof.
  unfold XBlock.WriteFaceVertexNormalBlock. intros H.
  bind_inv H as qs Hqs. apply Forall_short_of in Hqs. destruct Hqs as [-> _].
  writer_inv H d.
  destruct normal as [|x [|y [|z [|w ?]]]]; pack_inv Hpack.
  unfold is_short. simpl in *. repeat split; try lia.
  repeat constructor; lia.
Qed.

Lemma WriteColorBlock_chunk (f f' : wfile) (color : list float) :
  XBlock.WriteColorBlock f color = Ok f' ->
  f' = f ++ [blk_color (map byte_of_color color)]
  /\ length color = 4%nat /\ Forall is_byte (map byte_of_color color).
Proof.
  unfold XBlock.WriteColorBlock. intros H.
  bind_inv H as cs Hcs. apply (mapM_Ok _ 0) in Hcs. subst cs.
  fold byte_of_color in H. writer_inv H d.
  destruct color as [|x [|y [|z [|w [|v ?]]]]]; pack_inv Hpack.
  unfold is_byte. simpl in *. repeat split; try lia.
  repeat constructor; lia.
Qed.

Lemma WriteFaceVertexUVBlock_chunk (f f' : wfile) (layer : Z)
    (uv : list float) :
  XBlock.WriteFaceVertexUVBlock f layer uv = Ok f' ->
  f' = f ++ [blk_uv layer uv] /\ is_short layer /\ length uv = 2%nat.
Proof.
  unfold XBlock.WriteFaceVertexUVBlock. intros H. writer_inv H d.
  destruct uv as [|x [|y [|z ?]]]; pack_inv Hpack.
  unfold is_short. simpl in *. repeat split; lia.
Qed.

Lemma WriteMetaObjectInfo_chunk (f f' : wfile) (i : Z) (name : string) :
  XBlock.WriteMetaObjectInfo f 0x87D4 i name = Ok f' ->
  f' = f ++ [blk_object i name] /\ is_short i.
Proof.
  unfold XBlock.WriteMetaObjectInfo. intros H. writer_inv H d.
  pack_inv Hpack. unfold is_short, blk_object. simpl in *. rewrite app_nil_r.
  repeat split; lia.
Qed.

Lemma WriteMaterialInfoBlock_chunk {Images} (ser : Images -> bool -> string)
    (f f' : wfile) (i : Z) (m : Material.t Images) (ext : bool) :
  XBlock.WriteMaterialInfoBlock ser f i m ext = Ok f' ->
  f' = f ++ [blk_material i (Material.name m) (Material.type m)
               (ser (Material.images m) true)]
  /\ is_short i.
Proof.
  unfold XBlock.WriteMaterialInfoBlock. intros H. writer_inv H d.
  pack_inv Hpack. unfold is_short, blk_material. simpl in *.
  rewrite app_nil_r. repeat split; lia.
Qed.

Lemma WriteMatrixBlock_chunk (f f' : wfile) (matrix : list (list float)) :
  XBlock.WriteMatrixBlock f matrix = Ok f' ->
  exists r0 r1 r2 rest,
    matrix = r0 :: r1 :: r2 :: rest
    /\ f' = f ++ [blk_shorts 0xDCFD (map short_of r0)
                  ++ blk_shorts 0xCCDC (map short_of r1)
                  ++ blk_shorts 0xFCBF (map short_of r2)]
    /\ Forall (fun r => length r = 3%nat /\ Forall is_short (map short_of r))
         [r0; r1; r2].
Proof.
  unfold XBlock.WriteMatrixBlock. intros H.
  destruct matrix as [|r0 [|r1 [|r2 rest]]];
    try (repeat pack_item_inv; discriminate).
  exists r0, r1, r2, rest.
  assert (E0 : py_getitem (r0 :: r1 :: r2 :: rest) 0 = Ok r0)
    by (apply (py_getitem_nonneg _ 0); reflexivity).
  assert (E1 : py_getitem (r0 :: r1 :: r2 :: rest) 1 = Ok r1)
    by (apply (py_getitem_nonneg _ 1); reflexivity).
  assert (E2 : py_getitem (r0 :: r1 :: r2 :: rest) 2 = Ok r2)
    by (apply (py_getitem_nonneg _ 2); reflexivity).
  rewrite E0, E1, E2 in H. clear E0 E1 E2.
  cbn [bind] in H.
  bind_inv H as m0 Hm0. bind_inv H as m1 Hm1. bind_inv H as m2 Hm2.
  apply Forall_short_of in Hm0, Hm1, Hm2.
  destruct Hm0 as [-> _], Hm1 as [-> _], Hm2 as [-> _].
  bind_inv H as d0 Hd0. bind_inv H as d1 Hd1. bind_inv H as d2 Hd2.
  apply Ok_inj in H. subst f'. unfold write.
  destruct r0 as [|a0 [|b0 [|c0 [|? ?]]]]; pack_inv Hd0.
  destruct r1 as [|a1 [|b1 [|c1 [|? ?]]]]; pack_inv Hd1.
  destruct r2 as [|a2 [|b2 [|c2 [|? ?]]]]; pack_inv Hd2.
  unfold is_short. simpl in *.
  split; [reflexivity|]. split; [reflexivity|].
  repeat constructor; lia.
Qed.

(** ** Reading a block back

    The buffer [d] holds the block at offset [p]: the reader, entered after
    the two bytes of the tag, returns the fields and leaves the cursor at
    the end of the block. *)

Lemma drop_pos (d : list byte) (p q : Z) (X : list byte) :
  0 <= p -> drop (Z.to_nat p) d = X -> 0 <= q - p ->
  drop (Z.to_nat q) d = drop (Z.to_nat (q - p)) X.
Proof.
  intros Hp <- Hq. rewrite drop_drop. f_equal. lia.
Qed.

Lemma file_eq (d : list byte) (p q : Z) :
  p = q -> mkBytesIO d p = mkBytesIO d q.
Proof. intros ->. reflexivity. Qed.

#[local] Arguments byte_of_Z : simpl never.
#[local] Arguments unpack_int : simpl never.
#[local] Arguments unpack_float : simpl never.
#[local] Arguments float_div : simpl never.
#[local] Arguments float_of_int : simpl never.
#[local] Arguments padded : simpl never.

Lemma unpack1u (v : Z) : is_byte v -> unpack_int false [byte_of_Z v] = v.
Proof. intros H. apply (unpack_int_unsigned 1 v). exact H. Qed.

Lemma unpack2u (v : Z) :
  0 <= v < 65536 -> unpack_int false [byte_of_Z v; byte_of_Z (v / 256)] = v.
Proof. intros H. apply (unpack_int_unsigned 2 v). exact H. Qed.

Lemma unpack2s (v : Z) :
  is_short v -> unpack_int true [byte_of_Z v; byte_of_Z (v / 256)] = v.
Proof.
  intros H. apply (unpack_int_signed 2 v); [lia|]. unfold is_short in H.
  simpl. lia.
Qed.

Lemma unpack4s (v : Z) :
  - 2 ^ 31 <= v < 2 ^ 31 ->
  unpack_int true
    [byte_of_Z v; byte_of_Z (v / 256); byte_of_Z (v / 256 / 256);
     byte_of_Z (v / 256 / 256 / 256)] = v.
Proof.
  intros H. apply (unpack_int_signed 4 v); [lia|]. simpl. lia.
Qed.

Ltac at_pos Hp Hd :=
  repeat match goal with
  | |- context [drop (Z.to_nat ?q) ?d] =>
      lazymatch type of Hd with
      | drop (Z.to_nat ?p) d = ?X =>
          rewrite (drop_pos d p q X Hp Hd) by lia;
          ring_simplify (q - p)
      end
  end.

Ltac cursor_eq :=
  apply file_eq; unfold len; rewrite ?take_0; simpl length; lia.

Ltac settle_len :=
  rewrite ?take_0; unfold len; simpl length; simpl Z.of_nat;
  repeat match goal with
  | |- context [padded ?e] => progress ring_simplify e
  end;
  repeat match goal with
  | |- context [padded (Zpos ?n)] =>
      let v := eval vm_compute in (padded (Zpos n)) in
      change (padded (Zpos n)) with v
  end.

Ltac enter_reader Hp Hd :=
  unfold read, seek, tell; cbn [data pos bind];
  repeat match goal with
  | |- context [?q <? 0] =>
      let E := fresh in
      assert (E : (q <? 0) = false) by (apply Z.ltb_ge; lia);
      rewrite E; clear E; cbn [data pos bind]
  end;
  at_pos Hp Hd.

Lemma LoadInt16Block_at (d : list byte) (p tag v : Z) (rest : list byte) :
  0 <= p -> drop (Z.to_nat p) d = blk_int16 tag v ++ rest -> is_short v ->
  XBlock.LoadInt16Block (mkBytesIO d (p + 2)) = Ok (v, mkBytesIO d (p + 4)).
Proof.
  intros Hp Hd Hv. unfold XBlock.LoadInt16Block. enter_reader Hp Hd.
  unfold blk_int16. cbn [le_bytes app]. simpl.
  rewrite unpack2s by exact Hv. do 2 f_equal. cursor_eq.
Qed.

Lemma LoadUInt16Block_at (d : list byte) (p tag v : Z) (rest : list byte) :
  0 <= p -> drop (Z.to_nat p) d = blk_int16 tag v ++ rest ->
  0 <= v < 65536 ->
  XBlock.LoadUInt16Block (mkBytesIO d (p + 2)) = Ok (v, mkBytesIO d (p + 4)).
Proof.
  intros Hp Hd Hv. unfold XBlock.LoadUInt16Block. enter_reader Hp Hd.
  unfold blk_int16. cbn [le_bytes app]. simpl.
  rewrite unpack2u by exact Hv. do 2 f_equal. cursor_eq.
Qed.

(** The two alignment bytes of the model marker are read as a value. *)
Lemma LoadInt16Block_model (d : list byte) (p : Z) (rest : list byte) :
  0 <= p -> drop (Z.to_nat p) d = blk_model ++ rest ->
  XBlock.LoadInt16Block (mkBytesIO d (p + 2)) = Ok (0, mkBytesIO d (p + 4)).
Proof.
  intros Hp Hd. unfold XBlock.LoadInt16Block. enter_reader Hp Hd.
  unfold blk_model. cbn [le_bytes app]. simpl.
  do 2 f_equal. cursor_eq.
Qed.

Lemma LoadInt32Block_at (d : list byte) (p tag v : Z) (rest : list byte) :
  0 <= p -> drop (Z.to_nat p) d = blk_int32 tag v ++ rest ->
  XBlock.LoadInt32Block (mkBytesIO d (p + 2))
  = Ok (sint32 v, mkBytesIO d (p + 8)).
Proof.
  intros Hp Hd. unfold XBlock.LoadInt32Block. enter_reader Hp Hd.
  unfold blk_int32. cbn [le_bytes app]. simpl.
  do 2 f_equal. cursor_eq.
Qed.

Lemma LoadFloatBlock_at (d : list byte) (p tag : Z) (x : float)
    (rest : list byte) :
  0 <= p -> drop (Z.to_nat p) d = blk_floats tag [x] ++ rest ->
  XBlock.LoadFloatBlock (mkBytesIO d (p + 2))
  = Ok ([f32 x], mkBytesIO d (p + 8)).
Proof.
  intros Hp Hd. unfold XBlock.LoadFloatBlock. enter_reader Hp Hd.
  unfold blk_floats, f32_bytes. cbn [map concat le_bytes app]. simpl.
  settle_len. enter_reader Hp Hd. do 2 f_equal. cursor_eq.
Qed.

Lemma LoadVec2Block_at (d : list byte) (p tag : Z) (vec : list float)
    (rest : list byte) :
  0 <= p -> drop (Z.to_nat p) d = blk_floats tag vec ++ rest ->
  length vec = 2%nat ->
  XBlock.LoadVec2Block (mkBytesIO d (p + 2))
  = Ok (map f32 vec, mkBytesIO d (p + 12)).
Proof.
  intros Hp Hd Hl. destruct vec as [|x [|y [|z ?]]]; try discriminate.
  unfold XBlock.LoadVec2Block. enter_reader Hp Hd.
  unfold blk_floats, f32_bytes. cbn [map concat le_bytes app]. simpl.
  settle_len. enter_reader Hp Hd. do 2 f_equal. cursor_eq.
Qed.

Lemma LoadVec3Block_at (d : list byte) (p tag : Z) (vec : list float)
    (rest : list byte) :
  0 <= p -> drop (Z.to_nat p) d = blk_floats tag vec ++ rest ->
  length vec = 3%nat ->
  XBlock.LoadVec3Block (mkBytesIO d (p + 2))
  = Ok (map f32 vec, mkBytesIO d (p + 16)).
Proof.
  intros Hp Hd Hl. destruct vec as [|x [|y [|z [|w ?]]]]; try discriminate.
  unfold XBlock.LoadVec3Block. enter_reader Hp Hd.
  unfold blk_floats, f32_bytes. cbn [map concat le_bytes app]. simpl.
  settle_len. enter_reader Hp Hd. do 2 f_equal. cursor_eq.
Qed.

Lemma LoadVec4Block_at (d : list byte) (p tag : Z) (vec : list float)
    (rest : list byte) :
  0 <= p -> drop (Z.to_nat p) d = blk_floats tag vec ++ rest ->
  length vec = 4%nat ->
  XBlock.LoadVec4Block (mkBytesIO d (p + 2))
  = Ok (map f32 vec, mkBytesIO d (p + 20)).
Proof.
  intros Hp Hd Hl.
  destruct vec as [|x [|y [|z [|w [|v ?]]]]]; try discriminate.
  unfold XBlock.LoadVec4Block. enter_reader Hp Hd.
  unfold blk_floats, f32_bytes. cbn [map concat le_bytes app]. simpl.
  settle_len. enter_reader Hp Hd. do 2 f_equal. cursor_eq.
Qed.

Lemma LoadShortVec3Block_at (d : list byte) (p tag : Z) (qs : list Z)
    (rest : list byte) :
  0 <= p -> drop (Z.to_nat p) d = blk_shorts tag qs ++ rest ->
  length qs = 3%nat -> Forall is_short qs ->
  XBlock.LoadShortVec3Block (mkBytesIO d (p + 2))
  = Ok (map (fun x => float_div (float_of_int x) (float_of_int 32767)) qs,
        mkBytesIO d (p + 8)).
Proof.
  intros Hp Hd Hl Hs.
  destruct qs as [|x [|y [|z [|w ?]]]]; try discriminate.
  apply Forall_cons in Hs. destruct Hs as [Hx Hs].
  apply Forall_cons in Hs. destruct Hs as [Hy Hs].
  apply Forall_cons in Hs. destruct Hs as [Hz _].
  unfold XBlock.LoadShortVec3Block. enter_reader Hp Hd.
  unfold blk_shorts. cbn [map concat le_bytes app]. simpl.
  rewrite !unpack2s by assumption. do 2 f_equal. cursor_eq.
Qed.

Lemma LoadVertexWeightBlock_at (d : list byte) (p : Z) (w : Z * float)
    (rest : list byte) :
  0 <= p -> drop (Z.to_nat p) d = blk_weight w ++ rest -> is_short (fst w) ->
  XBlock.LoadVertexWeightBlock (mkBytesIO d (p + 2))
  = Ok (fst w, f32 (snd w), mkBytesIO d (p + 8)).
Proof.
  intros Hp Hd Hs. unfold XBlock.LoadVertexWeightBlock. enter_reader Hp Hd.
  unfold blk_weight, f32_bytes. cbn [map concat le_bytes app]. simpl.
  rewrite unpack2s by assumption. do 2 f_equal. cursor_eq.
Qed.

Lemma LoadColorBlock_at (d : list byte) (p : Z) (cs : list Z)
    (rest : list byte) :
  0 <= p -> drop (Z.to_nat p) d = blk_color cs ++ rest ->
  length cs = 4%nat -> Forall is_byte cs ->
  XBlock.LoadColorBlock (mkBytesIO d (p + 2))
  = Ok (map (fun c => float_div (float_of_int c) (float_of_int 255)) cs,
        mkBytesIO d (p + 8)).
Proof.
  intros Hp Hd Hl Hs.
  destruct cs as [|x [|y [|z [|w [|v ?]]]]]; try discriminate.
  apply Forall_cons in Hs. destruct Hs as [Hx Hs].
  apply Forall_cons in Hs. destruct Hs as [Hy Hs].
  apply Forall_cons in Hs. destruct Hs as [Hz Hs].
  apply Forall_cons in Hs. destruct Hs as [Hw _].
  unfold XBlock.LoadColorBlock. enter_reader Hp Hd.
  unfold blk_color. cbn [map concat le_bytes app]. simpl.
  rewrite !unpack1u by assumption. do 2 f_equal. cursor_eq.
Qed.

Lemma LoadUVBlock_at (d : list byte) (p layer : Z) (uv : list float)
    (rest : list byte) :
  0 <= p -> drop (Z.to_nat p) d = blk_uv layer uv ++ rest ->
  length uv = 2%nat ->
  XBlock.LoadUVBlock (mkBytesIO d (p + 2))
  = Ok (map f32 uv, mkBytesIO d (p + 12)).
Proof.
  intros Hp Hd Hl. destruct uv as [|x [|y [|z ?]]]; try discriminate.
  unfold XBlock.LoadUVBlock. enter_reader Hp Hd.
  unfold blk_uv, f32_bytes. cbn [map concat le_bytes app]. simpl.
  do 2 f_equal. cursor_eq.
Qed.

Lemma LoadTriangle_at (d : list byte) (p : Z) (face : Face.t)
    (rest : list byte) :
  0 <= p -> drop (Z.to_nat p) d = blk_face face ++ rest ->
  0 <= Face.mesh_id face < 65536 -> 0 <= Face.material_id face < 65536 ->
  if (255 <? Face.mesh_id face) || (255 <? Face.material_id face)
  then fst (read (mkBytesIO d p) 2) = le_bytes 2 0x6711
       /\ XBlock.LoadTriangle16Block (mkBytesIO d (p + 2))
          = Ok (Face.mesh_id face, Face.material_id face,
                mkBytesIO d (p + 8))
  else fst (read (mkBytesIO d p) 2) = le_bytes 2 0x562F
       /\ XBlock.LoadTriangleBlock (mkBytesIO d (p + 2))
          = Ok (Face.mesh_id face, Face.material_id face,
                mkBytesIO d (p + 4)).
Proof.
  intros Hp Hd Hm Hmat. unfold blk_face in Hd.
  destruct ((255 <? Face.mesh_id face) || (255 <? Face.material_id face))
    eqn:Hwide.
  - split.
    + enter_reader Hp Hd. reflexivity.
    + unfold XBlock.LoadTriangle16Block. enter_reader Hp Hd.
      cbn [map concat le_bytes app]. simpl.
      rewrite !unpack2u by assumption. do 2 f_equal. cursor_eq.
  - apply orb_false_elim in Hwide. destruct Hwide as [H1 H2].
    apply Z.ltb_ge in H1, H2. split.
    + enter_reader Hp Hd. reflexivity.
    + unfold XBlock.LoadTriangleBlock. enter_reader Hp Hd.
      cbn [map concat le_bytes app]. simpl.
      rewrite !unpack1u by (unfold is_byte; lia). do 2 f_equal. cursor_eq.
Qed.

(** *** Strings *)

Lemma padded_shift (k x : Z) :
  0 <= k -> 0 <= x -> 4 * k + x + 3 < 2 ^ 56 ->
  padded (4 * k + x) = 4 * k + padded x.
Proof.
  intros Hk Hx Hb. rewrite !padded_div by lia.
  replace (4 * k + x + 3) with (x + 3 + k * 4) by lia.
  rewrite Z.div_add by lia. lia.
Qed.

Lemma padded_fixed (k : Z) :
  0 <= k -> 4 * k + 3 < 2 ^ 56 -> padded (4 * k) = 4 * k.
Proof.
  intros Hk Hb. rewrite padded_div by lia.
  replace (4 * k + 3) with (3 + k * 4) by lia.
  rewrite Z.div_add by lia. change (3 / 4) with 0. lia.
Qed.

Lemma padded_multiple (x : Z) :
  0 <= x -> x + 3 < 2 ^ 56 -> exists k, 0 <= k /\ padded x = 4 * k.
Proof.
  intros Hx Hb. exists ((x + 3) / 4). split.
  - apply Z.div_pos; lia.
  - apply padded_div. lia.
Qed.

Lemma strfield_long (n : Z) (s : list byte) :
  len s < n ->
  strfield n s = s ++ x00 :: replicate (Z.to_nat n - length s - 1) x00.
Proof.
  unfold len, strfield. intros H. rewrite take_ge by lia.
  destruct (Z.to_nat n - length s)%nat as [|k] eqn:E; [lia|].
  simpl. rewrite Nat.sub_0_r. reflexivity.
Qed.

Lemma length_strfield (n : Z) (s : list byte) :
  0 <= n -> len (strfield n s) = n.
Proof.
  intros H. unfold len, strfield.
  rewrite length_app, length_take, length_replicate. lia.
Qed.

Lemma LoadString_loop_at (s r acc : list byte) (n : Z) :
  ~ In x00 s ->
  XBlock.LoadString_loop (s ++ x00 :: r) acc n = Ok (acc ++ s, n + len s + 1).
Proof.
  revert acc n. induction s as [|b s IH]; intros acc n Hs.
  - simpl. rewrite app_nil_r. f_equal. f_equal. unfold len. simpl. lia.
  - cbn [app XBlock.LoadString_loop].
    destruct (Byte.eqb b x00) eqn:Hb.
    + exfalso. apply Hs. left. symmetry. apply Byte.byte_dec_bl. exact Hb.
    + rewrite IH by (intros Hin; apply Hs; right; exact Hin).
      rewrite <- app_assoc. cbn [app]. do 2 f_equal.
      unfold len. simpl length. lia.
Qed.

Lemma LoadString_at (d : list byte) (q : Z) (s : string) (r : list byte) :
  0 <= q -> wire_string s ->
  drop (Z.to_nat q) d = list_byte_of_string s ++ x00 :: r ->
  XBlock.LoadString (mkBytesIO d q)
  = Ok (s, mkBytesIO d (q + (len (list_byte_of_string s) + 1))).
Proof.
  intros Hq [Hnul [Hutf _]] Hd. unfold XBlock.LoadString. cbn [data pos].
  rewrite Hd, LoadString_loop_at by exact Hnul. cbn [bind app].
  unfold decode_utf8. rewrite Hutf. cbn [bind].
  rewrite string_of_list_byte_of_string. reflexivity.
Qed.

Lemma len_app {A} (l k : list A) : len (l ++ k) = len l + len k.
Proof. unfold len. rewrite length_app. lia. Qed.

Lemma drop_app_pos (d : list byte) (p q : Z) (A R : list byte) :
  0 <= p -> drop (Z.to_nat p) d = A ++ R -> q = p + len A ->
  drop (Z.to_nat q) d = R.
Proof.
  intros Hp Hd ->. rewrite (drop_pos d p _ _ Hp Hd) by (unfold len; lia).
  replace (p + len A - p) with (len A) by lia. unfold len.
  rewrite Nat2Z.id. apply drop_app_length.
Qed.

Lemma wire_string_padded (s : string) :
  wire_string s ->
  len (list_byte_of_string s) < padded (len (list_byte_of_string s) + 1)
  /\ padded (len (list_byte_of_string s) + 1) < 2 ^ 32 + 4.
Proof.
  intros [_ [_ Hl]]. assert (H0 : 0 <= len (list_byte_of_string s))
    by (unfold len; lia).
  pose proof (padded_ge (len (list_byte_of_string s) + 1)) as Hge.
  pose proof (padded_le (len (list_byte_of_string s) + 1)) as Hle.
  split; [apply Z.lt_le_trans with (len (list_byte_of_string s) + 1)|];
    lia.
Qed.

Lemma seek_nonneg (f : BytesIO) (q : Z) :
  0 <= q -> seek f q = Ok (mkBytesIO (data f) q).
Proof.
  intros H. unfold seek. apply Z.ltb_ge in H. rewrite H. reflexivity.
Qed.

(** A string field of the size [padded (len s + 1)], read by
    [LoadString] and the seek that follows it. *)
Lemma field_at (d : list byte) (q : Z) (s : string) (R : list byte) :
  0 <= q -> wire_string s ->
  drop (Z.to_nat q) d
  = strfield (padded (len (__str2bytes__ s) + 1)) (__str2bytes__ s) ++ R ->
  XBlock.LoadString (mkBytesIO d q)
  = Ok (s, mkBytesIO d (q + (len (list_byte_of_string s) + 1))).
Proof.
  intros Hq Hw Hd. destruct (wire_string_padded s Hw) as [Hlt _].
  unfold __str2bytes__, encode_utf8 in Hd.
  rewrite strfield_long in Hd by exact Hlt. rewrite <- app_assoc in Hd.
  apply (LoadString_at d q s _ Hq Hw Hd).
Qed.

Lemma LoadString_Aligned_at (d : list byte) (q : Z) (s : string)
    (R : list byte) :
  0 <= q -> wire_string s ->
  drop (Z.to_nat q) d
  = strfield (padded (len (__str2bytes__ s) + 1)) (__str2bytes__ s) ++ R ->
  XBlock.LoadString_Aligned (mkBytesIO d q)
  = Ok (s, mkBytesIO d (q + padded (len (__str2bytes__ s) + 1))).
Proof.
  intros Hq Hw Hd. unfold XBlock.LoadString_Aligned.
  rewrite (field_at d q s R Hq Hw Hd). unfold tell. cbn [bind data pos].
  replace (q + (len (list_byte_of_string s) + 1) - q)
    with (len (__str2bytes__ s) + 1)
    by (unfold __str2bytes__, encode_utf8; lia).
  destruct (wire_string_padded s Hw) as [Hlt _].
  rewrite seek_nonneg; [reflexivity|].
  unfold __str2bytes__, encode_utf8, len in *. lia.
Qed.

Lemma LoadCommentBlock_at (d : list byte) (p : Z) (s : string)
    (rest : list byte) :
  0 <= p -> drop (Z.to_nat p) d = blk_comment s ++ rest ->
  wire_string s -> (len (encode_utf8 s) + 1) mod 4 = 0 ->
  XBlock.LoadCommentBlock (mkBytesIO d (p + 2))
  = Ok (s, mkBytesIO d (p + len (blk_comment s))).
Proof.
  intros Hp Hd Hw Ha. unfold XBlock.LoadCommentBlock, tell. cbn [data pos].
  replace (p + 2 - 2) with p by lia.
  assert (H0 : 0 <= len (encode_utf8 s)) by (unfold len; lia).
  destruct Hw as [Hnul [Hutf Hl]].
  assert (Hs : drop (Z.to_nat (p + 4)) d
               = list_byte_of_string s ++ x00 :: rest).
  { unfold blk_comment in Hd. rewrite strfield_long in Hd by lia.
    apply (drop_app_pos d p (p + 4) (le_bytes 2 0xC355 ++ [x00; x00])).
    - exact Hp.
    - rewrite Hd. unfold encode_utf8.
      replace (Z.to_nat (len (list_byte_of_string s) + 1)
               - length (list_byte_of_string s) - 1)%nat with 0%nat
        by (unfold len; lia).
      cbn [replicate]. rewrite <- !app_assoc. reflexivity.
    - reflexivity. }
  rewrite seek_nonneg by lia. cbn [bind data].
  rewrite (LoadString_at d (p + 4) s rest) by (try split; auto; lia).
  cbn [bind data pos].
  assert (Hlen : len (blk_comment s) = 4 + (len (encode_utf8 s) + 1)).
  { unfold blk_comment. rewrite !len_app, length_strfield by lia.
    change (len (le_bytes 2 0xC355)) with 2. change (len [x00; x00]) with 2.
    lia. }
  replace (p + 4 + (len (list_byte_of_string s) + 1) - p)
    with (4 * 1 + (len (encode_utf8 s) + 1))
    by (unfold encode_utf8; lia).
  unfold encode_utf8 in *.
  apply Z.mod_divide in Ha; [|lia]. destruct Ha as [k Hk].
  rewrite Hk. replace (4 * 1 + k * 4) with (4 * (1 + k)) by lia.
  rewrite padded_fixed by lia.
  rewrite seek_nonneg by lia. cbn [bind data]. do 2 f_equal.
  apply file_eq. lia.
Qed.

Lemma read_app_at (d : list byte) (p n : Z) (A R : list byte) :
  0 <= p -> drop (Z.to_nat p) d = A ++ R -> n = len A ->
  read (mkBytesIO d p) n = (A, mkBytesIO d (p + n)).
Proof.
  intros Hp Hd ->. unfold read. cbn [data pos]. rewrite Hd.
  unfold len. rewrite Nat2Z.id, take_app_length. reflexivity.
Qed.

#[local] Arguments strfield : simpl never.

Lemma unpack_ints_ii (a b : Z) :
  - 2 ^ 31 <= a < 2 ^ 31 -> - 2 ^ 31 <= b < 2 ^ 31 ->
  unpack_ints true [fi; fi] (le_bytes 4 a ++ le_bytes 4 b) = Ok [a; b].
Proof.
  intros Ha Hb. cbn [le_bytes app]. unfold unpack_ints, struct_unpack. simpl.
  rewrite !unpack4s by assumption. reflexivity.
Qed.

Lemma unpack_ints_h (a : Z) :
  is_short a -> unpack_ints true [fh] (le_bytes 2 a) = Ok [a].
Proof.
  intros Ha. cbn [le_bytes app]. unfold unpack_ints, struct_unpack. simpl.
  rewrite !unpack2s by assumption. reflexivity.
Qed.

Lemma py_getitem_0 {A} (x : A) (l : list A) : py_getitem (x :: l) 0 = Ok x.
Proof. apply (py_getitem_nonneg (x :: l) 0). reflexivity. Qed.

Lemma py_getitem_1 {A} (x y : A) (l : list A) :
  py_getitem (x :: y :: l) 1 = Ok y.
Proof. apply (py_getitem_nonneg (x :: y :: l) 1). reflexivity. Qed.

Lemma LoadBoneBlock_at (d : list byte) (p i : Z) (bone : Bone.t)
    (rest : list byte) :
  0 <= p -> drop (Z.to_nat p) d = blk_bone i bone ++ rest ->
  wire_string (Bone.name bone) ->
  - 2 ^ 31 <= i < 2 ^ 31 -> - 2 ^ 31 <= Bone.parent bone < 2 ^ 31 ->
  XBlock.LoadBoneBlock (mkBytesIO d (p + 2))
  = Ok (i, Bone.parent bone, Bone.name bone,
        mkBytesIO d (p + len (blk_bone i bone))).
Proof.
  intros Hp Hd Hw Hi Hpar. unfold XBlock.LoadBoneBlock, tell. cbn [data pos].
  replace (p + 2 - 2) with p by lia.
  destruct (wire_string_padded _ Hw) as [Hlt Hlt'].
  set (n := padded (len (__str2bytes__ (Bone.name bone)) + 1)) in *.
  assert (H0 : 0 <= len (list_byte_of_string (Bone.name bone)))
    by (unfold len; lia).
  unfold blk_bone in Hd. fold n in Hd.
  assert (H4 : drop (Z.to_nat (p + 4)) d
               = (le_bytes 4 i ++ le_bytes 4 (Bone.parent bone))
                 ++ strfield n (__str2bytes__ (Bone.name bone)) ++ rest).
  { apply (drop_app_pos d p (p + 4) (le_bytes 2 0xF099 ++ [x00; x00]));
      [exact Hp| |reflexivity].
    rewrite Hd, <- !app_assoc. reflexivity. }
  assert (H12 : drop (Z.to_nat (p + 4 + 8)) d
                = strfield n (__str2bytes__ (Bone.name bone)) ++ rest).
  { apply (drop_app_pos d (p + 4) _ _ _ ltac:(lia) H4). reflexivity. }
  rewrite seek_nonneg by lia. cbn [bind data].
  rewrite (read_app_at d (p + 4) 8 _ _ ltac:(lia) H4) by reflexivity.
  rewrite unpack_ints_ii by assumption. cbn [bind].
  rewrite py_getitem_0, py_getitem_1. cbn [bind].
  rewrite (field_at d (p + 4 + 8) _ rest ltac:(lia) Hw H12).
  cbn [bind data pos].
  replace (p + 4 + 8 + (len (list_byte_of_string (Bone.name bone)) + 1) - p)
    with (4 * 3 + (len (__str2bytes__ (Bone.name bone)) + 1))
    by (unfold __str2bytes__, encode_utf8; lia).
  unfold __str2bytes__, encode_utf8 in *.
  rewrite padded_shift by lia. fold n.
  rewrite seek_nonneg by lia. cbn [bind data]. do 2 f_equal.
  apply file_eq. unfold blk_bone, __str2bytes__, encode_utf8. fold n.
  rewrite !len_app, length_strfield by lia.
  change (len (le_bytes 2 0xF099)) with 2. change (len [x00; x00]) with 2.
  change (len (le_bytes 4 i)) with 4.
  change (len (le_bytes 4 (Bone.parent bone))) with 4. lia.
Qed.

Lemma LoadObjectBlock_at (d : list byte) (p i : Z) (name : string)
    (rest : list byte) :
  0 <= p -> drop (Z.to_nat p) d = blk_object i name ++ rest ->
  wire_string name -> is_short i ->
  XBlock.LoadObjectBlock (mkBytesIO d (p + 2))
  = Ok (i, name, mkBytesIO d (p + len (blk_object i name))).
Proof.
  intros Hp Hd Hw Hi. unfold XBlock.LoadObjectBlock, tell. cbn [data pos].
  replace (p + 2 - 2) with p by lia.
  destruct (wire_string_padded _ Hw) as [Hlt Hlt'].
  set (n := padded (len (__str2bytes__ name) + 1)) in *.
  assert (H0 : 0 <= len (list_byte_of_string name)) by (unfold len; lia).
  unfold blk_object in Hd. fold n in Hd.
  assert (H2 : drop (Z.to_nat (p + 2)) d
               = le_bytes 2 i ++ strfield n (__str2bytes__ name) ++ rest).
  { apply (drop_app_pos d p (p + 2) (le_bytes 2 0x87D4));
      [exact Hp| |reflexivity].
    rewrite Hd, <- !app_assoc. reflexivity. }
  assert (H4 : drop (Z.to_nat (p + 2 + 2)) d
               = strfield n (__str2bytes__ name) ++ rest).
  { apply (drop_app_pos d (p + 2) _ _ _ ltac:(lia) H2). reflexivity. }
  rewrite (read_app_at d (p + 2) 2 _ _ ltac:(lia) H2) by reflexivity.
  rewrite unpack_ints_h by assumption. cbn [bind].
  rewrite py_getitem_0. cbn [bind].
  rewrite (field_at d (p + 2 + 2) _ rest ltac:(lia) Hw H4).
  cbn [bind data pos].
  replace (p + 2 + 2 + (len (list_byte_of_string name) + 1) - p)
    with (4 * 1 + (len (__str2bytes__ name) + 1))
    by (unfold __str2bytes__, encode_utf8; lia).
  unfold __str2bytes__, encode_utf8 in *.
  rewrite padded_shift by lia. fold n.
  rewrite seek_nonneg by lia. cbn [bind data]. do 2 f_equal.
  apply file_eq. unfold blk_object, __str2bytes__, encode_utf8. fold n.
  rewrite !len_app, length_strfield by lia.
  change (len (le_bytes 2 0x87D4)) with 2.
  change (len (le_bytes 2 i)) with 2. lia.
Qed.

Lemma LoadMaterialBlock_at {Images} (deser : string -> Images)
    (d : list byte) (p i : Z) (name type images : string)
    (rest : list byte) :
  0 <= p -> drop (Z.to_nat p) d = blk_material i name type images ++ rest ->
  wire_string name -> wire_string type -> wire_string images ->
  is_short i ->
  XBlock.LoadMaterialBlock deser (mkBytesIO d (p + 2))
  = Ok (i, name, type, deser images,
        mkBytesIO d (p + len (blk_material i name type images))).
Proof.
  intros Hp Hd Hn Ht Hs Hi.
  unfold XBlock.LoadMaterialBlock, tell. cbn [data pos].
  replace (p + 2 - 2) with p by lia.
  destruct (wire_string_padded _ Hn) as [Hn1 Hn2].
  destruct (wire_string_padded _ Ht) as [Ht1 Ht2].
  destruct (wire_string_padded _ Hs) as [Hs1 Hs2].
  unfold blk_material in Hd.
  set (n1 := padded (len (__str2bytes__ name) + 1)) in *.
  set (n2 := padded (len (__str2bytes__ type) + 1)) in *.
  set (n3 := padded (len (__str2bytes__ images) + 1)) in *.
  assert (L1 : 0 <= len (list_byte_of_string name) < n1)
    by (split; [unfold len; lia|exact Hn1]).
  assert (L2 : 0 <= len (list_byte_of_string type) < n2)
    by (split; [unfold len; lia|exact Ht1]).
  assert (L3 : 0 <= len (list_byte_of_string images) < n3)
    by (split; [unfold len; lia|exact Hs1]).
  assert (B1 : n1 < 2 ^ 32 + 4) by exact Hn2.
  assert (B2 : n2 < 2 ^ 32 + 4) by exact Ht2.
  assert (B3 : n3 < 2 ^ 32 + 4) by exact Hs2.
  assert (H2 : drop (Z.to_nat (p + 2)) d
               = le_bytes 2 i
                 ++ strfield n1 (__str2bytes__ name)
                 ++ strfield n2 (__str2bytes__ type)
                 ++ strfield n3 (__str2bytes__ images) ++ rest).
  { apply (drop_app_pos d p (p + 2) (le_bytes 2 0xA700));
      [exact Hp| |reflexivity].
    rewrite Hd, <- !app_assoc. reflexivity. }
  assert (H4 : drop (Z.to_nat (p + 2 + 2)) d
               = strfield n1 (__str2bytes__ name)
                 ++ strfield n2 (__str2bytes__ type)
                 ++ strfield n3 (__str2bytes__ images) ++ rest).
  { apply (drop_app_pos d (p + 2) _ _ _ ltac:(lia) H2). reflexivity. }
  assert (H5 : drop (Z.to_nat (p + 2 + 2 + n1)) d
               = strfield n2 (__str2bytes__ type)
                 ++ strfield n3 (__str2bytes__ images) ++ rest).
  { apply (drop_app_pos d (p + 2 + 2) _ _ _ ltac:(lia) H4).
    rewrite length_strfield by lia. reflexivity. }
  assert (H6 : drop (Z.to_nat (p + 2 + 2 + n1 + n2)) d
               = strfield n3 (__str2bytes__ images) ++ rest).
  { apply (drop_app_pos d (p + 2 + 2 + n1) _ _ _ ltac:(lia) H5).
    rewrite length_strfield by lia. reflexivity. }
  rewrite (read_app_at d (p + 2) 2 _ _ ltac:(lia) H2) by reflexivity.
  rewrite (LoadString_Aligned_at d (p + 2 + 2) name _ ltac:(lia) Hn H4).
  cbn [bind]. fold n1.
  rewrite (LoadString_Aligned_at d (p + 2 + 2 + n1) type _ ltac:(lia) Ht H5).
  cbn [bind]. fold n2.
  rewrite (LoadString_Aligned_at d (p + 2 + 2 + n1 + n2) images _
             ltac:(lia) Hs H6).
  cbn [bind]. fold n3.
  rewrite unpack_ints_h by assumption. cbn [bind].
  rewrite py_getitem_0. cbn [bind data pos].
  assert (Hlen : len (blk_material i name type images)
                 = 4 + n1 + n2 + n3).
  { unfold blk_material. fold n1 n2 n3.
    rewrite !len_app, !length_strfield by lia.
    change (len (le_bytes 2 0xA700)) with 2.
    change (len (le_bytes 2 i)) with 2. lia. }
  destruct (padded_multiple (len (__str2bytes__ name) + 1)) as [k1 [K1 E1]];
    [unfold __str2bytes__, encode_utf8; lia..|].
  destruct (padded_multiple (len (__str2bytes__ type) + 1)) as [k2 [K2 E2]];
    [unfold __str2bytes__, encode_utf8; lia..|].
  destruct (padded_multiple (len (__str2bytes__ images) + 1))
    as [k3 [K3 E3]]; [unfold __str2bytes__, encode_utf8; lia..|].
  fold n1 in E1. fold n2 in E2. fold n3 in E3.
  replace (p + 2 + 2 + n1 + n2 + n3 - p) with (4 * (1 + k1 + k2 + k3))
    by lia.
  rewrite padded_fixed by lia. rewrite seek_nonneg by lia.
  cbn [bind data]. do 2 f_equal. apply file_eq. lia.
Qed.

(** ** One turn of the decode loop on a block of a model file *)

Section Turns.
Context {Images : Type}.
Variable deserialize_image_string : string -> Images.

Lemma turn_call (st : DState Images) (tag : Z) (name : string)
    (h : XBinIO.handler) (X : list byte) :
  sees (st_file st) (le_bytes 2 tag ++ X) -> 0 <= tag < 65536 ->
  XBinIO.hashmap_get XBinIO.hashmap tag = Some (name, Some h) ->
  XBinIO.loop_turn deserialize_image_string "MODEL" st
  = match XBinIO.call deserialize_image_string "MODEL" h
            (with_file (mkBytesIO (data (st_file st))
                          (pos (st_file st) + 2)) st) with
    | Ok st' => XBinIO.Next st'
    | Raise e => XBinIO.Stop e
    | Diverge => XBinIO.Hang
    end.
Proof.
  intros [Hp Hd] Ht Hh.
  rewrite (turn_tag _ _ st tag), Hh; [reflexivity| |exact Ht].
  unfold read. cbn [fst]. rewrite Hd. reflexivity.
Qed.

Lemma sees_next (d : list byte) (p q : Z) (blk rest : list byte) :
  sees (mkBytesIO d p) (blk ++ rest) -> q = p + len blk ->
  sees (mkBytesIO d q) rest.
Proof.
  intros [[Hp Hle] Hd] ->. unfold sees. cbn [pos data] in *.
  split; [|apply (drop_app_pos d p _ blk rest Hp Hd); reflexivity].
  assert (Hl : length (drop (Z.to_nat p) d) = length (blk ++ rest))
    by (rewrite Hd; reflexivity).
  rewrite length_drop, length_app in Hl. unfold len in *. lia.
Qed.

(** Entering the handler of a block. *)
Ltac enter_turn Hsee tag h :=
  match type of Hsee with
  | sees (mkBytesIO ?d ?p) (?blk ++ ?rest) =>
      let Hs := fresh "Hs" in
      assert (Hs : sees (mkBytesIO d p) (le_bytes 2 tag ++ drop 2 blk ++ rest))
        by (destruct Hsee as [? Hsee']; split; [assumption|];
            rewrite Hsee'; reflexivity);
      match goal with
      | |- context [XBinIO.loop_turn _ _ ?st] =>
          erewrite (turn_call st tag _ h _ Hs); [|simpl; lia|reflexivity]
      end;
      clear Hs; cbn [XBinIO.call st_file data pos]
  end.

Lemma assign_active_at (upd : Obj Images -> outcome (Obj Images))
    (fl : BytesIO) (H : list (Obj Images)) (S : LoadState) (F : Self)
    (M : MeshO.t) (a : addr) (o o' : Obj Images) :
  active_thing S = Some a -> H !! a = Some o -> upd o = Ok o' ->
  assign_active upd (mkDState fl H S F M)
  = Ok (mkDState fl (<[a := o']> H) S F M).
Proof.
  intros Ha Ho Hu. unfold assign_active, deref. cbn [st_state st_heap].
  rewrite Ha, Ho. cbn [bind]. rewrite Hu. reflexivity.
Qed.

Ltac norm_state :=
  unfold alloc, store, set_active_thing, set_active_tri, set_bones,
    set_cosmetics, set_meshes, set_materials, set_verts, set_faces,
    set_asset_type, with_file, with_heap, with_state, with_self,
    with_dummy_mesh;
  cbn [bind st_self st_heap st_file st_state st_dummy_mesh
       active_thing active_tri active_frame asset_type
       bones cosmetics meshes materials parts framerate frames notes
       MeshO.name MeshO.verts MeshO.faces MeshO.set_verts MeshO.set_faces].

Ltac open_file fl Hsee d p Hp Hd :=
  destruct fl as [d p]; pose proof Hsee as [[Hp _] Hd];
  cbn [pos data] in Hp, Hd.

Ltac next_file Hsee q :=
  match type of Hsee with
  | sees (mkBytesIO ?d ?p) _ =>
      exists (mkBytesIO d q);
      split; [apply (sees_next _ _ _ _ _ Hsee); reflexivity|]
  end.

Section Blocks.
Variables (rest : list byte) (H : list (Obj Images)) (S : LoadState)
  (F : Self) (M : MeshO.t).

Lemma turn_comment (fl : BytesIO) (s : string) :
  sees fl (blk_comment s ++ rest) ->
  wire_string s -> (len (encode_utf8 s) + 1) mod 4 = 0 ->
  turn_over deserialize_image_string fl rest H S F M H S F M.
Proof.
  unfold turn_over. intros Hsee Hw Ha. open_file fl Hsee d p Hp Hd.
  next_file Hsee (p + len (blk_comment s)).
  enter_turn Hsee 0xC355 XBinIO.H_XBlock_LoadCommentBlock.
  unfold XBinIO.XBlock_LoadCommentBlock. cbn [st_file with_file].
  rewrite (LoadCommentBlock_at d p s rest Hp Hd Hw Ha). reflexivity.
Qed.

Lemma turn_model (fl : BytesIO) :
  sees fl (blk_model ++ rest) ->
  turn_over deserialize_image_string fl rest H S F M
    H
    (mkLoadState (active_thing S) (active_tri S) (active_frame S)
       (Some "MODEL"))
    F M.
Proof.
  unfold turn_over.
  intros Hsee. open_file fl Hsee d p Hp Hd. next_file Hsee (p + 4).
  enter_turn Hsee 0x46C8 XBinIO.H_InitModel.
  unfold XBinIO.InitModel. cbn [st_file with_file].
  rewrite (LoadInt16Block_model d p rest Hp Hd). reflexivity.
Qed.

Lemma turn_version (fl : BytesIO) (v : Z) :
  sees fl (blk_int16 0x24D1 v ++ rest) -> is_short v ->
  turn_over deserialize_image_string fl rest H S F M H S F M.
Proof.
  unfold turn_over.
  intros Hsee Hv. open_file fl Hsee d p Hp Hd. next_file Hsee (p + 4).
  enter_turn Hsee 0x24D1 XBinIO.H_XBlock_LoadInt16Block.
  unfold XBinIO.XBlock_LoadInt16Block. cbn [st_file with_file].
  rewrite (LoadInt16Block_at d p _ v rest Hp Hd Hv). reflexivity.
Qed.

Lemma turn_bone_count (fl : BytesIO) (n : Z) :
  sees fl (blk_int16 0x76BA n ++ rest) -> is_short n ->
  turn_over deserialize_image_string fl rest H S F M
    H S
    (mkSelf (py_repeat None n) (cosmetics F) (meshes F) (materials F)
       (parts F) (framerate F) (frames F) (notes F))
    M.
Proof.
  unfold turn_over.
  intros Hsee Hv. open_file fl Hsee d p Hp Hd. next_file Hsee (p + 4).
  enter_turn Hsee 0x76BA XBinIO.H_LoadBoneCount.
  unfold XBinIO.LoadBoneCount. cbn [st_file with_file].
  rewrite (LoadInt16Block_at d p _ n rest Hp Hd Hv). reflexivity.
Qed.

Lemma turn_cosmetic_count (fl : BytesIO) (c : Z) :
  sees fl (blk_int32 0x7836 c ++ rest) ->
  turn_over deserialize_image_string fl rest H S F M
    H S
    (mkSelf (bones F) (sint32 c) (meshes F) (materials F) (parts F)
       (framerate F) (frames F) (notes F))
    M.
Proof.
  unfold turn_over.
  intros Hsee. open_file fl Hsee d p Hp Hd. next_file Hsee (p + 8).
  enter_turn Hsee 0x7836 XBinIO.H_LoadCosmeticCount.
  unfold XBinIO.LoadCosmeticCount. cbn [st_file with_file].
  rewrite (LoadInt32Block_at d p _ c rest Hp Hd). reflexivity.
Qed.

Lemma turn_bone_info (fl : BytesIO) (i : Z) (bone : Bone.t) :
  sees fl (blk_bone i bone ++ rest) ->
  wire_string (Bone.name bone) ->
  - 2 ^ 31 <= Bone.parent bone < 2 ^ 31 ->
  0 <= i < len (bones F) -> i < 2 ^ 31 ->
  turn_over deserialize_image_string fl rest H S F M
    (H ++ [OBone (BoneO.mk (Bone.name bone) (Bone.parent bone)
                    (len (bones F) - cosmetics F <=? i) None None None)])
    S
    (mkSelf (<[Z.to_nat i := Some (length H)]> (bones F)) (cosmetics F)
       (meshes F) (materials F) (parts F) (framerate F) (frames F)
       (notes F))
    M.
Proof.
  unfold turn_over. intros Hsee Hw Hpar Hi Hi'. open_file fl Hsee d p Hp Hd.
  next_file Hsee (p + len (blk_bone i bone)).
  enter_turn Hsee 0xF099 XBinIO.H_LoadBoneInfo.
  unfold XBinIO.LoadBoneInfo. cbn [st_file with_file].
  rewrite (LoadBoneBlock_at d p i bone rest Hp Hd Hw) by lia.
  cbn [bind with_file st_self st_heap st_file st_state st_dummy_mesh alloc
       with_heap bones cosmetics].
  rewrite py_setitem_in_range by exact Hi. cbn [bind].
  destruct (len (bones F) - cosmetics F <=? i); reflexivity.
Qed.

Lemma turn_bone_index (fl : BytesIO) (i : Z) (a : addr) (b : BoneO.t) :
  sees fl (blk_int16 0xDD9A i ++ rest) -> is_short i -> 0 <= i ->
  bones F !! Z.to_nat i = Some (Some a) -> H !! a = Some (OBone b) ->
  turn_over deserialize_image_string fl rest H S F M
    (<[a := OBone (BoneO.set_matrix (Some []) b)]> H)
    (mkLoadState (Some a) (active_tri S) (active_frame S) (asset_type S))
    F M.
Proof.
  unfold turn_over. intros Hsee Hv Hi Hb Ha. open_file fl Hsee d p Hp Hd.
  next_file Hsee (p + 4).
  enter_turn Hsee 0xDD9A XBinIO.H_LoadBoneIndex.
  unfold XBinIO.LoadBoneIndex. cbn [st_file with_file].
  rewrite (LoadInt16Block_at d p _ i rest Hp Hd Hv).
  cbn [bind with_file st_self st_heap st_file st_state st_dummy_mesh].
  rewrite <- (Z2Nat.id i) at 1 by exact Hi.
  rewrite (py_getitem_nonneg _ _ _ Hb). cbn [bind]. unfold deref.
  norm_state. rewrite Ha. reflexivity.
Qed.

(** The blocks that assign an attribute of [state.active_thing]. *)
Tactic Notation "assign_turn" hyp(Hsee) constr(tag) constr(h)
    reference(handler) constr(reader_eq) hyp(Ha) hyp(Ho) hyp(Hu) :=
  enter_turn Hsee tag h; unfold handler; cbn [st_file with_file];
  rewrite reader_eq; norm_state;
  rewrite (assign_active_at _ _ _ _ _ _ _ _ _ Ha Ho Hu); reflexivity.

Lemma turn_offset (fl : BytesIO) (vec : list float) (a : addr)
    (o o' : Obj Images) :
  sees fl (blk_floats 0x9383 vec ++ rest) -> length vec = 3%nat ->
  active_thing S = Some a -> H !! a = Some o ->
  assign_offset (map f32 vec) o = Ok o' ->
  turn_over deserialize_image_string fl rest H S F M (<[a := o']> H) S F M.
Proof.
  unfold turn_over. intros Hsee Hl Ha Ho Hu. open_file fl Hsee d p Hp Hd.
  exists (mkBytesIO d (p + 16)).
  split; [apply (sees_next _ _ _ _ _ Hsee);
          destruct vec as [|? [|? [|? [|? ?]]]]; try discriminate;
          reflexivity|].
  assign_turn Hsee 0x9383 XBinIO.H_LoadOffset XBinIO.LoadOffset
    (LoadVec3Block_at d p _ vec rest Hp Hd Hl) Ha Ho Hu.
Qed.

Lemma turn_scale (fl : BytesIO) (vec : list float) (a : addr)
    (o o' : Obj Images) :
  sees fl (blk_floats 0x1C56 vec ++ rest) -> length vec = 3%nat ->
  active_thing S = Some a -> H !! a = Some o ->
  assign_scale (map f32 vec) o = Ok o' ->
  turn_over deserialize_image_string fl rest H S F M (<[a := o']> H) S F M.
Proof.
  unfold turn_over. intros Hsee Hl Ha Ho Hu. open_file fl Hsee d p Hp Hd.
  exists (mkBytesIO d (p + 16)).
  split; [apply (sees_next _ _ _ _ _ Hsee);
          destruct vec as [|? [|? [|? [|? ?]]]]; try discriminate;
          reflexivity|].
  assign_turn Hsee 0x1C56 XBinIO.H_LoadBoneScale
    XBinIO.LoadBoneScale
    (LoadVec3Block_at d p _ vec rest Hp Hd Hl) Ha Ho Hu.
Qed.

Lemma turn_matrix_row (fl : BytesIO) (tag : Z) (qs : list Z) (a : addr)
    (o o' : Obj Images) :
  sees fl (blk_shorts tag qs ++ rest) ->
  tag = 0xDCFD \/ tag = 0xCCDC \/ tag = 0xFCBF ->
  length qs = 3%nat -> Forall is_short qs ->
  active_thing S = Some a -> H !! a = Some o ->
  matrix_append
    (map (fun x => float_div (float_of_int x) (float_of_int 32767)) qs) o
  = Ok o' ->
  turn_over deserialize_image_string fl rest H S F M (<[a := o']> H) S F M.
Proof.
  unfold turn_over. intros Hsee Ht Hl Hs Ha Ho Hu. open_file fl Hsee d p Hp Hd.
  exists (mkBytesIO d (p + 8)).
  split; [apply (sees_next _ _ _ _ _ Hsee);
          destruct qs as [|? [|? [|? [|? ?]]]]; try discriminate;
          reflexivity|].
  destruct Ht as [->|[->| ->]].
  - assign_turn Hsee 0xDCFD XBinIO.H_LoadBoneMatrix XBinIO.LoadBoneMatrix
      (LoadShortVec3Block_at d p _ qs rest Hp Hd Hl Hs) Ha Ho Hu.
  - assign_turn Hsee 0xCCDC XBinIO.H_LoadBoneMatrix XBinIO.LoadBoneMatrix
      (LoadShortVec3Block_at d p _ qs rest Hp Hd Hl Hs) Ha Ho Hu.
  - assign_turn Hsee 0xFCBF XBinIO.H_LoadBoneMatrix XBinIO.LoadBoneMatrix
      (LoadShortVec3Block_at d p _ qs rest Hp Hd Hl Hs) Ha Ho Hu.
Qed.

Lemma turn_normal (fl : BytesIO) (qs : list Z) (a : addr)
    (o o' : Obj Images) :
  sees fl (blk_shorts 0x89EC qs ++ rest) ->
  length qs = 3%nat -> Forall is_short qs ->
  active_thing S = Some a -> H !! a = Some o ->
  assign_normal
    (map (fun x => float_div (float_of_int x) (float_of_int 32767)) qs) o
  = Ok o' ->
  turn_over deserialize_image_string fl rest H S F M (<[a := o']> H) S F M.
Proof.
  unfold turn_over. intros Hsee Hl Hs Ha Ho Hu. open_file fl Hsee d p Hp Hd.
  exists (mkBytesIO d (p + 8)).
  split; [apply (sees_next _ _ _ _ _ Hsee);
          destruct qs as [|? [|? [|? [|? ?]]]]; try discriminate;
          reflexivity|].
  assign_turn Hsee 0x89EC XBinIO.H_LoadTriVertNormal XBinIO.LoadTriVertNormal
    (LoadShortVec3Block_at d p _ qs rest Hp Hd Hl Hs) Ha Ho Hu.
Qed.

Lemma turn_color (fl : BytesIO) (cs : list Z) (a : addr)
    (o o' : Obj Images) :
  sees fl (blk_color cs ++ rest) ->
  length cs = 4%nat -> Forall is_byte cs ->
  active_thing S = Some a -> H !! a = Some o ->
  assign_color
    (map (fun c => float_div (float_of_int c) (float_of_int 255)) cs) o
  = Ok o' ->
  turn_over deserialize_image_string fl rest H S F M (<[a := o']> H) S F M.
Proof.
  unfold turn_over. intros Hsee Hl Hs Ha Ho Hu. open_file fl Hsee d p Hp Hd.
  exists (mkBytesIO d (p + 8)).
  split; [apply (sees_next _ _ _ _ _ Hsee);
          destruct cs as [|? [|? [|? [|? [|? ?]]]]]; try discriminate;
          reflexivity|].
  assign_turn Hsee 0x6DD8 XBinIO.H_LoadTriVertColor XBinIO.LoadTriVertColor
    (LoadColorBlock_at d p cs rest Hp Hd Hl Hs) Ha Ho Hu.
Qed.

Lemma turn_uv (fl : BytesIO) (layer : Z) (uv : list float) (a : addr)
    (o o' : Obj Images) :
  sees fl (blk_uv layer uv ++ rest) -> length uv = 2%nat ->
  active_thing S = Some a -> H !! a = Some o ->
  assign_uv (map f32 uv) o = Ok o' ->
  turn_over deserialize_image_string fl rest H S F M (<[a := o']> H) S F M.
Proof.
  unfold turn_over. intros Hsee Hl Ha Ho Hu. open_file fl Hsee d p Hp Hd.
  exists (mkBytesIO d (p + 12)).
  split; [apply (sees_next _ _ _ _ _ Hsee);
          destruct uv as [|? [|? [|? ?]]]; try discriminate;
          reflexivity|].
  assign_turn Hsee 0x1AD4 XBinIO.H_LoadTriVertUV XBinIO.LoadTriVertUV
    (LoadUVBlock_at d p layer uv rest Hp Hd Hl) Ha Ho Hu.
Qed.

Lemma turn_weight_count (fl : BytesIO) (n : Z) (a : addr)
    (o o' : Obj Images) :
  sees fl (blk_int16 0xEA46 n ++ rest) -> is_short n ->
  active_thing S = Some a -> H !! a = Some o ->
  assign_weights_empty o = Ok o' ->
  turn_over deserialize_image_string fl rest H S F M (<[a := o']> H) S F M.
Proof.
  unfold turn_over. intros Hsee Hn Ha Ho Hu. open_file fl Hsee d p Hp Hd.
  next_file Hsee (p + 4).
  assign_turn Hsee 0xEA46 XBinIO.H_LoadVertexWeightCount
    XBinIO.LoadVertexWeightCount
    (LoadInt16Block_at d p _ n rest Hp Hd Hn) Ha Ho Hu.
Qed.

Lemma turn_weight (fl : BytesIO) (w : Z * float) (a : addr)
    (v : VertexO.t) (ws : list (Z * float)) :
  sees fl (blk_weight w ++ rest) -> is_short (fst w) ->
  active_thing S = Some a -> H !! a = Some (OVertex v) ->
  VertexO.weights v = Some ws ->
  turn_over deserialize_image_string fl rest H S F M
    (<[a := OVertex
               (VertexO.set_weights (Some (ws ++ [(fst w, f32 (snd w))])) v)]>
       H)
    S F M.
Proof.
  unfold turn_over. intros Hsee Hn Ha Ho Hws. open_file fl Hsee d p Hp Hd.
  next_file Hsee (p + 8).
  enter_turn Hsee 0xF1AB XBinIO.H_LoadVertexWeight.
  unfold XBinIO.LoadVertexWeight, deref. norm_state.
  rewrite Ha, Ho. cbn [bind get_weights]. rewrite Hws. cbn [bind].
  rewrite (LoadVertexWeightBlock_at d p w rest Hp Hd Hn). norm_state.
  erewrite (assign_active_at _ _ _ _ _ _ _ _ _ Ha Ho); [reflexivity|].
  unfold weights_append. cbn [get_weights bind]. rewrite Hws. reflexivity.
Qed.

Lemma turn_material_attr (fl : BytesIO) (tag : Z) (h : XBinIO.handler)
    (set : option (list float) -> MaterialO.t Images -> MaterialO.t Images)
    (n : nat) (vec : list float) (a : addr) (m : MaterialO.t Images) :
  sees fl (blk_floats tag vec ++ rest) ->
  In (tag, h, set, n) material_attrs -> length vec = n ->
  active_thing S = Some a -> H !! a = Some (OMaterial m) ->
  turn_over deserialize_image_string fl rest H S F M
    (<[a := OMaterial (set (Some (map f32 vec)) m)]> H) S F M.
Proof.
  unfold turn_over. intros Hsee Hin Hl Ha Ho. open_file fl Hsee d p Hp Hd.
  assert (Hu : assign_material set (map f32 vec) (OMaterial m)
               = Ok (OMaterial (set (Some (map f32 vec)) m)))
    by reflexivity.
  unfold material_attrs in Hin.
  repeat (destruct Hin as [Hin|Hin];
          [injection Hin as <- <- <- <-|]); [..|destruct Hin].
  all: match goal with
       | Hl' : length ?v = 4%nat |- _ =>
           exists (mkBytesIO d (p + 20));
           (split; [apply (sees_next _ _ _ _ _ Hsee);
                    destruct v as [|? [|? [|? [|? [|? ?]]]]];
                    try discriminate; reflexivity|]);
           pose proof (LoadVec4Block_at d p _ v rest Hp Hd Hl') as Hr
       | Hl' : length ?v = 2%nat |- _ =>
           exists (mkBytesIO d (p + 12));
           (split; [apply (sees_next _ _ _ _ _ Hsee);
                    destruct v as [|? [|? [|? ?]]];
                    try discriminate; reflexivity|]);
           pose proof (LoadVec2Block_at d p _ v rest Hp Hd Hl') as Hr
       | Hl' : length ?v = 1%nat |- _ =>
           exists (mkBytesIO d (p + 8));
           destruct v as [|x [|? ?]]; try discriminate;
           (split; [apply (sees_next _ _ _ _ _ Hsee); reflexivity|]);
           pose proof (LoadFloatBlock_at d p _ x rest Hp Hd) as Hr
       end.
  all: match type of Hsee with
       | sees _ (blk_floats ?t _ ++ _) =>
           match goal with
           | |- context [XBinIO.loop_turn _ _ _] =>
               first
                 [ enter_turn Hsee t XBinIO.H_LoadMaterialTransparency
                 | enter_turn Hsee t XBinIO.H_LoadMaterialAmbientColor
                 | enter_turn Hsee t XBinIO.H_LoadMaterialIncandescence
                 | enter_turn Hsee t XBinIO.H_LoadMaterialCoeffs
                 | enter_turn Hsee t XBinIO.H_LoadMaterialGlow
                 | enter_turn Hsee t XBinIO.H_LoadMaterialRefractive
                 | enter_turn Hsee t XBinIO.H_LoadMaterialSpecularColor
                 | enter_turn Hsee t XBinIO.H_LoadMaterialReflectiveColor
                 | enter_turn Hsee t XBinIO.H_LoadMaterialReflective
                 | enter_turn Hsee t XBinIO.H_LoadMaterialBlinn
                 | enter_turn Hsee t XBinIO.H_LoadMaterialPhong ]
           end
       end.
  all: unfold XBinIO.LoadMaterialTransparency,
         XBinIO.LoadMaterialAmbientColor, XBinIO.LoadMaterialIncandescence,
         XBinIO.LoadMaterialCoeffs, XBinIO.LoadMaterialGlow,
         XBinIO.LoadMaterialRefractive, XBinIO.LoadMaterialSpecularColor,
         XBinIO.LoadMaterialReflectiveColor, XBinIO.LoadMaterialReflective,
         XBinIO.LoadMaterialBlinn, XBinIO.LoadMaterialPhong;
       cbn [st_file with_file]; rewrite Hr; norm_state;
       rewrite (assign_active_at _ _ _ _ _ _ _ _ _ Ha Ho Hu); reflexivity.
Qed.

Lemma turn_vertex_count (fl : BytesIO) (w : bool) (n : Z) :
  sees fl (blk_vertex_count w n ++ rest) ->
  (w = false -> 0 <= n < 65536) ->
  turn_over deserialize_image_string fl rest H S F M
    H S F
    (MeshO.mk (MeshO.name M) (py_repeat None (wire_index w n))
       (MeshO.faces M)).
Proof.
  unfold turn_over. intros Hsee Hn. open_file fl Hsee d p Hp Hd. destruct w.
  - next_file Hsee (p + 8).
    enter_turn Hsee 0x2AEC XBinIO.H_LoadVertex32Count.
    unfold XBinIO.LoadVertex32Count. cbn [st_file with_file].
    rewrite (LoadInt32Block_at d p _ n rest Hp Hd). reflexivity.
  - next_file Hsee (p + 4).
    enter_turn Hsee 0x950D XBinIO.H_LoadVertexCount.
    unfold XBinIO.LoadVertexCount. cbn [st_file with_file].
    rewrite (LoadUInt16Block_at d p _ n rest Hp Hd) by (apply Hn; reflexivity).
    reflexivity.
Qed.

(** A vertex index outside a face opens a vertex. *)
Lemma turn_vertex_index (fl : BytesIO) (w : bool) (v : Z) :
  sees fl (blk_vertex_index w v ++ rest) ->
  (w = false -> 0 <= v < 65536) ->
  active_tri S = None ->
  0 <= wire_index w v < len (MeshO.verts M) ->
  turn_over deserialize_image_string fl rest H S F M
    (H ++ [OVertex (VertexO.mk None None)])
    (mkLoadState (Some (length H)) None (active_frame S) (asset_type S))
    F
    (MeshO.mk (MeshO.name M)
       (<[Z.to_nat (wire_index w v) := Some (length H)]> (MeshO.verts M))
       (MeshO.faces M)).
Proof.
  unfold turn_over.
  intros Hsee Hv Ht Hi. open_file fl Hsee d p Hp Hd. destruct w.
  - next_file Hsee (p + 8).
    enter_turn Hsee 0xB097 XBinIO.H_LoadVertex32Index.
    unfold XBinIO.LoadVertex32Index. cbn [st_file with_file].
    rewrite (LoadInt32Block_at d p _ v rest Hp Hd).
    unfold XBinIO.route_vertex_index. norm_state. rewrite Ht. norm_state.
    rewrite py_setitem_in_range by exact Hi. reflexivity.
  - next_file Hsee (p + 4).
    enter_turn Hsee 0x8F03 XBinIO.H_LoadVertexIndex.
    unfold XBinIO.LoadVertexIndex. cbn [st_file with_file].
    rewrite (LoadUInt16Block_at d p _ v rest Hp Hd) by (apply Hv; reflexivity).
    unfold XBinIO.route_vertex_index. norm_state. rewrite Ht. norm_state.
    rewrite py_setitem_in_range by exact Hi. reflexivity.
Qed.

(** A vertex index inside a face opens a corner of the face. *)
Lemma turn_corner_index (fl : BytesIO) (w : bool) (v : Z) (t : addr)
    (face : FaceO.t) :
  sees fl (blk_vertex_index w v ++ rest) ->
  (w = false -> 0 <= v < 65536) ->
  active_tri S = Some t -> H !! t = Some (OFace face) ->
  turn_over deserialize_image_string fl rest H S F M
    (<[t := OFace (FaceO.set_indices (FaceO.indices face ++ [length H])
                     face)]>
       (H ++ [OFaceVertex (FaceVertexO.mk (wire_index w v) None None None)]))
    (mkLoadState (Some (length H)) (Some t) (active_frame S) (asset_type S))
    F M.
Proof.
  unfold turn_over. intros Hsee Hv Ht Hf. open_file fl Hsee d p Hp Hd.
  assert (Hf' : (H ++ [OFaceVertex
                         (FaceVertexO.mk (wire_index w v) None None None)])
                !! t = Some (OFace face))
    by (apply lookup_app_l_Some; exact Hf).
  destruct w.
  - next_file Hsee (p + 8).
    enter_turn Hsee 0xB097 XBinIO.H_LoadVertex32Index.
    unfold XBinIO.LoadVertex32Index. cbn [st_file with_file].
    rewrite (LoadInt32Block_at d p _ v rest Hp Hd).
    unfold XBinIO.route_vertex_index, deref. norm_state. rewrite Ht.
    norm_state. unfold XBinIO.new_FaceVertex. cbn [wire_index] in Hf'.
    rewrite Hf'. reflexivity.
  - next_file Hsee (p + 4).
    enter_turn Hsee 0x8F03 XBinIO.H_LoadVertexIndex.
    unfold XBinIO.LoadVertexIndex. cbn [st_file with_file].
    rewrite (LoadUInt16Block_at d p _ v rest Hp Hd) by (apply Hv; reflexivity).
    unfold XBinIO.route_vertex_index, deref. norm_state. rewrite Ht.
    norm_state. unfold XBinIO.new_FaceVertex. cbn [wire_index] in Hf'.
    rewrite Hf'. reflexivity.
Qed.

Lemma turn_face_count (fl : BytesIO) (n : Z) :
  sees fl (blk_int32 0xBE92 n ++ rest) ->
  turn_over deserialize_image_string fl rest H S F M
    H S F (MeshO.mk (MeshO.name M) (MeshO.verts M) []).
Proof.
  unfold turn_over.
  intros Hsee. open_file fl Hsee d p Hp Hd. next_file Hsee (p + 8).
  enter_turn Hsee 0xBE92 XBinIO.H_LoadTriCount.
  unfold XBinIO.LoadTriCount. cbn [st_file with_file].
  rewrite (LoadInt32Block_at d p _ n rest Hp Hd). reflexivity.
Qed.

Lemma turn_face_info (fl : BytesIO) (face : Face.t) :
  sees fl (blk_face face ++ rest) ->
  0 <= Face.mesh_id face < 65536 -> 0 <= Face.material_id face < 65536 ->
  turn_over deserialize_image_string fl rest H S F M
    (H ++ [OFace (FaceO.mk (Face.mesh_id face) (Face.material_id face) [])])
    (mkLoadState (active_thing S) (Some (length H)) (active_frame S)
       (asset_type S))
    F
    (MeshO.mk (MeshO.name M) (MeshO.verts M) (MeshO.faces M ++ [length H])).
Proof.
  unfold turn_over. intros Hsee Hm Hmat. open_file fl Hsee d p Hp Hd.
  pose proof (LoadTriangle_at d p face rest Hp Hd Hm Hmat) as Hr.
  unfold blk_face in Hsee.
  destruct ((255 <? Face.mesh_id face) || (255 <? Face.material_id face));
    destruct Hr as [_ Hr].
  - next_file Hsee (p + 8).
    enter_turn Hsee 0x6711 XBinIO.H_LoadTri16Info.
    unfold XBinIO.LoadTri16Info. cbn [st_file with_file].
    rewrite Hr. reflexivity.
  - next_file Hsee (p + 4).
    enter_turn Hsee 0x562F XBinIO.H_LoadTriInfo.
    unfold XBinIO.LoadTriInfo. cbn [st_file with_file].
    rewrite Hr. reflexivity.
Qed.

Lemma turn_object_count (fl : BytesIO) (n : Z) :
  sees fl (blk_int16 0x62AF n ++ rest) -> is_short n ->
  turn_over deserialize_image_string fl rest H S F M
    H S
    (mkSelf (bones F) (cosmetics F) (py_repeat None n) (materials F)
       (parts F) (framerate F) (frames F) (notes F))
    M.
Proof.
  unfold turn_over.
  intros Hsee Hv. open_file fl Hsee d p Hp Hd. next_file Hsee (p + 4).
  enter_turn Hsee 0x62AF XBinIO.H_LoadObjectCount.
  unfold XBinIO.LoadObjectCount. cbn [st_file with_file].
  rewrite (LoadInt16Block_at d p _ n rest Hp Hd Hv). reflexivity.
Qed.

Lemma turn_object_info (fl : BytesIO) (i : Z) (name : string) :
  sees fl (blk_object i name ++ rest) ->
  wire_string name -> is_short i -> 0 <= i < len (meshes F) ->
  turn_over deserialize_image_string fl rest H S F M
    H S
    (mkSelf (bones F) (cosmetics F)
       (<[Z.to_nat i := Some (MeshO.mk name [] [])]> (meshes F))
       (materials F) (parts F) (framerate F) (frames F) (notes F))
    M.
Proof.
  unfold turn_over. intros Hsee Hw Hs Hi. open_file fl Hsee d p Hp Hd.
  next_file Hsee (p + len (blk_object i name)).
  enter_turn Hsee 0x87D4 XBinIO.H_LoadObjectInfo.
  unfold XBinIO.LoadObjectInfo. cbn [st_file with_file].
  rewrite (LoadObjectBlock_at d p i name rest Hp Hd Hw Hs). norm_state.
  rewrite py_setitem_in_range by exact Hi. reflexivity.
Qed.

Lemma turn_material_count (fl : BytesIO) (n : Z) :
  sees fl (blk_int16 0xA1B2 n ++ rest) -> is_short n ->
  turn_over deserialize_image_string fl rest H S F M
    H S
    (mkSelf (bones F) (cosmetics F) (meshes F) (py_repeat None n)
       (parts F) (framerate F) (frames F) (notes F))
    M.
Proof.
  unfold turn_over.
  intros Hsee Hv. open_file fl Hsee d p Hp Hd. next_file Hsee (p + 4).
  enter_turn Hsee 0xA1B2 XBinIO.H_LoadMaterialCount.
  unfold XBinIO.LoadMaterialCount. cbn [st_file with_file].
  rewrite (LoadInt16Block_at d p _ n rest Hp Hd Hv). reflexivity.
Qed.

Lemma turn_material_info (fl : BytesIO) (i : Z) (name type images : string) :
  sees fl (blk_material i name type images ++ rest) ->
  wire_string name -> wire_string type -> wire_string images ->
  is_short i -> 0 <= i < len (materials F) ->
  turn_over deserialize_image_string fl rest H S F M
    (H ++ [OMaterial
             (XBinIO.new_Material name type
                (deserialize_image_string images))])
    (mkLoadState (Some (length H)) (active_tri S) (active_frame S)
       (asset_type S))
    (mkSelf (bones F) (cosmetics F) (meshes F)
       (<[Z.to_nat i := Some (length H)]> (materials F))
       (parts F) (framerate F) (frames F) (notes F))
    M.
Proof.
  unfold turn_over. intros Hsee Hn Ht Hs Hi Hr. open_file fl Hsee d p Hp Hd.
  next_file Hsee (p + len (blk_material i name type images)).
  enter_turn Hsee 0xA700 XBinIO.H_LoadMaterialInfo.
  unfold XBinIO.LoadMaterialInfo. cbn [st_file with_file].
  rewrite (LoadMaterialBlock_at _ d p i name type images rest Hp Hd Hn Ht Hs
             Hi).
  norm_state. rewrite py_setitem_in_range by exact Hr. reflexivity.
Qed.
End Blocks.
End Turns.

(** ** Writing an object and reading it back *)

Lemma getvalue_app (f : wfile) (chunks : list (list byte)) :
  getvalue (f ++ chunks) = getvalue f ++ concat chunks.
Proof. unfold getvalue. apply concat_app. Qed.

Lemma lookup_middle {A} (l1 l2 : list A) (x : A) :
  (l1 ++ x :: l2) !! length l1 = Some x.
Proof. apply list_lookup_middle. reflexivity. Qed.

Lemma insert_middle {A} (l1 l2 : list A) (x y : A) :
  <[length l1 := y]> (l1 ++ x :: l2) = l1 ++ y :: l2.
Proof.
  rewrite insert_app_r_alt by lia. rewrite Nat.sub_diag. reflexivity.
Qed.

Lemma lookup_last {A} (l : list A) (x : A) : (l ++ [x]) !! length l = Some x.
Proof. apply lookup_middle. Qed.

Lemma insert_last {A} (l : list A) (x y : A) :
  <[length l := y]> (l ++ [x]) = l ++ [y].
Proof. apply insert_middle. Qed.

Lemma lookup_corner {A} (l c : list A) (x x' y : A) :
  (l ++ x' :: c ++ [y]) !! length (l ++ x :: c) = Some y.
Proof.
  replace (l ++ x' :: c ++ [y]) with ((l ++ x' :: c) ++ [y])
    by (rewrite <- app_assoc; reflexivity).
  replace (length (l ++ x :: c)) with (length (l ++ x' :: c))
    by (rewrite !length_app; reflexivity).
  apply lookup_last.
Qed.

Lemma insert_corner {A} (l c : list A) (x x' y z : A) :
  <[length (l ++ x :: c) := z]> (l ++ x' :: c ++ [y]) = l ++ x' :: c ++ [z].
Proof.
  replace (l ++ x' :: c ++ [y]) with ((l ++ x' :: c) ++ [y])
    by (rewrite <- app_assoc; reflexivity).
  replace (length (l ++ x :: c)) with (length (l ++ x' :: c))
    by (rewrite !length_app; reflexivity).
  rewrite insert_last, <- app_assoc. reflexivity.
Qed.

Lemma py_getitem_three {A} (l : list A) (a b c : A) :
  py_getitem l 0 = Ok a -> py_getitem l 1 = Ok b -> py_getitem l 2 = Ok c ->
  exists r, l = a :: b :: c :: r.
Proof.
  intros H0 H1 H2. destruct l as [|x [|y [|z r]]]; try discriminate.
  pose proof (py_getitem_nonneg (x :: y :: z :: r) 0 x eq_refl) as E0.
  pose proof (py_getitem_nonneg (x :: y :: z :: r) 1 y eq_refl) as E1.
  pose proof (py_getitem_nonneg (x :: y :: z :: r) 2 z eq_refl) as E2.
  change (Z.of_nat 0) with 0 in E0. change (Z.of_nat 1) with 1 in E1.
  change (Z.of_nat 2) with 2 in E2.
  rewrite E0 in H0. rewrite E1 in H1. rewrite E2 in H2.
  apply Ok_inj in H0, H1, H2. subst. exists r. reflexivity.
Qed.

Lemma length_app_r {A} (l k : list A) :
  length (l ++ k) = (length k + length l)%nat.
Proof. rewrite length_app. lia. Qed.

Lemma face_addrs_app (a n m : nat) :
  face_addrs a (n + m)%nat = face_addrs a n ++ face_addrs (4 * n + a)%nat m.
Proof.
  revert a. induction n as [|n IH]; intros a; cbn [face_addrs Nat.add app].
  - reflexivity.
  - rewrite IH. do 3 f_equal. lia.
Qed.

Lemma len_slots (a0 g r : nat) : len (slots a0 g r) = Z.of_nat (g + r).
Proof.
  unfold len, slots.
  rewrite length_app, length_map, length_seq, length_replicate.
  reflexivity.
Qed.

Lemma fill_slot (a0 g r : nat) :
  <[g := Some (a0 + g)%nat]> (slots a0 g (S r)) = slots a0 (S g) r.
Proof.
  unfold slots.
  rewrite insert_app_r_alt by (rewrite length_map, length_seq; lia).
  rewrite length_map, length_seq, Nat.sub_diag. cbn [replicate].
  rewrite seq_S, map_app. cbn [map]. rewrite <- app_assoc. reflexivity.
Qed.

Lemma lookup_slots (a0 g r i : nat) :
  (i < g)%nat -> slots a0 g r !! i = Some (Some (a0 + i)%nat).
Proof.
  intros Hi. unfold slots.
  rewrite lookup_app_l by (rewrite length_map, length_seq; exact Hi).
  rewrite list_lookup_fmap, lookup_seq_lt by exact Hi. reflexivity.
Qed.

Lemma sint32_small (v : Z) : 0 <= v < 2 ^ 31 -> sint32 v = v.
Proof.
  intros Hv. unfold sint32. apply (unpack_int_signed 4 v); [lia|].
  simpl. lia.
Qed.

Lemma follows_refl (S : LoadState) : follows S S.
Proof. split; reflexivity. Qed.

Section Runs.
Context {Images : Type}.
Variable serialize_image_string : Images -> bool -> string.
Variable deserialize_image_string : string -> Images.

Lemma reaches_trans (st st' st'' : DState Images) :
  reaches deserialize_image_string "MODEL" st st' ->
  reaches deserialize_image_string "MODEL" st' st'' ->
  reaches deserialize_image_string "MODEL" st st''.
Proof.
  intros H1 H2. induction H2 as [|a b _ IH Hturn].
  - exact H1.
  - apply (reaches_turn _ _ _ a b IH Hturn).
Qed.

Lemma run_refl fl rest (H : list (Obj Images)) S F M :
  sees fl rest ->
  run_over deserialize_image_string fl rest H S F M H S F M.
Proof. intros Hs. exists fl. split; [exact Hs|apply reaches_here]. Qed.

Lemma run_trans fl mid rest (H : list (Obj Images)) S F M H1 S1 F1 M1
    H2 S2 F2 M2 :
  run_over deserialize_image_string fl mid H S F M H1 S1 F1 M1 ->
  (forall fl1, sees fl1 mid ->
     run_over deserialize_image_string fl1 rest H1 S1 F1 M1 H2 S2 F2 M2) ->
  run_over deserialize_image_string fl rest H S F M H2 S2 F2 M2.
Proof.
  intros [fl1 [Hs1 Hr1]] Hnext. destruct (Hnext fl1 Hs1) as [fl2 [Hs2 Hr2]].
  exists fl2. split; [exact Hs2|]. apply (reaches_trans _ _ _ Hr1 Hr2).
Qed.

Lemma run_turn fl rest (H : list (Obj Images)) S F M H1 S1 F1 M1 :
  turn_over deserialize_image_string fl rest H S F M H1 S1 F1 M1 ->
  run_over deserialize_image_string fl rest H S F M H1 S1 F1 M1.
Proof.
  intros [fl1 [Hs1 Ht]]. exists fl1. split; [exact Hs1|].
  apply (reaches_turn _ _ _ _ _ (reaches_here _ _ _) Ht).
Qed.

Lemma run_step fl mid rest (H : list (Obj Images)) S F M H1 S1 F1 M1
    H2 S2 F2 M2 :
  turn_over deserialize_image_string fl mid H S F M H1 S1 F1 M1 ->
  (forall fl1, sees fl1 mid ->
     run_over deserialize_image_string fl1 rest H1 S1 F1 M1 H2 S2 F2 M2) ->
  run_over deserialize_image_string fl rest H S F M H2 S2 F2 M2.
Proof.
  intros Ht. apply run_trans. apply run_turn. exact Ht.
Qed.

(** The weights of a vertex. *)
Lemma weights_back (ws : list (Z * float)) (f f' : wfile) :
  for_each ws (fun file weight => XBlock.WriteVertexWeightBlock file weight) f
  = Ok f' ->
  exists bytes,
    getvalue f' = getvalue f ++ bytes
    /\ forall fl rest H0 H1 S F M v acc,
         sees fl (bytes ++ rest) ->
         active_thing S = Some (length H0) ->
         VertexO.weights v = Some acc ->
         run_over deserialize_image_string fl rest
           (H0 ++ OVertex v :: H1) S F M
           (H0 ++ OVertex (VertexO.set_weights
                             (Some (acc ++ map dec_weight ws)) v) :: H1)
           S F M.
Proof.
  revert f. induction ws as [|w ws IH]; intros f Hw; cbn [for_each] in Hw.
  - apply Ok_inj in Hw. subst f'. exists []. split.
    + rewrite app_nil_r. reflexivity.
    + intros fl rest H0 H1 S F M v acc Hs Ha Hacc. cbn [map app] in *.
      rewrite app_nil_r. destruct v as [o wts]. cbn in Hacc. subst wts.
      apply run_refl. exact Hs.
  - bind_inv Hw as f1 Hf1.
    apply WriteVertexWeightBlock_chunk in Hf1. destruct Hf1 as [-> Hsh].
    destruct (IH _ Hw) as [bytes [Hget Hrun]].
    exists (blk_weight w ++ bytes). split.
    + rewrite Hget, getvalue_app. cbn [concat]. rewrite app_nil_r.
      rewrite <- app_assoc. reflexivity.
    + intros fl rest H0 H1 S F M v acc Hs Ha Hacc.
      rewrite <- app_assoc in Hs.
      eapply run_step.
      * apply (turn_weight _ _ _ _ _ _ fl w (length H0) v acc Hs Hsh Ha
                 (lookup_middle _ _ _) Hacc).
      * intros fl1 Hs1. rewrite insert_middle.
        pose proof (Hrun fl1 rest H0 H1 S F M
                      (VertexO.set_weights
                         (Some (acc ++ [(fst w, f32 (snd w))])) v)
                      (acc ++ [(fst w, f32 (snd w))]) Hs1 Ha eq_refl) as Hr.
        cbn [map]. rewrite <- app_assoc in Hr. exact Hr.
Qed.

Lemma getvalue_snoc (f : wfile) (chunk : list byte) :
  getvalue (f ++ [chunk]) = getvalue f ++ chunk.
Proof. rewrite getvalue_app. cbn [concat]. rewrite app_nil_r. reflexivity. Qed.

(** A vertex: index, offset, weight count and weights. *)
Lemma vert_back (w : bool) (W : wfile -> Z -> outcome wfile) (off i : Z)
    (v : Vertex.t) (f f' : wfile) :
  index_writer w W ->
  XBinIO.write_vert W off f (i, v) = Ok f' ->
  exists bytes,
    getvalue f' = getvalue f ++ bytes
    /\ forall fl rest H S F M,
         sees fl (bytes ++ rest) ->
         active_tri S = None ->
         0 <= wire_index w (i + off) < len (MeshO.verts M) ->
         run_over deserialize_image_string fl rest H S F M
           (H ++ [OVertex (dec_vertex v)])
           (mkLoadState (Some (length H)) None (active_frame S)
              (asset_type S))
           F
           (MeshO.mk (MeshO.name M)
              (<[Z.to_nat (wire_index w (i + off)) := Some (length H)]>
                 (MeshO.verts M))
              (MeshO.faces M)).
Proof.
  intros HW Hw. unfold XBinIO.write_vert in Hw.
  bind_inv Hw as f1 Hf1. apply HW in Hf1. destruct Hf1 as [-> Hidx].
  bind_inv Hw as f2 Hf2. apply WriteOffsetBlock_chunk in Hf2.
  destruct Hf2 as [-> Hoff].
  bind_inv Hw as f3 Hf3. apply WriteMetaInt16Block_chunk in Hf3.
  destruct Hf3 as [-> [_ Hcnt]].
  destruct (weights_back _ _ _ Hw) as [wbytes [Hget Hrun]].
  exists (blk_vertex_index w (i + off) ++ blk_floats 0x9383 (Vertex.offset v)
          ++ blk_int16 0xEA46 (len (Vertex.weights v)) ++ wbytes).
  split.
  - rewrite Hget, !getvalue_snoc, <- !app_assoc. reflexivity.
  - intros fl rest H S F M Hs Ht Hi. rewrite <- !app_assoc in Hs.
    eapply run_step;
      [apply (turn_vertex_index _ _ _ _ _ _ fl w _ Hs Hidx Ht Hi)|].
    intros fl1 Hs1.
    eapply run_step;
      [eapply turn_offset;
       [exact Hs1|exact Hoff|reflexivity|apply lookup_last|reflexivity]|].
    intros fl2 Hs2. rewrite insert_last.
    eapply run_step;
      [eapply turn_weight_count;
       [exact Hs2|exact Hcnt|reflexivity|apply lookup_last|reflexivity]|].
    intros fl3 Hs3. rewrite insert_last.
    refine (Hrun fl3 rest H [] _ F _
              (VertexO.mk (Some (map f32 (Vertex.offset v))) (Some []))
              [] Hs3 _ _); reflexivity.
Qed.

(** The vertices of a mesh, [g] being the index of the first one in the
    whole file and [a0] the address of the vertex of index 0. *)
Lemma mesh_verts_back (w : bool) (W : wfile -> Z -> outcome wfile) (off : Z)
    (vs : list Vertex.t) :
  index_writer w W ->
  forall (k : Z) (f f' : wfile),
    for_each (enumerate_from k vs) (XBinIO.write_vert W off) f = Ok f' ->
    exists bytes,
      getvalue f' = getvalue f ++ bytes
      /\ forall fl rest H T F M (a0 g r : nat),
           sees fl (bytes ++ rest) ->
           active_tri T = None ->
           Z.of_nat g = k + off ->
           Z.of_nat (g + length vs) <= 2 ^ 31 ->
           MeshO.verts M = slots a0 g (length vs + r) ->
           length H = (a0 + g)%nat ->
           exists T',
             active_tri T' = None /\ follows T T'
             /\ run_over deserialize_image_string fl rest H T F M
                  (H ++ map (fun x => OVertex (dec_vertex x)) vs) T' F
                  (MeshO.mk (MeshO.name M) (slots a0 (g + length vs) r)
                     (MeshO.faces M)).
Proof.
  intros HW. induction vs as [|v vs IH]; intros k f f' Hw;
    cbn [enumerate_from for_each] in Hw.
  - apply Ok_inj in Hw. subst f'. exists []. split.
    + rewrite app_nil_r. reflexivity.
    + intros fl rest H T F M a0 g r Hs Ht Hg Hb HM HH. exists T.
      split; [exact Ht|]. split; [apply follows_refl|].
      cbn [map length]. rewrite app_nil_r, Nat.add_0_r.
      cbn [length Nat.add] in HM. rewrite <- HM. destruct M.
      apply run_refl. exact Hs.
  - bind_inv Hw as f1 Hf1.
    destruct (vert_back w W off k v f f1 HW Hf1) as [b1 [Hg1 Hr1]].
    destruct (IH _ _ _ Hw) as [b2 [Hg2 Hr2]].
    exists (b1 ++ b2). split.
    + rewrite Hg2, Hg1, <- app_assoc. reflexivity.
    + intros fl rest H T F M a0 g r Hs Ht Hg Hb HM HH.
      rewrite <- app_assoc in Hs. cbn [length] in Hb, HM.
      assert (Hwi : wire_index w (k + off) = Z.of_nat g).
      { rewrite <- Hg. destruct w; [apply sint32_small; lia|reflexivity]. }
      assert (Hin : 0 <= wire_index w (k + off) < len (MeshO.verts M)).
      { rewrite Hwi, HM, len_slots. lia. }
      pose proof (Hr1 fl (b2 ++ rest) H T F M Hs Ht Hin) as Hrun1.
      rewrite Hwi, Nat2Z.id, HM, HH in Hrun1.
      cbn [Nat.add] in Hrun1. rewrite fill_slot in Hrun1.
      destruct Hrun1 as [fl1 [Hs1 Hreach1]].
      destruct (Hr2 fl1 rest (H ++ [OVertex (dec_vertex v)])
                  (mkLoadState (Some (a0 + g)%nat) None (active_frame T)
                     (asset_type T))
                  F
                  (MeshO.mk (MeshO.name M)
                     (slots a0 (Datatypes.S g) (length vs + r))
                     (MeshO.faces M))
                  a0 (Datatypes.S g) r Hs1 eq_refl ltac:(lia) ltac:(lia)
                  eq_refl ltac:(rewrite length_app; cbn [length]; lia))
        as [T' [Ht' [Hfol [fl2 [Hs2 Hreach2]]]]].
      exists T'. split; [exact Ht'|]. split; [exact Hfol|].
      exists fl2. split; [exact Hs2|].
      cbn [MeshO.name MeshO.faces] in Hreach2.
      rewrite <- app_assoc in Hreach2. cbn [app] in Hreach2.
      cbn [map length].
      replace (g + Datatypes.S (length vs))%nat
        with (Datatypes.S g + length vs)%nat by lia.
      apply (reaches_trans _ _ _ Hreach1 Hreach2).
Qed.

(** The vertices of the meshes, [offsets] being the table of the index of
    the first vertex of each mesh. *)
Lemma verts_back (w : bool) (W : wfile -> Z -> outcome wfile)
    (offsets : list Z) (ms : list Mesh.t) :
  index_writer w W ->
  forall (pre : list Z) (g : Z) (f f' : wfile),
    offsets = pre ++ g :: offsets_from g ms ->
    for_each (enumerate_from (len pre) ms)
      (XBinIO.write_mesh_verts W offsets) f = Ok f' ->
    exists bytes,
      getvalue f' = getvalue f ++ bytes
      /\ forall fl rest H T F M (a0 gn r : nat),
           sees fl (bytes ++ rest) ->
           active_tri T = None ->
           Z.of_nat gn = g ->
           Z.of_nat (gn + length (concat (map Mesh.verts ms))) <= 2 ^ 31 ->
           MeshO.verts M
           = slots a0 gn (length (concat (map Mesh.verts ms)) + r) ->
           length H = (a0 + gn)%nat ->
           exists T',
             active_tri T' = None /\ follows T T'
             /\ run_over deserialize_image_string fl rest H T F M
                  (H ++ map (fun x => OVertex (dec_vertex x))
                          (concat (map Mesh.verts ms)))
                  T' F
                  (MeshO.mk (MeshO.name M)
                     (slots a0 (gn + length (concat (map Mesh.verts ms))) r)
                     (MeshO.faces M)).
Proof.
  intros HW. induction ms as [|m ms IH]; intros pre g f f' Hoffs Hw;
    cbn [enumerate_from for_each] in Hw.
  - apply Ok_inj in Hw. subst f'. exists []. split.
    + rewrite app_nil_r. reflexivity.
    + intros fl rest H T F M a0 gn r Hs Ht Hg Hb HM HH. exists T.
      split; [exact Ht|]. split; [apply follows_refl|].
      cbn [map concat length]. rewrite app_nil_r, Nat.add_0_r.
      cbn [map concat length Nat.add] in HM. rewrite <- HM. destruct M.
      apply run_refl. exact Hs.
  - bind_inv Hw as f1 Hf1. unfold XBinIO.write_mesh_verts in Hf1.
    assert (Hoff : py_getitem offsets (len pre) = Ok g).
    { apply py_getitem_nonneg. subst offsets. apply lookup_middle. }
    rewrite Hoff in Hf1. cbn [bind] in Hf1.
    destruct (mesh_verts_back w W g (Mesh.verts m) HW 0 f f1 Hf1)
      as [b1 [Hg1 Hr1]].
    assert (Hoffs' : offsets
                     = (pre ++ [g])
                       ++ (g + len (Mesh.verts m))
                          :: offsets_from (g + len (Mesh.verts m)) ms).
    { subst offsets. rewrite <- app_assoc. reflexivity. }
    assert (Hlen : len pre + 1 = len (pre ++ [g]))
      by (rewrite len_app; reflexivity).
    rewrite Hlen in Hw.
    destruct (IH _ _ _ _ Hoffs' Hw) as [b2 [Hg2 Hr2]].
    exists (b1 ++ b2). split.
    + rewrite Hg2, Hg1, <- app_assoc. reflexivity.
    + intros fl rest H T F M a0 gn r Hs Ht Hg Hb HM HH.
      rewrite <- app_assoc in Hs.
      cbn [map concat] in Hb, HM |- *. rewrite length_app in Hb, HM.
      rewrite <- Nat.add_assoc in HM.
      destruct (Hr1 fl (b2 ++ rest) H T F M a0 gn _ Hs Ht ltac:(lia)
                  ltac:(lia) HM HH)
        as [T1 [Ht1 [Hfol1 [fl1 [Hs1 Hreach1]]]]].
      destruct (Hr2 fl1 rest
                  (H ++ map (fun x => OVertex (dec_vertex x)) (Mesh.verts m))
                  T1 F
                  (MeshO.mk (MeshO.name M)
                     (slots a0 (gn + length (Mesh.verts m))
                        (length (concat (map Mesh.verts ms)) + r))
                     (MeshO.faces M))
                  a0 (gn + length (Mesh.verts m))%nat r
                  Hs1 Ht1 ltac:(unfold len; lia) ltac:(lia) eq_refl
                  ltac:(rewrite length_app, length_map; lia))
        as [T2 [Ht2 [Hfol2 [fl2 [Hs2 Hreach2]]]]].
      exists T2. split; [exact Ht2|]. split.
      { destruct Hfol1 as [A1 B1], Hfol2 as [A2 B2]. split; congruence. }
      exists fl2. split; [exact Hs2|].
      cbn [MeshO.name MeshO.faces] in Hreach2.
      rewrite <- app_assoc, <- map_app, <- Nat.add_assoc in Hreach2.
      rewrite length_app.
      apply (reaches_trans _ _ _ Hreach1 Hreach2).
Qed.

(** A corner of the face stored after [H0]: index, normal, colour, UV. *)
Lemma corner_back (w : bool) (W : wfile -> Z -> outcome wfile)
    (face : Face.t) (off i : Z) (f f' : wfile) :
  index_writer w W ->
  XBinIO.write_corner W face off f i = Ok f' ->
  exists ind bytes,
    py_getitem (Face.indices face) i = Ok ind
    /\ getvalue f' = getvalue f ++ bytes
    /\ forall fl rest H0 C T F M fo,
         sees fl (bytes ++ rest) ->
         active_tri T = Some (length H0) ->
         run_over deserialize_image_string fl rest
           (H0 ++ OFace fo :: C) T F M
           (H0 ++ OFace (FaceO.set_indices
                           (FaceO.indices fo ++ [length (H0 ++ OFace fo :: C)])
                           fo)
               :: C ++ [OFaceVertex (dec_corner w off ind)])
           (mkLoadState (Some (length (H0 ++ OFace fo :: C)))
              (Some (length H0)) (active_frame T) (asset_type T))
           F M.
Proof.
  intros HW Hw. unfold XBinIO.write_corner in Hw.
  bind_inv Hw as ind Hind. exists ind.
  bind_inv Hw as f1 Hf1. apply HW in Hf1. destruct Hf1 as [-> Hidx].
  bind_inv Hw as f2 Hf2. apply WriteFaceVertexNormalBlock_chunk in Hf2.
  destruct Hf2 as [-> [Hnl Hns]].
  bind_inv Hw as f3 Hf3. apply WriteColorBlock_chunk in Hf3.
  destruct Hf3 as [-> [Hcl Hcs]].
  apply WriteFaceVertexUVBlock_chunk in Hw. destruct Hw as [-> [_ Hul]].
  exists (blk_vertex_index w (FaceVertex.vertex ind + off)
          ++ blk_shorts 0x89EC (map short_of (FaceVertex.normal ind))
          ++ blk_color (map byte_of_color (FaceVertex.color ind))
          ++ blk_uv 1 (FaceVertex.uv ind)).
  split; [exact Hind|]. split.
  - rewrite !getvalue_snoc, <- !app_assoc. reflexivity.
  - intros fl rest H0 C T F M fo Hs Ht. rewrite <- !app_assoc in Hs.
    eapply run_step;
      [eapply turn_corner_index;
       [exact Hs|exact Hidx|exact Ht|apply lookup_middle]|].
    intros fl1 Hs1. rewrite <- app_assoc. cbn [app]. rewrite insert_middle.
    eapply run_step;
      [eapply turn_normal;
       [exact Hs1|rewrite length_map; exact Hnl|exact Hns|reflexivity
       |apply lookup_corner|reflexivity]|].
    intros fl2 Hs2. rewrite insert_corner.
    eapply run_step;
      [eapply turn_color;
       [exact Hs2|rewrite length_map; exact Hcl|exact Hcs|reflexivity
       |apply lookup_corner|reflexivity]|].
    intros fl3 Hs3. rewrite insert_corner.
    eapply run_step;
      [eapply turn_uv;
       [exact Hs3|exact Hul|reflexivity|apply lookup_corner|reflexivity]|].
    intros fl4 Hs4. rewrite insert_corner.
    unfold dec_corner, q16, q8. rewrite !map_map.
    apply run_refl. exact Hs4.
Qed.

(** A face: its info block and three corners. *)
Lemma face_back (w : bool) (W : wfile -> Z -> outcome wfile) (off : Z)
    (face : Face.t) (f f' : wfile) :
  index_writer w W ->
  XBinIO.write_face W off f face = Ok f' ->
  exists bytes,
    getvalue f' = getvalue f ++ bytes
    /\ length (take 3 (Face.indices face)) = 3%nat
    /\ forall fl rest H T F M,
         sees fl (bytes ++ rest) ->
         run_over deserialize_image_string fl rest H T F M
           (H ++ dec_face (length H) w off face)
           (mkLoadState (Some (3 + length H)%nat) (Some (length H))
              (active_frame T) (asset_type T))
           F
           (MeshO.mk (MeshO.name M) (MeshO.verts M)
              (MeshO.faces M ++ [length H])).
Proof.
  intros HW Hw. unfold XBinIO.write_face in Hw.
  bind_inv Hw as f1 Hf1. apply WriteFaceInfoBlock_chunk in Hf1.
  destruct Hf1 as [-> [Hmesh Hmat]].
  cbn [for_each] in Hw.
  bind_inv Hw as f2 Hf2. bind_inv Hw as f3 Hf3. bind_inv Hw as f4 Hf4.
  apply Ok_inj in Hw. subst f4.
  destruct (corner_back w W face off 0 _ _ HW Hf2)
    as [c0 [b0 [Hc0 [Hg0 Hr0]]]].
  destruct (corner_back w W face off 1 _ _ HW Hf3)
    as [c1 [b1 [Hc1 [Hg1 Hr1]]]].
  destruct (corner_back w W face off 2 _ _ HW Hf4)
    as [c2 [b2 [Hc2 [Hg2 Hr2]]]].
  destruct (py_getitem_three _ _ _ _ Hc0 Hc1 Hc2) as [more Hind].
  exists (blk_face face ++ b0 ++ b1 ++ b2). split.
  - rewrite Hg2, Hg1, Hg0, getvalue_snoc, <- !app_assoc. reflexivity.
  - split; [rewrite Hind; reflexivity|].
    intros fl rest H T F M Hs. rewrite <- !app_assoc in Hs.
    eapply run_step;
      [eapply turn_face_info; [exact Hs|exact Hmesh|exact Hmat]|].
    intros fl1 Hs1.
    eapply run_trans; [eapply (Hr0 fl1 _ H []); [exact Hs1|reflexivity]|].
    intros fl2 Hs2. cbn [app].
    eapply run_trans;
      [eapply (Hr1 fl2 _ H [_]); [exact Hs2|reflexivity]|].
    intros fl3 Hs3. cbn [app].
    eapply run_trans;
      [eapply (Hr2 fl3 _ H [_; _]); [exact Hs3|reflexivity]|].
    intros fl4 Hs4. cbn [app active_frame asset_type].
    unfold dec_face. rewrite Hind. cbn [take map FaceO.indices
      FaceO.set_indices FaceO.mesh_id FaceO.material_id app].
    rewrite !length_app_r. cbn [length Nat.add].
    apply run_refl. exact Hs4.
Qed.

Lemma follows_trans (T T1 T2 : LoadState) :
  follows T T1 -> follows T1 T2 -> follows T T2.
Proof. intros [A1 B1] [A2 B2]. split; congruence. Qed.

Lemma length_dec_face (a : addr) (w : bool) (off : Z) (face : Face.t) :
  length (take 3 (Face.indices face)) = 3%nat ->
  length (dec_face (Images := Images) a w off face) = 4%nat.
Proof.
  intros Hl. unfold dec_face. cbn [length]. rewrite length_map, Hl.
  reflexivity.
Qed.

(** The faces of a mesh. *)
Lemma mesh_faces_back (w : bool) (W : wfile -> Z -> outcome wfile) (off : Z)
    (fs : list Face.t) :
  index_writer w W ->
  forall (f f' : wfile),
    for_each fs (XBinIO.write_face W off) f = Ok f' ->
    exists bytes,
      getvalue f' = getvalue f ++ bytes
      /\ (forall a, length (dec_faces (Images := Images) a w off fs)
                    = (4 * length fs)%nat)
      /\ forall fl rest H T F M,
           sees fl (bytes ++ rest) ->
           exists T',
             follows T T'
             /\ run_over deserialize_image_string fl rest H T F M
                  (H ++ dec_faces (length H) w off fs) T' F
                  (MeshO.mk (MeshO.name M) (MeshO.verts M)
                     (MeshO.faces M ++ face_addrs (length H) (length fs))).
Proof.
  intros HW. induction fs as [|face fs IH]; intros f f' Hw;
    cbn [for_each] in Hw.
  - apply Ok_inj in Hw. subst f'. exists []. split.
    + rewrite app_nil_r. reflexivity.
    + split; [reflexivity|].
      intros fl rest H T F M Hs. exists T. split; [apply follows_refl|].
      cbn [dec_faces face_addrs length]. rewrite !app_nil_r. destruct M.
      apply run_refl. exact Hs.
  - bind_inv Hw as f1 Hf1.
    destruct (face_back w W off face f f1 HW Hf1) as [b1 [Hg1 [Hl1 Hr1]]].
    destruct (IH _ _ Hw) as [b2 [Hg2 [Hl2 Hr2]]].
    exists (b1 ++ b2). split.
    + rewrite Hg2, Hg1, <- app_assoc. reflexivity.
    + split.
      { intros a. cbn [dec_faces length].
        rewrite length_app, Hl2, (length_dec_face _ _ _ _ Hl1). lia. }
      intros fl rest H T F M Hs. rewrite <- app_assoc in Hs.
      destruct (Hr1 fl (b2 ++ rest) H T F M Hs) as [fl1 [Hs1 Hreach1]].
      destruct (Hr2 fl1 rest (H ++ dec_face (length H) w off face)
                  (mkLoadState (Some (3 + length H)%nat) (Some (length H))
                     (active_frame T) (asset_type T))
                  F
                  (MeshO.mk (MeshO.name M) (MeshO.verts M)
                     (MeshO.faces M ++ [length H]))
                  Hs1)
        as [T2 [Hfol2 [fl2 [Hs2 Hreach2]]]].
      exists T2. split; [exact Hfol2|]. exists fl2. split; [exact Hs2|].
      cbn [MeshO.name MeshO.verts MeshO.faces] in Hreach2.
      rewrite length_app, (length_dec_face _ _ _ _ Hl1) in Hreach2.
      rewrite <- !app_assoc in Hreach2.
      replace (length H + 4)%nat with (4 + length H)%nat in Hreach2 by lia.
      cbn [dec_faces face_addrs length].
      apply (reaches_trans _ _ _ Hreach1 Hreach2).
Qed.

(** The faces of the meshes. *)
Lemma faces_back (w : bool) (W : wfile -> Z -> outcome wfile)
    (offsets : list Z) (ms : list Mesh.t) :
  index_writer w W ->
  forall (pre : list Z) (g : Z) (f f' : wfile),
    offsets = pre ++ g :: offsets_from g ms ->
    for_each (enumerate_from (len pre) ms)
      (XBinIO.write_mesh_faces W offsets) f = Ok f' ->
    exists bytes,
      getvalue f' = getvalue f ++ bytes
      /\ (forall a, length (dec_mesh_faces (Images := Images) a w g ms)
                    = (4 * length (concat (map Mesh.faces ms)))%nat)
      /\ forall fl rest H T F M,
           sees fl (bytes ++ rest) ->
           exists T',
             follows T T'
             /\ run_over deserialize_image_string fl rest H T F M
                  (H ++ dec_mesh_faces (length H) w g ms) T' F
                  (MeshO.mk (MeshO.name M) (MeshO.verts M)
                     (MeshO.faces M
                      ++ face_addrs (length H)
                           (length (concat (map Mesh.faces ms))))).
Proof.
  intros HW. induction ms as [|m ms IH]; intros pre g f f' Hoffs Hw;
    cbn [enumerate_from for_each] in Hw.
  - apply Ok_inj in Hw. subst f'. exists []. split.
    + rewrite app_nil_r. reflexivity.
    + split; [reflexivity|].
      intros fl rest H T F M Hs. exists T. split; [apply follows_refl|].
      cbn [dec_mesh_faces map concat face_addrs length].
      rewrite !app_nil_r. destruct M. apply run_refl. exact Hs.
  - bind_inv Hw as f1 Hf1. unfold XBinIO.write_mesh_faces in Hf1.
    assert (Hoff : py_getitem offsets (len pre) = Ok g).
    { apply py_getitem_nonneg. subst offsets. apply lookup_middle. }
    rewrite Hoff in Hf1. cbn [bind] in Hf1.
    destruct (mesh_faces_back w W g (Mesh.faces m) HW f f1 Hf1)
      as [b1 [Hg1 [Hl1 Hr1]]].
    assert (Hoffs' : offsets
                     = (pre ++ [g])
                       ++ (g + len (Mesh.verts m))
                          :: offsets_from (g + len (Mesh.verts m)) ms).
    { subst offsets. rewrite <- app_assoc. reflexivity. }
    assert (Hlen : len pre + 1 = len (pre ++ [g]))
      by (rewrite len_app; reflexivity).
    rewrite Hlen in Hw.
    destruct (IH _ _ _ _ Hoffs' Hw) as [b2 [Hg2 [Hl2 Hr2]]].
    exists (b1 ++ b2). split.
    + rewrite Hg2, Hg1, <- app_assoc. reflexivity.
    + split.
      { intros a. cbn [dec_mesh_faces map concat].
        rewrite !length_app, Hl1, Hl2. lia. }
      intros fl rest H T F M Hs. rewrite <- app_assoc in Hs.
      destruct (Hr1 fl (b2 ++ rest) H T F M Hs)
        as [T1 [Hfol1 [fl1 [Hs1 Hreach1]]]].
      destruct (Hr2 fl1 rest (H ++ dec_faces (length H) w g (Mesh.faces m))
                  T1 F
                  (MeshO.mk (MeshO.name M) (MeshO.verts M)
                     (MeshO.faces M
                      ++ face_addrs (length H) (length (Mesh.faces m))))
                  Hs1)
        as [T2 [Hfol2 [fl2 [Hs2 Hreach2]]]].
      exists T2. split; [apply (follows_trans _ _ _ Hfol1 Hfol2)|].
      exists fl2. split; [exact Hs2|].
      cbn [MeshO.name MeshO.verts MeshO.faces] in Hreach2.
      rewrite length_app, Hl1 in Hreach2.
      rewrite <- !app_assoc in Hreach2.
      replace (length H + 4 * length (Mesh.faces m))%nat
        with (4 * length (Mesh.faces m) + length H)%nat in Hreach2 by lia.
      cbn [dec_mesh_faces map concat].
      rewrite length_app, face_addrs_app.
      apply (reaches_trans _ _ _ Hreach1 Hreach2).
Qed.
End Runs.

(** ** Bones, objects and materials *)

Section Sections.
Context {Images : Type}.
Variable serialize_image_string : Images -> bool -> string.
Variable deserialize_image_string : string -> Images.

(** The info blocks of the bones; [n] is the number of bone slots. *)
Lemma bone_infos_back (bs : list Bone.t) :
  forall (k : Z) (f f' : wfile),
    for_each (enumerate_from k bs) XBinIO.write_bone_info f = Ok f' ->
    exists bytes,
      getvalue f' = getvalue f ++ bytes
      /\ forall fl rest (H : list (Obj Images)) T F M (a0 g r : nat),
           Forall (fun b => wire_string (Bone.name b)) bs ->
           sees fl (bytes ++ rest) ->
           Z.of_nat g = k ->
           bones F = slots a0 g (length bs + r) ->
           length H = (a0 + g)%nat ->
           run_over deserialize_image_string fl rest H T F M
             (H ++ map (fun ib => OBone (dec_bone_info
                                           (Z.of_nat (g + (length bs + r)))
                                           (cosmetics F) ib))
                     (enumerate_from k bs))
             T
             (mkSelf (slots a0 (g + length bs) r) (cosmetics F) (meshes F)
                (materials F) (parts F) (framerate F) (frames F) (notes F))
             M.
Proof.
  induction bs as [|b bs IH]; intros k f f' Hw;
    cbn [enumerate_from for_each] in Hw.
  - apply Ok_inj in Hw. subst f'. exists []. split.
    + rewrite app_nil_r. reflexivity.
    + intros fl rest H T F M a0 g r _ Hs Hg HF HH.
      cbn [map length]. rewrite app_nil_r, Nat.add_0_r.
      cbn [length Nat.add] in HF. rewrite <- HF. destruct F.
      apply run_refl. exact Hs.
  - bind_inv Hw as f1 Hf1. unfold XBinIO.write_bone_info in Hf1.
    apply WriteBoneInfoBlock_chunk in Hf1. destruct Hf1 as [-> [Hk Hpar]].
    destruct (IH _ _ _ Hw) as [b2 [Hg2 Hr2]].
    exists (blk_bone k b ++ b2). split.
    + rewrite Hg2, getvalue_snoc, <- app_assoc. reflexivity.
    + intros fl rest H T F M a0 g r Hws Hs Hg HF HH.
      apply Forall_cons in Hws. destruct Hws as [Hwb Hws].
      rewrite <- app_assoc in Hs. cbn [length] in HF.
      assert (Hlen : len (bones F) = Z.of_nat (g + (length (b :: bs) + r))).
      { rewrite HF, len_slots. reflexivity. }
      eapply run_step.
      { eapply turn_bone_info; [exact Hs|exact Hwb|exact Hpar| |lia].
        rewrite Hlen. cbn [length]. lia. }
      intros fl1 Hs1. rewrite Hlen. subst k. rewrite Nat2Z.id, HF, HH.
      cbn [Nat.add]. rewrite fill_slot.
      pose proof (Hr2 fl1 rest
                    (H ++ [OBone (dec_bone_info
                                    (Z.of_nat (g + (length (b :: bs) + r)))
                                    (cosmetics F) (Z.of_nat g, b))])
                    T
                    (mkSelf (slots a0 (Datatypes.S g) (length bs + r))
                       (cosmetics F) (meshes F) (materials F) (parts F)
                       (framerate F) (frames F) (notes F))
                    M a0 (Datatypes.S g) r Hws Hs1 ltac:(lia) eq_refl
                    ltac:(rewrite length_app; cbn [length]; lia)) as Hrun.
      cbn [bones cosmetics meshes materials parts framerate frames notes]
        in Hrun.
      rewrite <- app_assoc in Hrun. cbn [app length map] in Hrun |- *.
      replace (Datatypes.S g + (length bs + r))%nat
        with (g + Datatypes.S (length bs + r))%nat in Hrun by lia.
      replace (g + Datatypes.S (length bs))%nat
        with (Datatypes.S g + length bs)%nat by lia.
      exact Hrun.
Qed.

(** The data blocks of a bone stored after [H0]: index, offset, scale and
    the three rows of the matrix. *)
Lemma bone_data_back (i : Z) (b : Bone.t) (f f' : wfile) :
  XBinIO.write_bone_data f (i, b) = Ok f' ->
  exists bytes,
    getvalue f' = getvalue f ++ bytes
    /\ forall fl rest (H0 H1 : list (Obj Images)) T F M bo,
         sees fl (bytes ++ rest) ->
         0 <= i ->
         bones F !! Z.to_nat i = Some (Some (length H0)) ->
         run_over deserialize_image_string fl rest
           (H0 ++ OBone bo :: H1) T F M
           (H0 ++ OBone (BoneO.mk (BoneO.name bo) (BoneO.parent bo)
                           (BoneO.cosmetic bo)
                           (Some (map f32 (Bone.offset b)))
                           (Some (map f32 (Bone.scale b)))
                           (Some (map (map q16) (take 3 (Bone.matrix b)))))
               :: H1)
           (mkLoadState (Some (length H0)) (active_tri T) (active_frame T)
              (asset_type T))
           F M.
Proof.
  intros Hw. unfold XBinIO.write_bone_data in Hw.
  bind_inv Hw as f1 Hf1. apply WriteMetaInt16Block_chunk in Hf1.
  destruct Hf1 as [-> [_ Hi]].
  bind_inv Hw as f2 Hf2. apply WriteOffsetBlock_chunk in Hf2.
  destruct Hf2 as [-> Hoff].
  bind_inv Hw as f3 Hf3. apply WriteMetaVec3Block_chunk in Hf3.
  destruct Hf3 as [-> [_ Hsc]].
  apply WriteMatrixBlock_chunk in Hw.
  destruct Hw as [r0 [r1 [r2 [more [Hm [-> Hrows]]]]]].
  apply Forall_cons in Hrows. destruct Hrows as [[L0 S0] Hrows].
  apply Forall_cons in Hrows. destruct Hrows as [[L1 S1] Hrows].
  apply Forall_cons in Hrows. destruct Hrows as [[L2 S2] _].
  exists (blk_int16 0xDD9A i ++ blk_floats 0x9383 (Bone.offset b)
          ++ blk_floats 0x1C56 (Bone.scale b)
          ++ blk_shorts 0xDCFD (map short_of r0)
          ++ blk_shorts 0xCCDC (map short_of r1)
          ++ blk_shorts 0xFCBF (map short_of r2)).
  split.
  - rewrite !getvalue_snoc, <- !app_assoc. reflexivity.
  - intros fl rest H0 H1 T F M bo Hs Hi0 Hb. rewrite <- !app_assoc in Hs.
    eapply run_step;
      [eapply turn_bone_index;
       [exact Hs|exact Hi|exact Hi0|exact Hb|apply lookup_middle]|].
    intros fl1 Hs1. rewrite insert_middle.
    eapply run_step;
      [eapply turn_offset;
       [exact Hs1|exact Hoff|reflexivity|apply lookup_middle|reflexivity]|].
    intros fl2 Hs2. rewrite insert_middle.
    eapply run_step;
      [eapply turn_scale;
       [exact Hs2|exact Hsc|reflexivity|apply lookup_middle|reflexivity]|].
    intros fl3 Hs3. rewrite insert_middle.
    eapply run_step;
      [eapply turn_matrix_row;
       [exact Hs3|left; reflexivity|rewrite length_map; exact L0|exact S0
       |reflexivity|apply lookup_middle|reflexivity]|].
    intros fl4 Hs4. rewrite insert_middle.
    eapply run_step;
      [eapply turn_matrix_row;
       [exact Hs4|right; left; reflexivity|rewrite length_map; exact L1
       |exact S1|reflexivity|apply lookup_middle|reflexivity]|].
    intros fl5 Hs5. rewrite insert_middle.
    eapply run_step;
      [eapply turn_matrix_row;
       [exact Hs5|right; right; reflexivity|rewrite length_map; exact L2
       |exact S2|reflexivity|apply lookup_middle|reflexivity]|].
    intros fl6 Hs6. rewrite insert_middle.
    rewrite Hm. cbn [take map app BoneO.set_matrix BoneO.set_scale
      BoneO.set_offset BoneO.name BoneO.parent BoneO.cosmetic BoneO.offset
      BoneO.scale BoneO.matrix]. unfold q16. rewrite !map_map.
    apply run_refl. exact Hs6.
Qed.

(** The data blocks of the bones, all the bone slots being set. *)
Lemma bones_data_back (bs : list Bone.t) :
  forall (k : Z) (f f' : wfile),
    for_each (enumerate_from k bs) XBinIO.write_bone_data f = Ok f' ->
    exists bytes,
      getvalue f' = getvalue f ++ bytes
      /\ forall fl rest (H0 H1 : list (Obj Images)) T F M n c
             (a0 g total : nat),
           sees fl (bytes ++ rest) ->
           Z.of_nat g = k ->
           length H0 = (a0 + g)%nat ->
           bones F = slots a0 total 0 ->
           (g + length bs <= total)%nat ->
           exists T',
             active_tri T' = active_tri T /\ follows T T'
             /\ run_over deserialize_image_string fl rest
                  (H0 ++ map (fun ib => OBone (dec_bone_info n c ib))
                           (enumerate_from k bs) ++ H1)
                  T F M
                  (H0 ++ map (fun ib => OBone (dec_bone n c ib))
                           (enumerate_from k bs) ++ H1)
                  T' F M.
Proof.
  induction bs as [|b bs IH]; intros k f f' Hw;
    cbn [enumerate_from for_each] in Hw.
  - apply Ok_inj in Hw. subst f'. exists []. split.
    + rewrite app_nil_r. reflexivity.
    + intros fl rest H0 H1 T F M n c a0 g total Hs Hg HH HF Hle.
      exists T. split; [reflexivity|]. split; [apply follows_refl|].
      apply run_refl. exact Hs.
  - bind_inv Hw as f1 Hf1.
    destruct (bone_data_back k b f f1 Hf1) as [b1 [Hg1 Hr1]].
    destruct (IH _ _ _ Hw) as [b2 [Hg2 Hr2]].
    exists (b1 ++ b2). split.
    + rewrite Hg2, Hg1, <- app_assoc. reflexivity.
    + intros fl rest H0 H1 T F M n c a0 g total Hs Hg HH HF Hle.
      rewrite <- app_assoc in Hs. cbn [length] in Hle.
      assert (Hb : bones F !! Z.to_nat k = Some (Some (length H0))).
      { subst k. rewrite Nat2Z.id, HF, HH. apply lookup_slots. lia. }
      cbn [map app].
      destruct (Hr1 fl (b2 ++ rest) H0
                  (map (fun ib => OBone (dec_bone_info n c ib))
                     (enumerate_from (k + 1) bs) ++ H1)
                  T F M (dec_bone_info n c (k, b)) Hs ltac:(lia) Hb)
        as [fl1 [Hs1 Hreach1]].
      destruct (Hr2 fl1 rest (H0 ++ [OBone (dec_bone n c (k, b))]) H1
                  (mkLoadState (Some (length H0)) (active_tri T)
                     (active_frame T) (asset_type T))
                  F M n c a0 (Datatypes.S g) total Hs1 ltac:(lia)
                  ltac:(rewrite length_app; cbn [length]; lia) HF
                  ltac:(lia))
        as [T2 [Ht2 [Hfol2 [fl2 [Hs2 Hreach2]]]]].
      exists T2. split; [exact Ht2|]. split; [exact Hfol2|].
      exists fl2. split; [exact Hs2|].
      rewrite <- !app_assoc in Hreach2. cbn [app] in Hreach2.
      apply (reaches_trans _ _ _ _ Hreach1 Hreach2).
Qed.

Lemma cosmetic_count_le (model : Model.t Images) :
  0 <= cosmetic_count model <= len (Model.bones model).
Proof.
  unfold cosmetic_count, len.
  pose proof (filter_length_le (fun bone => Bone.cosmetic bone)
                (Model.bones model)). lia.
Qed.

(** The bones section of a file, read into a model that announces no
    cosmetic bone yet. *)
Lemma bones_back (model : Model.t Images) (f f' : wfile) :
  XBinIO.write_bones model f = Ok f' ->
  exists bytes,
    getvalue f' = getvalue f ++ bytes
    /\ forall fl rest (H : list (Obj Images)) T F M,
         Forall (fun b => wire_string (Bone.name b)) (Model.bones model) ->
         sees fl (bytes ++ rest) ->
         cosmetics F = 0 ->
         exists T',
           active_tri T' = active_tri T /\ follows T T'
           /\ run_over deserialize_image_string fl rest H T F M
                (H ++ map (fun ib => OBone (dec_bone
                                              (len (Model.bones model))
                                              (cosmetic_count model) ib))
                        (enumerate (Model.bones model)))
                T'
                (mkSelf (slots (length H) (length (Model.bones model)) 0)
                   (cosmetic_count model) (meshes F) (materials F)
                   (parts F) (framerate F) (frames F) (notes F))
                M.
Proof.
  intros Hw. unfold XBinIO.write_bones in Hw.
  fold (cosmetic_count model) in Hw.
  pose proof (cosmetic_count_le model) as Hc.
  set (n := len (Model.bones model)) in *.
  set (c := cosmetic_count model) in *.
  bind_inv Hw as f1 Hf1. apply WriteMetaInt16Block_chunk in Hf1.
  destruct Hf1 as [-> [_ Hn]].
  bind_inv Hw as f2 Hf2. bind_inv Hw as f3 Hf3.
  destruct (bone_infos_back _ _ _ _ Hf3) as [bi [Hgi Hri]].
  destruct (bones_data_back _ _ _ _ Hw) as [bd [Hgd Hrd]].
  assert (Hfin :
    forall fl rest (H : list (Obj Images)) T F M,
      Forall (fun b => wire_string (Bone.name b)) (Model.bones model) ->
      sees fl (bi ++ bd ++ rest) ->
      bones F = slots (length H) 0 (length (Model.bones model) + 0) ->
      cosmetics F = c ->
      exists T',
        active_tri T' = active_tri T /\ follows T T'
        /\ run_over deserialize_image_string fl rest H T F M
             (H ++ map (fun ib => OBone (dec_bone n c ib))
                     (enumerate (Model.bones model)))
             T'
             (mkSelf (slots (length H) (length (Model.bones model)) 0)
                c (meshes F) (materials F) (parts F) (framerate F)
                (frames F) (notes F))
             M).
  { intros fl rest H T F M Hws Hs HF HcF.
    pose proof (Hri fl (bd ++ rest) H T F M (length H) 0%nat 0%nat Hws Hs
                  eq_refl HF ltac:(lia)) as [fl1 [Hs1 Hreach1]].
    rewrite HcF in Hreach1. cbn [Nat.add] in Hreach1.
    rewrite Nat.add_0_r in Hreach1. fold n in Hreach1.
    destruct (Hrd fl1 rest H [] T
                (mkSelf (slots (length H) (length (Model.bones model)) 0)
                   c (meshes F) (materials F) (parts F) (framerate F)
                   (frames F) (notes F))
                M n c (length H) 0%nat (length (Model.bones model))
                Hs1 eq_refl ltac:(lia) eq_refl ltac:(lia))
      as [T' [Ht' [Hfol [fl2 [Hs2 Hreach2]]]]].
    rewrite !app_nil_r in Hreach2.
    exists T'. split; [exact Ht'|]. split; [exact Hfol|].
    exists fl2. split; [exact Hs2|].
    apply (reaches_trans _ _ _ _ Hreach1 Hreach2). }
  destruct (Z.ltb_spec 0 c) as [Hpos|Hzero].
  - unfold XBlock.WriteCosmeticInfoBlock in Hf2.
    apply WriteMetaInt32Block_chunk in Hf2. destruct Hf2 as [-> _].
    exists (blk_int16 0x76BA n ++ blk_int32 0x7836 c ++ bi ++ bd). split.
    + rewrite Hgd, Hgi, !getvalue_snoc, <- !app_assoc. reflexivity.
    + intros fl rest H T F M Hws Hs HcF. rewrite <- !app_assoc in Hs.
      destruct (turn_bone_count deserialize_image_string _ H T F M fl n Hs Hn)
        as [fl1 [Hs1 Ht1]].
      destruct (turn_cosmetic_count deserialize_image_string _ H T
                  (mkSelf (py_repeat None n) (cosmetics F) (meshes F)
                     (materials F) (parts F) (framerate F) (frames F)
                     (notes F))
                  M fl1 c Hs1)
        as [fl2 [Hs2 Ht2]].
      cbn [bones cosmetics meshes materials parts framerate frames notes]
        in Ht2.
      rewrite sint32_small in Ht2 by (unfold is_short in Hn; lia).
      destruct (Hfin fl2 rest H T
                  (mkSelf (py_repeat None n) c (meshes F) (materials F)
                     (parts F) (framerate F) (frames F) (notes F))
                  M Hws Hs2)
        as [T' [Ht' [Hfol [fl3 [Hs3 Hreach3]]]]].
      { cbn [bones]. unfold py_repeat, slots, n, len.
        rewrite Nat2Z.id, Nat.add_0_r. reflexivity. }
      { reflexivity. }
      exists T'. split; [exact Ht'|]. split; [exact Hfol|].
      exists fl3. split; [exact Hs3|].
      eapply reaches_trans; [|exact Hreach3].
      eapply reaches_turn; [|exact Ht2].
      eapply reaches_turn; [apply reaches_here|exact Ht1].
  - apply Ok_inj in Hf2. subst f2.
    exists (blk_int16 0x76BA n ++ bi ++ bd). split.
    + rewrite Hgd, Hgi, !getvalue_snoc, <- !app_assoc. reflexivity.
    + intros fl rest H T F M Hws Hs HcF. rewrite <- !app_assoc in Hs.
      destruct (turn_bone_count deserialize_image_string _ H T F M fl n Hs Hn)
        as [fl1 [Hs1 Ht1]].
      destruct (Hfin fl1 rest H T
                  (mkSelf (py_repeat None n) (cosmetics F) (meshes F)
                     (materials F) (parts F) (framerate F) (frames F)
                     (notes F))
                  M Hws Hs1)
        as [T' [Ht' [Hfol [fl3 [Hs3 Hreach3]]]]].
      { cbn [bones]. unfold py_repeat, slots, n, len.
        rewrite Nat2Z.id, Nat.add_0_r. reflexivity. }
      { cbn [cosmetics]. lia. }
      exists T'. split; [exact Ht'|]. split; [exact Hfol|].
      exists fl3. split; [exact Hs3|].
      eapply reaches_trans; [|exact Hreach3].
      eapply reaches_turn; [apply reaches_here|exact Ht1].
Qed.

(** The info blocks of the objects; [D] holds the meshes already set. *)
Lemma object_infos_back (ms : list Mesh.t) :
  forall (k : Z) (f f' : wfile),
    for_each (enumerate_from k ms) XBinIO.write_object f = Ok f' ->
    exists bytes,
      getvalue f' = getvalue f ++ bytes
      /\ forall fl rest (H : list (Obj Images)) T F M
             (D : list (option MeshO.t)) (r : nat),
           Forall (fun m => wire_string (Mesh.name m)) ms ->
           sees fl (bytes ++ rest) ->
           Z.of_nat (length D) = k ->
           meshes F = D ++ replicate (length ms + r) None ->
           run_over deserialize_image_string fl rest H T F M
             H T
             (mkSelf (bones F) (cosmetics F)
                (D ++ map (fun m => Some (MeshO.mk (Mesh.name m) [] [])) ms
                 ++ replicate r None)
                (materials F) (parts F) (framerate F) (frames F) (notes F))
             M.
Proof.
  induction ms as [|m ms IH]; intros k f f' Hw;
    cbn [enumerate_from for_each] in Hw.
  - apply Ok_inj in Hw. subst f'. exists []. split.
    + rewrite app_nil_r. reflexivity.
    + intros fl rest H T F M D r _ Hs Hk HF.
      cbn [map length Nat.add app] in HF |- *. rewrite <- HF. destruct F.
      apply run_refl. exact Hs.
  - bind_inv Hw as f1 Hf1. unfold XBinIO.write_object in Hf1.
    apply WriteMetaObjectInfo_chunk in Hf1. destruct Hf1 as [-> Hk'].
    destruct (IH _ _ _ Hw) as [b2 [Hg2 Hr2]].
    exists (blk_object k (Mesh.name m) ++ b2). split.
    + rewrite Hg2, getvalue_snoc, <- app_assoc. reflexivity.
    + intros fl rest H T F M D r Hws Hs Hk HF.
      apply Forall_cons in Hws. destruct Hws as [Hwm Hws].
      rewrite <- app_assoc in Hs. cbn [length Nat.add replicate] in HF.
      eapply run_step.
      { eapply turn_object_info; [exact Hs|exact Hwm|exact Hk'|].
        rewrite HF, len_app. unfold len. cbn [length]. lia. }
      intros fl1 Hs1. subst k. rewrite Nat2Z.id, HF, insert_middle.
      pose proof (Hr2 fl1 rest H T
                    (mkSelf (bones F) (cosmetics F)
                       ((D ++ [Some (MeshO.mk (Mesh.name m) [] [])])
                        ++ replicate (length ms + r) None)
                       (materials F) (parts F) (framerate F) (frames F)
                       (notes F))
                    M (D ++ [Some (MeshO.mk (Mesh.name m) [] [])]) r Hws Hs1
                    ltac:(rewrite length_app; cbn [length]; lia) eq_refl)
        as Hrun.
      cbn [bones cosmetics meshes materials parts framerate frames notes]
        in Hrun.
      rewrite <- !app_assoc in Hrun. cbn [app map] in Hrun |- *.
      exact Hrun.
Qed.

Lemma objects_back (model : Model.t Images) (f f' : wfile) :
  XBinIO.write_objects model f = Ok f' ->
  exists bytes,
    getvalue f' = getvalue f ++ bytes
    /\ forall fl rest (H : list (Obj Images)) T F M,
         Forall (fun m => wire_string (Mesh.name m)) (Model.meshes model) ->
         sees fl (bytes ++ rest) ->
         run_over deserialize_image_string fl rest H T F M
           H T
           (mkSelf (bones F) (cosmetics F)
              (map (fun m => Some (MeshO.mk (Mesh.name m) [] []))
                 (Model.meshes model))
              (materials F) (parts F) (framerate F) (frames F) (notes F))
           M.
Proof.
  intros Hw. unfold XBinIO.write_objects in Hw.
  bind_inv Hw as f1 Hf1. apply WriteMetaInt16Block_chunk in Hf1.
  destruct Hf1 as [-> [_ Hn]].
  destruct (object_infos_back _ _ _ _ Hw) as [b [Hg Hr]].
  exists (blk_int16 0x62AF (len (Model.meshes model)) ++ b). split.
  - rewrite Hg, getvalue_snoc, <- app_assoc. reflexivity.
  - intros fl rest H T F M Hws Hs. rewrite <- app_assoc in Hs.
    eapply run_step; [eapply turn_object_count; [exact Hs|exact Hn]|].
    intros fl1 Hs1.
    pose proof (Hr fl1 rest H T
                  (mkSelf (bones F) (cosmetics F)
                     (py_repeat None (len (Model.meshes model)))
                     (materials F) (parts F) (framerate F) (frames F)
                     (notes F))
                  M [] 0%nat Hws Hs1 eq_refl) as Hrun.
    cbn [bones cosmetics meshes materials parts framerate frames notes
         app replicate] in Hrun.
    rewrite app_nil_r in Hrun. apply Hrun.
    unfold py_repeat, len. rewrite Nat2Z.id, Nat.add_0_r. reflexivity.
Qed.

(** A material: its info block, colour and float attributes. *)
Lemma material_back (ext : bool) (i : Z) (m : Material.t Images)
    (f f' : wfile) :
  XBinIO.write_material serialize_image_string ext f (i, m) = Ok f' ->
  exists bytes,
    getvalue f' = getvalue f ++ bytes
    /\ forall fl rest (H : list (Obj Images)) T F M,
         wire_string (Material.name m) ->
         wire_string (Material.type m) ->
         wire_string (serialize_image_string (Material.images m) true) ->
         sees fl (bytes ++ rest) ->
         0 <= i < len (materials F) ->
         run_over deserialize_image_string fl rest H T F M
           (H ++ [OMaterial (dec_material serialize_image_string
                               deserialize_image_string m)])
           (mkLoadState (Some (length H)) (active_tri T) (active_frame T)
              (asset_type T))
           (mkSelf (bones F) (cosmetics F) (meshes F)
              (<[Z.to_nat i := Some (length H)]> (materials F))
              (parts F) (framerate F) (frames F) (notes F))
           M.
Proof.
  intros Hw. unfold XBinIO.write_material in Hw.
  bind_inv Hw as f0 Hf0. apply WriteMaterialInfoBlock_chunk in Hf0.
  destruct Hf0 as [-> Hi].
  bind_inv Hw as f1 Hf1. apply WriteColorBlock_chunk in Hf1.
  destruct Hf1 as [-> [Hcl Hcs]].
  bind_inv Hw as f2 Hf2. apply WriteMetaVec4Block_chunk in Hf2.
  destruct Hf2 as [-> [_ L2]].
  bind_inv Hw as f3 Hf3. apply WriteMetaVec4Block_chunk in Hf3.
  destruct Hf3 as [-> [_ L3]].
  bind_inv Hw as f4 Hf4. apply WriteMetaVec4Block_chunk in Hf4.
  destruct Hf4 as [-> [_ L4]].
  bind_inv Hw as f5 Hf5. apply WriteMetaVec2Block_chunk in Hf5.
  destruct Hf5 as [-> [_ L5]].
  bind_inv Hw as f6 Hf6. apply WriteMetaVec2Block_chunk in Hf6.
  destruct Hf6 as [-> [_ L6]].
  bind_inv Hw as f7 Hf7. apply WriteMetaVec2Block_chunk in Hf7.
  destruct Hf7 as [-> [_ L7]].
  bind_inv Hw as f8 Hf8. apply WriteMetaVec4Block_chunk in Hf8.
  destruct Hf8 as [-> [_ L8]].
  bind_inv Hw as f9 Hf9. apply WriteMetaVec4Block_chunk in Hf9.
  destruct Hf9 as [-> [_ L9]].
  bind_inv Hw as f10 Hf10. apply WriteMetaVec2Block_chunk in Hf10.
  destruct Hf10 as [-> [_ L10]].
  bind_inv Hw as f11 Hf11. apply WriteMetaVec2Block_chunk in Hf11.
  destruct Hf11 as [-> [_ L11]].
  apply WriteMetaFloatBlock_chunk in Hw. destruct Hw as [-> _].
  eexists. split.
  - rewrite !getvalue_snoc, <- !app_assoc. reflexivity.
  - intros fl rest H T F M Hwn Hwt Hws Hs Hr. rewrite <- !app_assoc in Hs.
    eapply run_step;
      [eapply turn_material_info;
       [exact Hs|exact Hwn|exact Hwt|exact Hws|exact Hi|exact Hr]|].
    intros fl1 Hs1.
    eapply run_step;
      [eapply turn_color;
       [exact Hs1|rewrite length_map; exact Hcl|exact Hcs|reflexivity
       |apply lookup_last|reflexivity]|].
    intros fl2 Hs2. rewrite insert_last.
    do 11 (eapply run_step;
           [eapply turn_material_attr;
            [eassumption
            |unfold material_attrs;
             repeat (first [left; reflexivity|right])
            |first [eassumption|reflexivity]
            |reflexivity|apply lookup_last]|];
           let fl' := fresh "fl" in let Hs' := fresh "Hs" in
           intros fl' Hs'; rewrite insert_last).
    unfold dec_material, q8. rewrite map_map.
    apply run_refl. eassumption.
Qed.

Lemma materials_list_back (ext : bool) (ms : list (Material.t Images)) :
  forall (k : Z) (f f' : wfile),
    for_each (enumerate_from k ms)
      (XBinIO.write_material serialize_image_string ext) f = Ok f' ->
    exists bytes,
      getvalue f' = getvalue f ++ bytes
      /\ forall fl rest (H : list (Obj Images)) T F M (a0 g r : nat),
           Forall (fun m => wire_string (Material.name m)
                            /\ wire_string (Material.type m)
                            /\ wire_string
                                 (serialize_image_string
                                    (Material.images m) true)) ms ->
           sees fl (bytes ++ rest) ->
           Z.of_nat g = k ->
           materials F = slots a0 g (length ms + r) ->
           length H = (a0 + g)%nat ->
           exists T',
             active_tri T' = active_tri T /\ follows T T'
             /\ run_over deserialize_image_string fl rest H T F M
                  (H ++ map (fun m => OMaterial
                                        (dec_material serialize_image_string
                                           deserialize_image_string m)) ms)
                  T'
                  (mkSelf (bones F) (cosmetics F) (meshes F)
                     (slots a0 (g + length ms) r) (parts F) (framerate F)
                     (frames F) (notes F))
                  M.
Proof.
  induction ms as [|m ms IH]; intros k f f' Hw;
    cbn [enumerate_from for_each] in Hw.
  - apply Ok_inj in Hw. subst f'. exists []. split.
    + rewrite app_nil_r. reflexivity.
    + intros fl rest H T F M a0 g r _ Hs Hg HF HH. exists T.
      split; [reflexivity|]. split; [apply follows_refl|].
      cbn [map length]. rewrite app_nil_r, Nat.add_0_r.
      cbn [length Nat.add] in HF. rewrite <- HF. destruct F.
      apply run_refl. exact Hs.
  - bind_inv Hw as f1 Hf1.
    destruct (material_back ext k m f f1 Hf1) as [b1 [Hg1 Hr1]].
    destruct (IH _ _ _ Hw) as [b2 [Hg2 Hr2]].
    exists (b1 ++ b2). split.
    + rewrite Hg2, Hg1, <- app_assoc. reflexivity.
    + intros fl rest H T F M a0 g r Hws Hs Hg HF HH.
      apply Forall_cons in Hws. destruct Hws as [[Hwn [Hwt Hwi]] Hws].
      rewrite <- app_assoc in Hs. cbn [length] in HF.
      assert (Hin : 0 <= k < len (materials F)).
      { rewrite HF, len_slots. lia. }
      pose proof (Hr1 fl (b2 ++ rest) H T F M Hwn Hwt Hwi Hs Hin) as Hrun1.
      subst k. rewrite Nat2Z.id, HF, HH in Hrun1.
      cbn [Nat.add] in Hrun1. rewrite fill_slot in Hrun1.
      destruct Hrun1 as [fl1 [Hs1 Hreach1]].
      destruct (Hr2 fl1 rest
                  (H ++ [OMaterial (dec_material serialize_image_string
                                      deserialize_image_string m)])
                  (mkLoadState (Some (a0 + g)%nat) (active_tri T)
                     (active_frame T) (asset_type T))
                  (mkSelf (bones F) (cosmetics F) (meshes F)
                     (slots a0 (Datatypes.S g) (length ms + r)) (parts F)
                     (framerate F) (frames F) (notes F))
                  M a0 (Datatypes.S g) r Hws Hs1 ltac:(lia) eq_refl
                  ltac:(rewrite length_app; cbn [length]; lia))
        as [T' [Ht' [Hfol [fl2 [Hs2 Hreach2]]]]].
      exists T'. split; [exact Ht'|]. split; [exact Hfol|].
      exists fl2. split; [exact Hs2|].
      cbn [bones cosmetics meshes materials parts framerate frames notes]
        in Hreach2.
      rewrite <- app_assoc in Hreach2. cbn [app] in Hreach2.
      cbn [map length].
      replace (g + Datatypes.S (length ms))%nat
        with (Datatypes.S g + length ms)%nat by lia.
      apply (reaches_trans _ _ _ _ Hreach1 Hreach2).
Qed.

Lemma materials_back (ext : bool) (model : Model.t Images) (f f' : wfile) :
  XBinIO.write_materials serialize_image_string ext model f = Ok f' ->
  exists bytes,
    getvalue f' = getvalue f ++ bytes
    /\ forall fl rest (H : list (Obj Images)) T F M,
         wire_model serialize_image_string model ->
         sees fl (bytes ++ rest) ->
         exists T',
           follows T T'
           /\ run_over deserialize_image_string fl rest H T F M
                (H ++ map (fun m => OMaterial
                                      (dec_material serialize_image_string
                                         deserialize_image_string m))
                        (Model.materials model))
                T'
                (mkSelf (bones F) (cosmetics F) (meshes F)
                   (map Some (seq (length H)
                                (length (Model.materials model))))
                   (parts F) (framerate F) (frames F) (notes F))
                M.
Proof.
  intros Hw. unfold XBinIO.write_materials in Hw.
  bind_inv Hw as f1 Hf1. apply WriteMetaInt16Block_chunk in Hf1.
  destruct Hf1 as [-> [_ Hn]].
  destruct (materials_list_back _ _ _ _ _ Hw) as [b [Hg Hr]].
  exists (blk_int16 0xA1B2 (len (Model.materials model)) ++ b). split.
  - rewrite Hg, getvalue_snoc, <- app_assoc. reflexivity.
  - intros fl rest H T F M [_ [_ Hws]] Hs. rewrite <- app_assoc in Hs.
    destruct (turn_material_count deserialize_image_string _ H T F M fl _
                Hs Hn) as [fl1 [Hs1 Ht1]].
    destruct (Hr fl1 rest H T
                (mkSelf (bones F) (cosmetics F) (meshes F)
                   (py_repeat None (len (Model.materials model)))
                   (parts F) (framerate F) (frames F) (notes F))
                M (length H) 0%nat 0%nat Hws Hs1 eq_refl)
      as [T' [_ [Hfol [fl2 [Hs2 Hreach2]]]]].
    { cbn [materials]. unfold py_repeat, slots, len.
      rewrite Nat2Z.id, Nat.add_0_r. reflexivity. }
    { lia. }
    exists T'. split; [exact Hfol|]. exists fl2. split; [exact Hs2|].
    cbn [bones cosmetics meshes materials parts framerate frames notes
         Nat.add] in Hreach2.
    unfold slots in Hreach2. cbn [replicate] in Hreach2.
    rewrite app_nil_r in Hreach2.
    eapply reaches_trans; [|exact Hreach2].
    eapply reaches_turn; [apply reaches_here|exact Ht1].
Qed.
End Sections.

(** ** A whole model *)

Lemma vertex_writers (vert_count : Z) WC WI :
  XBinIO.pick_vertex_writers 7 vert_count = (WC, WI) ->
  count_writer (0xFFFF <? vert_count) WC
  /\ index_writer (0xFFFF <? vert_count) WI.
Proof.
  unfold XBinIO.pick_vertex_writers. simpl andb.
  destruct (0xFFFF <? vert_count); intros [= <- <-]; split;
    intros f v f' H.
  - apply WriteMetaInt32Block_chunk in H. destruct H as [-> _].
    split; [reflexivity|discriminate].
  - apply WriteMetaInt32Block_chunk in H. destruct H as [-> _].
    split; [reflexivity|discriminate].
  - apply WriteMetaUInt16Block_chunk in H. destruct H as [-> [_ Hv]].
    split; [reflexivity|intros _; exact Hv].
  - apply WriteMetaUInt16Block_chunk in H. destruct H as [-> [_ Hv]].
    split; [reflexivity|intros _; exact Hv].
Qed.

Section Whole.
Context {Images : Type}.
Variable serialize_image_string : Images -> bool -> string.
Variable deserialize_image_string : string -> Images.

(** The vertices section. *)
Lemma verts_section_back (w : bool) WC WI (model : Model.t Images)
    (f f' : wfile) :
  count_writer w WC -> index_writer w WI ->
  XBinIO.write_verts WC WI model
    (XBinIO.vert_offsets_of (Model.meshes model)) (total_verts model) f
  = Ok f' ->
  exists bytes,
    getvalue f' = getvalue f ++ bytes
    /\ forall fl rest (H : list (Obj Images)) T F M,
         sees fl (bytes ++ rest) ->
         active_tri T = None ->
         total_verts model < 2 ^ 31 ->
         exists T',
           active_tri T' = None /\ follows T T'
           /\ run_over deserialize_image_string fl rest H T F M
                (H ++ map (fun x => OVertex (dec_vertex x))
                        (all_verts model))
                T' F
                (MeshO.mk (MeshO.name M)
                   (map Some (seq (length H) (length (all_verts model))))
                   (MeshO.faces M)).
Proof.
  intros HC HI Hw. unfold XBinIO.write_verts in Hw.
  bind_inv Hw as f1 Hf1. apply HC in Hf1. destruct Hf1 as [-> Hcnt].
  rewrite vert_offsets_of_eq in Hw.
  destruct (verts_back deserialize_image_string w WI _ (Model.meshes model)
              HI [] 0 _ _ eq_refl Hw) as [b [Hg Hr]].
  exists (blk_vertex_count w (total_verts model) ++ b). split.
  - rewrite Hg, getvalue_snoc, <- app_assoc. reflexivity.
  - intros fl rest H T F M Hs Ht Hb. rewrite <- app_assoc in Hs.
    pose proof (total_verts_length model) as Htot.
    fold (all_verts model) in Htot.
    destruct (turn_vertex_count deserialize_image_string _ H T F M fl w _
                Hs Hcnt) as [fl1 [Hs1 Ht1]].
    assert (Hwi : wire_index w (total_verts model) = total_verts model).
    { destruct w; [apply sint32_small; lia|reflexivity]. }
    rewrite Hwi in Ht1.
    destruct (Hr fl1 rest H T F
                (MeshO.mk (MeshO.name M)
                   (py_repeat None (total_verts model)) (MeshO.faces M))
                (length H) 0%nat 0%nat Hs1 Ht eq_refl)
      as [T' [Ht' [Hfol [fl2 [Hs2 Hreach2]]]]].
    { fold (all_verts model). lia. }
    { cbn [MeshO.verts]. fold (all_verts model).
      unfold py_repeat, slots. rewrite Htot, Nat2Z.id, Nat.add_0_r.
      reflexivity. }
    { lia. }
    exists T'. split; [exact Ht'|]. split; [exact Hfol|].
    exists fl2. split; [exact Hs2|].
    cbn [MeshO.name MeshO.faces Nat.add] in Hreach2.
    fold (all_verts model) in Hreach2.
    unfold slots in Hreach2. cbn [replicate] in Hreach2.
    rewrite app_nil_r in Hreach2.
    eapply reaches_trans; [|exact Hreach2].
    eapply reaches_turn; [apply reaches_here|exact Ht1].
Qed.

(** The faces section. *)
Lemma faces_section_back (w : bool) WI (model : Model.t Images)
    (f f' : wfile) :
  index_writer w WI ->
  XBinIO.write_faces WI model
    (XBinIO.vert_offsets_of (Model.meshes model)) f = Ok f' ->
  exists bytes,
    getvalue f' = getvalue f ++ bytes
    /\ (forall a,
          length (dec_mesh_faces (Images := Images) a w 0
                    (Model.meshes model))
          = (4 * length (all_faces model))%nat)
    /\ forall fl rest (H : list (Obj Images)) T F M,
         sees fl (bytes ++ rest) ->
         exists T',
           follows T T'
           /\ run_over deserialize_image_string fl rest H T F M
                (H ++ dec_mesh_faces (length H) w 0 (Model.meshes model))
                T' F
                (MeshO.mk (MeshO.name M) (MeshO.verts M)
                   (face_addrs (length H) (length (all_faces model)))).
Proof.
  intros HI Hw. unfold XBinIO.write_faces in Hw.
  bind_inv Hw as f1 Hf1. apply WriteMetaInt32Block_chunk in Hf1.
  destruct Hf1 as [-> _].
  rewrite vert_offsets_of_eq in Hw.
  destruct (faces_back deserialize_image_string w WI _ (Model.meshes model)
              HI [] 0 _ _ eq_refl Hw) as [b [Hg [Hl Hr]]].
  eexists. split.
  - rewrite Hg, getvalue_snoc, <- app_assoc. reflexivity.
  - split; [apply Hl|].
    intros fl rest H T F M Hs. rewrite <- app_assoc in Hs.
    destruct (turn_face_count deserialize_image_string _ H T F M fl _ Hs)
      as [fl1 [Hs1 Ht1]].
    destruct (Hr fl1 rest H T F
                (MeshO.mk (MeshO.name M) (MeshO.verts M) []) Hs1)
      as [T' [Hfol [fl2 [Hs2 Hreach2]]]].
    exists T'. split; [exact Hfol|]. exists fl2. split; [exact Hs2|].
    cbn [MeshO.name MeshO.verts MeshO.faces app] in Hreach2.
    eapply reaches_trans; [|exact Hreach2].
    eapply reaches_turn; [apply reaches_here|exact Ht1].
Qed.

(** Comment, model marker and version. *)
Lemma header_back (hdr : string) (f' : wfile) :
  XBinIO.write_header 7 hdr [] = Ok f' ->
  exists bytes,
    getvalue f' = bytes
    /\ forall fl rest (H : list (Obj Images)) T F M,
         wire_header hdr ->
         sees fl (bytes ++ rest) ->
         run_over deserialize_image_string fl rest H T F M
           H
           (mkLoadState (active_thing T) (active_tri T) (active_frame T)
              (Some "MODEL"))
           F M.
Proof.
  intros Hw. unfold XBinIO.write_header in Hw.
  bind_inv Hw as f0 Hf0. bind_inv Hw as f1 Hf1.
  apply WriteModelBlock_chunk in Hf1. subst f1.
  apply WriteVersionBlock_chunk in Hw. destruct Hw as [-> Hv].
  destruct (String.eqb hdr "") eqn:He; cbn [negb] in Hf0.
  - apply Ok_inj in Hf0. subst f0. eexists. split; [reflexivity|].
    intros fl rest H T F M _ Hs. unfold getvalue in Hs.
    cbn [app concat] in Hs. rewrite app_nil_r, <- app_assoc in Hs.
    eapply run_step; [eapply turn_model; exact Hs|].
    intros fl1 Hs1.
    eapply run_step; [eapply turn_version; [exact Hs1|exact Hv]|].
    intros fl2 Hs2. apply run_refl. exact Hs2.
  - apply WriteCommentBlock_chunk in Hf0. subst f0.
    eexists. split; [reflexivity|].
    intros fl rest H T F M Hh Hs. unfold getvalue in Hs.
    cbn [app concat] in Hs. rewrite app_nil_r, <- !app_assoc in Hs.
    destruct Hh as [->|[Hwh Hal]]; [discriminate|].
    eapply run_step; [eapply turn_comment; [exact Hs|exact Hwh|exact Hal]|].
    intros fl0 Hs0.
    eapply run_step; [eapply turn_model; exact Hs0|].
    intros fl1 Hs1.
    eapply run_step; [eapply turn_version; [exact Hs1|exact Hv]|].
    intros fl2 Hs2. apply run_refl. exact Hs2.
Qed.

Lemma length_enumerate_from {A} (k : Z) (l : list A) :
  length (enumerate_from k l) = length l.
Proof.
  revert k. induction l as [|x l IH]; intros k; cbn [enumerate_from length];
    [|rewrite IH]; reflexivity.
Qed.

(** The decoder, started on the blocks of [self] with a new model and an
    empty store, arrives at the end of the buffer with the decoded
    objects. *)
Lemma model_back (self : Model.t Images) (version : Z) (ext : bool)
    (hdr : string) (file : wfile) :
  XBinIO.write_model_blocks serialize_image_string self version ext hdr
  = Ok file ->
  wire_model serialize_image_string self -> wire_header hdr ->
  total_verts self < 2 ^ 31 ->
  forall fl,
    sees fl (getvalue file) ->
    exists fl' T',
      sees fl' [] /\ asset_type T' = Some "MODEL"
      /\ reaches deserialize_image_string "MODEL"
           (initial_state new_self [] fl)
           (mkDState fl'
              (dec_heap serialize_image_string deserialize_image_string self)
              T' (dec_self self) (dec_mesh self)).
Proof.
  unfold XBinIO.write_model_blocks. intros Hw Hwm Hwh Hv fl Hs.
  bind_inv Hw as f1 H1. bind_inv Hw as f2 H2. bind_inv Hw as vc Hvc.
  apply vert_count_total in Hvc. subst vc.
  destruct (XBinIO.pick_vertex_writers 7 (total_verts self)) as [WC WI] eqn:HW.
  destruct (vertex_writers _ _ _ HW) as [HC HI]. fold (wide self) in HC, HI.
  bind_inv Hw as f3 H3. bind_inv Hw as f4 H4. bind_inv Hw as f5 H5.
  destruct (header_back _ _ H1) as [hb [Gh Rh]].
  destruct (bones_back deserialize_image_string _ _ _ H2) as [bb [Gb Rb]].
  destruct (verts_section_back _ _ _ _ _ _ HC HI H3) as [vb [Gv Rv]].
  destruct (faces_section_back _ _ _ _ _ HI H4) as [fb [Gf [Lf Rf]]].
  destruct (objects_back deserialize_image_string _ _ _ H5) as [ob [Go Ro]].
  destruct (materials_back serialize_image_string deserialize_image_string
              _ _ _ _ Hw) as [mb [Gm Rm]].
  assert (Hget : getvalue file
                 = hb ++ bb ++ vb ++ fb ++ ob ++ mb ++ []).
  { rewrite Gm, Go, Gf, Gv, Gb, Gh, app_nil_r, <- !app_assoc. reflexivity. }
  rewrite Hget in Hs. destruct Hwm as [Wb [Wm Wmat]].
  unfold initial_state.
  destruct (Rh fl _ [] (mkLoadState None None None None) new_self
              (XBinIO.new_Mesh "$default") Hwh Hs) as [fl1 [Hs1 Hr1]].
  cbn [active_thing active_tri active_frame] in Hr1.
  destruct (Rb fl1 _ [] (mkLoadState None None None (Some "MODEL")) new_self
              (XBinIO.new_Mesh "$default") Wb Hs1 eq_refl)
    as [T2 [Ht2 [Hfol2 [fl2 [Hs2 Hr2]]]]].
  cbn [app length meshes materials parts framerate frames notes new_self
       active_tri] in Hr2, Ht2.
  match type of Hr2 with
  | reaches _ _ _ (mkDState _ ?H2 _ ?F2 ?M2) =>
      destruct (Rv fl2 _ H2 T2 F2 M2 Hs2 Ht2 Hv)
        as [T3 [Ht3 [Hfol3 [fl3 [Hs3 Hr3]]]]]
  end.
  match type of Hr3 with
  | reaches _ _ _ (mkDState _ ?H3 _ ?F3 ?M3) =>
      destruct (Rf fl3 _ H3 T3 F3 M3 Hs3)
        as [T4 [Hfol4 [fl4 [Hs4 Hr4]]]]
  end.
  match type of Hr4 with
  | reaches _ _ _ (mkDState _ ?H4 _ ?F4 ?M4) =>
      pose proof (Ro fl4 _ H4 T4 F4 M4 Wm Hs4) as [fl5 [Hs5 Hr5]]
  end.
  match type of Hr5 with
  | reaches _ _ _ (mkDState _ ?H5 _ ?F5 ?M5) =>
      destruct (Rm fl5 _ H5 T4 F5 M5 (conj Wb (conj Wm Wmat)) Hs5)
        as [T6 [Hfol6 [fl6 [Hs6 Hr6]]]]
  end.
  exists fl6, T6. split; [exact Hs6|]. split.
  { destruct Hfol2 as [_ E2], Hfol3 as [_ E3], Hfol4 as [_ E4],
      Hfol6 as [_ E6].
    cbn [asset_type] in E2. congruence. }
  cbn [MeshO.name MeshO.verts MeshO.faces XBinIO.new_Mesh bones cosmetics
       meshes materials parts framerate frames notes] in Hr3, Hr4, Hr5, Hr6.
  unfold enumerate, slots in Hr2, Hr3, Hr4, Hr5, Hr6.
  cbn [replicate Nat.add] in Hr2, Hr3, Hr4, Hr5, Hr6.
  repeat first [rewrite length_app in Hr3 | rewrite length_map in Hr3
               | rewrite length_enumerate_from in Hr3
               | rewrite app_nil_r in Hr3 | rewrite <- app_assoc in Hr3].
  repeat first [rewrite length_app in Hr4 | rewrite length_map in Hr4
               | rewrite length_enumerate_from in Hr4
               | rewrite app_nil_r in Hr4 | rewrite <- app_assoc in Hr4].
  repeat first [rewrite length_app in Hr5 | rewrite length_map in Hr5
               | rewrite length_enumerate_from in Hr5
               | rewrite app_nil_r in Hr5 | rewrite <- app_assoc in Hr5].
  repeat first [rewrite length_app in Hr6 | rewrite length_map in Hr6
               | rewrite length_enumerate_from in Hr6 | rewrite Lf in Hr6
               | rewrite app_nil_r in Hr6 | rewrite <- app_assoc in Hr6].
  rewrite app_nil_r in Hr2.
  eapply reaches_trans; [|exact Hr6].
  eapply reaches_trans; [|exact Hr5].
  eapply reaches_trans; [|exact Hr4].
  eapply reaches_trans; [|exact Hr3].
  eapply reaches_trans; [exact Hr1|exact Hr2].
Qed.
End Whole.

(** ** Encoding a model and decoding the file *)

Section RoundTrip.
Context {Images : Type}.
Variable serialize_image_string : Images -> bool -> string.
Variable deserialize_image_string : string -> Images.
Variable lz4_compress : list byte -> list byte.
Variable lz4_uncompress : list byte -> outcome (list byte).

(** At the end of the buffer the loop stops. *)
Lemma turn_finished (fl : BytesIO) (H : list (Obj Images)) T F M :
  sees fl [] ->
  XBinIO.loop_turn deserialize_image_string "MODEL" (mkDState fl H T F M)
  = XBinIO.Finished.
Proof.
  intros [_ Hd]. unfold XBinIO.loop_turn, read. cbn [st_file].
  rewrite Hd. reflexivity.
Qed.

Lemma decompress_compressed (file : wfile) (stream : list byte) :
  (forall d, lz4_uncompress (le_bytes 4 (len d) ++ lz4_compress d) = Ok d) ->
  XBinIO.__compress_internal__ lz4_compress file = Ok stream ->
  XBinIO.__decompress_internal__ lz4_uncompress (mkBytesIO stream 0)
  = Ok (mkBytesIO (getvalue file) 0)
  /\ len (getvalue file) < 2 ^ 32.
Proof.
  intros Hlz Hw. unfold XBinIO.__compress_internal__ in Hw.
  bind_inv Hw as size Hsize. apply Ok_inj in Hw. subst stream.
  pack_inv Hsize. split; [|simpl in *; lia].
  unfold XBinIO.__decompress_internal__, read, read_all. cbn [data pos].
  unfold XBinIO.magic. cbn [app drop take Z.to_nat bytes_eqb].
  simpl.
  change (byte_of_Z (len (getvalue file))
          :: byte_of_Z (len (getvalue file) / 256)
          :: byte_of_Z (len (getvalue file) / 256 / 256)
          :: byte_of_Z (len (getvalue file) / 256 / 256 / 256)
          :: lz4_compress (getvalue file))
    with (le_bytes 4 (len (getvalue file)) ++ lz4_compress (getvalue file)).
  rewrite Hlz. reflexivity.
Qed.

End RoundTrip.



#[local] Arguments byte_of_Z : simpl never.
#[local] Arguments unpack_int : simpl never.
#[local] Arguments unpack_float : simpl never.
#[local] Arguments float_div : simpl never.
#[local] Arguments float_of_int : simpl never.
#[local] Arguments padded : simpl never.
#[local] Arguments strfield : simpl never.

(** ** The blocks one by one: strings *)

Lemma LoadString_loop_hangs (rest acc : list byte) (n : Z) :
  ~ In x00 rest -> XBlock.LoadString_loop rest acc n = Diverge.
Proof.
  revert acc n. induction rest as [|b rest IH]; intros acc n Hn.
  - reflexivity.
  - cbn [XBlock.LoadString_loop]. destruct (Byte.eqb b x00) eqn:Hb.
    + exfalso. apply Hn. left. symmetry. apply Byte.byte_dec_bl. exact Hb.
    + apply IH. intros Hin. apply Hn. right. exact Hin.
Qed.

(** X1: [LoadString] on a file that has no NUL byte from the cursor on
    (in particular with the cursor at the end of the file) never returns:
    [file.read(1)] delivers [b''] for ever, which is not the terminator. *)
Theorem LoadString_unterminated (file : BytesIO) :
  ~ In x00 (drop (Z.to_nat (pos file)) (data file)) ->
  XBlock.LoadString file = Diverge.
Proof.
  intros Hn. unfold XBlock.LoadString.
  rewrite LoadString_loop_hangs by exact Hn. reflexivity.
Qed.

Lemma LoadString_unterminated_witness :
  XBlock.LoadString (mkBytesIO [x61; x00; x62; x63] 2) = Diverge.
Proof.
  apply (LoadString_unterminated (mkBytesIO [x61; x00; x62; x63] 2)).
  simpl. intuition discriminate.
Defined.

(** X2: [LoadString] reads up to the first NUL byte and leaves the cursor
    behind it; the bytes before it are the string when they are
    well-formed UTF-8, and else [UnicodeDecodeError] is raised. *)
Theorem LoadString_terminated (file : BytesIO) (s r : list byte) :
  ~ In x00 s ->
  drop (Z.to_nat (pos file)) (data file) = s ++ x00 :: r ->
  XBlock.LoadString file
  = if utf8_valid s
    then Ok (string_of_list_byte s,
             mkBytesIO (data file) (pos file + (len s + 1)))
    else Raise UnicodeDecodeError.
Proof.
  intros Hn Hd. unfold XBlock.LoadString.
  rewrite Hd, LoadString_loop_at by exact Hn. cbn [bind app].
  unfold decode_utf8. destruct (utf8_valid s); cbn [bind]; reflexivity.
Qed.

Lemma LoadString_terminated_witness :
  XBlock.LoadString (mkBytesIO [x61; x62; x00; x63; x00] 0)
  = Ok ("ab", mkBytesIO [x61; x62; x00; x63; x00] 3)
  /\ XBlock.LoadString (mkBytesIO [xff; x00] 0) = Raise UnicodeDecodeError.
Proof.
  split.
  - apply (LoadString_terminated (mkBytesIO [x61; x62; x00; x63; x00] 0)
             [x61; x62] [x63; x00]).
    + simpl. intuition discriminate.
    + reflexivity.
  - apply (LoadString_terminated (mkBytesIO [xff; x00] 0) [xff] []).
    + simpl. intuition discriminate.
    + reflexivity.
Defined.

(** X3: [LoadString_Aligned] leaves the cursor at the start of the string
    plus the string and its terminator rounded up to a multiple of four,
    whatever the position of the start in the file, and also when that is
    beyond the end of the file. *)
Theorem LoadString_Aligned_cursor (file : BytesIO) (s r : list byte) :
  0 <= pos file -> ~ In x00 s -> utf8_valid s = true ->
  len s + 4 < 2 ^ 56 ->
  drop (Z.to_nat (pos file)) (data file) = s ++ x00 :: r ->
  XBlock.LoadString_Aligned file
  = Ok (string_of_list_byte s,
        mkBytesIO (data file) (pos file + 4 * (len s / 4 + 1))).
Proof.
  intros Hp Hn Hu Hb Hd. unfold XBlock.LoadString_Aligned, XBlock.LoadString.
  rewrite Hd, LoadString_loop_at by exact Hn. cbn [bind app].
  unfold decode_utf8. rewrite Hu. cbn [bind].
  unfold tell. cbn [pos data].
  assert (H0 : 0 <= len s) by (unfold len; lia).
  replace (pos file + (0 + len s + 1) - pos file) with (len s + 1) by lia.
  rewrite padded_div by lia.
  replace (len s + 1 + 3) with (len s + 1 * 4) by lia.
  rewrite Z.div_add by lia.
  rewrite seek_nonneg by (pose proof (Z.div_pos (len s) 4); lia).
  reflexivity.
Qed.

Lemma LoadString_Aligned_cursor_witness :
  XBlock.LoadString_Aligned (mkBytesIO [x00; x61; x62; x63; x64; x00] 1)
  = Ok ("abcd", mkBytesIO [x00; x61; x62; x63; x64; x00] 9).
Proof.
  apply (LoadString_Aligned_cursor
           (mkBytesIO [x00; x61; x62; x63; x64; x00] 1)
           [x61; x62; x63; x64] []).
  - simpl. lia.
  - simpl. intuition discriminate.
  - reflexivity.
  - vm_compute. reflexivity.
  - reflexivity.
Defined.

(** ** The blocks one by one: written, then read *)

Lemma written_at (f : wfile) (blk rest : list byte) :
  drop (Z.to_nat (len (getvalue f))) (getvalue (f ++ [blk]) ++ rest)
  = blk ++ rest.
Proof.
  rewrite getvalue_snoc, <- app_assoc. unfold len. rewrite Nat2Z.id.
  apply drop_app_length.
Qed.

Lemma len_written (f : wfile) (blk : list byte) :
  len (getvalue (f ++ [blk])) = len (getvalue f) + len blk.
Proof. rewrite getvalue_snoc. apply len_app. Qed.

Lemma len_nonneg {A} (l : list A) : 0 <= len l.
Proof. unfold len. lia. Qed.

(** X4: a 16-bit block written by [WriteMetaInt16Block] is read back by
    [LoadInt16Block], entered behind the tag, with the value written, and
    the cursor is left at the end of the block. *)
Theorem int16_block_round_trip (f f' : wfile) (tag v : Z)
    (rest : list byte) :
  XBlock.WriteMetaInt16Block f tag v = Ok f' ->
  XBlock.LoadInt16Block
    (mkBytesIO (getvalue f' ++ rest) (len (getvalue f) + 2))
  = Ok (v, mkBytesIO (getvalue f' ++ rest) (len (getvalue f'))).
Proof.
  intros H. apply WriteMetaInt16Block_chunk in H. destruct H as [-> [_ Hv]].
  rewrite (LoadInt16Block_at _ (len (getvalue f)) tag v rest
             (len_nonneg _) (written_at _ _ _) Hv).
  do 2 f_equal. apply file_eq. rewrite len_written. reflexivity.
Qed.

Lemma int16_block_round_trip_witness :
  exists f',
    XBlock.WriteMetaInt16Block [[x01; x02]] 0x76BA (-3) = Ok f'
    /\ XBlock.LoadInt16Block (mkBytesIO (getvalue f' ++ [x07]) (2 + 2))
       = Ok (-3, mkBytesIO (getvalue f' ++ [x07]) (len (getvalue f'))).
Proof.
  assert (E : exists f',
             XBlock.WriteMetaInt16Block [[x01; x02]] 0x76BA (-3) = Ok f')
    by (vm_compute; eexists; reflexivity).
  destruct E as [f' E]. exists f'. split; [exact E|].
  apply (int16_block_round_trip [[x01; x02]] f' 0x76BA (-3) [x07] E).
Defined.

Lemma sint32_large (v : Z) : 2 ^ 31 <= v < 2 ^ 32 -> sint32 v = v - 2 ^ 32.
Proof.
  intros Hv. unfold sint32, unpack_int. rewrite length_le_bytes.
  rewrite le_value_le_bytes. change (8 * Z.of_nat 4) with 32.
  change (2 ^ (8 * Z.of_nat 4)) with (2 ^ 32).
  rewrite Z.mod_small by lia. cbn [andb].
  destruct (Z.leb_spec (2 ^ (32 - 1)) v) as [_|Hlt]; [reflexivity|].
  change (2 ^ (32 - 1)) with (2 ^ 31) in Hlt. lia.
Qed.

(** X5: a 32-bit block is written unsigned (['I']) and read signed
    (['i']): [WriteMetaInt32Block] succeeds only on a value from 0 to
    2^32 - 1, and [LoadInt32Block] returns those from 2^31 on lowered by
    2^32. *)
Theorem int32_block_sign (f f' : wfile) (tag v : Z) (rest : list byte) :
  XBlock.WriteMetaInt32Block f tag v = Ok f' ->
  0 <= v < 2 ^ 32
  /\ XBlock.LoadInt32Block
       (mkBytesIO (getvalue f' ++ rest) (len (getvalue f) + 2))
     = Ok (if v <? 2 ^ 31 then v else v - 2 ^ 32,
           mkBytesIO (getvalue f' ++ rest) (len (getvalue f'))).
Proof.
  intros H. apply WriteMetaInt32Block_chunk in H. destruct H as [-> [_ Hv]].
  split; [exact Hv|].
  rewrite (LoadInt32Block_at _ (len (getvalue f)) tag v rest
             (len_nonneg _) (written_at _ _ _)).
  f_equal. f_equal.
  - destruct (Z.ltb_spec v (2 ^ 31)).
    + apply sint32_small. lia.
    + apply sint32_large. lia.
  - apply file_eq. rewrite len_written. unfold blk_int32, len.
    rewrite !length_app, !length_le_bytes. simpl. lia.
Qed.

Lemma int32_block_sign_witness :
  exists f',
    XBlock.WriteMetaInt32Block [] 0x2AEC 4294967295 = Ok f'
    /\ XBlock.LoadInt32Block (mkBytesIO (getvalue f' ++ []) (0 + 2))
       = Ok (-1, mkBytesIO (getvalue f' ++ []) (len (getvalue f'))).
Proof.
  assert (E : exists f',
             XBlock.WriteMetaInt32Block [] 0x2AEC 4294967295 = Ok f')
    by (vm_compute; eexists; reflexivity).
  destruct E as [f' E]. exists f'. split; [exact E|].
  apply (int32_block_sign [] f' 0x2AEC 4294967295 [] E).
Defined.

Lemma length_f32_bytes (x : float) : length (f32_bytes x) = 4%nat.
Proof. apply length_le_bytes. Qed.

Ltac block_end :=
  apply file_eq; rewrite len_written; unfold len;
  repeat first [rewrite length_app | rewrite length_le_bytes
               | rewrite length_f32_bytes | rewrite length_map];
  cbn [length concat map app];
  repeat first [rewrite length_app | rewrite length_le_bytes
               | rewrite length_f32_bytes | rewrite length_map];
  cbn [length]; lia.



(** X7: the three components of a normal written by
    [WriteFaceVertexNormalBlock] come back from [LoadShortVec3Block] as
    their 16-bit fixed-point images: [int(v * 32767)], clamped to a
    short, divided by 32767.0. *)
Theorem normal_block_round_trip (f f' : wfile) (normal : list float)
    (rest : list byte) :
  XBlock.WriteFaceVertexNormalBlock f normal = Ok f' ->
  XBlock.LoadShortVec3Block
    (mkBytesIO (getvalue f' ++ rest) (len (getvalue f) + 2))
  = Ok (map q16 normal, mkBytesIO (getvalue f' ++ rest) (len (getvalue f'))).
Proof.
  intros H. apply WriteFaceVertexNormalBlock_chunk in H.
  destruct H as [-> [Hl Hs]].
  rewrite (LoadShortVec3Block_at _ (len (getvalue f)) 0x89EC
             (map short_of normal) rest (len_nonneg _) (written_at _ _ _))
    by (rewrite ?length_map; assumption).
  rewrite map_map. f_equal. f_equal.
  destruct normal as [|x [|y [|z [|w ?]]]]; try discriminate.
  unfold blk_shorts. block_end.
Qed.

Lemma normal_block_round_trip_witness :
  exists f',
    XBlock.WriteFaceVertexNormalBlock [] [float_half; float_one; float_two]
    = Ok f'
    /\ XBlock.LoadShortVec3Block (mkBytesIO (getvalue f' ++ []) (0 + 2))
       = Ok (map q16 [float_half; float_one; float_two],
             mkBytesIO (getvalue f' ++ []) (len (getvalue f'))).
Proof.
  assert (E : exists f',
             XBlock.WriteFaceVertexNormalBlock []
               [float_half; float_one; float_two] = Ok f')
    by (vm_compute; eexists; reflexivity).
  destruct E as [f' E]. exists f'. split; [exact E|].
  apply (normal_block_round_trip [] f' [float_half; float_one; float_two]
           [] E).
Defined.

(** X8: the four components of a colour written by [WriteColorBlock]
    come back from [LoadColorBlock] as [int(c * 255) / 255.0]. *)
Theorem color_block_round_trip (f f' : wfile) (color : list float)
    (rest : list byte) :
  XBlock.WriteColorBlock f color = Ok f' ->
  XBlock.LoadColorBlock
    (mkBytesIO (getvalue f' ++ rest) (len (getvalue f) + 2))
  = Ok (map q8 color, mkBytesIO (getvalue f' ++ rest) (len (getvalue f'))).
Proof.
  intros H. apply WriteColorBlock_chunk in H. destruct H as [-> [Hl Hs]].
  rewrite (LoadColorBlock_at _ (len (getvalue f)) (map byte_of_color color)
             rest (len_nonneg _) (written_at _ _ _))
    by (rewrite ?length_map; assumption).
  rewrite map_map. f_equal. f_equal.
  destruct color as [|x [|y [|z [|w [|v ?]]]]]; try discriminate.
  unfold blk_color. block_end.
Qed.

Lemma color_block_round_trip_witness :
  exists f',
    XBlock.WriteColorBlock []
      [float_half; float_one; float_half; float_one] = Ok f'
    /\ XBlock.LoadColorBlock (mkBytesIO (getvalue f' ++ []) (0 + 2))
       = Ok (map q8 [float_half; float_one; float_half; float_one],
             mkBytesIO (getvalue f' ++ []) (len (getvalue f'))).
Proof.
  assert (E : exists f',
             XBlock.WriteColorBlock []
               [float_half; float_one; float_half; float_one] = Ok f')
    by (vm_compute; eexists; reflexivity).
  destruct E as [f' E]. exists f'. split; [exact E|].
  apply (color_block_round_trip [] f'
           [float_half; float_one; float_half; float_one] [] E).
Defined.

Lemma int_of_finite (x : float) :
  is_finite x = true -> exists q, int_of_float x = Ok q.
Proof. destruct x; try discriminate; intros _; eexists; reflexivity. Qed.

Lemma pack_byte (q : Z) :
  pack_int false 1 q
  = if (0 <=? q) && (q <? 256) then Ok (le_bytes 1 q) else Raise struct_error.
Proof. reflexivity. Qed.

(** X9: [WriteColorBlock] does not clamp: with four finite components of
    which one gives an [int(c * 255)] outside 0..255, it raises
    [struct.error]. *)
Theorem color_block_out_of_range (f : wfile) (color : list float) :
  length color = 4%nat ->
  Forall (fun c => is_finite (float_mul c (float_of_int 255)) = true) color ->
  Exists (fun c => ~ is_byte (byte_of_color c)) color ->
  XBlock.WriteColorBlock f color = Raise struct_error.
Proof.
  intros Hl Hf Hx.
  destruct color as [|r [|g [|b [|a [|? ?]]]]]; try discriminate.
  unfold XBlock.WriteColorBlock, is_byte, byte_of_color in *.
  repeat match goal with
         | H : Forall _ (_ :: _) |- _ =>
             let Hc := fresh "Hc" in
             apply Forall_cons_1 in H; destruct H as [Hc H];
             apply int_of_finite in Hc; destruct Hc as [? Hc]
         end.
  cbn [mapM]. rewrite Hc, Hc0, Hc1, Hc2 in *. cbn [bind map].
  unfold struct_pack. cbn [struct_pack_at fmt_pad fmt_size pack_item].
  rewrite !pack_byte.
  change (pack_int false 2 28120) with (Ok (le_bytes 2 28120)).
  cbn [bind].
  repeat match goal with
         | |- context [(0 <=? ?q) && (?q <? 256)] =>
             let E := fresh "E" in
             destruct ((0 <=? q) && (q <? 256)) eqn:E; cbn [bind];
             [apply andb_prop in E; destruct E as [?%Z.leb_le ?%Z.ltb_lt]
             |reflexivity]
         end.
  exfalso.
  repeat match goal with
         | H : Exists _ (_ :: _) |- _ =>
             apply Exists_cons in H; destruct H as [H|H];
             [cbv beta in H;
              rewrite ?Hc, ?Hc0, ?Hc1, ?Hc2 in H; apply H; lia|]
         end.
  apply Exists_nil in Hx. exact Hx.
Qed.

Lemma color_block_out_of_range_witness :
  XBlock.WriteColorBlock [] [float_half; float_two; float_one; float_one]
  = Raise struct_error.
Proof.
  apply (color_block_out_of_range []
           [float_half; float_two; float_one; float_one]).
  - reflexivity.
  - repeat constructor.
  - right. left. vm_compute. intros [_ H]. discriminate H.
Defined.

(** X10: [WriteFaceInfoBlock] writes the 16-bit form of the block (tag
    0x6711) when the mesh or the material index is above 255 and the
    8-bit form (tag 0x562F) otherwise; the reader of the tag written
    returns the two indices. *)
Theorem face_info_round_trip (f f' : wfile) (face : Face.t)
    (rest : list byte) :
  XBlock.WriteFaceInfoBlock f face = Ok f' ->
  let d := getvalue f' ++ rest in
  let p := len (getvalue f) in
  if (255 <? Face.mesh_id face) || (255 <? Face.material_id face)
  then fst (read (mkBytesIO d p) 2) = le_bytes 2 0x6711
       /\ XBlock.LoadTriangle16Block (mkBytesIO d (p + 2))
          = Ok (Face.mesh_id face, Face.material_id face,
                mkBytesIO d (len (getvalue f')))
  else fst (read (mkBytesIO d p) 2) = le_bytes 2 0x562F
       /\ XBlock.LoadTriangleBlock (mkBytesIO d (p + 2))
          = Ok (Face.mesh_id face, Face.material_id face,
                mkBytesIO d (len (getvalue f'))).
Proof.
  intros H d p. apply WriteFaceInfoBlock_chunk in H.
  destruct H as [Hf' [Hm Hmat]].
  pose proof (LoadTriangle_at d p face rest (len_nonneg _)) as L.
  assert (Hd : drop (Z.to_nat p) d = blk_face face ++ rest)
    by (unfold d, p; rewrite Hf'; apply written_at).
  specialize (L Hd Hm Hmat).
  assert (Hlen : len (getvalue f') = p + len (blk_face face))
    by (rewrite Hf'; apply len_written).
  unfold blk_face in Hlen.
  destruct ((255 <? Face.mesh_id face) || (255 <? Face.material_id face));
    destruct L as [L1 L2]; (split; [exact L1|]); rewrite L2;
    do 2 f_equal; apply file_eq; rewrite Hlen; unfold len;
    rewrite !length_app, !length_le_bytes; lia.
Qed.

Lemma face_info_round_trip_witness :
  exists f',
    XBlock.WriteFaceInfoBlock [] (Face.mk 256 3 []) = Ok f'
    /\ fst (read (mkBytesIO (getvalue f' ++ []) 0) 2) = le_bytes 2 0x6711
    /\ XBlock.LoadTriangle16Block (mkBytesIO (getvalue f' ++ []) (0 + 2))
       = Ok (256, 3, mkBytesIO (getvalue f' ++ []) (len (getvalue f'))).
Proof.
  assert (E : exists f',
             XBlock.WriteFaceInfoBlock [] (Face.mk 256 3 []) = Ok f')
    by (vm_compute; eexists; reflexivity).
  destruct E as [f' E]. exists f'. split; [exact E|].
  apply (face_info_round_trip [] f' (Face.mk 256 3 []) [] E).
Defined.

(** X11: [WriteMatrixBlock] writes the first three rows of the matrix
    as three blocks of 8 bytes, each read back by [LoadShortVec3Block] as
    the 16-bit fixed-point images of its three components; the rows after
    the third are not written. *)
Theorem matrix_block_round_trip (f f' : wfile) (matrix : list (list float))
    (rest : list byte) :
  XBlock.WriteMatrixBlock f matrix = Ok f' ->
  let d := getvalue f' ++ rest in
  let p := len (getvalue f) in
  exists r0 r1 r2 extra,
    matrix = r0 :: r1 :: r2 :: extra
    /\ len (getvalue f') = p + 24
    /\ XBlock.LoadShortVec3Block (mkBytesIO d (p + 2))
       = Ok (map q16 r0, mkBytesIO d (p + 8))
    /\ XBlock.LoadShortVec3Block (mkBytesIO d (p + 10))
       = Ok (map q16 r1, mkBytesIO d (p + 16))
    /\ XBlock.LoadShortVec3Block (mkBytesIO d (p + 18))
       = Ok (map q16 r2, mkBytesIO d (p + 24)).
Proof.
  intros H d p. apply WriteMatrixBlock_chunk in H.
  destruct H as [r0 [r1 [r2 [extra [-> [Hf' Hrows]]]]]].
  exists r0, r1, r2, extra. split; [reflexivity|].
  apply Forall_cons_1 in Hrows. destruct Hrows as [[Hl0 Hs0] Hrows].
  apply Forall_cons_1 in Hrows. destruct Hrows as [[Hl1 Hs1] Hrows].
  apply Forall_cons_1 in Hrows. destruct Hrows as [[Hl2 Hs2] _].
  assert (Hp : 0 <= p) by apply len_nonneg.
  assert (Hlen : forall tag r, length r = 3%nat ->
                   len (blk_shorts tag (map short_of r)) = 8).
  { intros tag r Hl. destruct r as [|x [|y [|z [|w ?]]]]; try discriminate.
    unfold blk_shorts, len. cbn [map concat].
    rewrite !length_app, !length_le_bytes. reflexivity. }
  assert (Hd0 : drop (Z.to_nat p) d
                = blk_shorts 0xDCFD (map short_of r0)
                  ++ (blk_shorts 0xCCDC (map short_of r1)
                      ++ blk_shorts 0xFCBF (map short_of r2) ++ rest)).
  { unfold d, p. rewrite Hf', written_at, <- !app_assoc. reflexivity. }
  assert (Hd1 : drop (Z.to_nat (p + 8)) d
                = blk_shorts 0xCCDC (map short_of r1)
                  ++ (blk_shorts 0xFCBF (map short_of r2) ++ rest)).
  { apply (drop_app_pos d p _ _ _ Hp Hd0). rewrite Hlen by exact Hl0.
    reflexivity. }
  assert (Hd2 : drop (Z.to_nat (p + 8 + 8)) d
                = blk_shorts 0xFCBF (map short_of r2) ++ rest).
  { apply (drop_app_pos d (p + 8) _ _ _ ltac:(lia) Hd1).
    rewrite Hlen by exact Hl1. reflexivity. }
  split.
  { rewrite Hf', len_written, !len_app, !Hlen by assumption. fold p. lia. }
  pose proof (LoadShortVec3Block_at d p _ _ _ Hp Hd0
                ltac:(rewrite length_map; exact Hl0) Hs0) as L0.
  pose proof (LoadShortVec3Block_at d (p + 8) _ _ _ ltac:(lia) Hd1
                ltac:(rewrite length_map; exact Hl1) Hs1) as L1.
  pose proof (LoadShortVec3Block_at d (p + 8 + 8) _ _ _ ltac:(lia) Hd2
                ltac:(rewrite length_map; exact Hl2) Hs2) as L2.
  rewrite map_map in L0, L1, L2.
  replace (p + 8 + 2) with (p + 10) in L1 by lia.
  replace (p + 8 + 8) with (p + 16) in L1, L2 by lia.
  replace (p + 16 + 2) with (p + 18) in L2 by lia.
  replace (p + 16 + 8) with (p + 24) in L2 by lia.
  repeat split; assumption.
Qed.

Lemma matrix_block_round_trip_witness :
  exists f',
    XBlock.WriteMatrixBlock []
      [ [float_one; float_half; float_half];
        [float_half; float_one; float_half];
        [float_half; float_half; float_one];
        [float_two] ] = Ok f'
    /\ XBlock.LoadShortVec3Block (mkBytesIO (getvalue f' ++ []) 18)
       = Ok (map q16 [float_half; float_half; float_one],
             mkBytesIO (getvalue f' ++ []) 24).
Proof.
  assert (E : exists f',
             XBlock.WriteMatrixBlock []
               [ [float_one; float_half; float_half];
                 [float_half; float_one; float_half];
                 [float_half; float_half; float_one];
                 [float_two] ] = Ok f')
    by (vm_compute; eexists; reflexivity).
  destruct E as [f' E]. exists f'. split; [exact E|].
  destruct (matrix_block_round_trip [] f' _ [] E)
    as [r0 [r1 [r2 [extra [Hm [_ [_ [_ H]]]]]]]].
  injection Hm as <- <- <- <-. exact H.
Defined.

Lemma clamp_finite (v : float) :
  is_finite (float_mul v (float_of_int 32767)) = true ->
  exists q, __clamp_float_to_short__ v = Ok q.
Proof.
  intros H. apply int_of_finite in H. destruct H as [q H].
  unfold __clamp_float_to_short__. cbn [snd fst]. rewrite H. cbn [bind].
  eexists. reflexivity.
Qed.

Lemma mapM_clamp_finite (r : list float) :
  Forall (fun v => is_finite (float_mul v (float_of_int 32767)) = true) r ->
  exists qs, mapM __clamp_float_to_short__ r = Ok qs.
Proof.
  induction 1 as [|v r Hv _ [qs IH]]; [exists []; reflexivity|].
  destruct (clamp_finite v Hv) as [q Hq]. exists (q :: qs).
  cbn [mapM]. rewrite Hq. cbn [bind]. rewrite IH. reflexivity.
Qed.

(** X12: [WriteMatrixBlock] on a matrix of fewer than three rows, all
    of finite components, raises [IndexError] instead of writing the
    rows that are there. *)
Theorem matrix_block_needs_three_rows (f : wfile)
    (matrix : list (list float)) :
  (length matrix < 3)%nat ->
  Forall (Forall (fun v =>
            is_finite (float_mul v (float_of_int 32767)) = true)) matrix ->
  XBlock.WriteMatrixBlock f matrix = Raise IndexError.
Proof.
  intros Hl Hf. unfold XBlock.WriteMatrixBlock.
  destruct matrix as [|r0 [|r1 [|r2 extra]]]; cbn [length] in Hl; try lia.
  - reflexivity.
  - apply Forall_cons_1 in Hf. destruct Hf as [H0 _].
    destruct (mapM_clamp_finite r0 H0) as [q0 E0].
    rewrite py_getitem_0. cbn [bind]. rewrite E0. reflexivity.
  - apply Forall_cons_1 in Hf. destruct Hf as [H0 Hf].
    apply Forall_cons_1 in Hf. destruct Hf as [H1 _].
    destruct (mapM_clamp_finite r0 H0) as [q0 E0].
    destruct (mapM_clamp_finite r1 H1) as [q1 E1].
    rewrite py_getitem_0. cbn [bind]. rewrite E0. cbn [bind].
    rewrite py_getitem_1. cbn [bind]. rewrite E1. reflexivity.
Qed.

Lemma matrix_block_needs_three_rows_witness :
  XBlock.WriteMatrixBlock []
    [ [float_one; float_half; float_half];
      [float_half; float_one; float_half] ] = Raise IndexError.
Proof.
  apply (matrix_block_needs_three_rows []
           [ [float_one; float_half; float_half];
             [float_half; float_one; float_half] ]).
  - simpl. lia.
  - repeat constructor.
Defined.

(** X13: [WriteCommentBlock] does not pad the comment, but
    [LoadCommentBlock] seeks to the next multiple of four from the start
    of the block: after reading the block just written, the cursor is
    beyond its end by the number of bytes that the comment and its
    terminator lack to a multiple of four, inside the block that follows. *)
Theorem comment_block_cursor (f f' : wfile) (comment : string)
    (rest : list byte) :
  XBlock.WriteCommentBlock f comment = Ok f' -> wire_string comment ->
  XBlock.LoadCommentBlock
    (mkBytesIO (getvalue f' ++ rest) (len (getvalue f) + 2))
  = Ok (comment,
        mkBytesIO (getvalue f' ++ rest)
          (len (getvalue f') + (- (len (encode_utf8 comment) + 1)) mod 4)).
Proof.
  intros H Hw. apply WriteCommentBlock_chunk in H. subst f'.
  set (d := getvalue (f ++ [blk_comment comment]) ++ rest).
  set (p := len (getvalue f)).
  assert (Hp : 0 <= p) by apply len_nonneg.
  assert (Hd : drop (Z.to_nat p) d = blk_comment comment ++ rest)
    by apply written_at.
  unfold XBlock.LoadCommentBlock, tell. cbn [data pos].
  replace (p + 2 - 2) with p by lia.
  assert (H0 : 0 <= len (encode_utf8 comment)) by apply len_nonneg.
  destruct Hw as [Hnul [Hutf Hl]].
  assert (Hs : drop (Z.to_nat (p + 4)) d
               = list_byte_of_string comment ++ x00 :: rest).
  { unfold blk_comment in Hd. rewrite strfield_long in Hd by lia.
    apply (drop_app_pos d p (p + 4) (le_bytes 2 0xC355 ++ [x00; x00])).
    - exact Hp.
    - rewrite Hd. unfold encode_utf8.
      replace (Z.to_nat (len (list_byte_of_string comment) + 1)
               - length (list_byte_of_string comment) - 1)%nat with 0%nat
        by (unfold len; lia).
      cbn [replicate]. rewrite <- !app_assoc. reflexivity.
    - reflexivity. }
  rewrite seek_nonneg by lia. cbn [bind data].
  rewrite (LoadString_at d (p + 4) comment rest)
    by (try split; auto; lia).
  cbn [bind data pos].
  assert (Hlen : len (blk_comment comment)
                 = 4 + (len (encode_utf8 comment) + 1)).
  { unfold blk_comment. rewrite !len_app, length_strfield by lia.
    change (len (le_bytes 2 0xC355)) with 2. change (len [x00; x00]) with 2.
    lia. }
  rewrite len_written, Hlen. fold p. unfold encode_utf8 in *.
  set (L := len (list_byte_of_string comment)) in *.
  replace (p + 4 + (L + 1) - p) with (L + 5) by lia.
  rewrite padded_div by lia.
  assert (Hq : 4 * ((L + 5 + 3) / 4) = 4 + (L + 1) + (- (L + 1)) mod 4).
  { pose proof (Z.div_mod (L + 5 + 3) 4 ltac:(lia)) as E1.
    pose proof (Z.mod_pos_bound (L + 5 + 3) 4 ltac:(lia)) as B1.
    pose proof (Z.div_mod (- (L + 1)) 4 ltac:(lia)) as E2.
    pose proof (Z.mod_pos_bound (- (L + 1)) 4 ltac:(lia)) as B2.
    lia. }
  rewrite Hq.
  pose proof (Z.mod_pos_bound (- (L + 1)) 4 ltac:(lia)) as B.
  rewrite seek_nonneg by lia. cbn [bind data]. do 2 f_equal.
  apply file_eq. lia.
Qed.

Lemma comment_block_cursor_witness :
  exists f',
    XBlock.WriteCommentBlock [] "ab" = Ok f'
    /\ len (getvalue f') = 7
    /\ XBlock.LoadCommentBlock (mkBytesIO (getvalue f' ++ [x01]) 2)
       = Ok ("ab", mkBytesIO (getvalue f' ++ [x01]) 8).
Proof.
  assert (E : exists f', XBlock.WriteCommentBlock [] "ab" = Ok f')
    by (vm_compute; eexists; reflexivity).
  destruct E as [f' E]. exists f'. split; [exact E|].
  pose proof (comment_block_cursor [] f' "ab" [x01] E) as H.
  vm_compute in E. injection E as <-.
  split; [reflexivity|]. apply H.
  split; [simpl; intuition discriminate|split; vm_compute; reflexivity].
Defined.

(** X14: a bone-info block written by [WriteBoneInfoBlock] is read back
    by [LoadBoneBlock] with the index, the parent and the name written,
    the name being free of NUL bytes, and the cursor is left at the end
    of the block. *)
Theorem bone_info_round_trip (f f' : wfile) (i : Z) (bone : Bone.t)
    (rest : list byte) :
  XBlock.WriteBoneInfoBlock f i bone = Ok f' ->
  wire_string (Bone.name bone) ->
  XBlock.LoadBoneBlock
    (mkBytesIO (getvalue f' ++ rest) (len (getvalue f) + 2))
  = Ok (i, Bone.parent bone, Bone.name bone,
        mkBytesIO (getvalue f' ++ rest) (len (getvalue f'))).
Proof.
  intros H Hw. apply WriteBoneInfoBlock_chunk in H.
  destruct H as [-> [Hi Hpar]].
  rewrite (LoadBoneBlock_at _ (len (getvalue f)) i bone rest
             (len_nonneg _) (written_at _ _ _) Hw Hi Hpar).
  do 2 f_equal. apply file_eq. rewrite len_written. reflexivity.
Qed.

Lemma bone_info_round_trip_witness :
  exists f',
    XBlock.WriteBoneInfoBlock [] 1 (sample_bone "tag_hand" 0 false) = Ok f'
    /\ XBlock.LoadBoneBlock (mkBytesIO (getvalue f' ++ []) (0 + 2))
       = Ok (1, 0, "tag_hand",
             mkBytesIO (getvalue f' ++ []) (len (getvalue f'))).
Proof.
  assert (E : exists f',
             XBlock.WriteBoneInfoBlock [] 1 (sample_bone "tag_hand" 0 false)
             = Ok f')
    by (vm_compute; eexists; reflexivity).
  destruct E as [f' E]. exists f'. split; [exact E|].
  apply (bone_info_round_trip [] f' 1 (sample_bone "tag_hand" 0 false) []
           E).
  split; [simpl; intuition discriminate|split; vm_compute; reflexivity].
Defined.

Lemma WriteMetaObjectInfo_info (f f' : wfile) (tag i : Z) (name : string) :
  XBlock.WriteMetaObjectInfo f tag i name = Ok f' ->
  f' = f ++ [blk_info tag i name] /\ 0 <= tag < 65536 /\ is_short i.
Proof.
  unfold XBlock.WriteMetaObjectInfo. intros H. writer_inv H d.
  pack_inv Hpack. unfold is_short, blk_info. simpl in *. rewrite app_nil_r.
  repeat split; lia.
Qed.

Lemma len_blk_info (tag i : Z) (name : string) :
  wire_string name ->
  len (blk_info tag i name) = 4 + padded (len (__str2bytes__ name) + 1).
Proof.
  intros Hw. destruct (wire_string_padded _ Hw) as [Hlt _].
  pose proof (len_nonneg (list_byte_of_string name)) as H0.
  unfold blk_info. rewrite !len_app, length_strfield.
  - unfold len. rewrite !length_le_bytes. lia.
  - unfold __str2bytes__, encode_utf8. lia.
Qed.

Lemma LoadObjectBlock_info_at (d : list byte) (p tag i : Z) (name : string)
    (rest : list byte) :
  0 <= p -> drop (Z.to_nat p) d = blk_info tag i name ++ rest ->
  wire_string name -> is_short i ->
  XBlock.LoadObjectBlock (mkBytesIO d (p + 2))
  = Ok (i, name, mkBytesIO d (p + len (blk_info tag i name))).
Proof.
  intros Hp Hd Hw Hi. rewrite len_blk_info by exact Hw.
  unfold XBlock.LoadObjectBlock, tell. cbn [data pos].
  replace (p + 2 - 2) with p by lia.
  destruct (wire_string_padded _ Hw) as [Hlt Hlt'].
  set (n := padded (len (__str2bytes__ name) + 1)) in *.
  assert (H0 : 0 <= len (list_byte_of_string name)) by apply len_nonneg.
  unfold blk_info in Hd. fold n in Hd.
  assert (H2 : drop (Z.to_nat (p + 2)) d
               = le_bytes 2 i ++ strfield n (__str2bytes__ name) ++ rest).
  { apply (drop_app_pos d p (p + 2) (le_bytes 2 tag));
      [exact Hp| |unfold len; rewrite length_le_bytes; reflexivity].
    rewrite Hd, <- !app_assoc. reflexivity. }
  assert (H4 : drop (Z.to_nat (p + 2 + 2)) d
               = strfield n (__str2bytes__ name) ++ rest).
  { apply (drop_app_pos d (p + 2) _ _ _ ltac:(lia) H2).
    unfold len. rewrite length_le_bytes. reflexivity. }
  rewrite (read_app_at d (p + 2) 2 _ _ ltac:(lia) H2)
    by (unfold len; rewrite length_le_bytes; reflexivity).
  rewrite unpack_ints_h by assumption. cbn [bind].
  rewrite py_getitem_0. cbn [bind].
  rewrite (field_at d (p + 2 + 2) _ rest ltac:(lia) Hw H4).
  cbn [bind data pos].
  replace (p + 2 + 2 + (len (list_byte_of_string name) + 1) - p)
    with (4 * 1 + (len (__str2bytes__ name) + 1))
    by (unfold __str2bytes__, encode_utf8; lia).
  unfold __str2bytes__, encode_utf8 in *.
  rewrite padded_shift by lia. fold n.
  rewrite seek_nonneg by lia. cbn [bind data]. do 2 f_equal.
Qed.

(** X15: an info block written by [WriteMetaObjectInfo] under any tag
    (an object of a model, a part of an animation) is read back by
    [LoadObjectBlock] with the index and the name written, the name being
    free of NUL bytes, and the cursor is left at the end of the block. *)
Theorem object_info_round_trip (f f' : wfile) (tag i : Z) (name : string)
    (rest : list byte) :
  XBlock.WriteMetaObjectInfo f tag i name = Ok f' ->
  wire_string name ->
  XBlock.LoadObjectBlock
    (mkBytesIO (getvalue f' ++ rest) (len (getvalue f) + 2))
  = Ok (i, name, mkBytesIO (getvalue f' ++ rest) (len (getvalue f'))).
Proof.
  intros H Hw. apply WriteMetaObjectInfo_info in H.
  destruct H as [-> [_ Hi]].
  rewrite (LoadObjectBlock_info_at _ (len (getvalue f)) tag i name rest
             (len_nonneg _) (written_at _ _ _) Hw Hi).
  do 2 f_equal. apply file_eq. rewrite len_written. reflexivity.
Qed.

Lemma object_info_round_trip_witness :
  exists f',
    XBlock.WriteMetaObjectInfo [[x00; x00]] 0x360B 2 "j_neck" = Ok f'
    /\ XBlock.LoadObjectBlock (mkBytesIO (getvalue f' ++ []) (2 + 2))
       = Ok (2, "j_neck", mkBytesIO (getvalue f' ++ []) (len (getvalue f'))).
Proof.
  assert (E : exists f',
             XBlock.WriteMetaObjectInfo [[x00; x00]] 0x360B 2 "j_neck"
             = Ok f')
    by (vm_compute; eexists; reflexivity).
  destruct E as [f' E]. exists f'. split; [exact E|].
  apply (object_info_round_trip [[x00; x00]] f' 0x360B 2 "j_neck" [] E).
  split; [simpl; intuition discriminate|split; vm_compute; reflexivity].
Defined.

(** X16: a material-info block written by [WriteMaterialInfoBlock] is
    read back by [LoadMaterialBlock] with the index, the name and the
    type written and the images deserialized from the string of
    [serialize_image_string(images, True)], whatever
    [extended_features] is; the three strings are free of NUL bytes. *)
Theorem material_info_round_trip {Images : Type}
    (ser : Images -> bool -> string) (deser : string -> Images)
    (f f' : wfile) (i : Z) (m : Material.t Images) (ext : bool)
    (rest : list byte) :
  XBlock.WriteMaterialInfoBlock ser f i m ext = Ok f' ->
  wire_string (Material.name m) -> wire_string (Material.type m) ->
  wire_string (ser (Material.images m) true) ->
  XBlock.LoadMaterialBlock deser
    (mkBytesIO (getvalue f' ++ rest) (len (getvalue f) + 2))
  = Ok (i, Material.name m, Material.type m,
        deser (ser (Material.images m) true),
        mkBytesIO (getvalue f' ++ rest) (len (getvalue f'))).
Proof.
  intros H Hn Ht Hi. apply WriteMaterialInfoBlock_chunk in H.
  destruct H as [-> Hs].
  rewrite (LoadMaterialBlock_at deser _ (len (getvalue f)) i _ _ _ rest
             (len_nonneg _) (written_at _ _ _) Hn Ht Hi Hs).
  do 2 f_equal. apply file_eq. rewrite len_written. reflexivity.
Qed.

Lemma material_info_round_trip_witness :
  exists f',
    XBlock.WriteMaterialInfoBlock plain_images [] 0 one_material false
    = Ok f'
    /\ XBlock.LoadMaterialBlock (fun s : string => s)
         (mkBytesIO (getvalue f' ++ []) (0 + 2))
       = Ok (0, Material.name one_material, Material.type one_material,
             plain_images (Material.images one_material) true,
             mkBytesIO (getvalue f' ++ []) (len (getvalue f'))).
Proof.
  assert (E : exists f',
             XBlock.WriteMaterialInfoBlock plain_images [] 0 one_material
               false = Ok f')
    by (vm_compute; eexists; reflexivity).
  destruct E as [f' E]. exists f'. split; [exact E|].
  apply (material_info_round_trip plain_images (fun s : string => s) []
           f' 0 one_material false [] E);
    (split; [simpl; intuition discriminate|split; vm_compute; reflexivity]).
Defined.





#[local] Arguments byte_of_Z : simpl never.
#[local] Arguments unpack_int : simpl never.
#[local] Arguments unpack_float : simpl never.
#[local] Arguments float_div : simpl never.
#[local] Arguments float_of_int : simpl never.
#[local] Arguments padded : simpl never.
#[local] Arguments strfield : simpl never.

(** ** The decode loop on any stream *)

Section AnyStream.
Context {Images : Type}.
Variable deserialize_image_string : string -> Images.
Variable expected_type : string.


(** The turns that lead to a state are fewer than the bytes of the
    buffer. *)
Lemma reaches_count (st0 st : DState Images) :
  0 <= pos (st_file st0) -> padded_exact (st_file st0) ->
  reaches deserialize_image_string expected_type st0 st ->
  exists k : nat,
    (forall n,
       XBinIO.read_all_blocks deserialize_image_string expected_type
         (k + n) st0
       = XBinIO.read_all_blocks deserialize_image_string expected_type n st)
    /\ data (st_file st) = data (st_file st0)
    /\ pos (st_file st0) + 2 * Z.of_nat k <= pos (st_file st)
    /\ (k <= length (data (st_file st0)))%nat.
Proof.
  intros Hp Hb. induction 1 as [|st' st'' Hr IH Ht].
  - exists 0%nat. repeat split; try reflexivity; lia.
  - destruct IH as [k [Hk [Hd [Hq Hle]]]].
    pose proof Ht as Ht'.
    apply turn_next in Ht';
      [|lia|unfold padded_exact in *; rewrite Hd; exact Hb].
    destruct Ht' as [Hd' Hq'].
    destruct (turn_reads_tag deserialize_image_string expected_type st'
                ltac:(lia) ltac:(congruence)) as [_ Hlt].
    rewrite Hd in Hlt. unfold len in Hlt.
    exists (S k). repeat split.
    + intros n. replace (S k + n)%nat with (k + S n)%nat by lia.
      rewrite Hk. simpl. rewrite Ht. reflexivity.
    + congruence.
    + lia.
    + lia.
Qed.

(** The decoding of a stream goes through every state the loop arrives
    in. *)
Lemma loadfile_through (self : Self) (heap : list (Obj Images))
    (stream : list byte) (st : DState Images) :
  len stream < 2 ^ 56 - 8 ->
  reaches deserialize_image_string expected_type
    (initial_state self heap (mkBytesIO stream 0)) st ->
  data (st_file st) = stream /\ 0 <= pos (st_file st)
  /\ XBinIO.__xbin_loadfile_internal__ deserialize_image_string expected_type
       self heap (mkBytesIO stream 0)
     = match XBinIO.loop_turn deserialize_image_string expected_type st with
       | XBinIO.Finished =>
           match asset_type (st_state st) with
           | Some t =>
               if String.eqb t "MODEL" then Ok (Some (st_dummy_mesh st), st)
               else Ok (None, st)
           | None => Ok (None, st)
           end
       | XBinIO.Next _ =>
           XBinIO.__xbin_loadfile_internal__ deserialize_image_string
             expected_type self heap (mkBytesIO stream 0)
       | XBinIO.Stop e => Raise e
       | XBinIO.Hang => Diverge
       end.
Proof.
  intros Hb Hr.
  destruct (reaches_count (initial_state self heap (mkBytesIO stream 0)) st
              (Z.le_refl 0) Hb Hr) as [k [Hk [Hd [Hq Hle]]]].
  cbn [st_file initial_state data pos] in Hd, Hq, Hle.
  split; [exact Hd|]. split; [lia|].
  destruct (XBinIO.loop_turn deserialize_image_string expected_type st)
    eqn:Ht; [| reflexivity | |];
    unfold XBinIO.__xbin_loadfile_internal__, XBinIO.enough_fuel;
    cbn [data];
    fold (initial_state self heap (mkBytesIO stream 0));
    replace (S (length stream)) with (k + S (length stream - k))%nat by lia;
    rewrite Hk; cbn [XBinIO.read_all_blocks]; rewrite Ht; reflexivity.
Qed.

Lemma turn_at_end (st : DState Images) :
  len (data (st_file st)) <= pos (st_file st) ->
  XBinIO.loop_turn deserialize_image_string expected_type st
  = XBinIO.Finished.
Proof.
  intros H. unfold XBinIO.loop_turn, read.
  rewrite drop_ge by (unfold len in H; lia). reflexivity.
Qed.

(** X19: when the loop arrives with the cursor at or behind the end of
    the stream (at once, on the empty stream), the decoding returns
    without error, with the state reached: [dummy_mesh] when a model
    marker has been read, and [None] otherwise, also when no marker at
    all has been read. *)
Theorem decode_ends_at_eof (self : Self) (heap : list (Obj Images))
    (stream : list byte) (st : DState Images) :
  len stream < 2 ^ 56 - 8 ->
  reaches deserialize_image_string expected_type
    (initial_state self heap (mkBytesIO stream 0)) st ->
  len stream <= pos (st_file st) ->
  XBinIO.__xbin_loadfile_internal__ deserialize_image_string expected_type
    self heap (mkBytesIO stream 0)
  = Ok (match asset_type (st_state st) with
        | Some t => if String.eqb t "MODEL" then Some (st_dummy_mesh st)
                    else None
        | None => None
        end, st).
Proof.
  intros Hb Hr He.
  destruct (loadfile_through self heap stream st Hb Hr) as [Hd [_ ->]].
  rewrite turn_at_end by (rewrite Hd; exact He).
  destruct (asset_type (st_state st)) as [t|]; [|reflexivity].
  destruct (String.eqb t "MODEL"); reflexivity.
Qed.

(** X20: when the loop arrives one byte before the end of the stream,
    the decoding raises [struct.error]: the last byte is no tag. *)
Theorem decode_trailing_byte (self : Self) (heap : list (Obj Images))
    (stream : list byte) (st : DState Images) :
  len stream < 2 ^ 56 - 8 ->
  reaches deserialize_image_string expected_type
    (initial_state self heap (mkBytesIO stream 0)) st ->
  pos (st_file st) + 1 = len stream ->
  XBinIO.__xbin_loadfile_internal__ deserialize_image_string expected_type
    self heap (mkBytesIO stream 0) = Raise struct_error.
Proof.
  intros Hb Hr He.
  destruct (loadfile_through self heap stream st Hb Hr) as [Hd [Hp ->]].
  unfold XBinIO.loop_turn, read. rewrite Hd.
  assert (Hl : length (drop (Z.to_nat (pos (st_file st))) stream) = 1%nat)
    by (rewrite length_drop; unfold len in He; lia).
  destruct (drop (Z.to_nat (pos (st_file st))) stream) as [|b [|c r]];
    try discriminate.
  reflexivity.
Qed.

(** X21: when the loop arrives at a model marker and the expected type
    is not ['MODEL'], or at an animation marker and the expected type is
    not ['ANIM'], the decoding raises the [TypeError] that names the type
    found and the type expected; the marker has its two reserved bytes. *)
Theorem asset_type_mismatch (self : Self) (heap : list (Obj Images))
    (stream : list byte) (st : DState Images) (tag : Z) (found : string)
    (a b : byte) (rest : list byte) :
  len stream < 2 ^ 56 - 8 ->
  reaches deserialize_image_string expected_type
    (initial_state self heap (mkBytesIO stream 0)) st ->
  (tag = 0x46C8 /\ found = "MODEL") \/ (tag = 0x7AAC /\ found = "ANIM") ->
  drop (Z.to_nat (pos (st_file st))) stream
  = le_bytes 2 tag ++ a :: b :: rest ->
  expected_type <> found ->
  XBinIO.__xbin_loadfile_internal__ deserialize_image_string expected_type
    self heap (mkBytesIO stream 0)
  = Raise (TypeError_asset found expected_type).
Proof.
  intros Hb Hr Htag Hd Hne.
  destruct (loadfile_through self heap stream st Hb Hr) as [Hs [Hp ->]].
  assert (Hread : fst (read (st_file st) 2) = le_bytes 2 tag).
  { unfold read. rewrite Hs, Hd. cbn [fst].
    destruct Htag as [[-> _]|[-> _]]; reflexivity. }
  rewrite (turn_tag _ _ st tag Hread)
    by (destruct Htag as [[-> _]|[-> _]]; lia).
  assert (Hn : String.eqb expected_type found = false)
    by (apply String.eqb_neq; exact Hne).
  assert (Hi : exists v,
             XBlock.LoadInt16Block
               (mkBytesIO (data (st_file st)) (pos (st_file st) + 2))
             = Ok (v, mkBytesIO (data (st_file st))
                        (pos (st_file st) + 4))).
  { unfold XBlock.LoadInt16Block, read. cbn [data pos]. rewrite Hs.
    rewrite (drop_app_pos stream (pos (st_file st)) _ (le_bytes 2 tag)
               (a :: b :: rest) Hp Hd)
      by (unfold len; rewrite length_le_bytes; reflexivity).
    eexists. unfold unpack_ints, struct_unpack.
    cbn [take Z.to_nat Pos.to_nat Pos.iter_op Nat.add length Z.of_nat
         Pos.of_succ_nat Pos.succ calcsize_at fmt_pad fmt_size].
    simpl Z.eqb. cbv iota.
    cbn [struct_unpack_at fmt_pad fmt_size unpack_item bind mapM as_int].
    cbn [bind]. rewrite py_getitem_0. cbn [bind]. do 2 f_equal.
    apply file_eq. unfold len. simpl length. lia. }
  destruct Hi as [v Hi].
  destruct Htag as [[-> ->]|[-> ->]]; cbn [XBinIO.hashmap_get XBinIO.hashmap];
    simpl Z.eqb; cbv iota;
    unfold XBinIO.call, XBinIO.InitModel, XBinIO.InitAnim;
    cbn [st_file with_file]; rewrite Hi; cbn [bind];
    rewrite Hn; reflexivity.
Qed.

(** X22: when the loop arrives at a comment block whose string has no
    NUL byte up to the end of the stream, the decoding never returns. *)
Theorem decode_hangs_on_open_string (self : Self) (heap : list (Obj Images))
    (stream : list byte) (st : DState Images) (a b : byte)
    (s : list byte) :
  len stream < 2 ^ 56 - 8 ->
  reaches deserialize_image_string expected_type
    (initial_state self heap (mkBytesIO stream 0)) st ->
  drop (Z.to_nat (pos (st_file st))) stream
  = le_bytes 2 0xC355 ++ a :: b :: s ->
  ~ In x00 s ->
  XBinIO.__xbin_loadfile_internal__ deserialize_image_string expected_type
    self heap (mkBytesIO stream 0) = Diverge.
Proof.
  intros Hb Hr Hd Hn.
  destruct (loadfile_through self heap stream st Hb Hr) as [Hs [Hp ->]].
  assert (Hread : fst (read (st_file st) 2) = le_bytes 2 0xC355).
  { unfold read. rewrite Hs, Hd. reflexivity. }
  rewrite (turn_tag _ _ st 0xC355 Hread) by lia.
  cbn [XBinIO.hashmap_get XBinIO.hashmap]. simpl Z.eqb. cbv iota.
  unfold XBinIO.call, XBinIO.XBlock_LoadCommentBlock, XBlock.LoadCommentBlock.
  cbn [st_file with_file]. unfold tell. cbn [pos data].
  rewrite (seek_nonneg _ (pos (st_file st) + 2 - 2 + 4)) by lia.
  cbn [bind].
  unfold XBlock.LoadString. cbn [pos data]. rewrite Hs.
  rewrite LoadString_loop_hangs; [reflexivity|].
  rewrite (drop_app_pos stream (pos (st_file st)) _
             (le_bytes 2 0xC355 ++ [a; b]) s Hp).
  - exact Hn.
  - rewrite Hd, <- app_assoc. reflexivity.
  - unfold len. simpl length. lia.
Qed.

End AnyStream.

Lemma decode_ends_at_eof_witness :
  XBinIO.__xbin_loadfile_internal__ (fun s : string => s) "MODEL" new_self []
    (mkBytesIO [] 0)
  = Ok (None, initial_state new_self [] (mkBytesIO [] 0)).
Proof.
  apply (decode_ends_at_eof (fun s : string => s) "MODEL" new_self [] []
           (initial_state new_self [] (mkBytesIO [] 0))).
  - vm_compute. reflexivity.
  - apply reaches_here.
  - vm_compute. intros H. discriminate H.
Defined.

Lemma decode_trailing_byte_witness :
  XBinIO.__xbin_loadfile_internal__ (fun s : string => s) "MODEL" new_self []
    (mkBytesIO [xc8] 0)
  = Raise struct_error.
Proof.
  apply (decode_trailing_byte (fun s : string => s) "MODEL" new_self []
           [xc8] (initial_state new_self [] (mkBytesIO [xc8] 0))).
  - vm_compute. reflexivity.
  - apply reaches_here.
  - reflexivity.
Defined.

Lemma asset_type_mismatch_witness :
  XBinIO.__xbin_loadfile_internal__ (fun s : string => s) "MODEL" new_self []
    (mkBytesIO [xac; x7a; x00; x00] 0)
  = Raise (TypeError_asset "ANIM" "MODEL").
Proof.
  apply (asset_type_mismatch (fun s : string => s) "MODEL" new_self []
           [xac; x7a; x00; x00]
           (initial_state new_self [] (mkBytesIO [xac; x7a; x00; x00] 0))
           0x7AAC "ANIM" x00 x00 []).
  - vm_compute. reflexivity.
  - apply reaches_here.
  - right. split; reflexivity.
  - reflexivity.
  - discriminate.
Defined.

Lemma decode_hangs_on_open_string_witness :
  XBinIO.__xbin_loadfile_internal__ (fun s : string => s) "MODEL" new_self []
    (mkBytesIO [x55; xc3; x00; x00; x61; x62] 0)
  = Diverge.
Proof.
  apply (decode_hangs_on_open_string (fun s : string => s) "MODEL" new_self
           [] [x55; xc3; x00; x00; x61; x62]
           (initial_state new_self []
              (mkBytesIO [x55; xc3; x00; x00; x61; x62] 0))
           x00 x00 [x61; x62]).
  - vm_compute. reflexivity.
  - apply reaches_here.
  - reflexivity.
  - simpl. intuition discriminate.
Defined.

(** ** Handlers at the edges *)

Section Edges.
Context {Images : Type}.
Variable deserialize_image_string : string -> Images.
Variable expected_type : string.

Lemma py_index_out_of_range {A} (l : list A) (i : Z) :
  i < - len l \/ len l <= i -> py_index l i = Raise IndexError.
Proof.
  intros H. unfold py_index.
  destruct (Z.leb_spec 0 i), (Z.ltb_spec i (len l)),
    (Z.leb_spec (- len l) i), (Z.ltb_spec i 0);
    cbn [andb]; try reflexivity; pose proof (len_nonneg l); lia.
Qed.

(** X23: a bone-info block whose index is not within the bone list
    announced by the bone count (in particular when no bone count has
    been read) raises [IndexError]. *)
Theorem bone_info_index_out_of_range (st : DState Images)
    (index parent : Z) (name : string) (file' : BytesIO) :
  XBlock.LoadBoneBlock (st_file st) = Ok (index, parent, name, file') ->
  index < - len (bones (st_self st)) \/ len (bones (st_self st)) <= index ->
  XBinIO.call deserialize_image_string expected_type XBinIO.H_LoadBoneInfo st
  = Raise IndexError.
Proof.
  intros Hr Hi. unfold XBinIO.call, XBinIO.LoadBoneInfo.
  rewrite Hr. cbn [bind]. unfold alloc, py_setitem.
  cbn [st_self with_file with_heap].
  rewrite py_index_out_of_range by exact Hi. reflexivity.
Qed.

(** X24: after the turn of a notetrack-section block, the turn of a
    part-index block fills a part of the dummy frame created by the
    notetrack section: the list of frames of the animation is as before,
    and so is every object that existed before the notetrack section,
    the frames among them. *)
Theorem notetrack_part_index_spares_frames (st st1 st2 : DState Images) :
  fst (read (st_file st) 2) = le_bytes 2 0xC7F3 ->
  XBinIO.loop_turn deserialize_image_string expected_type st
  = XBinIO.Next st1 ->
  fst (read (st_file st1) 2) = le_bytes 2 0x745A ->
  XBinIO.loop_turn deserialize_image_string expected_type st1
  = XBinIO.Next st2 ->
  frames (st_self st2) = frames (st_self st)
  /\ active_frame (st_state st2) = Some (length (st_heap st))
  /\ forall a, (a < length (st_heap st))%nat ->
       st_heap st2 !! a = st_heap st !! a.
Proof.
  intros T1 H1 T2 H2.
  rewrite (turn_tag _ _ st 0xC7F3 T1) in H1 by lia.
  rewrite (turn_tag _ _ st1 0x745A T2) in H2 by lia.
  cbn [XBinIO.hashmap_get XBinIO.hashmap] in H1, H2.
  simpl Z.eqb in H1, H2. cbv iota in H1, H2.
  unfold XBinIO.call, XBinIO.LoadNotetracksBegin in H1.
  unfold XBinIO.call, XBinIO.LoadPartIndex in H2.
  unfold alloc in H1.
  cbn [st_file st_heap with_file with_heap set_active_frame with_state]
    in H1.
  destruct (XBlock.LoadInt16Block _) as [[v1 f1]| |] in H1;
    try discriminate.
  cbn [bind] in H1. injection H1 as <-.
  cbn [st_file st_heap st_state st_self with_file with_heap with_state
       set_active_frame active_frame] in H2.
  destruct (XBlock.LoadInt16Block _) as [[index f2]| |] in H2;
    try discriminate.
  cbn [bind] in H2. unfold alloc, deref in H2.
  cbn [st_file st_heap st_state st_self with_file with_heap with_state
       set_active_frame active_frame] in H2.
  rewrite lookup_app_l in H2 by (rewrite length_app; simpl; lia).
  rewrite lookup_middle in H2. cbn [bind] in H2.
  destruct (parts_setitem _ _ _) as [o| |] in H2; try discriminate.
  cbn [bind] in H2. injection H2 as <-.
  unfold set_active_thing, store.
  cbn [st_file st_heap st_state st_self with_file with_heap with_state
       set_active_frame active_frame frames].
  split; [reflexivity|]. split; [reflexivity|].
  intros a Ha.
  rewrite list_lookup_insert_ne by lia.
  rewrite <- app_assoc. apply lookup_app_l. exact Ha.
Qed.

(** X30: while no entity is active ([state.active_thing] is [None], as
    before the first index block), none of the blocks that set a
    property of the active entity is decoded: its handler never returns
    normally ([None] has no attribute to assign to or to append to). *)
Theorem property_block_needs_active_thing (st st' : DState Images)
    (h : XBinIO.handler) :
  In h property_handlers -> active_thing (st_state st) = None ->
  XBinIO.call deserialize_image_string expected_type h st <> Ok st'.
Proof.
  intros Hin Hn. unfold property_handlers in Hin. cbn [In] in Hin.
  repeat (destruct Hin as [<-|Hin]); [..|contradiction];
    unfold XBinIO.call, XBinIO.LoadOffset, XBinIO.LoadBoneScale,
      XBinIO.LoadBoneMatrix, XBinIO.LoadVertexWeightCount,
      XBinIO.LoadVertexWeight, XBinIO.LoadTriVertNormal,
      XBinIO.LoadTriVertColor, XBinIO.LoadTriVertUV,
      XBinIO.LoadMaterialTransparency, XBinIO.LoadMaterialAmbientColor,
      XBinIO.LoadMaterialIncandescence, XBinIO.LoadMaterialCoeffs,
      XBinIO.LoadMaterialGlow, XBinIO.LoadMaterialRefractive,
      XBinIO.LoadMaterialSpecularColor, XBinIO.LoadMaterialReflectiveColor,
      XBinIO.LoadMaterialReflective, XBinIO.LoadMaterialBlinn,
      XBinIO.LoadMaterialPhong, assign_active, deref;
    try (rewrite Hn; cbn [bind]; discriminate);
    match goal with
    | |- context [bind ?m _] =>
        destruct m as [[? ?]| |] eqn:Hread; cbn [bind];
        [ unfold with_file; cbn [st_state]; rewrite Hn; cbn [bind];
          discriminate
        | discriminate
        | discriminate ]
    end.
Qed.

End Edges.

Lemma bone_info_index_out_of_range_witness :
  XBinIO.call (fun s : string => s) "MODEL" XBinIO.H_LoadBoneInfo
    (initial_state new_self [] (mkBytesIO bone_info_block 2))
  = Raise IndexError.
Proof.
  apply (bone_info_index_out_of_range (fun s : string => s) "MODEL"
           (initial_state new_self [] (mkBytesIO bone_info_block 2))
           8 0 "b" (mkBytesIO bone_info_block 16)).
  - vm_compute. reflexivity.
  - right. vm_compute. intros H. discriminate H.
Defined.

Lemma notetrack_part_index_spares_frames_witness :
  exists st1 st2,
    XBinIO.loop_turn (fun s : string => s) "ANIM" notetrack_state
    = XBinIO.Next st1
    /\ XBinIO.loop_turn (fun s : string => s) "ANIM" st1 = XBinIO.Next st2
    /\ frames (st_self st2) = [0%nat]
    /\ active_frame (st_state st2) = Some 1%nat
    /\ st_heap st2 !! 0%nat = Some (OFrame (FrameO.mk 5 [None])).
Proof.
  assert (E1 : exists st1,
             XBinIO.loop_turn (fun s : string => s) "ANIM" notetrack_state
             = XBinIO.Next st1)
    by (vm_compute; eexists; reflexivity).
  destruct E1 as [st1 E1].
  assert (E2 : exists st2,
             XBinIO.loop_turn (fun s : string => s) "ANIM" st1
             = XBinIO.Next st2).
  { vm_compute in E1. injection E1 as <-. vm_compute. eexists. reflexivity. }
  destruct E2 as [st2 E2].
  exists st1, st2. split; [exact E1|]. split; [exact E2|].
  destruct (notetrack_part_index_spares_frames (fun s : string => s) "ANIM"
              notetrack_state st1 st2) as [Hf [Ha Hh]].
  - reflexivity.
  - exact E1.
  - vm_compute in E1. injection E1 as <-. reflexivity.
  - exact E2.
  - split; [exact Hf|]. split; [exact Ha|].
    apply (Hh 0%nat). simpl. lia.
Defined.

(** ** The envelope *)

(** X25: [__compress_internal__] succeeds exactly on a buffer of fewer
    than 2^32 bytes, and what [__decompress_internal__] then hands to
    [lz4.uncompress] is the four bytes of the size followed by the
    compressed data: the size written by the encoder is not skipped. *)
Theorem envelope_round_trip (lz4_compress : list byte -> list byte)
    (lz4_uncompress : list byte -> outcome (list byte)) (file : wfile) :
  let body := getvalue file in
  if len body <? 2 ^ 32
  then exists stream,
         XBinIO.__compress_internal__ lz4_compress file = Ok stream
         /\ stream = XBinIO.magic ++ le_bytes 4 (len body) ++ lz4_compress body
         /\ XBinIO.__decompress_internal__ lz4_uncompress (mkBytesIO stream 0)
            = let* data :=
                lz4_uncompress (le_bytes 4 (len body) ++ lz4_compress body) in
              Ok (mkBytesIO data 0)
  else XBinIO.__compress_internal__ lz4_compress file = Raise struct_error.
Proof.
  intros body. unfold XBinIO.__compress_internal__. fold body.
  unfold struct_pack. cbn [struct_pack_at fmt_pad fmt_size pack_item].
  unfold pack_int. change (8 * Z.of_nat 4) with 32.
  pose proof (len_nonneg body) as H0.
  destruct (Z.ltb_spec (len body) (2 ^ 32)) as [Hlt|Hge].
  - assert (E : (0 <=? len body) = true) by (apply Z.leb_le; lia).
    rewrite E. cbn [andb bind].
    change ((- 0) mod 4) with 0. cbn [Z.to_nat replicate app].
    rewrite app_nil_r. eexists. split; [reflexivity|]. split; [reflexivity|].
    unfold XBinIO.__decompress_internal__, read, read_all. cbn [data pos].
    unfold XBinIO.magic. cbn [app drop take Z.to_nat bytes_eqb].
    simpl. reflexivity.
  - rewrite andb_false_r. reflexivity.
Qed.

(** ** The model encoder *)

Section ModelEncoder.
Context {Images : Type}.
Variable serialize_image_string : Images -> bool -> string.
Variable lz4_compress : list byte -> list byte.

Lemma WriteCommentBlock_total (f : wfile) (comment : string) :
  exists f', XBlock.WriteCommentBlock f comment = Ok f'.
Proof.
  unfold XBlock.WriteCommentBlock, struct_pack.
  cbn [struct_pack_at fmt_pad fmt_size pack_item].
  change (pack_int false 2 50005) with (Ok (le_bytes 2 50005)).
  cbn [bind].
  pose proof (len_nonneg (encode_utf8 comment)) as H0.
  destruct (Z.ltb_spec (len (encode_utf8 comment) + 1) 0) as [Hlt|_]; [lia|].
  cbn [bind]. eexists. reflexivity.
Qed.

Lemma write_header_total (hdr : string) :
  exists head, XBinIO.write_header 7 hdr [] = Ok head.
Proof.
  unfold XBinIO.write_header.
  destruct (negb (String.eqb hdr "")).
  - destruct (WriteCommentBlock_total [] hdr) as [f' ->]. cbn [bind].
    eexists. reflexivity.
  - eexists. reflexivity.
Qed.

(** X26: a model of more than 32767 bones cannot be written: the bone
    count does not fit the signed 16-bit field of its block, and the
    encoder raises [struct.error]. *)
Theorem too_many_bones (self : Model.t Images) (version : Z) (ext : bool)
    (hdr : string) :
  32767 < len (Model.bones self) ->
  XBinIO.__xbin_writefile_model_internal__ serialize_image_string
    lz4_compress self version ext hdr
  = Raise struct_error.
Proof.
  intros Hn.
  unfold XBinIO.__xbin_writefile_model_internal__, XBinIO.write_model_blocks.
  destruct (write_header_total hdr) as [head ->]. cbn [bind].
  unfold XBinIO.write_bones, XBlock.WriteBoneCountBlock,
    XBlock.WriteMetaInt16Block, struct_pack.
  cbn [struct_pack_at fmt_pad fmt_size pack_item].
  change (pack_int false 2 30394) with (Ok (le_bytes 2 30394)).
  cbn [bind]. unfold pack_int. change (8 * Z.of_nat 2 - 1) with 15.
  assert (E : (- 2 ^ 15 <=? len (Model.bones self))
              && (len (Model.bones self) <? 2 ^ 15) = false)
    by (apply andb_false_iff; right; apply Z.ltb_ge; lia).
  rewrite E. reflexivity.
Qed.

Lemma has_reader_spec (tag : Z) :
  has_reader tag = true ->
  exists name h,
    XBinIO.hashmap_get XBinIO.hashmap tag = Some (name, Some h).
Proof.
  unfold has_reader.
  destruct (XBinIO.hashmap_get XBinIO.hashmap tag) as [[name [h|]]|];
    try discriminate.
  intros _. exists name, h. reflexivity.
Qed.

Lemma mem_tag_has_reader (values : list Z) (x : Z) :
  forallb has_reader values = true -> mem_tag x values = true ->
  has_reader x = true.
Proof.
  unfold mem_tag. intros Hall Hx. apply existsb_exists in Hx.
  destruct Hx as [v [Hin Hv]]. apply Z.eqb_eq in Hv. subst v.
  rewrite forallb_forall in Hall. apply Hall. exact Hin.
Qed.

(** X27: every chunk the model encoder writes begins with a tag for
    which the decoder's table has a reader: the encoder writes no block
    that the decoder rejects as unknown or as unimplemented. *)
Theorem encoder_tags_have_readers (self : Model.t Images) (version : Z)
    (ext : bool) (hdr : string) (file : wfile) :
  XBinIO.write_model_blocks serialize_image_string self version ext hdr
  = Ok file ->
  Forall (fun chunk =>
            exists name h,
              XBinIO.hashmap_get XBinIO.hashmap (chunk_tag chunk)
              = Some (name, Some h)) file.
Proof.
  intros H. apply encoder_tags in H.
  apply (Forall_chunk_tags
           (fun t => exists name h,
              XBinIO.hashmap_get XBinIO.hashmap t = Some (name, Some h))).
  rewrite H. unfold model_tags. apply Forall_app. split.
  - unfold header_tags. destruct (negb (String.eqb hdr ""));
      repeat constructor; apply has_reader_spec; reflexivity.
  - eapply List.Forall_impl; [|apply body_tags_values].
    intros t Ht. apply has_reader_spec.
    apply (mem_tag_has_reader (geometry_tag_values ++ material_tags) t);
      [reflexivity|exact Ht].
Qed.

End ModelEncoder.

Lemma too_many_bones_witness :
  XBinIO.__xbin_writefile_model_internal__ plain_images stored_compress
    (Model.mk (py_repeat (sample_bone "b" 0 false) 32768) [] []) 7 false ""
  = Raise struct_error.
Proof.
  apply (too_many_bones plain_images stored_compress
           (Model.mk (py_repeat (sample_bone "b" 0 false) 32768) [] []) 7
           false "").
  cbn [Model.bones]. unfold len, py_repeat. rewrite length_replicate. lia.
Defined.

Lemma encoder_tags_have_readers_witness :
  exists file,
    XBinIO.write_model_blocks plain_images two_mesh_model 7 false "" = Ok file
    /\ Forall (fun chunk =>
                 exists name h,
                   XBinIO.hashmap_get XBinIO.hashmap (chunk_tag chunk)
                   = Some (name, Some h)) file.
Proof.
  assert (E : exists file,
             XBinIO.write_model_blocks plain_images two_mesh_model 7 false ""
             = Ok file)
    by (vm_compute; eexists; reflexivity).
  destruct E as [file E]. exists file. split; [exact E|].
  apply (encoder_tags_have_readers plain_images two_mesh_model 7 false ""
           file E).
Defined.

Lemma property_block_needs_active_thing_witness :
  XBinIO.call (fun s : string => s) "MODEL" XBinIO.H_LoadOffset
    (initial_state new_self [] (mkBytesIO offset_first_stream 2))
  = Raise AttributeError
  /\ XBinIO.call (fun s : string => s) "MODEL" XBinIO.H_LoadOffset
       (initial_state new_self [] (mkBytesIO offset_first_stream 2))
     <> Ok (initial_state new_self [] (mkBytesIO offset_first_stream 16)).
Proof.
  split; [vm_compute; reflexivity|].
  apply (property_block_needs_active_thing (fun s : string => s) "MODEL"
           (initial_state new_self [] (mkBytesIO offset_first_stream 2))
           (initial_state new_self [] (mkBytesIO offset_first_stream 16))
           XBinIO.H_LoadOffset).
  - left. reflexivity.
  - reflexivity.
Defined.

#[local] Arguments byte_of_Z : simpl never.
#[local] Arguments unpack_int : simpl never.
#[local] Arguments unpack_float : simpl never.
#[local] Arguments float_div : simpl never.
#[local] Arguments float_of_int : simpl never.
#[local] Arguments padded : simpl never.
#[local] Arguments strfield : simpl never.

(** ** One turn of the decode loop on a block of an animation file *)

Lemma sint32_signed (v : Z) : - 2 ^ 31 <= v < 2 ^ 31 -> sint32 v = v.
Proof.
  intros Hv. unfold sint32. apply (unpack_int_signed 4 v); [lia|].
  simpl. lia.
Qed.

Section AnimTurns.
Context {Images : Type}.
Variable deserialize_image_string : string -> Images.

Lemma anim_turn_call (st : DState Images) (tag : Z) (name : string)
    (h : XBinIO.handler) (X : list byte) :
  sees (st_file st) (le_bytes 2 tag ++ X) -> 0 <= tag < 65536 ->
  XBinIO.hashmap_get XBinIO.hashmap tag = Some (name, Some h) ->
  XBinIO.loop_turn deserialize_image_string "ANIM" st
  = match XBinIO.call deserialize_image_string "ANIM" h
            (with_file (mkBytesIO (data (st_file st))
                          (pos (st_file st) + 2)) st) with
    | Ok st' => XBinIO.Next st'
    | Raise e => XBinIO.Stop e
    | Diverge => XBinIO.Hang
    end.
Proof.
  intros [Hp Hd] Ht Hh.
  rewrite (turn_tag _ _ st tag), Hh; [reflexivity| |exact Ht].
  unfold read. cbn [fst]. rewrite Hd. reflexivity.
Qed.

(** Entering the handler of a block. *)
Ltac enter_anim_turn Hsee tag h :=
  match type of Hsee with
  | sees (mkBytesIO ?d ?p) (?blk ++ ?rest) =>
      let Hs := fresh "Hs" in
      assert (Hs : sees (mkBytesIO d p) (le_bytes 2 tag ++ drop 2 blk ++ rest))
        by (destruct Hsee as [? Hsee']; split; [assumption|];
            rewrite Hsee'; reflexivity);
      match goal with
      | |- context [XBinIO.loop_turn _ _ ?st] =>
          erewrite (anim_turn_call st tag _ h _ Hs); [|simpl; lia|reflexivity]
      end;
      clear Hs; cbn [XBinIO.call st_file data pos]
  end.

Ltac norm_anim_state :=
  unfold alloc, store, deref, set_active_thing, set_active_frame, set_parts,
    set_framerate, set_frames, set_notes, set_asset_type, with_file,
    with_heap, with_state, with_self;
  cbn [bind st_self st_heap st_file st_state st_dummy_mesh
       active_thing active_tri active_frame asset_type
       bones cosmetics meshes materials parts framerate frames notes].

Ltac open_anim_file fl Hsee d p Hp Hd :=
  destruct fl as [d p]; pose proof Hsee as [[Hp _] Hd];
  cbn [pos data] in Hp, Hd.

Ltac next_anim_file Hsee q :=
  match type of Hsee with
  | sees (mkBytesIO ?d ?p) _ =>
      exists (mkBytesIO d q);
      split; [apply (sees_next _ _ _ _ _ Hsee); reflexivity|]
  end.

Section AnimBlocks.
Variables (rest : list byte) (H : list (Obj Images)) (S : LoadState)
  (F : Self).

Lemma anim_turn_comment (fl : BytesIO) (s : string) :
  sees fl (blk_comment s ++ rest) ->
  wire_string s -> (len (encode_utf8 s) + 1) mod 4 = 0 ->
  anim_turn deserialize_image_string fl rest H S F H S F.
Proof.
  unfold anim_turn. intros Hsee Hw Ha. open_anim_file fl Hsee d p Hp Hd.
  next_anim_file Hsee (p + len (blk_comment s)).
  enter_anim_turn Hsee 0xC355 XBinIO.H_XBlock_LoadCommentBlock.
  unfold XBinIO.XBlock_LoadCommentBlock. cbn [st_file with_file].
  rewrite (LoadCommentBlock_at d p s rest Hp Hd Hw Ha). reflexivity.
Qed.

Lemma anim_turn_marker (fl : BytesIO) :
  sees fl (blk_anim ++ rest) ->
  anim_turn deserialize_image_string fl rest H S F
    H
    (mkLoadState (active_thing S) (active_tri S) (active_frame S)
       (Some "ANIM"))
    F.
Proof.
  unfold anim_turn.
  intros Hsee. open_anim_file fl Hsee d p Hp Hd. next_anim_file Hsee (p + 4).
  enter_anim_turn Hsee 0x7AAC XBinIO.H_InitAnim.
  unfold XBinIO.InitAnim. cbn [st_file with_file].
  change blk_anim with (blk_int16 0x7AAC 0) in Hd.
  rewrite (LoadInt16Block_at d p _ 0 rest Hp Hd)
    by (unfold is_short; lia).
  reflexivity.
Qed.

(** The version block and the block of the number of notes. *)
Lemma anim_turn_skipped (fl : BytesIO) (tag v : Z) :
  sees fl (blk_int16 tag v ++ rest) -> tag = 0x24D1 \/ tag = 0x7A6C ->
  is_short v ->
  anim_turn deserialize_image_string fl rest H S F H S F.
Proof.
  unfold anim_turn.
  intros Hsee Ht Hv. open_anim_file fl Hsee d p Hp Hd.
  next_anim_file Hsee (p + 4).
  destruct Ht as [->| ->].
  - enter_anim_turn Hsee 0x24D1 XBinIO.H_XBlock_LoadInt16Block.
    unfold XBinIO.XBlock_LoadInt16Block. cbn [st_file with_file].
    rewrite (LoadInt16Block_at d p _ v rest Hp Hd Hv). reflexivity.
  - enter_anim_turn Hsee 0x7A6C XBinIO.H_XBlock_LoadInt16Block.
    unfold XBinIO.XBlock_LoadInt16Block. cbn [st_file with_file].
    rewrite (LoadInt16Block_at d p _ v rest Hp Hd Hv). reflexivity.
Qed.

Lemma anim_turn_part_count (fl : BytesIO) (n : Z) :
  sees fl (blk_int16 0x9279 n ++ rest) -> is_short n ->
  anim_turn deserialize_image_string fl rest H S F
    H S
    (mkSelf (bones F) (cosmetics F) (meshes F) (materials F)
       (py_repeat None n) (framerate F) (frames F) (notes F)).
Proof.
  unfold anim_turn.
  intros Hsee Hv. open_anim_file fl Hsee d p Hp Hd.
  next_anim_file Hsee (p + 4).
  enter_anim_turn Hsee 0x9279 XBinIO.H_LoadPartCount.
  unfold XBinIO.LoadPartCount. cbn [st_file with_file].
  rewrite (LoadInt16Block_at d p _ n rest Hp Hd Hv). reflexivity.
Qed.

Lemma anim_turn_part_info (fl : BytesIO) (i : Z) (name : string) :
  sees fl (blk_info 0x360B i name ++ rest) ->
  wire_string name -> is_short i -> 0 <= i < len (parts F) ->
  anim_turn deserialize_image_string fl rest H S F
    H S
    (mkSelf (bones F) (cosmetics F) (meshes F) (materials F)
       (<[Z.to_nat i := Some (mkPartInfo name)]> (parts F))
       (framerate F) (frames F) (notes F)).
Proof.
  unfold anim_turn. intros Hsee Hw Hs Hi. open_anim_file fl Hsee d p Hp Hd.
  next_anim_file Hsee (p + len (blk_info 0x360B i name)).
  enter_anim_turn Hsee 0x360B XBinIO.H_LoadPartInfo.
  unfold XBinIO.LoadPartInfo. cbn [st_file with_file].
  rewrite (LoadObjectBlock_info_at d p _ i name rest Hp Hd Hw Hs).
  norm_anim_state.
  rewrite py_setitem_in_range by exact Hi. reflexivity.
Qed.

Lemma anim_turn_framerate (fl : BytesIO) (v : Z) :
  sees fl (blk_int16 0x92D3 v ++ rest) -> is_short v ->
  anim_turn deserialize_image_string fl rest H S F
    H S
    (mkSelf (bones F) (cosmetics F) (meshes F) (materials F) (parts F)
       (Some v) (frames F) (notes F)).
Proof.
  unfold anim_turn.
  intros Hsee Hv. open_anim_file fl Hsee d p Hp Hd.
  next_anim_file Hsee (p + 4).
  enter_anim_turn Hsee 0x92D3 XBinIO.H_LoadFramerate.
  unfold XBinIO.LoadFramerate. cbn [st_file with_file].
  rewrite (LoadInt16Block_at d p _ v rest Hp Hd Hv). reflexivity.
Qed.

Lemma anim_turn_frame_count (fl : BytesIO) (n : Z) :
  sees fl (blk_int32 0xB917 n ++ rest) ->
  anim_turn deserialize_image_string fl rest H S F H S F.
Proof.
  unfold anim_turn.
  intros Hsee. open_anim_file fl Hsee d p Hp Hd.
  next_anim_file Hsee (p + 8).
  enter_anim_turn Hsee 0xB917 XBinIO.H_LoadFrameCount.
  unfold XBinIO.LoadFrameCount. cbn [st_file with_file].
  rewrite (LoadInt32Block_at d p _ n rest Hp Hd). reflexivity.
Qed.

Lemma anim_turn_frame_index (fl : BytesIO) (n : Z) :
  sees fl (blk_int32 0xC723 n ++ rest) -> - 2 ^ 31 <= n < 2 ^ 31 ->
  anim_turn deserialize_image_string fl rest H S F
    (H ++ [OFrame (FrameO.mk n (py_repeat None (len (parts F))))])
    (mkLoadState (active_thing S) (active_tri S) (Some (length H))
       (asset_type S))
    (mkSelf (bones F) (cosmetics F) (meshes F) (materials F) (parts F)
       (framerate F) (frames F ++ [length H]) (notes F)).
Proof.
  unfold anim_turn.
  intros Hsee Hn. open_anim_file fl Hsee d p Hp Hd.
  next_anim_file Hsee (p + 8).
  enter_anim_turn Hsee 0xC723 XBinIO.H_LoadFrameIndex.
  unfold XBinIO.LoadFrameIndex. cbn [st_file with_file].
  rewrite (LoadInt32Block_at d p _ n rest Hp Hd).
  rewrite sint32_signed by exact Hn. reflexivity.
Qed.

Lemma anim_turn_part_index (fl : BytesIO) (i : Z) (a : addr)
    (fr : FrameO.t) :
  sees fl (blk_int16 0x745A i ++ rest) -> is_short i ->
  active_frame S = Some a -> H !! a = Some (OFrame fr) ->
  0 <= i < len (FrameO.parts fr) ->
  anim_turn deserialize_image_string fl rest H S F
    (<[a := OFrame (FrameO.set_parts
                      (<[Z.to_nat i := Some (length H)]> (FrameO.parts fr))
                      fr)]>
       (H ++ [OFramePart (FramePartO.mk None [])]))
    (mkLoadState (Some (length H)) (active_tri S) (active_frame S)
       (asset_type S))
    F.
Proof.
  unfold anim_turn.
  intros Hsee Hv Ha Ho Hi. open_anim_file fl Hsee d p Hp Hd.
  next_anim_file Hsee (p + 4).
  enter_anim_turn Hsee 0x745A XBinIO.H_LoadPartIndex.
  unfold XBinIO.LoadPartIndex. cbn [st_file with_file].
  rewrite (LoadInt16Block_at d p _ i rest Hp Hd Hv).
  norm_anim_state. rewrite Ha.
  rewrite (lookup_app_l_Some _ _ _ _ Ho). cbn [bind].
  unfold parts_setitem. rewrite py_setitem_in_range by exact Hi.
  reflexivity.
Qed.

Lemma assign_active_anim (upd : Obj Images -> outcome (Obj Images))
    (fl : BytesIO) (M : MeshO.t) (a : addr) (o o' : Obj Images) :
  active_thing S = Some a -> H !! a = Some o -> upd o = Ok o' ->
  assign_active upd (mkDState fl H S F M)
  = Ok (mkDState fl (<[a := o']> H) S F M).
Proof.
  intros Ha Ho Hu. unfold assign_active, deref. cbn [st_state st_heap].
  rewrite Ha, Ho. cbn [bind]. rewrite Hu. reflexivity.
Qed.

Lemma anim_turn_offset (fl : BytesIO) (vec : list float) (a : addr)
    (o o' : Obj Images) :
  sees fl (blk_floats 0x9383 vec ++ rest) -> length vec = 3%nat ->
  active_thing S = Some a -> H !! a = Some o ->
  assign_offset (map f32 vec) o = Ok o' ->
  anim_turn deserialize_image_string fl rest H S F (<[a := o']> H) S F.
Proof.
  unfold anim_turn. intros Hsee Hl Ha Ho Hu.
  open_anim_file fl Hsee d p Hp Hd.
  exists (mkBytesIO d (p + 16)).
  split; [apply (sees_next _ _ _ _ _ Hsee);
          destruct vec as [|? [|? [|? [|? ?]]]]; try discriminate;
          reflexivity|].
  enter_anim_turn Hsee 0x9383 XBinIO.H_LoadOffset.
  unfold XBinIO.LoadOffset. cbn [st_file with_file].
  rewrite (LoadVec3Block_at d p _ vec rest Hp Hd Hl). cbn [bind].
  unfold with_file. cbn [st_heap st_state st_self st_dummy_mesh].
  rewrite (assign_active_anim _ _ _ _ _ _ Ha Ho Hu). reflexivity.
Qed.

Lemma anim_turn_matrix_row (fl : BytesIO) (tag : Z) (qs : list Z) (a : addr)
    (o o' : Obj Images) :
  sees fl (blk_shorts tag qs ++ rest) ->
  tag = 0xDCFD \/ tag = 0xCCDC \/ tag = 0xFCBF ->
  length qs = 3%nat -> Forall is_short qs ->
  active_thing S = Some a -> H !! a = Some o ->
  matrix_append
    (map (fun x => float_div (float_of_int x) (float_of_int 32767)) qs) o
  = Ok o' ->
  anim_turn deserialize_image_string fl rest H S F (<[a := o']> H) S F.
Proof.
  unfold anim_turn. intros Hsee Ht Hl Hs Ha Ho Hu.
  open_anim_file fl Hsee d p Hp Hd.
  exists (mkBytesIO d (p + 8)).
  split; [apply (sees_next _ _ _ _ _ Hsee);
          destruct qs as [|? [|? [|? [|? ?]]]]; try discriminate;
          reflexivity|].
  destruct Ht as [->|[->| ->]].
  - enter_anim_turn Hsee 0xDCFD XBinIO.H_LoadBoneMatrix.
    unfold XBinIO.LoadBoneMatrix. cbn [st_file with_file].
    rewrite (LoadShortVec3Block_at d p _ qs rest Hp Hd Hl Hs). cbn [bind].
    unfold with_file. cbn [st_heap st_state st_self st_dummy_mesh].
    rewrite (assign_active_anim _ _ _ _ _ _ Ha Ho Hu). reflexivity.
  - enter_anim_turn Hsee 0xCCDC XBinIO.H_LoadBoneMatrix.
    unfold XBinIO.LoadBoneMatrix. cbn [st_file with_file].
    rewrite (LoadShortVec3Block_at d p _ qs rest Hp Hd Hl Hs). cbn [bind].
    unfold with_file. cbn [st_heap st_state st_self st_dummy_mesh].
    rewrite (assign_active_anim _ _ _ _ _ _ Ha Ho Hu). reflexivity.
  - enter_anim_turn Hsee 0xFCBF XBinIO.H_LoadBoneMatrix.
    unfold XBinIO.LoadBoneMatrix. cbn [st_file with_file].
    rewrite (LoadShortVec3Block_at d p _ qs rest Hp Hd Hl Hs). cbn [bind].
    unfold with_file. cbn [st_heap st_state st_self st_dummy_mesh].
    rewrite (assign_active_anim _ _ _ _ _ _ Ha Ho Hu). reflexivity.
Qed.

End AnimBlocks.

(** *** Sequences of turns *)

Lemma anim_reaches_trans (st st' st'' : DState Images) :
  reaches deserialize_image_string "ANIM" st st' ->
  reaches deserialize_image_string "ANIM" st' st'' ->
  reaches deserialize_image_string "ANIM" st st''.
Proof.
  intros H1 H2. induction H2 as [|a b _ IH Hturn].
  - exact H1.
  - apply (reaches_turn _ _ _ a b IH Hturn).
Qed.

Lemma anim_run_refl fl rest (H : list (Obj Images)) S F :
  sees fl rest ->
  anim_run deserialize_image_string fl rest H S F H S F.
Proof. intros Hs. exists fl. split; [exact Hs|apply reaches_here]. Qed.

Lemma anim_run_trans fl mid rest (H : list (Obj Images)) S F H1 S1 F1
    H2 S2 F2 :
  anim_run deserialize_image_string fl mid H S F H1 S1 F1 ->
  (forall fl1, sees fl1 mid ->
     anim_run deserialize_image_string fl1 rest H1 S1 F1 H2 S2 F2) ->
  anim_run deserialize_image_string fl rest H S F H2 S2 F2.
Proof.
  intros [fl1 [Hs1 Hr1]] Hnext. destruct (Hnext fl1 Hs1) as [fl2 [Hs2 Hr2]].
  exists fl2. split; [exact Hs2|]. apply (anim_reaches_trans _ _ _ Hr1 Hr2).
Qed.

Lemma anim_run_turn fl rest (H : list (Obj Images)) S F H1 S1 F1 :
  anim_turn deserialize_image_string fl rest H S F H1 S1 F1 ->
  anim_run deserialize_image_string fl rest H S F H1 S1 F1.
Proof.
  intros [fl1 [Hs1 Ht]]. exists fl1. split; [exact Hs1|].
  apply (reaches_turn _ _ _ _ _ (reaches_here _ _ _) Ht).
Qed.

Lemma anim_run_step fl mid rest (H : list (Obj Images)) S F H1 S1 F1
    H2 S2 F2 :
  anim_turn deserialize_image_string fl mid H S F H1 S1 F1 ->
  (forall fl1, sees fl1 mid ->
     anim_run deserialize_image_string fl1 rest H1 S1 F1 H2 S2 F2) ->
  anim_run deserialize_image_string fl rest H S F H2 S2 F2.
Proof.
  intros Ht. apply anim_run_trans. apply anim_run_turn. exact Ht.
Qed.

End AnimTurns.

#[local] Arguments byte_of_Z : simpl never.
#[local] Arguments unpack_int : simpl never.
#[local] Arguments unpack_float : simpl never.
#[local] Arguments float_div : simpl never.
#[local] Arguments float_of_int : simpl never.
#[local] Arguments padded : simpl never.
#[local] Arguments strfield : simpl never.

(** ** The chunks of the animation writers *)

Lemma WriteAnimBlock_chunk (f f' : wfile) :
  XBlockAnim.WriteAnimBlock f = Ok f' -> f' = f ++ [blk_anim].
Proof.
  unfold XBlockAnim.WriteAnimBlock. intros H. writer_inv H d.
  pack_inv Hpack. reflexivity.
Qed.

Lemma WritePartCount_chunk (f f' : wfile) (n : Z) :
  XBlockAnim.WritePartCount f n = Ok f' ->
  f' = f ++ [blk_int16 0x9279 n] /\ is_short n.
Proof.
  unfold XBlockAnim.WritePartCount. intros H. writer_inv H d.
  pack_inv Hpack. unfold is_short. simpl in *. repeat split; lia.
Qed.

Lemma WritePartIndex_chunk (f f' : wfile) (i : Z) :
  XBlockAnim.WritePartIndex f i = Ok f' ->
  f' = f ++ [blk_int16 0x745A i] /\ is_short i.
Proof.
  unfold XBlockAnim.WritePartIndex. intros H. writer_inv H d.
  pack_inv Hpack. unfold is_short. simpl in *. repeat split; lia.
Qed.

Lemma WriteFramerate_chunk (f f' : wfile) (framerate : number) :
  XBlockAnim.WriteFramerate f framerate = Ok f' ->
  exists rate,
    py_int framerate = Ok rate
    /\ f' = f ++ [blk_int16 0x92D3 rate] /\ is_short rate.
Proof.
  unfold XBlockAnim.WriteFramerate. intros H. bind_inv H as rate Hrate.
  exists rate. split; [exact Hrate|]. writer_inv H d.
  pack_inv Hpack. unfold is_short. simpl in *. repeat split; lia.
Qed.

Lemma WriteFrameCount_chunk (f f' : wfile) (n : Z) :
  XBlockAnim.WriteFrameCount f n = Ok f' ->
  f' = f ++ [blk_int32 0xB917 n] /\ - 2 ^ 31 <= n < 2 ^ 31.
Proof.
  unfold XBlockAnim.WriteFrameCount. intros H. writer_inv H d.
  pack_inv Hpack. simpl in *. repeat split; lia.
Qed.

Lemma WriteFrameIndex_chunk (f f' : wfile) (n : Z) :
  XBlockAnim.WriteFrameIndex f n = Ok f' ->
  f' = f ++ [blk_int32 0xC723 n] /\ - 2 ^ 31 <= n < 2 ^ 31.
Proof.
  unfold XBlockAnim.WriteFrameIndex. intros H. writer_inv H d.
  pack_inv Hpack. simpl in *. repeat split; lia.
Qed.

(** ** An animation file, decoded section by section *)

Section AnimBack.
Context {Images : Type}.
Variable deserialize_image_string : string -> Images.
Variable write_str : wfile -> string -> outcome wfile.

Lemma part_slots_fill (done : list PartInfo) (p : PartInfo) (r : nat) :
  <[length done := Some p]> (map Some done ++ replicate (S r) None)
  = map Some (done ++ [p]) ++ replicate r None.
Proof.
  rewrite insert_app_r_alt by (rewrite length_map; lia).
  rewrite length_map, Nat.sub_diag. cbn [replicate].
  rewrite map_app, <- app_assoc. reflexivity.
Qed.

(** The info blocks of the parts, [done] being the parts already set. *)
Lemma part_infos_back (ps : list PartInfo) :
  forall (k : Z) (f f' : wfile),
    for_each (enumerate_from k ps) XBinIOAnim.write_part_info f = Ok f' ->
    Forall (fun p => wire_string (part_name p)) ps ->
    exists bytes,
      getvalue f' = getvalue f ++ bytes
      /\ forall fl rest (H : list (Obj Images)) T F (done : list PartInfo)
                (r : nat),
           sees fl (bytes ++ rest) ->
           len done = k ->
           parts F = map Some done ++ replicate (length ps + r) None ->
           anim_run deserialize_image_string fl rest H T F
             H T
             (mkSelf (bones F) (cosmetics F) (meshes F) (materials F)
                (map Some (done ++ ps) ++ replicate r None)
                (framerate F) (frames F) (notes F)).
Proof.
  induction ps as [|p ps IH]; intros k f f' Hw Hwire;
    cbn [enumerate_from for_each] in Hw.
  - apply Ok_inj in Hw. subst f'. exists []. split.
    + rewrite app_nil_r. reflexivity.
    + intros fl rest H T F done r Hs Hk HF. cbn [app length Nat.add] in *.
      rewrite app_nil_r, <- HF. destruct F. apply anim_run_refl. exact Hs.
  - bind_inv Hw as f1 Hf1. cbn [XBinIOAnim.write_part_info] in Hf1.
    unfold XBlockAnim.WritePartInfo in Hf1.
    apply WriteMetaObjectInfo_info in Hf1. destruct Hf1 as [-> [_ Hi]].
    apply Forall_cons in Hwire. destruct Hwire as [Hp Hwire].
    destruct (IH _ _ _ Hw Hwire) as [bytes [Hget Hrun]].
    exists (blk_info 0x360B k (part_name p) ++ bytes). split.
    + rewrite Hget, getvalue_snoc, <- app_assoc. reflexivity.
    + intros fl rest H T F done r Hs Hk HF. rewrite <- app_assoc in Hs.
      assert (Hin : 0 <= k < len (parts F)).
      { rewrite HF. unfold len in *.
        rewrite length_app, length_map, length_replicate. cbn [length]. lia. }
      eapply anim_run_step.
      * apply (anim_turn_part_info _ _ _ _ _ fl k _ Hs Hp Hi Hin).
      * intros fl1 Hs1.
        replace (Z.to_nat k) with (length done) by (unfold len in Hk; lia).
        rewrite HF. cbn [length Nat.add]. rewrite part_slots_fill.
        destruct p as [name]. cbn [part_name].
        pose proof (Hrun fl1 rest H T
                      (mkSelf (bones F) (cosmetics F) (meshes F)
                         (materials F)
                         (map Some (done ++ [mkPartInfo name])
                          ++ replicate (length ps + r) None)
                         (framerate F) (frames F) (notes F))
                      (done ++ [mkPartInfo name]) r Hs1) as Hr.
        cbn [bones cosmetics meshes materials parts framerate frames notes]
          in Hr.
        rewrite <- app_assoc in Hr. cbn [app] in Hr.
        apply Hr; [|reflexivity].
        unfold len in *. rewrite length_app. cbn [length]. lia.
Qed.

(** A part of a frame: index, offset and matrix; the frame is at the
    address [length H0]. *)
Lemma frame_part_back (i : Z) (part : FramePart.t) (f f' : wfile) :
  XBinIOAnim.write_frame_part f (i, part) = Ok f' ->
  exists bytes,
    getvalue f' = getvalue f ++ bytes
    /\ forall fl rest (H0 H1 : list (Obj Images)) T F fr,
         sees fl (bytes ++ rest) ->
         active_frame T = Some (length H0) ->
         0 <= i < len (FrameO.parts fr) ->
         anim_run deserialize_image_string fl rest
           (H0 ++ OFrame fr :: H1) T F
           (H0 ++ OFrame (FrameO.set_parts
                            (<[Z.to_nat i :=
                                 Some (length (H0 ++ OFrame fr :: H1))]>
                               (FrameO.parts fr)) fr)
               :: H1 ++ [OFramePart (dec_part part)])
           (mkLoadState (Some (length (H0 ++ OFrame fr :: H1)))
              (active_tri T) (active_frame T) (asset_type T))
           F.
Proof.
  intros Hw. cbn [XBinIOAnim.write_frame_part] in Hw.
  bind_inv Hw as f1 Hf1. apply WritePartIndex_chunk in Hf1.
  destruct Hf1 as [-> Hi].
  bind_inv Hw as f2 Hf2. apply WriteOffsetBlock_chunk in Hf2.
  destruct Hf2 as [-> Hoff].
  apply WriteMatrixBlock_chunk in Hw.
  destruct Hw as [r0 [r1 [r2 [more [Hm [-> Hrows]]]]]].
  apply Forall_cons in Hrows. destruct Hrows as [[L0 S0] Hrows].
  apply Forall_cons in Hrows. destruct Hrows as [[L1 S1] Hrows].
  apply Forall_cons in Hrows. destruct Hrows as [[L2 S2] _].
  exists (blk_int16 0x745A i ++ blk_floats 0x9383 (FramePart.offset part)
          ++ blk_shorts 0xDCFD (map short_of r0)
          ++ blk_shorts 0xCCDC (map short_of r1)
          ++ blk_shorts 0xFCBF (map short_of r2)).
  split.
  - rewrite !getvalue_snoc, <- !app_assoc. reflexivity.
  - intros fl rest H0 H1 T F fr Hs Ha Hin. rewrite <- !app_assoc in Hs.
    set (H := H0 ++ OFrame fr :: H1).
    set (fr' := FrameO.set_parts
                  (<[Z.to_nat i := Some (length H)]> (FrameO.parts fr)) fr).
    assert (Hins : forall x : Obj Images,
               <[length H0 := OFrame fr']> (H ++ [x])
               = (H0 ++ OFrame fr' :: H1) ++ [x]).
    { intros x. unfold H. rewrite <- app_assoc. cbn [app].
      rewrite insert_middle, <- app_assoc. reflexivity. }
    assert (HL : length (H0 ++ OFrame fr' :: H1) = length H)
      by (unfold H; rewrite !length_app; reflexivity).
    eapply anim_run_step.
    { eapply anim_turn_part_index;
        [exact Hs|exact Hi|exact Ha|apply lookup_middle|exact Hin]. }
    intros fl1 Hs1. fold H. fold fr'. rewrite Hins.
    eapply anim_run_step.
    { eapply anim_turn_offset;
        [exact Hs1|exact Hoff|reflexivity
        |rewrite <- HL; apply lookup_last|reflexivity]. }
    intros fl2 Hs2. rewrite <- HL at 1. rewrite insert_last.
    eapply anim_run_step.
    { eapply anim_turn_matrix_row;
        [exact Hs2|left; reflexivity|rewrite length_map; exact L0|exact S0
        |reflexivity|rewrite <- HL; apply lookup_last|reflexivity]. }
    intros fl3 Hs3. rewrite <- HL at 1. rewrite insert_last.
    eapply anim_run_step.
    { eapply anim_turn_matrix_row;
        [exact Hs3|right; left; reflexivity|rewrite length_map; exact L1
        |exact S1|reflexivity|rewrite <- HL; apply lookup_last|reflexivity]. }
    intros fl4 Hs4. rewrite <- HL at 1. rewrite insert_last.
    eapply anim_run_step.
    { eapply anim_turn_matrix_row;
        [exact Hs4|right; right; reflexivity|rewrite length_map; exact L2
        |exact S2|reflexivity|rewrite <- HL; apply lookup_last|reflexivity]. }
    intros fl5 Hs5. rewrite <- HL at 1. rewrite insert_last.
    unfold dec_part. rewrite Hm.
    cbn [take map app FramePartO.set_matrix FramePartO.set_offset
         FramePartO.offset FramePartO.matrix]. unfold q16. rewrite !map_map.
    rewrite <- app_assoc. cbn [app].
    apply anim_run_refl. exact Hs5.
Qed.

(** The parts of a frame, of which [g] are already set; the frame, of
    the number [n], is at the address [length H0] and [done] are its
    parts in the store. *)
Lemma frame_parts_back (ps : list FramePart.t) :
  forall (k : Z) (f f' : wfile),
    for_each (enumerate_from k ps) XBinIOAnim.write_frame_part f = Ok f' ->
    exists bytes,
      getvalue f' = getvalue f ++ bytes
      /\ forall fl rest (H0 done : list (Obj Images)) T F (n : Z)
                (g r : nat),
           sees fl (bytes ++ rest) ->
           active_frame T = Some (length H0) ->
           Z.of_nat g = k -> length done = g ->
           exists T',
             active_frame T' = active_frame T
             /\ active_tri T' = active_tri T
             /\ asset_type T' = asset_type T
             /\ anim_run deserialize_image_string fl rest
                  (H0 ++ OFrame (FrameO.mk n
                                   (slots (Datatypes.S (length H0)) g
                                      (length ps + r)))
                      :: done) T F
                  (H0 ++ OFrame (FrameO.mk n
                                   (slots (Datatypes.S (length H0))
                                      (g + length ps) r))
                      :: done ++ map (fun p => OFramePart (dec_part p)) ps)
                  T' F.
Proof.
  induction ps as [|p ps IH]; intros k f f' Hw;
    cbn [enumerate_from for_each] in Hw.
  - apply Ok_inj in Hw. subst f'. exists []. split.
    + rewrite app_nil_r. reflexivity.
    + intros fl rest H0 done T F n g r Hs Ha Hg Hd. exists T.
      repeat split. cbn [map length Nat.add]. rewrite !app_nil_r.
      rewrite Nat.add_0_r. apply anim_run_refl. exact Hs.
  - bind_inv Hw as f1 Hf1.
    destruct (frame_part_back k p f f1 Hf1) as [b1 [Hg1 Hr1]].
    destruct (IH _ _ _ Hw) as [b2 [Hg2 Hr2]].
    exists (b1 ++ b2). split.
    + rewrite Hg2, Hg1, <- app_assoc. reflexivity.
    + intros fl rest H0 done T F n g r Hs Ha Hg Hd.
      rewrite <- app_assoc in Hs.
      set (fr := FrameO.mk n
                   (slots (Datatypes.S (length H0)) g (length (p :: ps) + r))).
      assert (Hin : 0 <= k < len (FrameO.parts fr)).
      { unfold fr. cbn [FrameO.parts]. rewrite len_slots.
        cbn [length]. lia. }
      pose proof (Hr1 fl (b2 ++ rest) H0 done T F fr Hs Ha Hin) as Hrun1.
      assert (HL : length (H0 ++ OFrame fr :: done)
                   = (Datatypes.S (length H0) + g)%nat)
        by (rewrite length_app; cbn [length]; lia).
      rewrite HL in Hrun1.
      replace (Z.to_nat k) with g in Hrun1 by lia.
      unfold fr in Hrun1 at 2 3. cbn [FrameO.parts FrameO.set_parts
        FrameO.frame] in Hrun1.
      change (length (p :: ps) + r)%nat
        with (Datatypes.S (length ps + r)) in Hrun1.
      rewrite fill_slot in Hrun1.
      destruct Hrun1 as [fl1 [Hs1 Hreach1]].
      destruct (Hr2 fl1 rest H0 (done ++ [OFramePart (dec_part p)])
                  (mkLoadState (Some (Datatypes.S (length H0) + g)%nat)
                     (active_tri T) (active_frame T) (asset_type T))
                  F n (Datatypes.S g) r Hs1 Ha ltac:(lia)
                  ltac:(rewrite length_app; cbn [length]; lia))
        as [T' [Hf' [Ht' [Hy' [fl2 [Hs2 Hreach2]]]]]].
      exists T'. split; [exact Hf'|]. split; [exact Ht'|].
      split; [exact Hy'|].
      exists fl2. split; [exact Hs2|].
      cbn [map length].
      replace (g + Datatypes.S (length ps))%nat
        with (Datatypes.S g + length ps)%nat by lia.
      rewrite <- app_assoc in Hreach2. cbn [app] in Hreach2.
      apply (anim_reaches_trans _ _ _ _ Hreach1 Hreach2).
Qed.

(** A frame: its index block and its parts. *)
Lemma frame_back (fr : Frame.t) (f f' : wfile) :
  XBinIOAnim.write_frame f fr = Ok f' ->
  exists bytes,
    getvalue f' = getvalue f ++ bytes
    /\ forall fl rest (H : list (Obj Images)) T F (n : nat),
         sees fl (bytes ++ rest) ->
         len (parts F) = Z.of_nat n ->
         (length (Frame.parts fr) <= n)%nat ->
         exists T',
           active_tri T' = active_tri T /\ asset_type T' = asset_type T
           /\ anim_run deserialize_image_string fl rest H T F
                (H ++ dec_frame (length H) n fr) T'
                (mkSelf (bones F) (cosmetics F) (meshes F) (materials F)
                   (parts F) (framerate F) (frames F ++ [length H])
                   (notes F)).
Proof.
  intros Hw. unfold XBinIOAnim.write_frame in Hw.
  bind_inv Hw as f1 Hf1. apply WriteFrameIndex_chunk in Hf1.
  destruct Hf1 as [-> Hn].
  unfold enumerate in Hw.
  destruct (frame_parts_back _ _ _ _ Hw) as [b2 [Hg2 Hr2]].
  exists (blk_int32 0xC723 (Frame.frame fr) ++ b2). split.
  - rewrite Hg2, getvalue_snoc, <- app_assoc. reflexivity.
  - intros fl rest H T F n Hs HP Hle. rewrite <- app_assoc in Hs.
    pose proof (anim_turn_frame_index deserialize_image_string (b2 ++ rest)
                  H T F fl (Frame.frame fr) Hs Hn) as [fl1 [Hs1 Ht1]].
    rewrite HP in Ht1. unfold py_repeat in Ht1. rewrite Nat2Z.id in Ht1.
    destruct (Hr2 fl1 rest H []
                (mkLoadState (active_thing T) (active_tri T)
                   (Some (length H)) (asset_type T))
                (mkSelf (bones F) (cosmetics F) (meshes F) (materials F)
                   (parts F) (framerate F) (frames F ++ [length H])
                   (notes F))
                (Frame.frame fr) 0%nat (n - length (Frame.parts fr))%nat
                Hs1 eq_refl eq_refl eq_refl)
      as [T' [Hf' [Ht' [Hy' [fl2 [Hs2 Hreach2]]]]]].
    exists T'. split; [exact Ht'|]. split; [exact Hy'|].
    exists fl2. split; [exact Hs2|].
    unfold dec_frame.
    cbn [app Nat.add] in Hreach2.
    assert (Hsl : slots (Datatypes.S (length H)) 0
                    (length (Frame.parts fr)
                     + (n - length (Frame.parts fr)))
                  = replicate n (None : option addr)).
    { unfold slots. cbn [seq map app]. f_equal. lia. }
    rewrite Hsl in Hreach2.
    eapply anim_reaches_trans; [|exact Hreach2].
    apply (reaches_turn _ _ _ _ _ (reaches_here _ _ _) Ht1).
Qed.

(** The frames, from the address [length H] on. *)
Lemma frames_back (frs : list Frame.t) :
  forall (f f' : wfile),
    for_each frs XBinIOAnim.write_frame f = Ok f' ->
    exists bytes,
      getvalue f' = getvalue f ++ bytes
      /\ forall fl rest (H : list (Obj Images)) T F (n : nat),
           sees fl (bytes ++ rest) ->
           len (parts F) = Z.of_nat n ->
           Forall (fun fr => (length (Frame.parts fr) <= n)%nat) frs ->
           exists T',
             active_tri T' = active_tri T /\ asset_type T' = asset_type T
             /\ anim_run deserialize_image_string fl rest H T F
                  (H ++ dec_frames (length H) n frs) T'
                  (mkSelf (bones F) (cosmetics F) (meshes F) (materials F)
                     (parts F) (framerate F)
                     (frames F ++ frame_addrs (length H) frs) (notes F)).
Proof.
  induction frs as [|fr frs IH]; intros f f' Hw; cbn [for_each] in Hw.
  - apply Ok_inj in Hw. subst f'. exists []. split.
    + rewrite app_nil_r. reflexivity.
    + intros fl rest H T F n Hs HP Hall. exists T. repeat split.
      cbn [dec_frames frame_addrs]. rewrite !app_nil_r. destruct F.
      apply anim_run_refl. exact Hs.
  - bind_inv Hw as f1 Hf1.
    destruct (frame_back fr f f1 Hf1) as [b1 [Hg1 Hr1]].
    destruct (IH _ _ Hw) as [b2 [Hg2 Hr2]].
    exists (b1 ++ b2). split.
    + rewrite Hg2, Hg1, <- app_assoc. reflexivity.
    + intros fl rest H T F n Hs HP Hall. rewrite <- app_assoc in Hs.
      apply Forall_cons in Hall. destruct Hall as [Hle Hall].
      destruct (Hr1 fl (b2 ++ rest) H T F n Hs HP Hle)
        as [T1 [Ht1 [Hy1 [fl1 [Hs1 Hreach1]]]]].
      destruct (Hr2 fl1 rest (H ++ dec_frame (length H) n fr) T1
                  (mkSelf (bones F) (cosmetics F) (meshes F) (materials F)
                     (parts F) (framerate F) (frames F ++ [length H])
                     (notes F))
                  n Hs1 HP Hall)
        as [T2 [Ht2 [Hy2 [fl2 [Hs2 Hreach2]]]]].
      exists T2. split; [congruence|]. split; [congruence|].
      exists fl2. split; [exact Hs2|].
      cbn [bones cosmetics meshes materials parts framerate frames notes]
        in Hreach2.
      cbn [dec_frames frame_addrs].
      assert (HL : length (H ++ dec_frame (length H) n fr)
                   = (Datatypes.S (length (Frame.parts fr)) + length H)%nat).
      { rewrite length_app. unfold dec_frame. cbn [length].
        rewrite length_map. lia. }
      rewrite HL in Hreach2.
      rewrite <- !app_assoc in Hreach2. cbn [app] in Hreach2.
      apply (anim_reaches_trans _ _ _ _ Hreach1 Hreach2).
Qed.

End AnimBack.

#[local] Arguments byte_of_Z : simpl never.
#[local] Arguments unpack_int : simpl never.
#[local] Arguments unpack_float : simpl never.
#[local] Arguments float_div : simpl never.
#[local] Arguments float_of_int : simpl never.
#[local] Arguments padded : simpl never.
#[local] Arguments strfield : simpl never.

(** ** Encoding an animation and decoding the file *)

Section AnimRoundTrip.
Context {Images : Type}.
Variable deserialize_image_string : string -> Images.
Variable write_str : wfile -> string -> outcome wfile.
Variable lz4_compress : list byte -> list byte.
Variable lz4_uncompress : list byte -> outcome (list byte).

(** The blocks of an animation without notes, decoded from an empty
    store. *)
Lemma anim_back (self : Anim.t) (version : Z) (hdr : string) (file : wfile) :
  XBinIOAnim.write_anim_blocks write_str self version hdr = Ok file ->
  Anim.notes self = [] -> wire_anim self -> wire_header hdr ->
  exists rate,
    py_int (Anim.framerate self) = Ok rate
    /\ forall fl,
         sees fl (getvalue file) ->
         exists T',
           asset_type T' = Some "ANIM"
           /\ anim_run deserialize_image_string fl []
                [] (mkLoadState None None None None) new_self
                (dec_anim_heap self) T' (dec_anim_self self rate).
Proof.
  intros Hw Hnotes [Hparts Hframes] Hhdr.
  unfold XBinIOAnim.write_anim_blocks in Hw.
  bind_inv Hw as f0 Hf0. bind_inv Hw as f1 Hf1.
  apply WriteAnimBlock_chunk in Hf1. subst f1.
  bind_inv Hw as f2 Hf2. apply WriteVersionBlock_chunk in Hf2.
  destruct Hf2 as [-> Hver].
  bind_inv Hw as f3 Hf3. apply WritePartCount_chunk in Hf3.
  destruct Hf3 as [-> Hcount].
  bind_inv Hw as f4 Hf4. unfold enumerate in Hf4.
  destruct (part_infos_back deserialize_image_string _ _ _ _ Hf4 Hparts)
    as [pbytes [Hpget Hprun]].
  bind_inv Hw as f5 Hf5. apply WriteFramerate_chunk in Hf5.
  destruct Hf5 as [rate [Hrate [-> Hrs]]].
  bind_inv Hw as f6 Hf6. apply WriteFrameCount_chunk in Hf6.
  destruct Hf6 as [-> Hfc].
  bind_inv Hw as f7 Hf7.
  destruct (frames_back deserialize_image_string _ _ _ Hf7)
    as [fbytes [Hfget Hfrun]].
  bind_inv Hw as f8 Hf8. apply WriteMetaInt16Block_chunk in Hf8.
  destruct Hf8 as [-> [_ Hnk]].
  rewrite Hnotes in Hw, Hnk. cbn [len length Z.of_nat Z.eqb negb] in Hw.
  apply Ok_inj in Hw. subst file.
  exists rate. split; [exact Hrate|].
  intros fl Hs.
  rewrite <- (app_nil_r (getvalue _)) in Hs.
  rewrite getvalue_snoc, Hfget, !getvalue_snoc, Hpget, !getvalue_snoc in Hs.
  rewrite <- !app_assoc in Hs.
  set (T0 := mkLoadState None None None None).
  (* the header *)
  assert (Hhead : exists fl1,
             sees fl1 (blk_anim ++ blk_int16 0x24D1 3
                       ++ blk_int16 0x9279 (len (Anim.parts self))
                       ++ pbytes ++ blk_int16 0x92D3 rate
                       ++ blk_int32 0xB917 (len (Anim.frames self))
                       ++ fbytes
                       ++ blk_int16 0x7A6C (len (@nil AnimNote.t)) ++ [])
             /\ reaches deserialize_image_string "ANIM"
                  (mkDState fl [] T0 new_self (XBinIO.new_Mesh "$default"))
                  (mkDState fl1 [] T0 new_self
                     (XBinIO.new_Mesh "$default"))).
  { destruct (String.eqb_spec hdr "") as [->|Hne]; cbn [negb] in Hf0.
    - apply Ok_inj in Hf0. subst f0. cbn [getvalue concat app] in Hs.
      exists fl. split; [exact Hs|apply reaches_here].
    - destruct Hhdr as [->|[Hw0 Ha0]]; [contradiction|].
      apply WriteCommentBlock_chunk in Hf0. subst f0.
      cbn [getvalue concat app] in Hs. rewrite app_nil_r in Hs.
      destruct (anim_turn_comment deserialize_image_string _ [] T0 new_self
                  fl hdr Hs Hw0 Ha0) as [fl1 [Hs1 Ht1]].
      exists fl1. split; [exact Hs1|].
      apply (reaches_turn _ _ _ _ _ (reaches_here _ _ _) Ht1). }
  destruct Hhead as [fl1 [Hs1 R1]].
  destruct (anim_turn_marker deserialize_image_string _ [] T0 new_self
              fl1 Hs1) as [fl2 [Hs2 Ht2]].
  pose proof (reaches_turn _ _ _ _ _ R1 Ht2) as R2. clear R1 Ht2.
  cbn [active_thing active_tri active_frame T0] in R2.
  set (T := mkLoadState None None None (Some "ANIM")) in *.
  destruct (anim_turn_skipped deserialize_image_string _ [] T new_self
              fl2 0x24D1 3 Hs2 (or_introl eq_refl) Hver)
    as [fl3 [Hs3 Ht3]].
  pose proof (reaches_turn _ _ _ _ _ R2 Ht3) as R3. clear R2 Ht3.
  destruct (anim_turn_part_count deserialize_image_string _ [] T new_self
              fl3 _ Hs3 Hcount) as [fl4 [Hs4 Ht4]].
  pose proof (reaches_turn _ _ _ _ _ R3 Ht4) as R4. clear R3 Ht4.
  cbn [bones cosmetics meshes materials parts framerate frames notes
       new_self] in R4.
  destruct (Hprun fl4 _ [] T
              (mkSelf [] 0 [] [] (py_repeat None (len (Anim.parts self)))
                 None [] [])
              [] 0%nat Hs4 eq_refl) as [fl5 [Hs5 R5']].
  { cbn [parts map app]. unfold py_repeat, len.
    rewrite Nat2Z.id, Nat.add_0_r. reflexivity. }
  pose proof (anim_reaches_trans _ _ _ _ R4 R5') as R5. clear R4 R5'.
  cbn [bones cosmetics meshes materials parts framerate frames notes
       app replicate] in R5.
  rewrite app_nil_r in R5.
  destruct (anim_turn_framerate deserialize_image_string _ [] T
              (mkSelf [] 0 [] [] (map Some (Anim.parts self)) None [] [])
              fl5 _ Hs5 Hrs) as [fl6 [Hs6 Ht6]].
  pose proof (reaches_turn _ _ _ _ _ R5 Ht6) as R6. clear R5 Ht6.
  cbn [bones cosmetics meshes materials parts framerate frames notes] in R6.
  destruct (anim_turn_frame_count deserialize_image_string _ [] T
              (mkSelf [] 0 [] [] (map Some (Anim.parts self)) (Some rate)
                 [] [])
              fl6 _ Hs6) as [fl7 [Hs7 Ht7]].
  pose proof (reaches_turn _ _ _ _ _ R6 Ht7) as R7. clear R6 Ht7.
  destruct (Hfrun fl7 _ [] T
              (mkSelf [] 0 [] [] (map Some (Anim.parts self))
                 (Some rate) [] [])
              (length (Anim.parts self)) Hs7)
    as [T1 [Ht1 [Hy1 [fl8 [Hs8 R8']]]]].
  { cbn [parts]. unfold len. rewrite length_map. reflexivity. }
  { exact Hframes. }
  pose proof (anim_reaches_trans _ _ _ _ R7 R8') as R8. clear R7 R8'.
  cbn [bones cosmetics meshes materials parts framerate frames notes
       app length] in R8.
  destruct (anim_turn_skipped deserialize_image_string _
              (dec_frames 0%nat (length (Anim.parts self)) (Anim.frames self))
              T1
              (mkSelf [] 0 [] [] (map Some (Anim.parts self)) (Some rate)
                 (frame_addrs 0%nat (Anim.frames self)) [])
              fl8 0x7A6C _ Hs8 (or_intror eq_refl) Hnk)
    as [fl9 [Hs9 Ht9]].
  pose proof (reaches_turn _ _ _ _ _ R8 Ht9) as R9. clear R8 Ht9.
  exists T1. split; [exact Hy1|].
  exists fl9. split; [exact Hs9|]. exact R9.
Qed.


(** X29: an animation with a note cannot be written where
    [file.write] takes no [str] (a [BytesIO] of Python 3): the padding
    of a note frame is written as a [str], also when it is empty, and
    the encoder does not return normally. *)
Theorem anim_notes_need_str_write (self : Anim.t) (version : Z)
    (hdr : string) (stream : list byte) :
  Anim.notes self <> [] ->
  (forall f s, exists e, write_str f s = Raise e) ->
  XBinIOAnim.__xbin_writefile_anim_internal__ write_str lz4_compress self
    version hdr <> Ok stream.
Proof.
  intros Hnotes Hstr Hw.
  unfold XBinIOAnim.__xbin_writefile_anim_internal__ in Hw.
  bind_inv Hw as file Hfile. clear Hw.
  unfold XBinIOAnim.write_anim_blocks in Hfile.
  bind_inv Hfile as f0 Hf0. bind_inv Hfile as f1 Hf1.
  bind_inv Hfile as f2 Hf2. bind_inv Hfile as f3 Hf3.
  bind_inv Hfile as f4 Hf4. bind_inv Hfile as f5 Hf5.
  bind_inv Hfile as f6 Hf6. bind_inv Hfile as f7 Hf7.
  bind_inv Hfile as f8 Hf8.
  destruct (Anim.notes self) as [|note notes]; [contradiction|].
  assert (E : negb (len (note :: notes) =? 0) = true).
  { apply negb_true_iff, Z.eqb_neq. unfold len. cbn [length]. lia. }
  rewrite E in Hfile. cbn [for_each] in Hfile.
  bind_inv Hfile as f9 Hf9.
  unfold XBlockAnim.WriteNoteFrame in Hf9.
  bind_inv Hf9 as frame Hframe. bind_inv Hf9 as d Hd.
  match type of Hf9 with
  | write_str ?f ?s = _ => destruct (Hstr f s) as [e He]
  end.
  rewrite He in Hf9. discriminate Hf9.
Qed.
End AnimRoundTrip.


Lemma anim_notes_need_str_write_witness :
  XBinIOAnim.__xbin_writefile_anim_internal__ rejecting_write_str
    stored_compress
    (Anim.mk [] (NInt 30) [] [AnimNote.mk (NInt 0) "fire"]) 3 ""
  <> Ok [].
Proof.
  apply (anim_notes_need_str_write rejecting_write_str stored_compress
           (Anim.mk [] (NInt 30) [] [AnimNote.mk (NInt 0) "fire"]) 3 "" []).
  - discriminate.
  - intros f s. exists ValueError. reflexivity.
Defined.
